(** * Software suspend (kernel/power/swsusp.c): a shallow embedding

    The development follows the C file function by function.  Machine
    integers are [Z] with the wrap-around written out where the code
    computes with them; pages, the page directory and the swap area are
    finite maps and lists; the file-scope variables of swsusp.c and the
    kernel subsystems it calls (page allocator, swap allocator, block
    layer) form one state record that every function threads through a
    small state-and-abort monad. *)

From Stdlib Require Import ZArith Lia Ascii String List.
From stdpp Require Import base tactics option list gmap.

Open Scope Z_scope.

(** ** errno values returned by the C code (asm/errno.h) *)

Definition EPERM : Z := 1.
Definition ENOENT : Z := 2.
Definition EIO : Z := 5.
Definition ENOMEM : Z := 12.
Definition EFAULT : Z := 14.
Definition EINVAL : Z := 22.
Definition ENOSPC : Z := 28.

(** ** Bytes, C strings and the libc routines the file uses *)

Fixpoint bytes_of (s : string) : list Z :=
  match s with
  | EmptyString => []
  | String c r => Z.of_nat (nat_of_ascii c) :: bytes_of r
  end.

(** [memcmp s1 s2 n]: zero iff the first [n] bytes agree. *)
Fixpoint memcmp (s1 s2 : list Z) (n : nat) : Z :=
  match n with
  | O => 0
  | S n' =>
      let c1 := hd 0 s1 in
      let c2 := hd 0 s2 in
      if c1 =? c2 then memcmp (tl s1) (tl s2) n' else c1 - c2
  end.

(** [memcpy dst src n]: the first [n] bytes of [dst] replaced. *)
Definition memcpy (dst src : list Z) (n : nat) : list Z :=
  firstn n src ++ skipn n dst.

(** [strncmp s1 s2 n]: compares at most [n] characters and stops at the
    first NUL. *)
Fixpoint strncmp (s1 s2 : list Z) (n : nat) : Z :=
  match n with
  | O => 0
  | S n' =>
      let c1 := hd 0 s1 in
      let c2 := hd 0 s2 in
      if c1 =? c2
      then if c1 =? 0 then 0 else strncmp (tl s1) (tl s2) n'
      else c1 - c2
  end.

(** [strncpy_buf src n]: the [n] bytes strncpy stores: the characters of
    [src] up to its NUL, padded with NULs. *)
Fixpoint strncpy_buf (src : list Z) (n : nat) : list Z :=
  match n with
  | O => []
  | S n' =>
      let c := hd 0 src in
      if c =? 0 then repeat 0 n else c :: strncpy_buf (tl src) n'
  end.

Definition strncpy (dst src : list Z) (n : nat) : list Z :=
  strncpy_buf src n ++ skipn n dst.

Fixpoint strlen (s : list Z) : nat :=
  match s with
  | [] => O
  | c :: r => if c =? 0 then O else S (strlen r)
  end.

(** The C string held in a fixed-width field of [n] characters. *)
Fixpoint cstring (n : nat) (s : list Z) : list Z :=
  match n with
  | O => []
  | S n' =>
      let c := hd 0 s in
      if c =? 0 then [] else c :: cstring n' (tl s)
  end.

(** An unsigned long stored in memory (little-endian, as on x86). *)
Fixpoint le_bytes (n : nat) (v : Z) : list Z :=
  match n with
  | O => []
  | S n' => v mod 256 :: le_bytes n' (v / 256)
  end.

Fixpoint le_value (bs : list Z) : Z :=
  match bs with
  | [] => 0
  | b :: r => b + 256 * le_value r
  end.

(** ** Platform constants and macros

    PAGE_SHIFT, PAGE_OFFSET, sizeof(long), the swap-entry accessors
    (linux/swapops.h), SUSPEND_PD_PAGES (linux/suspend.h) and
    get_bitmask_order (linux/bitops.h) are declared in headers outside
    this source tree; they are taken as parameters.  [PBES_PER_PAGE] is
    PAGE_SIZE / sizeof(struct pbe), an integer by the BUG_ON in
    write_suspend_image. *)

Class platform := {
  PAGE_SHIFT : Z;
  sizeof_long : nat;
  PAGE_OFFSET : Z;
  PBES_PER_PAGE : nat;
  MAX_SWAPFILES : nat;
  SUSPEND_PD_PAGES : Z -> Z;
  get_bitmask_order : Z -> Z;
  swp_type : Z -> Z;
  swp_offset : Z -> Z;
  swp_entry : Z -> Z -> Z
}.

(** ** Data of the image *)

(** struct pbe.  The last member is scratch: the writer overlays
    [link.next] on the final sizeof(long) bytes of every directory page. *)
Record pbe := mk_pbe {
  address : Z;
  orig_address : Z;
  swap_address : Z;
  dummy : Z
}.

(** struct suspend_header (the members this file reads or writes). *)
Record suspend_header := mk_sh {
  version_code : Z;
  sh_num_physpages : Z;
  machine : list Z;
  version : list Z;
  num_cpus : Z;
  page_size : Z;
  suspend_pagedir : Z;
  num_pbes : Z
}.

(** The content of one page, by the view of [union diskpage] it was
    written through.
    - [PgData]: raw bytes;
    - [PgSwap reserved magic]: [union swap_header], whose 10-byte magic is
      the end of the page;
    - [PgHeader sh next]: [struct suspend_header] at the start of the
      page and [link.next] in its last word;
    - [PgDir pbes]: one page of the directory; [link.next] is the last
      word, that is the [dummy] member of the last pbe. *)
Inductive page :=
  | PgData (bytes : list Z)
  | PgSwap (reserved magic : list Z)
  | PgHeader (sh : suspend_header) (next : Z)
  | PgDir (pbes : list pbe).

(** Block-layer and swap I/O performed, in program order. *)
Inductive io_event :=
  | IoOpen (dev : Z)
  | IoPut (dev : Z)
  | IoRead (dev block : Z)
  | IoWrite (dev block : Z) (content : page).

(** struct swap_info_struct (the members this file reads or writes). *)
Record swap_info_struct := mk_swap_info {
  flags : Z;
  swap_device : Z
}.

(** The running kernel and machine: values the file only reads. *)
Record system := mk_system {
  LINUX_VERSION_CODE : Z;
  num_physpages : Z;
  max_pfn : Z;
  utsname_machine : list Z;
  utsname_version : list Z;
  num_online_cpus : Z;
  nosave_begin : Z;               (* ADDRESS2(&__nosave_begin) *)
  nosave_end : Z;                 (* ADDRESS2(&__nosave_end) *)
  PageReserved : Z -> bool;       (* by page frame number *)
  name_to_dev_t : list Z -> Z;
  open_by_devnum : Z -> Z;        (* 0, or the PTR_ERR of the failure *)
  uninit_pbe : nat -> pbe;        (* what a fresh, unzeroed block holds *)
  (* union diskpage: what the bytes of a page show through a member it
     was not written through; this depends on the layout of the
     structures *)
  raw_magic : page -> list Z;
  raw_link : page -> Z;
  raw_header : page -> suspend_header;
  raw_pbes : page -> list pbe
}.

(** ** Kernel state *)

Record kstate := mk_kstate {
  (* struct page flags and memory, by page frame number and by address *)
  PageNosave : gset Z;
  mem : gmap Z page;
  (* page allocator: the addresses it will hand out (0 is failure), the
     blocks given back, and what it reports about free memory *)
  page_oracle : list Z;
  freed : list (Z * Z);
  nr_free_pages : Z;
  free_region : Z -> nat;         (* is_head_of_free_region *)
  region_oracle : list (Z -> nat);
  (* swap: swap_info[], get_swap_page answers, si_swapinfo, the devices *)
  swap_info : gmap nat swap_info_struct;
  swap_oracle : list Z;
  freeswap : Z;
  disk : gmap (Z * Z) page;
  io_log : list io_event;
  (* file-scope variables of swsusp.c *)
  pagedir_order_check : Z;
  nr_copy_pages_check : Z;
  resume_file : list Z;
  resume_device : Z;
  nr_copy_pages : Z;
  pagedir_nosave : Z;
  pagedir_save : Z;
  pagedir_order : Z;
  swapfile_used : gmap nat Z;
  root_swap : Z;
  (* the array of pbes [pagedir_nosave] points to *)
  pagedir : list pbe
}.

Definition set_PageNosave v s := mk_kstate v (mem s) (page_oracle s) (freed s) (nr_free_pages s) (free_region s) (region_oracle s) (swap_info s) (swap_oracle s) (freeswap s) (disk s) (io_log s) (pagedir_order_check s) (nr_copy_pages_check s) (resume_file s) (resume_device s) (nr_copy_pages s) (pagedir_nosave s) (pagedir_save s) (pagedir_order s) (swapfile_used s) (root_swap s) (pagedir s).
Definition set_mem v s := mk_kstate (PageNosave s) v (page_oracle s) (freed s) (nr_free_pages s) (free_region s) (region_oracle s) (swap_info s) (swap_oracle s) (freeswap s) (disk s) (io_log s) (pagedir_order_check s) (nr_copy_pages_check s) (resume_file s) (resume_device s) (nr_copy_pages s) (pagedir_nosave s) (pagedir_save s) (pagedir_order s) (swapfile_used s) (root_swap s) (pagedir s).
Definition set_page_oracle v s := mk_kstate (PageNosave s) (mem s) v (freed s) (nr_free_pages s) (free_region s) (region_oracle s) (swap_info s) (swap_oracle s) (freeswap s) (disk s) (io_log s) (pagedir_order_check s) (nr_copy_pages_check s) (resume_file s) (resume_device s) (nr_copy_pages s) (pagedir_nosave s) (pagedir_save s) (pagedir_order s) (swapfile_used s) (root_swap s) (pagedir s).
Definition set_freed v s := mk_kstate (PageNosave s) (mem s) (page_oracle s) v (nr_free_pages s) (free_region s) (region_oracle s) (swap_info s) (swap_oracle s) (freeswap s) (disk s) (io_log s) (pagedir_order_check s) (nr_copy_pages_check s) (resume_file s) (resume_device s) (nr_copy_pages s) (pagedir_nosave s) (pagedir_save s) (pagedir_order s) (swapfile_used s) (root_swap s) (pagedir s).
Definition set_free_region v s := mk_kstate (PageNosave s) (mem s) (page_oracle s) (freed s) (nr_free_pages s) v (region_oracle s) (swap_info s) (swap_oracle s) (freeswap s) (disk s) (io_log s) (pagedir_order_check s) (nr_copy_pages_check s) (resume_file s) (resume_device s) (nr_copy_pages s) (pagedir_nosave s) (pagedir_save s) (pagedir_order s) (swapfile_used s) (root_swap s) (pagedir s).
Definition set_region_oracle v s := mk_kstate (PageNosave s) (mem s) (page_oracle s) (freed s) (nr_free_pages s) (free_region s) v (swap_info s) (swap_oracle s) (freeswap s) (disk s) (io_log s) (pagedir_order_check s) (nr_copy_pages_check s) (resume_file s) (resume_device s) (nr_copy_pages s) (pagedir_nosave s) (pagedir_save s) (pagedir_order s) (swapfile_used s) (root_swap s) (pagedir s).
Definition set_swap_info v s := mk_kstate (PageNosave s) (mem s) (page_oracle s) (freed s) (nr_free_pages s) (free_region s) (region_oracle s) v (swap_oracle s) (freeswap s) (disk s) (io_log s) (pagedir_order_check s) (nr_copy_pages_check s) (resume_file s) (resume_device s) (nr_copy_pages s) (pagedir_nosave s) (pagedir_save s) (pagedir_order s) (swapfile_used s) (root_swap s) (pagedir s).
Definition set_swap_oracle v s := mk_kstate (PageNosave s) (mem s) (page_oracle s) (freed s) (nr_free_pages s) (free_region s) (region_oracle s) (swap_info s) v (freeswap s) (disk s) (io_log s) (pagedir_order_check s) (nr_copy_pages_check s) (resume_file s) (resume_device s) (nr_copy_pages s) (pagedir_nosave s) (pagedir_save s) (pagedir_order s) (swapfile_used s) (root_swap s) (pagedir s).
Definition set_disk v s := mk_kstate (PageNosave s) (mem s) (page_oracle s) (freed s) (nr_free_pages s) (free_region s) (region_oracle s) (swap_info s) (swap_oracle s) (freeswap s) v (io_log s) (pagedir_order_check s) (nr_copy_pages_check s) (resume_file s) (resume_device s) (nr_copy_pages s) (pagedir_nosave s) (pagedir_save s) (pagedir_order s) (swapfile_used s) (root_swap s) (pagedir s).
Definition set_io_log v s := mk_kstate (PageNosave s) (mem s) (page_oracle s) (freed s) (nr_free_pages s) (free_region s) (region_oracle s) (swap_info s) (swap_oracle s) (freeswap s) (disk s) v (pagedir_order_check s) (nr_copy_pages_check s) (resume_file s) (resume_device s) (nr_copy_pages s) (pagedir_nosave s) (pagedir_save s) (pagedir_order s) (swapfile_used s) (root_swap s) (pagedir s).
Definition set_pagedir_order_check v s := mk_kstate (PageNosave s) (mem s) (page_oracle s) (freed s) (nr_free_pages s) (free_region s) (region_oracle s) (swap_info s) (swap_oracle s) (freeswap s) (disk s) (io_log s) v (nr_copy_pages_check s) (resume_file s) (resume_device s) (nr_copy_pages s) (pagedir_nosave s) (pagedir_save s) (pagedir_order s) (swapfile_used s) (root_swap s) (pagedir s).
Definition set_nr_copy_pages_check v s := mk_kstate (PageNosave s) (mem s) (page_oracle s) (freed s) (nr_free_pages s) (free_region s) (region_oracle s) (swap_info s) (swap_oracle s) (freeswap s) (disk s) (io_log s) (pagedir_order_check s) v (resume_file s) (resume_device s) (nr_copy_pages s) (pagedir_nosave s) (pagedir_save s) (pagedir_order s) (swapfile_used s) (root_swap s) (pagedir s).
Definition set_resume_file v s := mk_kstate (PageNosave s) (mem s) (page_oracle s) (freed s) (nr_free_pages s) (free_region s) (region_oracle s) (swap_info s) (swap_oracle s) (freeswap s) (disk s) (io_log s) (pagedir_order_check s) (nr_copy_pages_check s) v (resume_device s) (nr_copy_pages s) (pagedir_nosave s) (pagedir_save s) (pagedir_order s) (swapfile_used s) (root_swap s) (pagedir s).
Definition set_resume_device v s := mk_kstate (PageNosave s) (mem s) (page_oracle s) (freed s) (nr_free_pages s) (free_region s) (region_oracle s) (swap_info s) (swap_oracle s) (freeswap s) (disk s) (io_log s) (pagedir_order_check s) (nr_copy_pages_check s) (resume_file s) v (nr_copy_pages s) (pagedir_nosave s) (pagedir_save s) (pagedir_order s) (swapfile_used s) (root_swap s) (pagedir s).
Definition set_nr_copy_pages v s := mk_kstate (PageNosave s) (mem s) (page_oracle s) (freed s) (nr_free_pages s) (free_region s) (region_oracle s) (swap_info s) (swap_oracle s) (freeswap s) (disk s) (io_log s) (pagedir_order_check s) (nr_copy_pages_check s) (resume_file s) (resume_device s) v (pagedir_nosave s) (pagedir_save s) (pagedir_order s) (swapfile_used s) (root_swap s) (pagedir s).
Definition set_pagedir_nosave v s := mk_kstate (PageNosave s) (mem s) (page_oracle s) (freed s) (nr_free_pages s) (free_region s) (region_oracle s) (swap_info s) (swap_oracle s) (freeswap s) (disk s) (io_log s) (pagedir_order_check s) (nr_copy_pages_check s) (resume_file s) (resume_device s) (nr_copy_pages s) v (pagedir_save s) (pagedir_order s) (swapfile_used s) (root_swap s) (pagedir s).
Definition set_pagedir_save v s := mk_kstate (PageNosave s) (mem s) (page_oracle s) (freed s) (nr_free_pages s) (free_region s) (region_oracle s) (swap_info s) (swap_oracle s) (freeswap s) (disk s) (io_log s) (pagedir_order_check s) (nr_copy_pages_check s) (resume_file s) (resume_device s) (nr_copy_pages s) (pagedir_nosave s) v (pagedir_order s) (swapfile_used s) (root_swap s) (pagedir s).
Definition set_pagedir_order v s := mk_kstate (PageNosave s) (mem s) (page_oracle s) (freed s) (nr_free_pages s) (free_region s) (region_oracle s) (swap_info s) (swap_oracle s) (freeswap s) (disk s) (io_log s) (pagedir_order_check s) (nr_copy_pages_check s) (resume_file s) (resume_device s) (nr_copy_pages s) (pagedir_nosave s) (pagedir_save s) v (swapfile_used s) (root_swap s) (pagedir s).
Definition set_swapfile_used v s := mk_kstate (PageNosave s) (mem s) (page_oracle s) (freed s) (nr_free_pages s) (free_region s) (region_oracle s) (swap_info s) (swap_oracle s) (freeswap s) (disk s) (io_log s) (pagedir_order_check s) (nr_copy_pages_check s) (resume_file s) (resume_device s) (nr_copy_pages s) (pagedir_nosave s) (pagedir_save s) (pagedir_order s) v (root_swap s) (pagedir s).
Definition set_root_swap v s := mk_kstate (PageNosave s) (mem s) (page_oracle s) (freed s) (nr_free_pages s) (free_region s) (region_oracle s) (swap_info s) (swap_oracle s) (freeswap s) (disk s) (io_log s) (pagedir_order_check s) (nr_copy_pages_check s) (resume_file s) (resume_device s) (nr_copy_pages s) (pagedir_nosave s) (pagedir_save s) (pagedir_order s) (swapfile_used s) v (pagedir s).
Definition set_pagedir v s := mk_kstate (PageNosave s) (mem s) (page_oracle s) (freed s) (nr_free_pages s) (free_region s) (region_oracle s) (swap_info s) (swap_oracle s) (freeswap s) (disk s) (io_log s) (pagedir_order_check s) (nr_copy_pages_check s) (resume_file s) (resume_device s) (nr_copy_pages s) (pagedir_nosave s) (pagedir_save s) (pagedir_order s) (swapfile_used s) (root_swap s) v.

(** ** Outcomes and the monad

    BUG(), BUG_ON() and panic() do not return to the caller; they are the
    [Fatal] outcomes, which every later step propagates.  [Oops] stands for
    a dereference the C code performs outside the objects of the model (a
    NULL page, an index past the allocated directory, a page read through
    a view it was not written through); [OutOfFuel] is never produced by
    the top-level functions (see the lemmas on the loops). *)

Inductive fatal := BUG | Panic | Oops | OutOfFuel.

Inductive result (A : Type) :=
  | Ret (a : A)
  | Fatal (f : fatal).
Arguments Ret {A} a.
Arguments Fatal {A} f.

Definition M (A : Type) : Type := kstate -> result A * kstate.

Definition ret {A} (a : A) : M A := fun s => (Ret a, s).

Definition bind {A B} (m : M A) (k : A -> M B) : M B :=
  fun s =>
    match m s with
    | (Ret a, s') => k a s'
    | (Fatal f, s') => (Fatal f, s')
    end.

Definition fail {A} (f : fatal) : M A := fun s => (Fatal f, s).
Definition gets {A} (f : kstate -> A) : M A := fun s => (Ret (f s), s).
Definition modify (f : kstate -> kstate) : M unit := fun s => (Ret tt, f s).

Declare Scope kmonad_scope.
Delimit Scope kmonad_scope with K.
Notation "x <- m ;; k" := (bind m (fun x => k))
  (at level 100, m at next level, right associativity) : kmonad_scope.
Notation "m ;;; k" := (bind m (fun _ => k))
  (at level 100, right associativity) : kmonad_scope.
Open Scope kmonad_scope.

Definition BUG_ON (c : bool) : M unit := if c then fail BUG else ret tt.

(** A [for] loop over [count] consecutive indices from [i].  [acc] holds
    the local variables the body updates; the body yields [inl acc'] to go
    on and [inr r] to return [r] from the enclosing function. *)
Fixpoint for_up {A R} (count : nat) (i : nat) (body : nat -> A -> M (A + R)) (acc : A)
  : M (A + R) :=
  match count with
  | O => ret (inl acc)
  | S c =>
      r <- body i acc ;;
      match r with
      | inl acc' => for_up c (S i) body acc'
      | inr v => ret (inr v)
      end
  end.

(** The same, for [for (i = count - 1; i >= 0; i--)]. *)
Fixpoint for_down {A R} (count : nat) (body : nat -> A -> M (A + R)) (acc : A)
  : M (A + R) :=
  match count with
  | O => ret (inl acc)
  | S c =>
      r <- body c acc ;;
      match r with
      | inl acc' => for_down c body acc'
      | inr v => ret (inr v)
      end
  end.

Definition continue {R} : M (unit + R) := ret (inl tt).

Section swsusp.

Context {plat : platform}.
Variable sys : system.

(** ** Machine arithmetic *)

Definition PAGE_SIZE : Z := 2 ^ PAGE_SHIFT.
Definition BITS_PER_LONG : Z := 8 * Z.of_nat sizeof_long.

(** Conversion to unsigned long, to long, to int and to unsigned int. *)
Definition ulong (v : Z) : Z := v mod 2 ^ BITS_PER_LONG.
Definition to_long (v : Z) : Z :=
  if ulong v <? 2 ^ (BITS_PER_LONG - 1) then ulong v else ulong v - 2 ^ BITS_PER_LONG.
Definition to_int (v : Z) : Z := (v + 2 ^ 31) mod 2 ^ 32 - 2 ^ 31.
Definition uint (v : Z) : Z := v mod 2 ^ 32.

(** #define ADDRESS(x) __ADDRESS((x) << PAGE_SHIFT), with [x] an int. *)
Definition ADDRESS (pfn : Z) : Z :=
  ulong (to_int (pfn * PAGE_SIZE) + PAGE_OFFSET).

(** virt_to_page and page_address; a struct page is named by its frame
    number. *)
Definition virt_to_page (addr : Z) : Z := ulong (addr - PAGE_OFFSET) / PAGE_SIZE.
Definition page_address (pg : Z) : Z := ulong (pg * PAGE_SIZE + PAGE_OFFSET).

(** ** Constants of swsusp.c *)

Definition PAGES_FOR_IO : Z := 512.
Definition SWAPFILE_UNUSED : Z := 0.
Definition SWAPFILE_SUSPEND : Z := 1.
Definition SWAPFILE_IGNORED : Z := 2.
Definition MARK_SWAP_SUSPEND : Z := 0.
Definition MARK_SWAP_RESUME : Z := 2.

(** ** Pages and their views *)

Definition zero_page : page := PgData (repeat 0 (Z.to_nat PAGE_SIZE)).

Definition mem_read (s : kstate) (a : Z) : page :=
  default (PgData []) (mem s !! a).

(** Memory is kept by the page: [mem] maps the kernel address of a page
    frame to its content.  An address is one the kernel can copy a page
    to or from when it is the address of a frame below [max_pfn] in the
    linear mapping; NULL and every other address are not. *)
Definition kernel_page (a : Z) : bool :=
  (page_address (virt_to_page a) =? a) && (virt_to_page a <? max_pfn sys).

(** copy_page(to, from): the copy faults when either address is not that
    of a mapped page (a pbe whose [address] is still NULL, say). *)
Definition copy_page (to from : Z) : M unit :=
  if kernel_page to && kernel_page from
  then modify (fun s => set_mem (<[to := mem_read s from]> (mem s)) s)
  else fail Oops.

(** [cur->swh.magic.magic] *)
Definition swh_magic (pg : page) : option (list Z) :=
  match pg with
  | PgSwap _ m => Some m
  | _ => None
  end.

Definition set_swh_magic (m : list Z) (pg : page) : page :=
  match pg with
  | PgSwap r _ => PgSwap r m
  | _ => pg
  end.

(** [cur->link.next]: the last sizeof(long) bytes of the page. *)
Definition link_next (pg : page) : option Z :=
  match pg with
  | PgSwap _ m => Some (le_value (skipn (10 - sizeof_long) m))
  | PgHeader _ n => Some n
  | PgDir pbes => dummy <$> last pbes
  | PgData _ => None
  end.

Definition set_dummy (v : Z) (p : pbe) : pbe :=
  mk_pbe (address p) (orig_address p) (swap_address p) v.

Definition set_link_next (v : Z) (pg : page) : page :=
  match pg with
  | PgSwap r m => PgSwap r (firstn (10 - sizeof_long) m ++ le_bytes sizeof_long v)
  | PgHeader sh _ => PgHeader sh v
  | PgDir pbes => PgDir (alter (set_dummy v) (pred (length pbes)) pbes)
  | PgData b => PgData b
  end.

(** [cur->sh] *)
Definition sh_view (pg : page) : option suspend_header :=
  match pg with
  | PgHeader sh _ => Some sh
  | _ => None
  end.

(** The members of [union diskpage] as the reader finds them on any
    page: the member a page was written through gives what was written,
    another one what the layout puts there.  A page of the directory is
    PBES_PER_PAGE entries. *)
Definition magic_of (pg : page) : list Z :=
  match swh_magic pg with
  | Some m => m
  | None => raw_magic sys pg
  end.
Definition next_of (pg : page) : Z :=
  match link_next pg with
  | Some n => n
  | None => raw_link sys pg
  end.
Definition header_of (pg : page) : suspend_header :=
  match sh_view pg with
  | Some sh => sh
  | None => raw_header sys pg
  end.
Definition pbes_of (pg : page) : list pbe :=
  resize PBES_PER_PAGE (mk_pbe 0 0 0 0)
    match pg with
    | PgDir pbes => pbes
    | _ => raw_pbes sys pg
    end.

(** ** The page allocator (mm/page_alloc.c) *)

Definition __get_free_pages (order : Z) : M Z :=
  fun s =>
    match page_oracle s with
    | [] => (Ret 0, s)
    | a :: rest => (Ret a, set_page_oracle rest s)
    end.

Definition get_zeroed_page : M Z :=
  a <- __get_free_pages 0 ;;
  if a =? 0 then ret 0
  else modify (fun s => set_mem (<[a := zero_page]> (mem s)) s) ;;; ret a.

Definition alloc_page : M Z := __get_free_pages 0.

Definition free_pages (addr order : Z) : M unit :=
  modify (fun s => set_freed (freed s ++ [(addr, order)]) s).

Definition free_page (addr : Z) : M unit := free_pages addr 0.

(** drain_local_pages: per-CPU pages go back to the free lists; what
    is_head_of_free_region reports afterwards is the allocator's answer. *)
Definition drain_local_pages : M unit :=
  fun s =>
    match region_oracle s with
    | [] => (Ret tt, s)
    | f :: rest => (Ret tt, set_region_oracle rest (set_free_region f s))
    end.

Definition SetPageNosave (pg : Z) : M unit :=
  modify (fun s => set_PageNosave ({[pg]} ∪ PageNosave s) s).

Definition TestClearPageNosave (pg : Z) : M bool :=
  fun s =>
    if decide (pg ∈ PageNosave s)
    then (Ret true, set_PageNosave (PageNosave s ∖ {[pg]}) s)
    else (Ret false, s).

(** ** The swap subsystem (mm/swapfile.c, mm/page_io.c) *)

Definition get_swap_page : M Z :=
  fun s =>
    match swap_oracle s with
    | [] => (Ret 0, s)
    | e :: rest => (Ret e, set_swap_oracle rest s)
    end.

(** The device and block a swap entry names. *)
Definition swap_slot (s : kstate) (entry : Z) : option (Z * Z) :=
  si ← swap_info s !! Z.to_nat (swp_type entry);
  Some (swap_device si, swp_offset entry).

(** swap_info[i] and swapfile_used[i]; both arrays are static, hence
    zero where nothing was stored. *)
Definition swap_info_at (s : kstate) (i : nat) : swap_info_struct :=
  default (mk_swap_info 0 0) (swap_info s !! i).
Definition swapfile_used_at (s : kstate) (i : nat) : Z :=
  default 0 (swapfile_used s !! i).

(** rw_swap_page_sync(READ, entry, page): the content read, [None] when
    the block cannot be read. *)
Definition rw_swap_page_sync_READ (entry : Z) : M (option page) :=
  fun s =>
    match swap_slot s entry with
    | None => (Fatal Oops, s)
    | Some (dev, blk) =>
        (Ret (disk s !! (dev, blk)), set_io_log (io_log s ++ [IoRead dev blk]) s)
    end.

(** rw_swap_page_sync(WRITE, entry, page), with the content of [page]. *)
Definition rw_swap_page_sync_WRITE (entry : Z) (content : page) : M unit :=
  fun s =>
    match swap_slot s entry with
    | None => (Fatal Oops, s)
    | Some (dev, blk) =>
        (Ret tt, set_io_log (io_log s ++ [IoWrite dev blk content])
                   (set_disk (<[(dev, blk) := content]> (disk s)) s))
    end.

(** The content of the frame behind a struct page. *)
Definition page_content (pg : Z) : M page :=
  gets (fun s => mem_read s (page_address pg)).

(** ** Saving part *)

Definition fill_suspend_header : M suspend_header :=
  s <- gets id ;;
  BUG_ON (negb (pagedir_save s =? pagedir_nosave s)) ;;;
  ret (mk_sh (LINUX_VERSION_CODE sys)
             (num_physpages sys)
             (strncpy_buf (utsname_machine sys) 8)
             (strncpy_buf (utsname_version sys) 20)
             (num_online_cpus sys)
             PAGE_SIZE
             (pagedir_nosave s)
             (nr_copy_pages s)).

Definition mark_swapfiles (prev : Z) (mode : Z) : M unit :=
  root <- gets root_swap ;;
  if root =? 65535 then ret tt
  else
    pg <- alloc_page ;;
    if pg =? 0 then fail Panic
    else
      let entry := swp_entry root 0 in
      rd <- rw_swap_page_sync_READ entry ;;
      match rd with
      | None => fail Oops
      | Some cur =>
          match swh_magic cur with
          | None => fail Oops
          | Some magic =>
              cur' <-
                (if mode =? MARK_SWAP_RESUME then
                   if memcmp (bytes_of "S1") magic 2 =? 0
                   then ret (set_swh_magic (memcpy magic (bytes_of "SWAP-SPACE") 10) cur)
                   else if memcmp (bytes_of "S2") magic 2 =? 0
                   then ret (set_swh_magic (memcpy magic (bytes_of "SWAPSPACE2") 10) cur)
                   else ret cur
                 else
                   cur1 <-
                     (if memcmp (bytes_of "SWAP-SPACE") magic 10 =? 0
                      then ret (set_swh_magic (memcpy magic (bytes_of "S1SUSP....") 10) cur)
                      else if memcmp (bytes_of "SWAPSPACE2") magic 10 =? 0
                      then ret (set_swh_magic (memcpy magic (bytes_of "S2SUSP....") 10) cur)
                      else fail Panic) ;;
                   ret (set_link_next prev cur1)) ;;
              rw_swap_page_sync_WRITE entry cur' ;;;
              free_pages pg 0
          end
      end.

(** The loop body of read_swapfiles for swap_info[i]. *)
Definition read_swapfiles_step (len : nat) (i : nat) (_ : unit) : M (unit + unit) :=
  s <- gets id ;;
  (if flags (swap_info_at s i) =? 0 then
         modify (fun s => set_swapfile_used (<[i := SWAPFILE_UNUSED]> (swapfile_used s)) s)
       else if (len =? 0)%nat then
         if root_swap s =? 65535 then
           modify (fun s => set_root_swap (Z.of_nat i)
                              (set_swapfile_used (<[i := SWAPFILE_SUSPEND]> (swapfile_used s)) s))
         else
           modify (fun s => set_swapfile_used (<[i := SWAPFILE_IGNORED]> (swapfile_used s)) s)
       else
         (* if (1), with the comparison against resume_device commented out *)
         modify (fun s => set_root_swap (Z.of_nat i)
                            (set_swapfile_used (<[i := SWAPFILE_SUSPEND]> (swapfile_used s)) s))) ;;;
  continue.

Definition read_swapfiles : M unit :=
  len <- gets (fun s => strlen (resume_file s)) ;;
  modify (set_root_swap 65535) ;;;
  _ <- for_up MAX_SWAPFILES 0 (read_swapfiles_step len) tt ;;
  ret tt.

Definition lock_swapdevices_step (i : nat) (_ : unit) : M (unit + unit) :=
  s <- gets id ;;
  (if swapfile_used_at s i =? SWAPFILE_IGNORED then
     let si := swap_info_at s i in
     modify (fun s =>
       set_swap_info (<[i := mk_swap_info (Z.lxor (flags si) 255) (swap_device si)]> (swap_info s)) s)
   else ret tt) ;;;
  continue.

Definition lock_swapdevices : M unit :=
  _ <- for_up MAX_SWAPFILES 0 lock_swapdevices_step tt ;;
  ret tt.

(** Page [i] of the directory, as the writer hands it to the block layer. *)
Definition dir_page (pd : list pbe) (i : nat) : list pbe :=
  firstn PBES_PER_PAGE (skipn (i * PBES_PER_PAGE) pd).

Definition set_swap_address (v : Z) (p : pbe) : pbe :=
  mk_pbe (address p) (orig_address p) v (dummy p).
Definition set_address (v : Z) (p : pbe) : pbe :=
  mk_pbe v (orig_address p) (swap_address p) (dummy p).
Definition set_orig_address (v : Z) (p : pbe) : pbe :=
  mk_pbe (address p) v (swap_address p) (dummy p).

(** The two checks every slot from get_swap_page goes through. *)
Definition suspend_slot : M Z :=
  entry <- get_swap_page ;;
  if entry =? 0 then fail Panic
  else
    used <- gets (fun s => swapfile_used_at s (Z.to_nat (swp_type entry))) ;;
    if negb (used =? SWAPFILE_SUSPEND) then fail Panic
    else ret entry.

(** First loop of write_suspend_image: the data pages. *)
Definition write_data_step (i : nat) (_ : unit) : M (unit + Z) :=
  entry <- suspend_slot ;;
  p <- gets (fun s => pagedir s !! i) ;;
  match p with
  | None => fail Oops
  | Some p =>
      content <- page_content (virt_to_page (address p)) ;;
      rw_swap_page_sync_WRITE entry content ;;;
      modify (fun s => set_pagedir (alter (set_swap_address entry) i (pagedir s)) s) ;;;
      continue
  end.

(** Second loop: the pages of the directory itself, each linked to the
    slot written before it. *)
Definition write_pgdir_step (i : nat) (prev : Z) : M (Z + Z) :=
  entry <- suspend_slot ;;
  len <- gets (fun s => length (pagedir s)) ;;
  if negb (S i * PBES_PER_PAGE <=? len)%nat then fail Oops
  else
    modify (fun s =>
      set_pagedir (alter (set_dummy prev) (pred (S i * PBES_PER_PAGE)) (pagedir s)) s) ;;;
    cur <- gets (fun s => PgDir (dir_page (pagedir s) i)) ;;
    rw_swap_page_sync_WRITE entry cur ;;;
    ret (inl entry).

Definition write_suspend_image : M Z :=
  let prev := 0 in
  nr_pgdir_pages <- gets (fun s => SUSPEND_PD_PAGES (nr_copy_pages s)) ;;
  buffer <- get_zeroed_page ;;
  n <- gets nr_copy_pages ;;
  r <- for_up (Z.to_nat n) 0 write_data_step tt ;;
  match r with
  | inr v => ret v
  | inl _ =>
      r <- for_up (Z.to_nat nr_pgdir_pages) 0 write_pgdir_step prev ;;
      match r with
      | inr v => ret v
      | inl prev =>
          entry <- suspend_slot ;;
          if buffer =? 0 then fail Oops
          else
            sh <- fill_suspend_header ;;
            let cur := PgHeader sh prev in
            rw_swap_page_sync_WRITE entry cur ;;;
            let prev := entry in
            mark_swapfiles prev MARK_SWAP_SUSPEND ;;;
            free_page buffer ;;;
            ret 0
      end
  end.

(** What the enumerator does with one frame: skip ahead, or take it. *)
Inductive verdict := Skip (next_pfn : Z) | Take.

Definition examine_page (pfn : Z) : M verdict :=
  s <- gets id ;;
  if negb (PageReserved sys pfn) then
    if decide (pfn ∈ PageNosave s) then ret (Skip (pfn + 1))
    else
      let chunk_size := free_region s pfn in
      if negb (chunk_size =? 0)%nat
      then ret (Skip (pfn + (Z.of_nat chunk_size - 1) + 1))
      else ret Take
  else
    BUG_ON (bool_decide (pfn ∈ PageNosave s)) ;;;
    if (nosave_begin sys <=? ADDRESS pfn) && (ADDRESS pfn <? nosave_end sys)
    then ret (Skip (pfn + 1))
    else ret Take.

(** The body of [if (pagedir_p)]: fill the pbe under the cursor and
    advance the cursor. *)
Definition take_page (pfn : Z) (pagedir_p : option nat) : M (option nat) :=
  match pagedir_p with
  | None => ret None
  | Some i =>
      p <- gets (fun s => pagedir s !! i) ;;
      match p with
      | None => fail Oops
      | Some p =>
          let p' := set_orig_address (ADDRESS pfn) p in
          modify (fun s => set_pagedir (<[i := p']> (pagedir s)) s) ;;;
          copy_page (address p') (orig_address p') ;;;
          ret (Some (S i))
      end
  end.

Fixpoint count_loop (fuel : nat) (pfn nr : Z) (pagedir_p : option nat) : M Z :=
  if negb (pfn <? max_pfn sys) then ret nr
  else
    match fuel with
    | O => fail OutOfFuel
    | S fuel' =>
        v <- examine_page pfn ;;
        match v with
        | Skip next => count_loop fuel' next nr pagedir_p
        | Take =>
            pagedir_p' <- take_page pfn pagedir_p ;;
            count_loop fuel' (pfn + 1) (nr + 1) pagedir_p'
        end
    end.

(** If [pagedir_p] is not NULL it also copies the counted pages;
    [Some i] is the address of entry [i] of the directory. *)
Definition count_and_copy_data_pages (pagedir_p : option nat) : M Z :=
  BUG_ON (negb (max_pfn sys =? num_physpages sys)) ;;;
  count_loop (Z.to_nat (max_pfn sys)) 0 0 pagedir_p.

Definition free_suspend_pagedir_step (this_pagedir this_pagedir_end : Z)
    (pfn : nat) (_ : unit) : M (unit + unit) :=
  was_set <- TestClearPageNosave (Z.of_nat pfn) ;;
  if negb was_set then continue
  else if (this_pagedir <=? ADDRESS (Z.of_nat pfn)) && (ADDRESS (Z.of_nat pfn) <? this_pagedir_end)
  then continue
  else free_page (ADDRESS (Z.of_nat pfn)) ;;; continue.

Definition free_suspend_pagedir (this_pagedir : Z) : M unit :=
  order <- gets pagedir_order ;;
  let this_pagedir_end := ulong (this_pagedir + ulong (PAGE_SIZE * 2 ^ order)) in
  _ <- for_up (Z.to_nat (num_physpages sys)) 0
         (free_suspend_pagedir_step this_pagedir this_pagedir_end) tt ;;
  free_pages this_pagedir order.

(** The content of a block of 2^order pages just obtained from
    __get_free_pages, seen as an array of pbes. *)
Definition fresh_directory (order : Z) : list pbe :=
  map (uninit_pbe sys) (seq 0 (Z.to_nat (2 ^ order) * PBES_PER_PAGE)).

Definition create_suspend_pagedir_step (pagedir_addr : Z) (i : nat) (_ : unit)
  : M (unit + Z) :=
  a <- get_zeroed_page ;;
  p <- gets (fun s => pagedir s !! i) ;;
  match p with
  | None => fail Oops
  | Some p =>
      modify (fun s => set_pagedir (<[i := set_address a p]> (pagedir s)) s) ;;;
      if a =? 0 then
        free_suspend_pagedir pagedir_addr ;;; ret (inr 0)
      else
        SetPageNosave (virt_to_page a) ;;;
        modify (fun s => set_pagedir (alter (set_orig_address 0) i (pagedir s)) s) ;;;
        continue
  end.

Definition create_suspend_pagedir (nr : Z) : M Z :=
  let order := get_bitmask_order (SUSPEND_PD_PAGES nr) in
  modify (set_pagedir_order order) ;;;
  pagedir_addr <- __get_free_pages order ;;
  if pagedir_addr =? 0 then ret 0
  else
    modify (set_pagedir (fresh_directory order)) ;;;
    _ <- for_up (R := unit) (Z.to_nat (2 ^ order)) 0
           (fun i _ => SetPageNosave (virt_to_page pagedir_addr + Z.of_nat i) ;;; continue) tt ;;
    r <- for_up (Z.to_nat nr) 0 (create_suspend_pagedir_step pagedir_addr) tt ;;
    match r with
    | inr v => ret v
    | inl _ => ret pagedir_addr
    end.

(** The copying pass of suspend_prepare_image and the check on what it
    returns: [if (nr_copy_pages != count_and_copy_data_pages(pagedir_nosave))
    BUG();]. *)
Definition snapshot_pages (nr : Z) : M Z :=
  n2 <- count_and_copy_data_pages (Some O) ;;
  if negb (nr =? uint n2) then fail BUG
  else ret 0.

Definition suspend_prepare_image : M Z :=
  drain_local_pages ;;;
  modify (set_pagedir_nosave 0) ;;;
  n <- count_and_copy_data_pages None ;;
  modify (set_nr_copy_pages (uint n)) ;;;
  nr <- gets nr_copy_pages ;;
  let nr_needed_pages := uint (nr + PAGES_FOR_IO) in
  free <- gets nr_free_pages ;;
  if free <? nr_needed_pages then
    modify (set_root_swap 65535) ;;; ret 1
  else
    fs <- gets freeswap ;;
    if fs <? nr_needed_pages then ret 1
    else
      pd <- create_suspend_pagedir (to_int nr) ;;
      modify (fun s => set_pagedir_save pd (set_pagedir_nosave pd s)) ;;;
      if pd =? 0 then fail Panic
      else
        modify (fun s => set_nr_copy_pages_check (to_int (nr_copy_pages s)) s) ;;;
        modify (fun s => set_pagedir_order_check (pagedir_order s) s) ;;;
        drain_local_pages ;;;
        snapshot_pages nr.

Definition suspend_save_image : M Z :=
  lock_swapdevices ;;;
  error <- write_suspend_image ;;
  lock_swapdevices ;;;
  ret error.

Definition swsusp_suspend : M Z :=
  read_swapfiles ;;;
  error <- suspend_prepare_image ;;
  if error =? 0 then suspend_save_image else ret error.

(** *** The enumerator as a function of the page flags

    What examine_page answers, the frames one pass takes, and the state
    the copying pass leaves; the lemmas on count_loop relate the loop to
    these. *)

Definition verdict_of (nosave : gset Z) (fr : Z -> nat) (pfn : Z) : result verdict :=
  if negb (PageReserved sys pfn) then
    if decide (pfn ∈ nosave) then Ret (Skip (pfn + 1))
    else
      let chunk_size := fr pfn in
      if negb (chunk_size =? 0)%nat
      then Ret (Skip (pfn + (Z.of_nat chunk_size - 1) + 1))
      else Ret Take
  else
    if bool_decide (pfn ∈ nosave) then Fatal BUG
    else if (nosave_begin sys <=? ADDRESS pfn) && (ADDRESS pfn <? nosave_end sys)
    then Ret (Skip (pfn + 1))
    else Ret Take.

Fixpoint frames (fuel : nat) (pfn : Z) (nosave : gset Z) (fr : Z -> nat) : result (list Z) :=
  if negb (pfn <? max_pfn sys) then Ret []
  else
    match fuel with
    | O => Fatal OutOfFuel
    | S fuel' =>
        match verdict_of nosave fr pfn with
        | Fatal e => Fatal e
        | Ret (Skip next) => frames fuel' next nosave fr
        | Ret Take =>
            match frames fuel' (pfn + 1) nosave fr with
            | Ret l => Ret (pfn :: l)
            | Fatal e => Fatal e
            end
        end
    end.

(** The frames the enumerator takes in state [s]. *)
Definition saved_frames (s : kstate) : result (list Z) :=
  frames (Z.to_nat (max_pfn sys)) 0 (PageNosave s) (free_region s).

Definition take_state (pfn : Z) (i : nat) (p : pbe) (s : kstate) : kstate :=
  let p' := set_orig_address (ADDRESS pfn) p in
  let s1 := set_pagedir (<[i := p']> (pagedir s)) s in
  set_mem (<[address p' := mem_read s1 (orig_address p')]> (mem s1)) s1.

Fixpoint fill (i : nat) (l : list Z) (s : kstate) : option kstate :=
  match l with
  | [] => Some s
  | pfn :: l' =>
      match pagedir s !! i with
      | None => None
      | Some p =>
          if kernel_page (address p) && kernel_page (ADDRESS pfn)
          then fill (S i) l' (take_state pfn i p s)
          else None
      end
  end.

(** Every frame lies in the kernel's linear mapping, below the top of
    the address space, and its physical address fits the int in which
    ADDRESS() shifts the frame number (no highmem: see swsusp_save). *)
Definition lowmem_ok : Prop :=
  0 <= PAGE_OFFSET
  /\ max_pfn sys * PAGE_SIZE <= 2 ^ 31
  /\ PAGE_OFFSET + max_pfn sys * PAGE_SIZE < 2 ^ BITS_PER_LONG.

(** ** More restore stuff *)

(** copy_pagedir moves the 2^pagedir_order pages of the directory; the
    new block holds exactly those pages.  The directory is kept beside
    [mem], as the list of the entries in the block at [pagedir_nosave], so
    the move leaves in the list the entries of these pages and does not
    show in [mem]. *)
Definition copy_pagedir (to from : Z) : M unit :=
  modify (fun s =>
    set_pagedir
      (concat (map (dir_page (pagedir s)) (seq 0 (Z.to_nat (2 ^ pagedir_order s))))) s).

(** Returns true if given address/order collides with any orig_address. *)
Definition does_collide_order (addr order : Z) : M bool :=
  let addre := ulong (addr + ulong (PAGE_SIZE * 2 ^ order)) in
  n <- gets nr_copy_pages ;;
  r <- for_up (Z.to_nat n) 0
         (fun i _ =>
            p <- gets (fun s => pagedir s !! i) ;;
            match p with
            | None => fail Oops
            | Some p =>
                if (addr <=? orig_address p) && (orig_address p <? addre)
                then ret (inr true)
                else continue
            end) tt ;;
  match r with
  | inr v => ret v
  | inl _ => ret false
  end.

Definition does_collide (addr : Z) : M bool := does_collide_order addr 0.

(** The do-while of check_pagedir: [inl addr] is a page that does not
    collide, [inr e] the error to return. *)
Fixpoint check_pagedir_page (fuel : nat) : M (Z + Z) :=
  match fuel with
  | O => fail OutOfFuel
  | S fuel' =>
      addr <- get_zeroed_page ;;
      if addr =? 0 then ret (inr (- ENOMEM))
      else
        c <- does_collide addr ;;
        if c then check_pagedir_page fuel' else ret (inl addr)
  end.

Definition check_pagedir_step (i : nat) (_ : unit) : M (unit + Z) :=
  fuel <- gets (fun s => S (length (page_oracle s))) ;;
  r <- check_pagedir_page fuel ;;
  match r with
  | inr e => ret (inr e)
  | inl addr =>
      p <- gets (fun s => pagedir s !! i) ;;
      match p with
      | None => fail Oops
      | Some p =>
          modify (fun s => set_pagedir (<[i := set_address addr p]> (pagedir s)) s) ;;;
          continue
      end
  end.

Definition check_pagedir : M Z :=
  n <- gets nr_copy_pages ;;
  r <- for_up (Z.to_nat n) 0 check_pagedir_step tt ;;
  match r with
  | inr e => ret e
  | inl _ => ret 0
  end.

(** The first while loop of relocate_pagedir.  [eaten] is the chain of
    rejected blocks, newest first ([eaten_memory] is its head, and each
    block stores in its first word the address of the one before it).
    The loop ends with [m]: 0, or a block that does not collide. *)
Fixpoint relocate_pagedir_search (fuel : nat) (eaten : list Z) : M (Z * list Z) :=
  match fuel with
  | O => fail OutOfFuel
  | S fuel' =>
      order <- gets pagedir_order ;;
      m <- __get_free_pages order ;;
      if m =? 0 then ret (0, eaten)
      else
        modify (fun s => set_mem (<[m := zero_page]> (mem s)) s) ;;;
        c <- does_collide_order m order ;;
        if negb c then ret (m, eaten)
        else
          modify (fun s =>
            set_mem (<[m := PgData (le_bytes sizeof_long (hd 0 eaten)
                                     ++ repeat 0 (Z.to_nat PAGE_SIZE - sizeof_long))]> (mem s)) s) ;;;
          relocate_pagedir_search fuel' (m :: eaten)
  end.

(** The second while loop: it frees what each chained block points to. *)
Fixpoint relocate_pagedir_release (eaten : list Z) : M unit :=
  match eaten with
  | [] => ret tt
  | c :: rest =>
      let f := hd 0 rest in
      order <- gets pagedir_order ;;
      (if negb (f =? 0) then free_pages f order else ret tt) ;;;
      relocate_pagedir_release rest
  end.

Definition relocate_pagedir : M Z :=
  old_pagedir <- gets pagedir_nosave ;;
  order <- gets pagedir_order ;;
  c <- does_collide_order old_pagedir order ;;
  if negb c then ret 0
  else
    fuel <- gets (fun s => S (length (page_oracle s))) ;;
    r <- relocate_pagedir_search fuel [] ;;
    let '(m, eaten) := r in
    if m =? 0 then ret (- ENOMEM)
    else
      modify (set_pagedir_nosave m) ;;;
      copy_pagedir m old_pagedir ;;;
      relocate_pagedir_release eaten ;;;
      ret 0.

(** What the image says of a page: where it came from and where its
    content is on the device. *)
Definition pbe_image (p : pbe) : Z * Z := (orig_address p, swap_address p).

(** The test does_collide_order applies to one pbe. *)
Definition collides (addr order : Z) (p : pbe) : bool :=
  (addr <=? orig_address p)
  && (orig_address p <? ulong (addr + ulong (PAGE_SIZE * 2 ^ order))).

(** The same test on an address: [a] lies in the block of 2^order pages
    at [addr]. *)
Definition in_block (addr order a : Z) : bool :=
  (addr <=? a) && (a <? ulong (addr + ulong (PAGE_SIZE * 2 ^ order))).

(** A block of 2^order pages at [addr] that lies inside the address
    space, below its last page. *)
Definition block_in_space (order addr : Z) : Prop :=
  0 <= addr /\ addr + PAGE_SIZE * 2 ^ order < 2 ^ BITS_PER_LONG.

(** Sanity check if this image makes sense with this kernel/swap context. *)
Definition sanity_check_failed (reason : string) : Z := - EPERM.

Definition sanity_check (sh : suspend_header) : Z :=
  if negb (version_code sh =? LINUX_VERSION_CODE sys)
  then sanity_check_failed "Incorrect kernel version"
  else if negb (sh_num_physpages sh =? num_physpages sys)
  then sanity_check_failed "Incorrect memory size"
  else if negb (strncmp (machine sh) (utsname_machine sys) 8 =? 0)
  then sanity_check_failed "Incorrect machine type"
  else if negb (strncmp (version sh) (utsname_version sys) 20 =? 0)
  then sanity_check_failed "Incorrect version"
  else if negb (num_cpus sh =? num_online_cpus sys)
  then sanity_check_failed "Incorrect number of cpus"
  else if negb (page_size sh =? PAGE_SIZE)
  then sanity_check_failed "Incorrect PAGE_SIZE"
  else 0.

(** bdev_read_page(bdev, pos, buf): [Some] content for a return of 0,
    [None] for -1.  [pos] is a long and PAGE_SIZE an unsigned long, so
    [pos % PAGE_SIZE] and [pos / PAGE_SIZE] are computed in unsigned
    long. *)
Definition bdev_read_page (bdev pos : Z) : M (option page) :=
  BUG_ON (negb (ulong pos mod PAGE_SIZE =? 0)) ;;;
  let block := ulong pos / PAGE_SIZE in
  modify (fun s => set_io_log (io_log s ++ [IoRead bdev block]) s) ;;;
  gets (fun s => disk s !! (bdev, block)).

(** #define PREPARENEXT: the position of the slot [cur->link.next] names. *)
Definition PREPARENEXT (cur : page) : M Z :=
  ret (ulong (swp_offset (next_of cur) * PAGE_SIZE)).

(** The loop reading the directory: page [i] comes from the slot at
    [next], and its last word names the slot of page [i - 1]. *)
Definition read_pagedir_step (bdev : Z) (i : nat) (next : Z) : M (Z + Z) :=
  BUG_ON (next =? 0) ;;;
  rd <- bdev_read_page bdev (to_long next) ;;
  match rd with
  | None => ret (inr (- EIO))
  | Some cur =>
      len <- gets (fun s => length (pagedir s)) ;;
      if negb (S i * PBES_PER_PAGE <=? len)%nat
      then fail Oops
      else
        modify (fun s =>
          set_pagedir (firstn (i * PBES_PER_PAGE) (pagedir s) ++ pbes_of cur
                         ++ skipn (S i * PBES_PER_PAGE) (pagedir s)) s) ;;;
        next' <- PREPARENEXT cur ;;
        ret (inl next')
  end.

(** The loop reading the data pages into the buffers check_pagedir
    chose.  bdev_read_page copies the block into the buffer: the copy
    faults when the buffer is not a page of the kernel. *)
Definition read_data_step (bdev : Z) (i : nat) (_ : unit) : M (unit + Z) :=
  p <- gets (fun s => pagedir s !! i) ;;
  match p with
  | None => fail Oops
  | Some p =>
      rd <- bdev_read_page bdev (to_long (ulong (swp_offset (swap_address p) * PAGE_SIZE))) ;;
      match rd with
      | None => ret (inr (- EIO))
      | Some pg =>
          if kernel_page (address p)
          then modify (fun s => set_mem (<[address p := pg]> (mem s)) s) ;;; continue
          else fail Oops
      end
  end.

(** read_suspend_image from relocate_pagedir on, once the directory
    is in memory. *)
Definition read_suspend_image_data (bdev : Z) (n : Z) : M Z :=
  e <- relocate_pagedir ;;
  if negb (e =? 0) then ret (- ENOMEM)
  else
    e <- check_pagedir ;;
    if negb (e =? 0) then ret (- ENOMEM)
    else
      r <- for_up (Z.to_nat n) 0 (read_data_step bdev) tt ;;
      match r with
      | inr e => ret e
      | inl _ => ret 0
      end.

(** read_suspend_image after the header has passed sanity_check. *)
Definition read_suspend_image_body (bdev : Z) (sh : suspend_header) (next : Z) : M Z :=
  modify (set_pagedir_save (suspend_pagedir sh)) ;;;
  modify (set_nr_copy_pages (num_pbes sh)) ;;;
  n <- gets nr_copy_pages ;;
  let nr_pgdir_pages := SUSPEND_PD_PAGES n in
  modify (set_pagedir_order (get_bitmask_order nr_pgdir_pages)) ;;;
  order <- gets pagedir_order ;;
  pd <- __get_free_pages order ;;
  modify (set_pagedir_nosave pd) ;;;
  if pd =? 0 then ret (- ENOMEM)
  else
    modify (set_pagedir (fresh_directory order)) ;;;
    r <- for_down (Z.to_nat nr_pgdir_pages) (read_pagedir_step bdev) next ;;
    match r with
    | inr e => ret e
    | inl next =>
        BUG_ON (negb (next =? 0)) ;;;
        read_suspend_image_data bdev n
    end.

Definition read_suspend_image (bdev : Z) : M Z :=
  rd <- bdev_read_page bdev 0 ;;
  match rd with
  | None => ret (- EIO)
  | Some cur =>
      let magic := magic_of cur in
      if (memcmp (bytes_of "SWAP-SPACE") magic 10 =? 0)
         || (memcmp (bytes_of "SWAPSPACE2") magic 10 =? 0)
      then ret (- EINVAL)
      else
        next <- PREPARENEXT cur ;;
        if negb ((memcmp (bytes_of "S1") magic 2 =? 0)
                 || (memcmp (bytes_of "S2") magic 2 =? 0))
        then ret (- EFAULT)
        else
          rd <- bdev_read_page bdev (to_long next) ;;
          match rd with
          | None => ret (- EIO)
          | Some cur =>
              let sh := header_of cur in
              if negb (sanity_check sh =? 0) then ret (- EPERM)
              else
                next <- PREPARENEXT cur ;;
                read_suspend_image_body bdev sh next
          end
  end.

(** swsusp_read - Read saved image from swap. *)
Definition swsusp_read : M Z :=
  file <- gets resume_file ;;
  if (strlen file =? 0)%nat then ret (- ENOENT)
  else
    modify (set_resume_device (name_to_dev_t sys file)) ;;;
    cur <- get_zeroed_page ;;
    if negb (cur =? 0) then
      dev <- gets resume_device ;;
      error <-
        (if open_by_devnum sys dev =? 0 then
           modify (fun s => set_io_log (io_log s ++ [IoOpen dev]) s) ;;;
           error <- read_suspend_image dev ;;
           modify (fun s => set_io_log (io_log s ++ [IoPut dev]) s) ;;;
           ret error
         else ret (open_by_devnum sys dev)) ;;
      free_page cur ;;;
      ret error
    else ret (- ENOMEM).

(** swsusp_free - Free memory allocated to hold snapshot. *)
Definition swsusp_free : M Z :=
  pd <- gets pagedir_save ;;
  free_suspend_pagedir pd ;;;
  mark_swapfiles 0 MARK_SWAP_RESUME ;;;
  ret 0.

Definition resume_setup (str : list Z) : M Z :=
  (if negb (strlen str =? 0)%nat
   then modify (fun s => set_resume_file (strncpy (resume_file s) str 255) s)
   else ret tt) ;;;
  ret 1.

Definition noresume_setup (str : list Z) : M Z :=
  modify (fun s => set_resume_file (<[O := 0]> (resume_file s)) s) ;;;
  ret 1.

(** swsusp_resume, which runs in the restored kernel once the pages are
    back.  [nr_copy_pages_check] is an int and [nr_copy_pages] an unsigned
    int, so the first comparison is made in unsigned int;
    __flush_tlb_global leaves this state alone. *)
Definition swsusp_resume : M Z :=
  s <- gets id ;;
  BUG_ON (negb (uint (nr_copy_pages_check s) =? nr_copy_pages s)) ;;;
  BUG_ON (negb (pagedir_order_check s =? pagedir_order s)) ;;;
  ret 0.

(** Modelled from the spec: COPY_PAGES_BACK of swsusp_arch_suspend is in
    arch/?/power/swsusp.S, which is not among the sources; the comment
    above swsusp_suspend places the step between read_suspend_image and
    swsusp_resume, and the specification has the data copied from the
    buffers back to the [orig_address] destinations. *)
Definition copy_pages_back : M unit :=
  n <- gets nr_copy_pages ;;
  _ <- for_up (R := unit) (Z.to_nat n) 0
         (fun i _ =>
            p <- gets (fun s => pagedir s !! i) ;;
            match p with
            | None => fail Oops
            | Some p => copy_page (orig_address p) (address p) ;;; continue
            end) tt ;;
  ret tt.

(** ** Further descriptions

    The frames free_suspend_pagedir hands to free_page: those with the
    nosave flag that lie outside the directory at [this]. *)
Definition flagged_outside (s : kstate) (this : Z) (pfn : Z) : bool :=
  bool_decide (pfn ∈ PageNosave s)
  && negb ((this <=? ADDRESS pfn)
           && (ADDRESS pfn <? ulong (this + ulong (PAGE_SIZE * 2 ^ pagedir_order s)))).

(** swap_info[i] after one call of lock_swapdevices. *)
Definition locked (s : kstate) (i : nat) : swap_info_struct :=
  if swapfile_used_at s i =? SWAPFILE_IGNORED
  then mk_swap_info (Z.lxor (flags (swap_info_at s i)) 255) (swap_device (swap_info_at s i))
  else swap_info_at s i.

(** What read_swapfiles decides: a device is active when its flags are
    not 0; the suspend device it settles on among the first [j] devices is
    the first active one when no resume= was given and the last active one
    otherwise, and [swapfile_used[i]] follows. *)
Definition active (s : kstate) (i : nat) : bool := negb (flags (swap_info_at s i) =? 0).

Definition first_active (s : kstate) (j : nat) : option nat := find (active s) (seq 0 j).
Definition last_active (s : kstate) (j : nat) : option nat := find (active s) (rev (seq 0 j)).

Definition chosen_root (s : kstate) (j : nat) : Z :=
  match (if (strlen (resume_file s) =? 0)%nat then first_active s j else last_active s j) with
  | Some i => Z.of_nat i
  | None => 65535
  end.

Definition chosen_use (s : kstate) (i : nat) : Z :=
  if negb (active s i) then SWAPFILE_UNUSED
  else if (strlen (resume_file s) =? 0)%nat then
         match first_active s i with
         | None => SWAPFILE_SUSPEND
         | Some _ => SWAPFILE_IGNORED
         end
       else SWAPFILE_SUSPEND.

End swsusp.

(** ** The platform of the examples: i386

    The values linux/suspend.h, linux/bitops.h and linux/swapops.h give
    on i386: 4 KiB pages, 16-byte pbes, five bits of swap type above the
    offset. *)

Definition fls (x : Z) : Z := if x <=? 0 then 0 else Z.log2 x + 1.

Definition i386 : platform := {|
  PAGE_SHIFT := 12;
  sizeof_long := 4;
  PAGE_OFFSET := 3221225472;
  PBES_PER_PAGE := 256;
  MAX_SWAPFILES := 32;
  SUSPEND_PD_PAGES := fun x => x * 16 / 4096 + 1;
  get_bitmask_order := fls;
  swp_type := fun e => Z.land (Z.shiftr e 27) 31;
  swp_offset := fun e => Z.land e (2 ^ 27 - 1);
  swp_entry := fun t o => Z.lor (Z.shiftl t 27) (Z.land o (2 ^ 27 - 1))
|}.

(** ** What the later statements assume of the platform

    The laws the out-of-tree macros satisfy: pages are smaller than the
    address space, a long has at most eight bytes (so that [link.next]
    leaves the first two magic bytes alone), SUSPEND_PD_PAGES(n) pages
    hold [n] pbes, an allocation of order get_bitmask_order(k) has at
    least [k] pages, and a swap entry of offset 0 decodes to its parts. *)
Class platform_ok (P : platform) : Prop := {
  PAGE_SHIFT_nonneg : 0 <= PAGE_SHIFT;
  PAGE_SHIFT_small : PAGE_SHIFT < BITS_PER_LONG - 1;
  sizeof_long_le : (sizeof_long <= 8)%nat;
  PBES_PER_PAGE_pos : (0 < PBES_PER_PAGE)%nat;
  pd_pages_room : forall n, 0 <= n -> n <= SUSPEND_PD_PAGES n * Z.of_nat PBES_PER_PAGE;
  order_room : forall k, 0 <= get_bitmask_order k /\ k <= 2 ^ get_bitmask_order k;
  swp_offset_null : swp_offset 0 = 0;
  swp_entry_type : forall t, 0 <= t < Z.of_nat MAX_SWAPFILES -> swp_type (swp_entry t 0) = t;
  swp_entry_offset : forall t, 0 <= t < Z.of_nat MAX_SWAPFILES -> swp_offset (swp_entry t 0) = 0
}.

(** The six fields sanity_check compares. *)
Inductive header_field :=
  | F_version_code | F_num_physpages | F_machine | F_version | F_num_cpus | F_page_size.

(** The header agrees with the running system in field [f]; the two
    fixed-width character fields hold C strings. *)
Definition field_matches {plat : platform} (sys : system) (sh : suspend_header)
    (f : header_field) : Prop :=
  match f with
  | F_version_code => version_code sh = LINUX_VERSION_CODE sys
  | F_num_physpages => sh_num_physpages sh = num_physpages sys
  | F_machine => cstring 8 (machine sh) = cstring 8 (utsname_machine sys)
  | F_version => cstring 20 (version sh) = cstring 20 (utsname_version sys)
  | F_num_cpus => num_cpus sh = num_online_cpus sys
  | F_page_size => page_size sh = PAGE_SIZE
  end.

(** The block of [bdev] that PREPARENEXT and bdev_read_page reach from
    a link word. *)
Definition link_block {plat : platform} (next : Z) : Z :=
  ulong (swp_offset next * PAGE_SIZE) / PAGE_SIZE.

(** ** A small machine for the examples

    1024 frames: frame 0 is reserved kernel memory, frame 1 lies in the
    nosave section, frames 2 and 3 are in use, the rest is free.  One swap
    device, /dev/hda2. *)

Section examples.

Local Existing Instance i386.

Definition hda2 : Z := 770.

Definition ex_sys : system := {|
  LINUX_VERSION_CODE := 132608;
  num_physpages := 1024;
  max_pfn := 1024;
  utsname_machine := bytes_of "i686";
  utsname_version := bytes_of "#1 Thu Dec 18 03:00:00 CET 2003";
  num_online_cpus := 1;
  nosave_begin := ADDRESS 1;
  nosave_end := ADDRESS 2;
  PageReserved := fun pfn => pfn <? 2;
  name_to_dev_t := fun _ => hda2;
  open_by_devnum := fun d => if d =? hda2 then 0 else -6;
  uninit_pbe := fun i => mk_pbe (Z.of_nat i) 0 0 0;
  raw_magic := fun _ => repeat 0 10;
  raw_link := fun _ => 0;
  raw_header := fun _ => mk_sh 0 0 [] [] 0 0 0 0;
  raw_pbes := fun _ => []
|}.

(** Free blocks before anything is allocated, and after frames 4..8 have
    been taken for the directory and its buffers. *)
Definition ex_free_before (pfn : Z) : nat :=
  if (pfn =? 4) || (pfn =? 8) || (pfn =? 16) || (pfn =? 32) || (pfn =? 64)
     || (pfn =? 128) || (pfn =? 256) || (pfn =? 512)
  then Z.to_nat pfn else O.

Definition ex_free_after (pfn : Z) : nat :=
  if pfn =? 9 then 1%nat
  else if pfn =? 10 then 2%nat
  else if pfn =? 12 then 4%nat
  else if (pfn =? 16) || (pfn =? 32) || (pfn =? 64)
          || (pfn =? 128) || (pfn =? 256) || (pfn =? 512)
  then Z.to_nat pfn else O.

Definition ex_resume_file : list Z :=
  bytes_of "/dev/hda2" ++ repeat 0 247.

Definition plain_swap_page : page := PgSwap [] (bytes_of "SWAPSPACE2").

(** The three data pages of the example: all zero, all one, counting. *)
Definition ex_frame0 : page := PgData (repeat 0 4096).
Definition ex_frame2 : page := PgData (repeat 255 4096).
Definition ex_frame3 : page := PgData (map (fun i => Z.of_nat i mod 256) (seq 0 4096)).

(** The kernel about to suspend, with what the allocators report and the
    free blocks drain_local_pages is going to find. *)
Definition ex_kernel (free fs : Z) (regions : list (Z -> nat)) : kstate := {|
  PageNosave := ∅;
  mem := {[ ADDRESS 0 := ex_frame0; ADDRESS 2 := ex_frame2; ADDRESS 3 := ex_frame3 ]};
  page_oracle := map ADDRESS [4; 6; 7; 8; 9; 10];
  freed := [];
  nr_free_pages := free;
  free_region := ex_free_before;
  region_oracle := regions;
  swap_info := {[ O := mk_swap_info 1 hda2 ]};
  swap_oracle := [1; 2; 3; 4; 5];
  freeswap := fs;
  disk := {[ (hda2, 0) := plain_swap_page ]};
  io_log := [];
  pagedir_order_check := 0;
  nr_copy_pages_check := 0;
  resume_file := ex_resume_file;
  resume_device := 0;
  nr_copy_pages := 0;
  pagedir_nosave := 0;
  pagedir_save := 0;
  pagedir_order := 0;
  swapfile_used := ∅;
  root_swap := 0;
  pagedir := []
|}.

Definition ex_running : kstate :=
  ex_kernel 1020 600 [ex_free_before; ex_free_after].

(** The same with one free page too few, with one swap slot too few, and
    with an allocator whose free blocks were not brought up to date
    before the copying pass. *)
Definition ex_short_of_memory : kstate :=
  ex_kernel 514 600 [ex_free_before; ex_free_after].
Definition ex_short_of_swap : kstate :=
  ex_kernel 1020 514 [ex_free_before; ex_free_after].
Definition ex_stale_regions : kstate :=
  ex_kernel 1020 600 [ex_free_before; ex_free_before].

(** The states of the example run: swap devices read, pages counted,
    directory allocated, snapshot taken, image written. *)
Definition ex_started : kstate := snd (read_swapfiles ex_running).
Definition ex_counted : kstate :=
  set_nr_copy_pages 3 (set_pagedir_nosave 0 (snd (drain_local_pages ex_started))).
Definition ex_allocated : kstate :=
  snd ((pd <- create_suspend_pagedir ex_sys 3 ;;
        modify (fun s => set_pagedir_save pd (set_pagedir_nosave pd s)) ;;;
        drain_local_pages) ex_counted).
Definition ex_prepared : kstate := snd (suspend_prepare_image ex_sys ex_started).
Definition ex_snapshot : kstate :=
  snd (count_and_copy_data_pages ex_sys (Some O) ex_allocated).
Definition ex_written : kstate := snd (write_suspend_image ex_sys ex_prepared).

(** A freshly booted kernel looking at the device [d], with the pages
    the allocator is going to hand out. *)
Definition ex_booting (d : gmap (Z * Z) page) (pages : list Z) : kstate := {|
  PageNosave := ∅;
  mem := ∅;
  page_oracle := pages;
  freed := [];
  nr_free_pages := 1000;
  free_region := ex_free_before;
  region_oracle := [];
  swap_info := ∅;
  swap_oracle := [];
  freeswap := 0;
  disk := d;
  io_log := [];
  pagedir_order_check := 0;
  nr_copy_pages_check := 0;
  resume_file := ex_resume_file;
  resume_device := 0;
  nr_copy_pages := 0;
  pagedir_nosave := 0;
  pagedir_save := 0;
  pagedir_order := 0;
  swapfile_used := ∅;
  root_swap := 0;
  pagedir := []
|}.

(** A directory of three entries just read into the block at frame 2,
    which is one of the frames to restore; the allocator will offer
    frames 0 and 3, that are to be restored too, before others. *)
Definition ex_loaded : kstate :=
  set_pagedir ([mk_pbe 0 (ADDRESS 0) 1 0; mk_pbe 0 (ADDRESS 2) 2 0; mk_pbe 0 (ADDRESS 3) 3 0]
               ++ map (uninit_pbe ex_sys) (seq 3 509))
    (set_nr_copy_pages 3
       (set_pagedir_nosave (ADDRESS 2)
          (set_pagedir_order 1
             (ex_booting ∅ (map ADDRESS [0; 30; 3; 40; 41; 42]))))).
Definition ex_relocated : kstate := snd (relocate_pagedir ex_loaded).
Definition ex_checked : kstate := snd (check_pagedir ex_relocated).

(** The machine booting on the device the image was written to, and the
    same once read_suspend_image has a block for the directory. *)
Definition ex_resuming : kstate :=
  ex_booting (disk ex_written) (map ADDRESS [20; 2; 0; 30; 3; 40; 41; 42]).
Definition ex_reading : kstate := set_pagedir (fresh_directory ex_sys 1) ex_resuming.

(** The header of an image taken on another kernel version, behind a
    committed marker whose link names slot 5. *)
Definition ex_foreign_header : suspend_header := {|
  version_code := 132607;
  sh_num_physpages := 1024;
  machine := bytes_of "i686" ++ [0; 0; 0; 0];
  version := bytes_of "#1 Thu Dec 18 03:00:";
  num_cpus := 1;
  page_size := 4096;
  suspend_pagedir := ADDRESS 4;
  num_pbes := 3
|}.

Definition ex_own_header : suspend_header := {|
  version_code := 132608;
  sh_num_physpages := 1024;
  machine := bytes_of "i686" ++ [0; 0; 0; 0];
  version := bytes_of "#1 Thu Dec 18 03:00:";
  num_cpus := 1;
  page_size := 4096;
  suspend_pagedir := ADDRESS 4;
  num_pbes := 3
|}.

Definition ex_foreign_disk : gmap (Z * Z) page :=
  {[ (hda2, 0) := PgSwap [] (bytes_of "S2SUSP" ++ [5; 0; 0; 0]);
     (hda2, 5) := PgHeader ex_foreign_header 4 ]}.

(** A cold boot from a device that holds plain swap, and a boot with
    nothing configured. *)
Definition ex_cold_boot : kstate :=
  ex_booting {[ (hda2, 0) := plain_swap_page ]} [ADDRESS 20].

Definition ex_no_resume : kstate :=
  set_resume_file (repeat 0 256) ex_cold_boot.

End examples.

(** ** The marker and the I/O log *)

(** The three states the specification gives the marker.  No magic of
    the code stands for [SuspendPending]. *)
Inductive marker := NormalSwap | SuspendPending | SuspendCommitted.

(** The state of a marker page, by the tests of read_suspend_image. *)
Definition marker_of {plat : platform} (pg : page) : option marker :=
  match swh_magic pg with
  | Some m =>
      if (memcmp (bytes_of "SWAP-SPACE") m 10 =? 0) || (memcmp (bytes_of "SWAPSPACE2") m 10 =? 0)
      then Some NormalSwap
      else if (memcmp (bytes_of "S1") m 2 =? 0) || (memcmp (bytes_of "S2") m 2 =? 0)
      then Some SuspendCommitted
      else None
  | None => None
  end.

(** The transitions of the specification, and those of the code. *)
Definition specified_step (a b : marker) : Prop :=
  (a = NormalSwap /\ b = SuspendPending)
  \/ (a = SuspendPending /\ b = SuspendCommitted)
  \/ (a = SuspendCommitted /\ b = NormalSwap).

Definition commit_step (a b : marker) : Prop :=
  a = NormalSwap /\ b = SuspendCommitted.

Definition revert_step (a b : marker) : Prop :=
  a = SuspendCommitted /\ b = NormalSwap.

(** A history of marker pages moves only by [step]: two successive
    pages are the same page, or markers related by [step]. *)
Definition moves_by {plat : platform} (step : marker -> marker -> Prop) (history : list page)
  : Prop :=
  forall i a b, history !! i = Some a -> history !! S i = Some b ->
    a = b \/ exists ma mb, marker_of a = Some ma /\ marker_of b = Some mb /\ step ma mb.

(** The pages written to one slot, in order, and a disk after a log. *)
Fixpoint writes_to (slot : Z * Z) (log : list io_event) : list page :=
  match log with
  | [] => []
  | IoWrite dev blk content :: rest =>
      if decide ((dev, blk) = slot) then content :: writes_to slot rest
      else writes_to slot rest
  | _ :: rest => writes_to slot rest
  end.

Fixpoint replay (log : list io_event) (d : gmap (Z * Z) page) : gmap (Z * Z) page :=
  match log with
  | [] => d
  | IoWrite dev blk content :: rest => replay rest (<[(dev, blk) := content]> d)
  | _ :: rest => replay rest d
  end.

(** The page mark_swapfiles writes back over the marker page [cur], or
    [None] where it panics or cannot tell the magic. *)
Definition marked {plat : platform} (prev mode : Z) (cur : page) : option page :=
  match swh_magic cur with
  | None => None
  | Some magic =>
      if mode =? 2 then
        if memcmp (bytes_of "S1") magic 2 =? 0
        then Some (set_swh_magic (memcpy magic (bytes_of "SWAP-SPACE") 10) cur)
        else if memcmp (bytes_of "S2") magic 2 =? 0
        then Some (set_swh_magic (memcpy magic (bytes_of "SWAPSPACE2") 10) cur)
        else Some cur
      else
        if memcmp (bytes_of "SWAP-SPACE") magic 10 =? 0
        then Some (set_link_next prev
                     (set_swh_magic (memcpy magic (bytes_of "S1SUSP....") 10) cur))
        else if memcmp (bytes_of "SWAPSPACE2") magic 10 =? 0
        then Some (set_link_next prev
                     (set_swh_magic (memcpy magic (bytes_of "S2SUSP....") 10) cur))
        else None
  end.

(** The slot mark_swapfiles reads and writes. *)
Definition marker_slot {plat : platform} (s : kstate) : option (Z * Z) :=
  swap_slot s (swp_entry (root_swap s) 0).

(** The history of the marker over a run from [s] to [s']: the page the
    slot held, then the pages the run wrote to it. *)
Definition marker_history (slot : Z * Z) (s s' : kstate) : list page :=
  match disk s !! slot with
  | Some old => [old]
  | None => []
  end ++ writes_to slot (drop (length (io_log s)) (io_log s')).

(** ** The writer, loop by loop

    The state after [j] rounds of each of the two loops of
    write_suspend_image, written out: which slots get_swap_page has
    handed out, what went to the device, what the directory holds.  The
    lemmas on the loops relate them to these. *)

Section writer_states.

Context {plat : platform}.

Definition null_pbe : pbe := mk_pbe 0 0 0 0.

Definition slot_of (s : kstate) (entry : Z) : Z * Z :=
  default (0, 0) (swap_slot s entry).

Definition IoWrite_at (slot : Z * Z) (content : page) : io_event :=
  IoWrite (fst slot) (snd slot) content.

(** The slot get_swap_page hands out in round [j]. *)
Definition entry_at (s : kstate) (j : nat) : Z := nth j (swap_oracle s) 0.

Fixpoint data_pd (s : kstate) (j : nat) : list pbe :=
  match j with
  | O => pagedir s
  | S j' => alter (set_swap_address (entry_at s j')) j' (data_pd s j')
  end.

(** The page the writer sends out for entry [i] of the directory. *)
Definition saved_page (s : kstate) (i : nat) : page :=
  mem_read s (page_address (virt_to_page (address (nth i (pagedir s) null_pbe)))).

Fixpoint data_log (s : kstate) (j : nat) : list io_event :=
  match j with
  | O => []
  | S j' => data_log s j' ++ [IoWrite_at (slot_of s (entry_at s j')) (saved_page s j')]
  end.

Definition written_data (s : kstate) (j : nat) : kstate :=
  set_pagedir (data_pd s j)
    (set_io_log (io_log s ++ data_log s j)
       (set_disk (replay (data_log s j) (disk s))
          (set_swap_oracle (skipn j (swap_oracle s)) s))).

(** [prev] at the start of round [j] of the second loop. *)
Definition dir_prev (s : kstate) (j : nat) : Z :=
  match j with
  | O => 0
  | S j' => entry_at s j'
  end.

Fixpoint dir_pd (s : kstate) (j : nat) : list pbe :=
  match j with
  | O => pagedir s
  | S j' => alter (set_dummy (dir_prev s j')) (pred (S j' * PBES_PER_PAGE)) (dir_pd s j')
  end.

Fixpoint dir_log (s : kstate) (j : nat) : list io_event :=
  match j with
  | O => []
  | S j' =>
      dir_log s j'
      ++ [IoWrite_at (slot_of s (entry_at s j')) (PgDir (dir_page (dir_pd s (S j')) j'))]
  end.

Definition written_dirs (s : kstate) (j : nat) : kstate :=
  set_pagedir (dir_pd s j)
    (set_io_log (io_log s ++ dir_log s j)
       (set_disk (replay (dir_log s j) (disk s))
          (set_swap_oracle (skipn j (swap_oracle s)) s))).

(** The header fill_suspend_header makes, and the state once the header
    page is on the device: the data pages, the directory pages, then the
    header in the next slot, linked to the last directory page. *)
Definition image_header (sys : system) (s : kstate) : suspend_header :=
  mk_sh (LINUX_VERSION_CODE sys) (num_physpages sys)
        (strncpy_buf (utsname_machine sys) 8) (strncpy_buf (utsname_version sys) 20)
        (num_online_cpus sys) PAGE_SIZE (pagedir_nosave s) (nr_copy_pages s).

Definition data_pages (s : kstate) : nat := Z.to_nat (nr_copy_pages s).
Definition dir_pages (s : kstate) : nat := Z.to_nat (SUSPEND_PD_PAGES (nr_copy_pages s)).

Definition written_chain (s : kstate) : kstate :=
  written_dirs (written_data s (data_pages s)) (dir_pages s).

Definition header_slot (s : kstate) : Z := entry_at (written_chain s) 0.

Definition header_page (sys : system) (s : kstate) : page :=
  PgHeader (image_header sys s) (dir_prev (written_data s (data_pages s)) (dir_pages s)).

Definition written_image (sys : system) (s : kstate) : kstate :=
  let s3 := written_chain s in
  set_io_log (io_log s3 ++ [IoWrite_at (slot_of s (header_slot s)) (header_page sys s)])
    (set_disk (<[slot_of s (header_slot s) := header_page sys s]> (disk s3))
       (set_swap_oracle (skipn 1 (swap_oracle s3)) s3)).

Definition image_log (sys : system) (s : kstate) : list io_event :=
  data_log s (data_pages s)
  ++ dir_log (written_data s (data_pages s)) (dir_pages s)
  ++ [IoWrite_at (slot_of s (header_slot s)) (header_page sys s)].

(** The device and the log of what was done to it. *)
Definition on_device (s : kstate) := (disk s, io_log s).

(** What a run added to the I/O log, the device following the log. *)
Definition logged (s s' : kstate) (new : list io_event) : Prop :=
  io_log s' = io_log s ++ new /\ disk s' = replay new (disk s).

(** A slot that passes the two checks of the writer and names a block. *)
Definition usable_slot (s : kstate) (entry : Z) : Prop :=
  entry <> 0
  /\ swapfile_used_at s (Z.to_nat (swp_type entry)) = SWAPFILE_SUSPEND
  /\ is_Some (swap_slot s entry).

(** ** The chain of directory pages

    [next.val] after PREPARENEXT, for the link word [next]. *)
Definition position (next : Z) : Z := ulong (swp_offset next * PAGE_SIZE).

(** From the link word [next] the device holds the directory pages
    [pages], each given with its block, each linked to the following one,
    the last to the empty entry. *)
Fixpoint chain (d : gmap (Z * Z) page) (bdev : Z) (next : Z) (pages : list (Z * list pbe))
  : Prop :=
  match pages with
  | [] => position next = 0
  | (blk, pg) :: rest =>
      position next <> 0
      /\ blk = link_block next
      /\ d !! (bdev, blk) = Some (PgDir pg)
      /\ length pg = PBES_PER_PAGE
      /\ chain d bdev (default 0 (link_next (PgDir pg))) rest
  end.

(** The first [m] slots get_swap_page hands out are distinct blocks of
    [bdev] past block 0, and [swp_offset * PAGE_SIZE] does not wrap in an
    unsigned long: the writer goes by the offset, the reader by that
    product, and the directory loop of the reader stops on a [next.val]
    of 0. *)
Definition image_slots (s : kstate) (bdev : Z) (m : nat) : Prop :=
  Forall (fun e =>
            swap_slot s e = Some (bdev, swp_offset e)
            /\ 0 < swp_offset e
            /\ swp_offset e * PAGE_SIZE < 2 ^ BITS_PER_LONG
            /\ 0 <= e < 2 ^ BITS_PER_LONG)
         (firstn m (swap_oracle s))
  /\ NoDup (map swp_offset (firstn m (swap_oracle s)))
  /\ (m <= length (swap_oracle s))%nat.


(** The buffers of the first [length l] entries of the directory are
    distinct pages of the linear mapping, none of them among the frames [l]
    to copy or among the pages the allocator is going to hand out. *)
Definition buffers_apart (s : kstate) (l : list Z) : Prop :=
  let bufs := map address (firstn (length l) (pagedir s)) in
  NoDup bufs
  /\ Forall (fun a => page_address (virt_to_page a) = a
                      /\ (a ∉ map ADDRESS l) /\ (a ∉ page_oracle s)) bufs.

(** The pages the allocator is going to hand out are distinct, and a
    block of 2^order pages at any of them lies inside the address space. *)
Definition allocator_ok (s : kstate) (order : Z) : Prop :=
  NoDup (page_oracle s)
  /\ Forall (fun a => a <> 0 -> block_in_space order a) (page_oracle s).

(** The directory pages of [s], in the order the reader meets them:
    page [k - 1] first. *)
Definition pages_written (s : kstate) (k : nat) : list (Z * list pbe) :=
  map (fun i => (swp_offset (entry_at s i), dir_page (dir_pd s k) i)) (rev (seq 0 k)).

End writer_states.

(** The test swsusp_read applies to what read_suspend_image returned:
    [if (!error) ... else printk("%sError %d resuming\n", ...)]. *)
Definition is_error (error : Z) : Prop := error <> 0.

(** * Proofs *)

Section proofs.

Context {plat : platform}.
Variable sys : system.

(** ** C strings *)

Lemma strncmp_cstring n : forall a b,
  strncmp a b n = 0 <-> cstring n a = cstring n b.
Proof.
  induction n as [|n IH]; intros a b; simpl; [tauto|].
  destruct (Z.eqb_spec (hd 0 a) (hd 0 b)) as [E|E].
  - rewrite <- E. destruct (Z.eqb_spec (hd 0 a) 0) as [Z0|Z0]; [tauto|].
    rewrite IH. split; [intros ->; reflexivity | intros H; congruence].
  - split; [lia|].
    destruct (Z.eqb_spec (hd 0 a) 0), (Z.eqb_spec (hd 0 b) 0); congruence.
Qed.

Lemma cstring_strncpy_buf n : forall src,
  cstring n (strncpy_buf src n) = cstring n src.
Proof.
  induction n as [|n IH]; intros src; [reflexivity|].
  cbn [strncpy_buf cstring].
  destruct (Z.eqb_spec (hd 0 src) 0) as [E|E].
  - destruct n; reflexivity.
  - cbn [hd tl]. destruct (Z.eqb_spec (hd 0 src) 0); [contradiction|].
    now rewrite IH.
Qed.

(** ** sanity_check *)

Lemma sanity_check_values sh : sanity_check sys sh = 0 \/ sanity_check sys sh = - EPERM.
Proof.
  unfold sanity_check, sanity_check_failed.
  repeat match goal with |- context [negb ?b] => destruct b; cbn [negb] end; auto.
Qed.

Lemma sanity_check_ok sh :
  sanity_check sys sh = 0 <-> forall f, field_matches sys sh f.
Proof.
  unfold sanity_check, sanity_check_failed, EPERM. split.
  - intros H f.
    destruct (Z.eqb_spec (version_code sh) (LINUX_VERSION_CODE sys)); cbn [negb] in H; [|lia].
    destruct (Z.eqb_spec (sh_num_physpages sh) (num_physpages sys)); cbn [negb] in H; [|lia].
    destruct (Z.eqb_spec (strncmp (machine sh) (utsname_machine sys) 8) 0) as [E1|];
      cbn [negb] in H; [|lia].
    destruct (Z.eqb_spec (strncmp (version sh) (utsname_version sys) 20) 0) as [E2|];
      cbn [negb] in H; [|lia].
    destruct (Z.eqb_spec (num_cpus sh) (num_online_cpus sys)); cbn [negb] in H; [|lia].
    destruct (Z.eqb_spec (page_size sh) PAGE_SIZE); cbn [negb] in H; [|lia].
    apply strncmp_cstring in E1, E2. destruct f; assumption.
  - intros H.
    pose proof (H F_version_code) as H1. pose proof (H F_num_physpages) as H2.
    pose proof (H F_machine) as H3. pose proof (H F_version) as H4.
    pose proof (H F_num_cpus) as H5. pose proof (H F_page_size) as H6.
    cbn [field_matches] in H1, H2, H3, H4, H5, H6.
    apply strncmp_cstring in H3, H4.
    rewrite H1, H2, H3, H4, H5, H6, !Z.eqb_refl. reflexivity.
Qed.

(** ** Running the monad *)

Lemma bind_ret_run {A B} (m : M A) (k : A -> M B) s a s' :
  m s = (Ret a, s') -> bind m k s = k a s'.
Proof. intros H. unfold bind. now rewrite H. Qed.

Lemma bind_fatal_run {A B} (m : M A) (k : A -> M B) s f s' :
  m s = (Fatal f, s') -> bind m k s = (Fatal f, s').
Proof. intros H. unfold bind. now rewrite H. Qed.

(** ** Positions on the device *)

Context {ok : platform_ok plat}.

Lemma PAGE_SIZE_pos : 0 < PAGE_SIZE.
Proof. unfold PAGE_SIZE. apply Z.pow_pos_nonneg; [lia | apply PAGE_SHIFT_nonneg]. Qed.

Lemma BITS_PER_LONG_split :
  2 ^ BITS_PER_LONG = PAGE_SIZE * 2 ^ (BITS_PER_LONG - PAGE_SHIFT)
  /\ 2 ^ (BITS_PER_LONG - 1) = PAGE_SIZE * 2 ^ (BITS_PER_LONG - 1 - PAGE_SHIFT).
Proof.
  pose proof PAGE_SHIFT_nonneg. pose proof PAGE_SHIFT_small.
  unfold PAGE_SIZE. rewrite <- !Z.pow_add_r by lia. split; f_equal; lia.
Qed.

(** Passing an unsigned long where a long is expected and converting
    back changes nothing. *)
Lemma ulong_to_long v : ulong (to_long v) = ulong v.
Proof.
  assert (Hnz : 2 ^ BITS_PER_LONG <> 0) by (apply Z.pow_nonzero; unfold BITS_PER_LONG; lia).
  assert (Hu : ulong (ulong v) = ulong v) by (unfold ulong; now apply Z.mod_mod).
  unfold to_long. destruct (_ <? _); [exact Hu|].
  unfold ulong at 1. rewrite <- (Z.mul_1_l (2 ^ BITS_PER_LONG)) at 1.
  rewrite <- Z.add_opp_r, <- Z.mul_opp_l, Z.mod_add by exact Hnz. exact Hu.
Qed.

(** A position computed by PREPARENEXT is a multiple of the page size,
    so the BUG_ON of bdev_read_page does not fire on it. *)
Lemma to_long_page_multiple x :
  ulong (to_long (ulong (x * PAGE_SIZE))) mod PAGE_SIZE = 0.
Proof.
  pose proof PAGE_SIZE_pos as Hp. destruct BITS_PER_LONG_split as [Hw _].
  pose proof PAGE_SHIFT_nonneg. pose proof PAGE_SHIFT_small.
  rewrite ulong_to_long.
  assert (Hu : ulong (ulong (x * PAGE_SIZE)) = ulong (x * PAGE_SIZE)).
  { unfold ulong. apply Z.mod_mod. apply Z.pow_nonzero; unfold BITS_PER_LONG; lia. }
  rewrite Hu. unfold ulong. rewrite Hw.
  rewrite (Z.mul_comm PAGE_SIZE), Z.mul_mod_distr_r; [|apply Z.pow_nonzero; lia|lia].
  apply Z.mod_mul. lia.
Qed.

(** The block bdev_read_page reads at such a position. *)
Lemma to_long_page_block x :
  ulong (to_long (ulong (x * PAGE_SIZE))) / PAGE_SIZE = ulong (x * PAGE_SIZE) / PAGE_SIZE.
Proof.
  rewrite ulong_to_long. f_equal. unfold ulong. apply Z.mod_mod.
  apply Z.pow_nonzero; unfold BITS_PER_LONG; lia.
Qed.


Lemma magic_bytes :
  bytes_of "S1" = [83; 49] /\ bytes_of "S2" = [83; 50]
  /\ bytes_of "SWAP-SPACE" = [83; 87; 65; 80; 45; 83; 80; 65; 67; 69]
  /\ bytes_of "SWAPSPACE2" = [83; 87; 65; 80; 83; 80; 65; 67; 69; 50]
  /\ bytes_of "S1SUSP...." = [83; 49; 83; 85; 83; 80; 46; 46; 46; 46]
  /\ bytes_of "S2SUSP...." = [83; 50; 83; 85; 83; 80; 46; 46; 46; 46].
Proof. repeat split; vm_compute; reflexivity. Qed.

Ltac magic :=
  let E1 := fresh in let E2 := fresh in let E3 := fresh in
  let E4 := fresh in let E5 := fresh in let E6 := fresh in
  destruct magic_bytes as (E1 & E2 & E3 & E4 & E5 & E6);
  rewrite ?E1, ?E2, ?E3, ?E4, ?E5, ?E6 in *; clear E1 E2 E3 E4 E5 E6.

Lemma committed_not_plain m :
  memcmp (bytes_of "S1") m 2 = 0 \/ memcmp (bytes_of "S2") m 2 = 0 ->
  (memcmp (bytes_of "SWAP-SPACE") m 10 =? 0) || (memcmp (bytes_of "SWAPSPACE2") m 10 =? 0) = false.
Proof.
  magic. intros H.
  assert (E : hd 0 (tl m) = 49 \/ hd 0 (tl m) = 50).
  { cbn [memcmp hd tl] in H. destruct (Z.eqb_spec 83 (hd 0 m)); [|lia].
    destruct (Z.eqb_spec 49 (hd 0 (tl m))), (Z.eqb_spec 50 (hd 0 (tl m))); lia. }
  cbn [memcmp hd tl]. destruct (Z.eqb_spec 83 (hd 0 m)).
  - destruct E as [-> | ->]; reflexivity.
  - destruct (Z.eqb_spec (83 - hd 0 m) 0); [lia | reflexivity].
Qed.


Lemma bind_gets {A B} (f : kstate -> A) (k : A -> M B) s : bind (gets f) k s = k (f s) s.
Proof. reflexivity. Qed.
Lemma bind_modify {B} (f : kstate -> kstate) (k : unit -> M B) s :
  bind (modify f) k s = k tt (f s).
Proof. reflexivity. Qed.
Lemma bind_ret {A B} (a : A) (k : A -> M B) s : bind (ret a) k s = k a s.
Proof. reflexivity. Qed.
Lemma bind_fail {A B} f (k : A -> M B) s : bind (fail f) k s = (Fatal f, s).
Proof. reflexivity. Qed.
Lemma bind_assoc {A B C} (m : M A) (k1 : A -> M B) (k2 : B -> M C) s :
  bind (bind m k1) k2 s = bind m (fun a => bind (k1 a) k2) s.
Proof. unfold bind. destruct (m s) as [[a|f] s']; reflexivity. Qed.
Lemma bind_BUG_ON_false {B} (k : unit -> M B) s : bind (BUG_ON false) k s = k tt s.
Proof. reflexivity. Qed.
Lemma bind_BUG_ON_true {B} (k : unit -> M B) s : bind (BUG_ON true) k s = (Fatal BUG, s).
Proof. reflexivity. Qed.

Ltac ksimpl :=
  cbn [PageNosave mem page_oracle freed nr_free_pages free_region region_oracle
       swap_info swap_oracle freeswap disk io_log pagedir_order_check
       nr_copy_pages_check resume_file resume_device nr_copy_pages pagedir_nosave
       pagedir_save pagedir_order swapfile_used root_swap pagedir
       set_PageNosave set_mem set_page_oracle set_freed set_free_region
       set_region_oracle set_swap_info set_swap_oracle set_disk set_io_log
       set_pagedir_order_check set_nr_copy_pages_check set_resume_file
       set_resume_device set_nr_copy_pages set_pagedir_nosave set_pagedir_save
       set_pagedir_order set_swapfile_used set_root_swap set_pagedir] in *.

Ltac mstep :=
  repeat first
    [ rewrite bind_assoc
    | rewrite bind_gets
    | rewrite bind_modify
    | rewrite bind_ret
    | rewrite bind_fail
    | rewrite bind_BUG_ON_false
    | rewrite bind_BUG_ON_true ];
  cbv beta; ksimpl.

Lemma bdev_read_page_run bdev pos s :
  ulong pos mod PAGE_SIZE = 0 ->
  bdev_read_page bdev pos s
  = (Ret (disk s !! (bdev, ulong pos / PAGE_SIZE)),
     set_io_log (io_log s ++ [IoRead bdev (ulong pos / PAGE_SIZE)]) s).
Proof.
  intros H. unfold bdev_read_page. rewrite H, Z.eqb_refl. cbn [negb]. mstep.
  reflexivity.
Qed.

Lemma bdev_read_page_0 bdev s :
  bdev_read_page bdev 0 s
  = (Ret (disk s !! (bdev, 0)), set_io_log (io_log s ++ [IoRead bdev 0]) s).
Proof.
  pose proof PAGE_SIZE_pos.
  assert (H0 : ulong 0 = 0) by (unfold ulong; apply Z.mod_0_l, Z.pow_nonzero;
                                unfold BITS_PER_LONG; lia).
  rewrite bdev_read_page_run by (rewrite H0; apply Z.mod_0_l; lia).
  rewrite H0, Z.div_0_l by lia. reflexivity.
Qed.

Lemma read_rejects bdev s r m sh nx :
  disk s !! (bdev, 0) = Some (PgSwap r m) ->
  memcmp (bytes_of "S1") m 2 = 0 \/ memcmp (bytes_of "S2") m 2 = 0 ->
  disk s !! (bdev, link_block (le_value (skipn (10 - sizeof_long) m))) = Some (PgHeader sh nx) ->
  sanity_check sys sh <> 0 ->
  read_suspend_image sys bdev s
  = (Ret (- EPERM),
     set_io_log (io_log s ++ [IoRead bdev 0;
                              IoRead bdev (link_block (le_value (skipn (10 - sizeof_long) m)))]) s).
Proof.
  intros Hm Hc Hh Hs.
  unfold read_suspend_image.
  erewrite bind_ret_run by apply bdev_read_page_0.
  rewrite Hm. cbv zeta. unfold magic_of, next_of. cbn [swh_magic].
  rewrite (committed_not_plain _ Hc).
  unfold PREPARENEXT, next_of. cbn [link_next]. mstep.
  assert (Hc' : (memcmp (bytes_of "S1") m 2 =? 0) || (memcmp (bytes_of "S2") m 2 =? 0) = true).
  { destruct Hc as [-> | ->]; [reflexivity | apply orb_true_r]. }
  rewrite Hc'. cbn [negb].
  erewrite bind_ret_run by (apply bdev_read_page_run, to_long_page_multiple).
  rewrite to_long_page_block.
  ksimpl. fold (link_block (le_value (drop (10 - sizeof_long) m))).
  rewrite Hh. unfold header_of. cbn [sh_view].
  destruct (Z.eqb_spec (sanity_check sys sh) 0) as [|_]; [contradiction|].
  cbn [negb]. unfold ret. f_equal.
  rewrite <- app_assoc. reflexivity.
Qed.

(** ** swsusp_read *)

Lemma strlen_noresume l : strlen (<[O := 0]> l) = O.
Proof. destruct l; reflexivity. Qed.

Lemma get_zeroed_page_run a rest s :
  page_oracle s = a :: rest -> a <> 0 ->
  get_zeroed_page s
  = (Ret a, set_mem (<[a := zero_page]> (mem (set_page_oracle rest s))) (set_page_oracle rest s)).
Proof.
  intros Ho Ha. unfold get_zeroed_page, __get_free_pages, bind. rewrite Ho.
  destruct (Z.eqb_spec a 0); [contradiction|]. reflexivity.
Qed.

Lemma read_plain_swap bdev s r m :
  disk s !! (bdev, 0) = Some (PgSwap r m) ->
  m = bytes_of "SWAP-SPACE" \/ m = bytes_of "SWAPSPACE2" ->
  read_suspend_image sys bdev s
  = (Ret (- EINVAL), set_io_log (io_log s ++ [IoRead bdev 0]) s).
Proof.
  intros Hm Hp. unfold read_suspend_image.
  erewrite bind_ret_run by apply bdev_read_page_0.
  rewrite Hm. cbv zeta. unfold magic_of. cbn [swh_magic].
  assert (E : (memcmp (bytes_of "SWAP-SPACE") m 10 =? 0)
              || (memcmp (bytes_of "SWAPSPACE2") m 10 =? 0) = true).
  { destruct Hp as [-> | ->]; vm_compute; reflexivity. }
  rewrite E. reflexivity.
Qed.

(** C7 (as the code has it): when the marker slot of the resume device
    carries a plain-swap magic ("SWAP-SPACE" or "SWAPSPACE2"),
    read_suspend_image returns -EINVAL after the single read of block 0,
    and swsusp_read hands that error code to its caller having opened the
    device, read block 0 and released the device, with the disk as it
    was. *)
Theorem plain_swap_returns_EINVAL s a rest r m :
  let dev := name_to_dev_t sys (resume_file s) in
  strlen (resume_file s) <> O ->
  page_oracle s = a :: rest -> a <> 0 ->
  open_by_devnum sys dev = 0 ->
  disk s !! (dev, 0) = Some (PgSwap r m) ->
  m = bytes_of "SWAP-SPACE" \/ m = bytes_of "SWAPSPACE2" ->
  read_suspend_image sys dev s
  = (Ret (- EINVAL), set_io_log (io_log s ++ [IoRead dev 0]) s)
  /\ exists s',
      swsusp_read sys s = (Ret (- EINVAL), s')
      /\ io_log s' = io_log s ++ [IoOpen dev; IoRead dev 0; IoPut dev]
      /\ disk s' = disk s.
Proof.
  intros dev Hf Ho Ha Hopen Hm Hp. split; [now apply (read_plain_swap dev s r m)|].
  unfold swsusp_read. mstep.
  destruct (Nat.eqb_spec (strlen (resume_file s)) 0) as [|_]; [contradiction|].
  mstep.
  erewrite bind_ret_run by (apply get_zeroed_page_run with (rest := rest); [exact Ho|exact Ha]).
  destruct (Z.eqb_spec a 0) as [|_]; [contradiction|]. cbn [negb]. mstep.
  fold dev. rewrite Hopen. cbn [Z.eqb]. mstep.
  erewrite bind_ret_run by (apply (read_plain_swap _ _ r m); [exact Hm|exact Hp]).
  mstep. unfold free_page, free_pages. mstep.
  eexists. split; [reflexivity|]. ksimpl. rewrite <- !app_assoc. split; reflexivity.
Qed.

(** C10: with an empty resume file name swsusp_read returns -ENOENT and
    leaves the whole state as it was (no device opened, no slot read or
    written); that is the case after noresume_setup, whatever was
    configured before. *)
Theorem swsusp_read_without_resume_file s :
  (strlen (resume_file s) = O -> swsusp_read sys s = (Ret (- ENOENT), s))
  /\ (forall str,
       let s' := snd (noresume_setup str s) in
       swsusp_read sys s' = (Ret (- ENOENT), s')).
Proof.
  assert (H : forall t, strlen (resume_file t) = O -> swsusp_read sys t = (Ret (- ENOENT), t)).
  { intros t Ht. unfold swsusp_read. mstep. rewrite Ht. reflexivity. }
  split; [apply H|]. intros str s'. apply H.
  subst s'. unfold noresume_setup. mstep. cbn [snd ret]. ksimpl. apply strlen_noresume.
Qed.

(** C3: sanity_check accepts a header that agrees with the running
    system in all six fields, and rejects with -EPERM one that differs in
    exactly one of them; read_suspend_image then returns -EPERM having
    only read the marker and the header slot: nothing of the image is
    stored in the state. *)
Theorem sanity_check_validates :
  (forall sh, (forall f, field_matches sys sh f) -> sanity_check sys sh = 0)
  /\ (forall sh f,
        ~ field_matches sys sh f ->
        (forall g, g <> f -> field_matches sys sh g) ->
        sanity_check sys sh = - EPERM
        /\ forall bdev s r m nx,
            disk s !! (bdev, 0) = Some (PgSwap r m) ->
            memcmp (bytes_of "S1") m 2 = 0 \/ memcmp (bytes_of "S2") m 2 = 0 ->
            let hblock := link_block (le_value (skipn (10 - sizeof_long) m)) in
            disk s !! (bdev, hblock) = Some (PgHeader sh nx) ->
            read_suspend_image sys bdev s
            = (Ret (- EPERM),
               set_io_log (io_log s ++ [IoRead bdev 0; IoRead bdev hblock]) s)).
Proof.
  split.
  - intros sh H. now apply sanity_check_ok.
  - intros sh f Hf _.
    assert (Hne : sanity_check sys sh <> 0).
    { intros E. apply Hf. now apply sanity_check_ok. }
    split.
    + destruct (sanity_check_values sh); [contradiction | assumption].
    + intros bdev s r m nx Hm Hc hblock Hh. now apply (read_rejects bdev s r m sh nx).
Qed.

(** ** The enumerator *)

Lemma examine_page_run pfn s :
  examine_page sys pfn s = (verdict_of sys (PageNosave s) (free_region s) pfn, s).
Proof.
  unfold examine_page, verdict_of. rewrite bind_gets. unfold id.
  destruct (PageReserved sys pfn); cbn [negb].
  - destruct (bool_decide (pfn ∈ PageNosave s)).
    + reflexivity.
    + rewrite bind_BUG_ON_false.
      destruct ((nosave_begin sys <=? ADDRESS pfn) && (ADDRESS pfn <? nosave_end sys));
        reflexivity.
  - destruct (decide (pfn ∈ PageNosave s)); [reflexivity|].
    destruct (negb (free_region s pfn =? 0)%nat); reflexivity.
Qed.

Lemma verdict_skip_advances nosave fr pfn next :
  verdict_of sys nosave fr pfn = Ret (Skip next) -> pfn < next.
Proof.
  unfold verdict_of. intros H.
  destruct (PageReserved sys pfn); cbn [negb] in H.
  - destruct (bool_decide (pfn ∈ nosave)); [discriminate|].
    destruct ((nosave_begin sys <=? ADDRESS pfn) && (ADDRESS pfn <? nosave_end sys));
      inversion H; lia.
  - destruct (decide (pfn ∈ nosave)); [inversion H; lia|].
    destruct (Nat.eqb_spec (fr pfn) 0); cbn [negb] in H; inversion H. lia.
Qed.

(** The loop never runs out of the fuel count_and_copy_data_pages gives
    it: every round moves to a higher frame number. *)
Lemma frames_fuel fuel : forall pfn nosave fr,
  max_pfn sys - pfn <= Z.of_nat fuel ->
  frames sys fuel pfn nosave fr <> Fatal OutOfFuel.
Proof.
  induction fuel as [|fuel IH]; intros pfn nosave fr Hf; cbn [frames];
    destruct (Z.ltb_spec pfn (max_pfn sys)) as [Hlt|Hge]; cbn [negb];
    try discriminate; try lia.
  destruct (verdict_of sys nosave fr pfn) as [[next|]|e] eqn:V.
  - apply IH. apply verdict_skip_advances in V. lia.
  - specialize (IH (pfn + 1) nosave fr ltac:(lia)).
    destruct (frames sys fuel (pfn + 1) nosave fr); [discriminate | congruence].
  - unfold verdict_of in V.
    repeat match type of V with
           | context [if ?b then _ else _] => destruct b
           end; congruence.
Qed.

Lemma frames_spec fuel : forall pfn nosave fr l,
  frames sys fuel pfn nosave fr = Ret l ->
  (forall x, x ∈ l -> pfn <= x < max_pfn sys /\ verdict_of sys nosave fr x = Ret Take)
  /\ NoDup l
  /\ Z.of_nat (length l) <= Z.max 0 (max_pfn sys - pfn).
Proof.
  induction fuel as [|fuel IH]; intros pfn nosave fr l; cbn [frames];
    destruct (Z.ltb_spec pfn (max_pfn sys)) as [Hlt|Hge]; cbn [negb]; intros H;
    try (injection H as <-; split; [intros x Hx; inversion Hx | split; [constructor | cbn; lia]]);
    try discriminate.
  destruct (verdict_of sys nosave fr pfn) as [[next|]|e] eqn:V; [| |discriminate].
  - apply verdict_skip_advances in V.
    destruct (IH _ _ _ _ H) as (Hb & Hn & Hl). split; [|split; [assumption | lia]].
    intros x Hx. destruct (Hb x Hx). split; [lia | assumption].
  - destruct (frames sys fuel (pfn + 1) nosave fr) as [l'|] eqn:F; [|discriminate].
    injection H as <-. destruct (IH _ _ _ _ F) as (Hb & Hn & Hl).
    split; [|split].
    + intros x Hx. apply elem_of_cons in Hx as [-> | Hx]; [split; [lia | assumption]|].
      destruct (Hb x Hx). split; [lia | assumption].
    + constructor; [|assumption]. intros Hin. apply Hb in Hin. lia.
    + cbn [length]. lia.
Qed.

Lemma count_loop_O pfn nr pp s :
  count_loop sys O pfn nr pp s
  = if negb (pfn <? max_pfn sys) then (Ret nr, s) else (Fatal OutOfFuel, s).
Proof. cbn [count_loop]. destruct (negb (pfn <? max_pfn sys)); reflexivity. Qed.

Lemma count_loop_S fuel pfn nr pp s :
  count_loop sys (S fuel) pfn nr pp s
  = if negb (pfn <? max_pfn sys) then (Ret nr, s)
    else match verdict_of sys (PageNosave s) (free_region s) pfn with
         | Fatal e => (Fatal e, s)
         | Ret (Skip next) => count_loop sys fuel next nr pp s
         | Ret Take =>
             bind (take_page sys pfn pp)
                  (fun pp' => count_loop sys fuel (pfn + 1) (nr + 1) pp') s
         end.
Proof.
  cbn [count_loop]. destruct (negb (pfn <? max_pfn sys)); [reflexivity|].
  unfold bind at 1. rewrite examine_page_run.
  destruct (verdict_of sys (PageNosave s) (free_region s) pfn) as [[next|]|e]; reflexivity.
Qed.

Lemma count_loop_None fuel : forall pfn nr s,
  count_loop sys fuel pfn nr None s
  = (match frames sys fuel pfn (PageNosave s) (free_region s) with
     | Ret l => Ret (nr + Z.of_nat (length l))
     | Fatal e => Fatal e
     end, s).
Proof.
  induction fuel as [|fuel IH]; intros pfn nr s;
    [rewrite count_loop_O | rewrite count_loop_S]; cbn [frames];
    destruct (pfn <? max_pfn sys); cbn [negb length];
    try (do 2 f_equal; lia); try reflexivity.
  destruct (verdict_of sys (PageNosave s) (free_region s) pfn) as [[next|]|e]; [| |reflexivity].
  - apply IH.
  - cbn [take_page]. rewrite bind_ret. rewrite IH.
    destruct (frames sys fuel (pfn + 1) (PageNosave s) (free_region s)); [|reflexivity].
    cbn [length]. do 2 f_equal. lia.
Qed.

Lemma take_page_run pfn i p s :
  pagedir s !! i = Some p ->
  kernel_page sys (address p) && kernel_page sys (ADDRESS pfn) = true ->
  take_page sys pfn (Some i) s = (Ret (Some (S i)), take_state pfn i p s).
Proof.
  intros H K. unfold take_page. rewrite bind_gets, H. unfold copy_page.
  cbn [set_orig_address address orig_address]. rewrite K. mstep. reflexivity.
Qed.

(** A pbe whose buffer is not a page of the kernel (NULL, before the
    buffers are allocated) makes the copy fault. *)
Lemma take_page_fault pfn i p s :
  pagedir s !! i = Some p ->
  kernel_page sys (address p) && kernel_page sys (ADDRESS pfn) = false ->
  exists s', take_page sys pfn (Some i) s = (Fatal Oops, s').
Proof.
  intros H K. unfold take_page. rewrite bind_gets, H. unfold copy_page.
  cbn [set_orig_address address orig_address]. rewrite K. mstep. eexists. reflexivity.
Qed.

Lemma take_page_oops pfn i s :
  pagedir s !! i = None -> take_page sys pfn (Some i) s = (Fatal Oops, s).
Proof. intros H. unfold take_page. rewrite bind_gets, H. reflexivity. Qed.

Lemma count_loop_Some fuel : forall pfn nr i s,
  match frames sys fuel pfn (PageNosave s) (free_region s) with
  | Ret l =>
      match fill sys i l s with
      | Some s' => count_loop sys fuel pfn nr (Some i) s = (Ret (nr + Z.of_nat (length l)), s')
      | None => exists s', count_loop sys fuel pfn nr (Some i) s = (Fatal Oops, s')
      end
  | Fatal e => exists e' s', count_loop sys fuel pfn nr (Some i) s = (Fatal e', s')
  end.
Proof.
  induction fuel as [|fuel IH]; intros pfn nr i s;
    [rewrite count_loop_O | rewrite count_loop_S]; cbn [frames];
    destruct (pfn <? max_pfn sys); cbn [negb fill length];
    try (do 2 f_equal; lia); try (do 2 eexists; reflexivity).
  destruct (verdict_of sys (PageNosave s) (free_region s) pfn) as [[next|]|e].
  - apply IH.
  - destruct (pagedir s !! i) as [p|] eqn:Hp.
    + destruct (kernel_page sys (address p) && kernel_page sys (ADDRESS pfn)) eqn:K.
      * erewrite bind_ret_run by (apply take_page_run; [exact Hp | exact K]).
        specialize (IH (pfn + 1) (nr + 1) (S i) (take_state pfn i p s)).
        cbn [take_state PageNosave free_region set_mem set_pagedir] in IH.
        destruct (frames sys fuel (pfn + 1) (PageNosave s) (free_region s)) as [l|e];
          [|exact IH].
        cbn [fill length]. rewrite Hp, K.
        destruct (fill sys (S i) l (take_state pfn i p s)); [|exact IH].
        rewrite IH. do 2 f_equal. lia.
      * destruct (take_page_fault pfn i p s Hp K) as [s' T].
        erewrite bind_fatal_run by exact T.
        destruct (frames sys fuel (pfn + 1) (PageNosave s) (free_region s)) as [l|e].
        -- cbn [fill]. rewrite Hp, K. eexists. reflexivity.
        -- do 2 eexists. reflexivity.
    + erewrite bind_fatal_run by (apply take_page_oops; exact Hp).
      destruct (frames sys fuel (pfn + 1) (PageNosave s) (free_region s)) as [l|e].
      * cbn [fill]. rewrite Hp. eexists. reflexivity.
      * do 2 eexists. reflexivity.
  - do 2 eexists. reflexivity.
Qed.

Lemma frames_ext fuel : forall pfn nosave fr1 fr2,
  (forall x, fr1 x = fr2 x) ->
  frames sys fuel pfn nosave fr1 = frames sys fuel pfn nosave fr2.
Proof.
  induction fuel as [|fuel IH]; intros pfn nosave fr1 fr2 E; cbn [frames]; [reflexivity|].
  destruct (negb (pfn <? max_pfn sys)); [reflexivity|].
  assert (V : verdict_of sys nosave fr1 pfn = verdict_of sys nosave fr2 pfn)
    by (unfold verdict_of; now rewrite E).
  rewrite V. destruct (verdict_of sys nosave fr2 pfn) as [[next|]|e]; [| |reflexivity].
  - now apply IH.
  - now rewrite (IH _ _ _ _ E).
Qed.

Lemma saved_frames_fuel s : saved_frames sys s <> Fatal OutOfFuel.
Proof. apply frames_fuel. lia. Qed.

Lemma count_and_copy_None s :
  count_and_copy_data_pages sys None s
  = (if max_pfn sys =? num_physpages sys
     then match saved_frames sys s with
          | Ret l => Ret (Z.of_nat (length l))
          | Fatal e => Fatal e
          end
     else Fatal BUG, s).
Proof.
  unfold count_and_copy_data_pages.
  destruct (max_pfn sys =? num_physpages sys); cbn [negb]; [|reflexivity].
  rewrite bind_BUG_ON_false, count_loop_None. reflexivity.
Qed.

Lemma count_and_copy_Some s :
  if max_pfn sys =? num_physpages sys
  then match saved_frames sys s with
       | Ret l =>
           match fill sys O l s with
           | Some s' =>
               count_and_copy_data_pages sys (Some O) s = (Ret (Z.of_nat (length l)), s')
           | None => exists s', count_and_copy_data_pages sys (Some O) s = (Fatal Oops, s')
           end
       | Fatal e => exists e' s', count_and_copy_data_pages sys (Some O) s = (Fatal e', s')
       end
  else count_and_copy_data_pages sys (Some O) s = (Fatal BUG, s).
Proof.
  unfold count_and_copy_data_pages.
  destruct (max_pfn sys =? num_physpages sys); cbn [negb]; [|reflexivity].
  rewrite bind_BUG_ON_false. apply (count_loop_Some _ 0 0 O s).
Qed.

Lemma count_and_copy_Some_inv s n s' :
  count_and_copy_data_pages sys (Some O) s = (Ret n, s') ->
  exists l, saved_frames sys s = Ret l /\ fill sys O l s = Some s' /\ n = Z.of_nat (length l).
Proof.
  intros H. pose proof (count_and_copy_Some s) as C.
  destruct (max_pfn sys =? num_physpages sys); [|congruence].
  destruct (saved_frames sys s) as [l|e].
  - destruct (fill sys O l s) as [s''|] eqn:F.
    + rewrite H in C. injection C as -> ->. eauto.
    + destruct C as [? C]. congruence.
  - destruct C as (? & ? & C). congruence.
Qed.

(** *** The state the copying pass leaves *)

Lemma take_state_length pfn i p s :
  length (pagedir (take_state pfn i p s)) = length (pagedir s).
Proof. cbn. apply length_insert. Qed.

Lemma fill_room l : forall i s,
  (i + length l <= length (pagedir s))%nat ->
  Forall (fun x => kernel_page sys (ADDRESS x) = true) l ->
  (forall j p, (i <= j < i + length l)%nat -> pagedir s !! j = Some p ->
     kernel_page sys (address p) = true) ->
  is_Some (fill sys i l s).
Proof.
  induction l as [|x l IH]; intros i s H Hl Hb; cbn [fill]; [eauto|].
  cbn [length] in H, Hb. inversion Hl as [|? ? Hx Hl']; subst.
  destruct (lookup_lt_is_Some_2 (pagedir s) i ltac:(lia)) as [p Hp]. rewrite Hp.
  rewrite (Hb i p ltac:(lia) Hp), Hx. cbn [andb].
  apply IH; [rewrite take_state_length; lia | exact Hl' |].
  intros j q Hj Hq. apply (Hb j q); [lia|].
  rewrite <- Hq. cbn [take_state pagedir set_mem set_pagedir].
  symmetry. apply list_lookup_insert_ne. lia.
Qed.

Lemma fill_pagedir l : forall i s s',
  fill sys i l s = Some s' ->
  length (pagedir s') = length (pagedir s)
  /\ (forall j, (j < i \/ i + length l <= j)%nat -> pagedir s' !! j = pagedir s !! j)
  /\ (forall j x, l !! j = Some x ->
        exists p, pagedir s !! (i + j)%nat = Some p
                  /\ pagedir s' !! (i + j)%nat = Some (set_orig_address (ADDRESS x) p)).
Proof.
  induction l as [|x l IH]; intros i s s'; cbn [fill].
  - intros [= <-]. split; [reflexivity|]. split; [reflexivity|]. intros j y Hj. inversion Hj.
  - destruct (pagedir s !! i) as [p|] eqn:Hp; [|discriminate].
    destruct (kernel_page sys (address p) && kernel_page sys (ADDRESS x)); [|discriminate].
    intros F.
    destruct (IH _ _ _ F) as (Hl & Hout & Hin). rewrite take_state_length in Hl.
    split; [exact Hl|]. split.
    + intros j Hj. cbn [length] in Hj. rewrite Hout by lia.
      cbn [take_state pagedir set_mem set_pagedir]. apply list_lookup_insert_ne. lia.
    + intros [|j] y Hj.
      * injection Hj as <-. rewrite Nat.add_0_r. exists p. split; [exact Hp|].
        rewrite Hout by lia. cbn. apply list_lookup_insert_eq.
        now apply lookup_lt_Some with p.
      * cbn in Hj. destruct (Hin j y Hj) as (q & Hq & Hq').
        replace (i + S j)%nat with (S i + j)%nat by lia.
        exists q. split; [|exact Hq'].
        rewrite <- Hq. cbn. symmetry. apply list_lookup_insert_ne. lia.
Qed.

Lemma fill_frame l : forall i s s',
  fill sys i l s = Some s' ->
  PageNosave s' = PageNosave s /\ page_oracle s' = page_oracle s /\ freed s' = freed s
  /\ nr_free_pages s' = nr_free_pages s /\ free_region s' = free_region s
  /\ region_oracle s' = region_oracle s /\ swap_info s' = swap_info s
  /\ swap_oracle s' = swap_oracle s /\ freeswap s' = freeswap s /\ disk s' = disk s
  /\ io_log s' = io_log s /\ nr_copy_pages s' = nr_copy_pages s
  /\ pagedir_nosave s' = pagedir_nosave s /\ pagedir_save s' = pagedir_save s
  /\ pagedir_order s' = pagedir_order s /\ swapfile_used s' = swapfile_used s
  /\ root_swap s' = root_swap s.
Proof.
  induction l as [|x l IH]; intros i s s'; cbn [fill].
  - intros [= <-]. repeat split.
  - destruct (pagedir s !! i) as [p|]; [|discriminate].
    destruct (kernel_page sys (address p) && kernel_page sys (ADDRESS x)); [|discriminate].
    intros F. apply IH in F. exact F.
Qed.

(** *** ADDRESS on the frames of the machine *)

Lemma ADDRESS_lowmem pfn :
  lowmem_ok sys -> 0 <= pfn < max_pfn sys ->
  ADDRESS pfn = PAGE_OFFSET + pfn * PAGE_SIZE.
Proof.
  intros (H0 & H31 & Hw) Hp. pose proof PAGE_SIZE_pos.
  assert (0 <= pfn * PAGE_SIZE < 2 ^ 31) by nia.
  unfold ADDRESS, to_int, ulong.
  rewrite (Z.mod_small (pfn * PAGE_SIZE + 2 ^ 31)) by lia.
  rewrite Z.mod_small by nia. lia.
Qed.

Lemma ADDRESS_inj pfn1 pfn2 :
  lowmem_ok sys -> 0 <= pfn1 < max_pfn sys -> 0 <= pfn2 < max_pfn sys ->
  ADDRESS pfn1 = ADDRESS pfn2 -> pfn1 = pfn2.
Proof.
  intros L H1 H2. rewrite !ADDRESS_lowmem by assumption. pose proof PAGE_SIZE_pos. nia.
Qed.

Lemma virt_to_page_ADDRESS x :
  lowmem_ok sys -> 0 <= x < max_pfn sys -> virt_to_page (ADDRESS x) = x.
Proof.
  intros L Hx. rewrite (ADDRESS_lowmem _ L Hx). destruct L as (H0 & H31 & Hw).
  pose proof PAGE_SIZE_pos. unfold virt_to_page, ulong.
  replace (PAGE_OFFSET + x * PAGE_SIZE - PAGE_OFFSET) with (x * PAGE_SIZE) by lia.
  rewrite Z.mod_small by nia. apply Z.div_mul. lia.
Qed.

(** The frames of the machine are pages the kernel can copy. *)
Lemma kernel_page_ADDRESS x :
  lowmem_ok sys -> 0 <= x < max_pfn sys -> kernel_page sys (ADDRESS x) = true.
Proof.
  intros L Hx. unfold kernel_page. rewrite (virt_to_page_ADDRESS _ L Hx).
  rewrite (ADDRESS_lowmem _ L Hx). destruct L as (H0 & H31 & Hw).
  pose proof PAGE_SIZE_pos. unfold page_address, ulong.
  rewrite Z.mod_small by nia.
  apply andb_true_intro. split; [apply Z.eqb_eq; lia | apply Z.ltb_lt; lia].
Qed.

Lemma saved_frames_kernel_pages s l :
  lowmem_ok sys -> saved_frames sys s = Ret l ->
  Forall (fun x => kernel_page sys (ADDRESS x) = true) l.
Proof.
  intros L F. apply frames_spec in F as (Hb & _ & _).
  apply Forall_forall. intros x Hx. apply kernel_page_ADDRESS; [exact L|].
  apply Hb. exact Hx.
Qed.

Ltac mstep_in H :=
  repeat first
    [ rewrite bind_assoc in H
    | rewrite bind_gets in H
    | rewrite bind_modify in H
    | rewrite bind_ret in H
    | rewrite bind_fail in H
    | rewrite bind_BUG_ON_false in H
    | rewrite bind_BUG_ON_true in H ];
  cbv beta in H; ksimpl.

Lemma bind_Ret_inv {A B} (m : M A) (k : A -> M B) s b s' :
  bind m k s = (Ret b, s') ->
  exists a s1, m s = (Ret a, s1) /\ k a s1 = (Ret b, s').
Proof.
  unfold bind. destruct (m s) as [[a|f] s1]; [eauto | discriminate].
Qed.

Lemma saved_frames_count s l :
  lowmem_ok sys -> saved_frames sys s = Ret l ->
  0 <= Z.of_nat (length l) <= 2 ^ 31.
Proof.
  intros (_ & H31 & _) F. apply frames_spec in F as (_ & _ & Hl).
  pose proof PAGE_SIZE_pos. split; [lia|].
  assert (max_pfn sys <= 2 ^ 31) by nia. lia.
Qed.

(** C9: the orig_address values the copying pass records in the
    directory are pairwise distinct (on a machine whose frames all lie in
    the kernel's linear mapping). *)
Theorem orig_addresses_distinct s n s' :
  lowmem_ok sys ->
  count_and_copy_data_pages sys (Some O) s = (Ret n, s') ->
  forall i j p q,
    (i < Z.to_nat n)%nat -> (j < Z.to_nat n)%nat -> i <> j ->
    pagedir s' !! i = Some p -> pagedir s' !! j = Some q ->
    orig_address p <> orig_address q.
Proof.
  intros L H i j p q Hi Hj Hne Hp Hq.
  apply count_and_copy_Some_inv in H as (l & F & Hfill & ->).
  rewrite Nat2Z.id in Hi, Hj.
  destruct (lookup_lt_is_Some_2 l i Hi) as [x Hx].
  destruct (lookup_lt_is_Some_2 l j Hj) as [y Hy].
  destruct (fill_pagedir _ _ _ _ Hfill) as (_ & _ & Hin).
  destruct (Hin i x Hx) as (p0 & _ & Hp'). destruct (Hin j y Hy) as (q0 & _ & Hq').
  cbn [Nat.add] in Hp', Hq'. rewrite Hp in Hp'. rewrite Hq in Hq'.
  injection Hp' as ->. injection Hq' as ->. cbn [orig_address set_orig_address].
  apply frames_spec in F as (Hb & Hn & _).
  intros E. apply ADDRESS_inj in E; [|assumption| |].
  - subst y. apply Hne. eapply NoDup_lookup; eassumption.
  - apply Hb. eapply list_elem_of_lookup_2; eassumption.
  - apply Hb. eapply list_elem_of_lookup_2; eassumption.
Qed.

Lemma snapshot_pages_mismatch nr s n2 s' :
  count_and_copy_data_pages sys (Some O) s = (Ret n2, s') ->
  nr <> uint n2 ->
  snapshot_pages sys nr s = (Fatal BUG, s').
Proof.
  intros H Hne. unfold snapshot_pages. erewrite bind_ret_run by exact H.
  destruct (Z.eqb_spec nr (uint n2)); [contradiction | reflexivity].
Qed.

Lemma drain_local_pages_frame s :
  exists f ro, drain_local_pages s = (Ret tt, set_region_oracle ro (set_free_region f s)).
Proof.
  unfold drain_local_pages. destruct (region_oracle s) as [|f rest] eqn:E.
  - exists (free_region s), []. destruct s; cbn in *. now subst.
  - eauto.
Qed.

(** ** Frame properties: what a computation leaves alone *)

Definition preserves {X A} (f : kstate -> X) (m : M A) : Prop :=
  forall s, f (snd (m s)) = f s.

Lemma preserves_bind {X A B} (f : kstate -> X) (m : M A) (k : A -> M B) :
  preserves f m -> (forall a, preserves f (k a)) -> preserves f (bind m k).
Proof.
  intros Hm Hk s. unfold bind. specialize (Hm s).
  destruct (m s) as [[a|e] s1]; cbn [snd] in *; [|exact Hm].
  rewrite <- Hm. apply Hk.
Qed.

Lemma preserves_ret {X A} (f : kstate -> X) (a : A) : preserves f (ret a).
Proof. intros s. reflexivity. Qed.
Lemma preserves_fail {X A} (f : kstate -> X) e : preserves f (fail (A := A) e).
Proof. intros s. reflexivity. Qed.
Lemma preserves_gets {X A} (f : kstate -> X) (g : kstate -> A) : preserves f (gets g).
Proof. intros s. reflexivity. Qed.
Lemma preserves_modify {X} (f : kstate -> X) (g : kstate -> kstate) :
  (forall s, f (g s) = f s) -> preserves f (modify g).
Proof. intros H s. apply H. Qed.
Lemma preserves_BUG_ON {X} (f : kstate -> X) b : preserves f (BUG_ON b).
Proof. intros s. destruct b; reflexivity. Qed.

Lemma preserves_for_up {X A R} (f : kstate -> X) (body : nat -> A -> M (A + R)) count :
  (forall i a, preserves f (body i a)) ->
  forall i acc, preserves f (for_up count i body acc).
Proof.
  intros Hb. induction count as [|c IH]; intros i acc; cbn [for_up].
  - apply preserves_ret.
  - apply preserves_bind; [apply Hb|]. intros [a|r]; [apply IH | apply preserves_ret].
Qed.

Lemma preserves_for_down {X A R} (f : kstate -> X) (body : nat -> A -> M (A + R)) count :
  (forall i a, preserves f (body i a)) ->
  forall acc, preserves f (for_down count body acc).
Proof.
  intros Hb. induction count as [|c IH]; intros acc; cbn [for_down].
  - apply preserves_ret.
  - apply preserves_bind; [apply Hb|]. intros [a|r]; [apply IH | apply preserves_ret].
Qed.

Lemma preserves_run {X A} (f : kstate -> X) (m : M A) s r s' :
  preserves f m -> m s = (r, s') -> f s' = f s.
Proof. intros H E. specialize (H s). now rewrite E in H. Qed.

(** The calls into the page allocator, the swap code and the block
    layer are single steps on the state. *)
Ltac frame_prim :=
  let s := fresh "s" in
  intros s;
  unfold __get_free_pages, get_swap_page, drain_local_pages, TestClearPageNosave,
    rw_swap_page_sync_READ, rw_swap_page_sync_WRITE;
  repeat case_match; reflexivity.

Ltac head_of t :=
  lazymatch t with
  | ?f _ => head_of f
  | _ => t
  end.

Ltac frame_step :=
  lazymatch goal with
  | |- preserves _ (bind _ _) => apply preserves_bind; [|intros ?]
  | |- preserves _ (ret _) => apply preserves_ret
  | |- preserves _ continue => apply preserves_ret
  | |- preserves _ (fail _) => apply preserves_fail
  | |- preserves _ (gets _) => apply preserves_gets
  | |- preserves _ (modify _) => apply preserves_modify; intros ?; reflexivity
  | |- preserves _ (BUG_ON _) => apply preserves_BUG_ON
  | |- preserves _ (for_up _ _ _ _) => apply preserves_for_up; intros ? ?
  | |- preserves _ (for_down _ _ _) => apply preserves_for_down; intros ? ?
  | |- preserves _ (if ?b then _ else _) => destruct b
  | |- preserves _ (match ?x with _ => _ end) => destruct x
  | |- preserves _ (let _ := _ in _) => cbv zeta
  | |- preserves _ (__get_free_pages _) => frame_prim
  | |- preserves _ get_swap_page => frame_prim
  | |- preserves _ drain_local_pages => frame_prim
  | |- preserves _ (TestClearPageNosave _) => frame_prim
  | |- preserves _ (rw_swap_page_sync_READ _) => frame_prim
  | |- preserves _ (rw_swap_page_sync_WRITE _ _) => frame_prim
  | |- preserves _ ?m => let h := head_of m in progress unfold h
  end.

Ltac frame := repeat frame_step.

Lemma create_suspend_pagedir_nr_copy_pages nr :
  preserves nr_copy_pages (create_suspend_pagedir sys nr).
Proof. frame. Qed.

(** What suspend_prepare_image can return to its caller: 1 from one of
    the two tests made before anything is allocated, or 0 after a copying
    pass that agreed with the count. *)
Lemma suspend_prepare_image_returns s r s' :
  suspend_prepare_image sys s = (Ret r, s') ->
  (r = 1 /\ page_oracle s' = page_oracle s /\ PageNosave s' = PageNosave s
   /\ pagedir_nosave s' = 0)
  \/ (r = 0 /\ exists mid n2,
        count_and_copy_data_pages sys (Some O) mid = (Ret n2, s')
        /\ nr_copy_pages mid = uint n2).
Proof.
  unfold suspend_prepare_image. intros H.
  destruct (drain_local_pages_frame s) as (f & ro & D).
  erewrite bind_ret_run in H by exact D. mstep_in H.
  apply bind_Ret_inv in H as (n & s1 & C & H).
  rewrite count_and_copy_None in C. injection C as C <-. mstep_in H.
  destruct (_ <? _) in H.
  - mstep_in H. injection H as <- <-. left. repeat split.
  - mstep_in H. destruct (_ <? _) in H.
    + injection H as <- <-. left. repeat split.
    + apply bind_Ret_inv in H as (pd & s2 & Cr & H). mstep_in H.
      apply (preserves_run _ _ _ _ _ (create_suspend_pagedir_nr_copy_pages _)) in Cr.
      ksimpl.
      destruct (pd =? 0); [discriminate|]. mstep_in H.
      destruct (drain_local_pages_frame
                  (set_pagedir_order_check (pagedir_order s2)
                     (set_nr_copy_pages_check (to_int (nr_copy_pages s2))
                        (set_pagedir_save pd (set_pagedir_nosave pd s2))))) as (f' & ro' & D').
      erewrite bind_ret_run in H by exact D'.
      unfold snapshot_pages in H. apply bind_Ret_inv in H as (n2 & s3 & C2 & H).
      destruct (Z.eqb_spec (uint n) (uint n2)) as [E|]; [|discriminate].
      injection H as <- <-. right. split; [reflexivity|].
      eexists _, n2. split; [exact C2|]. ksimpl. congruence.
Qed.

(** C5: two passes of count_and_copy_data_pages over the same page flags
    and free regions (nothing allocated or freed in between) return the
    same count.  The copying pass copies every page it counts, so this
    is stated for the directory the code gives it: one with room for the
    count whose first [n] entries have a page of the kernel for a buffer,
    on a machine whose frames all lie in the kernel's linear mapping
    ([lowmem_ok]); with a NULL buffer the pass faults in copy_page
    instead ([take_page_fault]).  A copying pass whose count differs from
    the recorded one ends in BUG(), and suspend_prepare_image returns to
    its caller only with 1, before anything is allocated, or with 0
    after two agreeing passes. *)
Theorem two_pass_consistency :
  (forall s1 s2 n,
     lowmem_ok sys ->
     PageNosave s2 = PageNosave s1 ->
     (forall pfn, free_region s2 pfn = free_region s1 pfn) ->
     fst (count_and_copy_data_pages sys None s1) = Ret n ->
     (Z.to_nat n <= length (pagedir s2))%nat ->
     Forall (fun p => kernel_page sys (address p) = true)
            (firstn (Z.to_nat n) (pagedir s2)) ->
     fst (count_and_copy_data_pages sys (Some O) s2) = Ret n)
  /\ (forall nr s n2 s',
        count_and_copy_data_pages sys (Some O) s = (Ret n2, s') ->
        nr <> uint n2 ->
        snapshot_pages sys nr s = (Fatal BUG, s'))
  /\ (forall s r s',
        suspend_prepare_image sys s = (Ret r, s') ->
        (r = 1 /\ page_oracle s' = page_oracle s /\ PageNosave s' = PageNosave s
         /\ pagedir_nosave s' = 0)
        \/ (r = 0 /\ exists mid n2,
              count_and_copy_data_pages sys (Some O) mid = (Ret n2, s')
              /\ nr_copy_pages mid = uint n2)).
Proof.
  split; [|split].
  - intros s1 s2 n L HN HF H1 Hroom Hbuf.
    rewrite count_and_copy_None in H1. cbn [fst] in H1.
    pose proof (count_and_copy_Some s2) as C.
    destruct (max_pfn sys =? num_physpages sys); [|discriminate].
    assert (E : saved_frames sys s2 = saved_frames sys s1).
    { unfold saved_frames. rewrite HN. now apply frames_ext. }
    rewrite E in C. destruct (saved_frames sys s1) as [l|] eqn:Fr; [|discriminate].
    injection H1 as <-. rewrite Nat2Z.id in Hroom, Hbuf.
    destruct (fill_room l O s2 Hroom) as [s' F].
    + exact (saved_frames_kernel_pages s1 l L Fr).
    + intros j p Hj Hp. rewrite Forall_forall in Hbuf. apply Hbuf.
      apply list_elem_of_lookup. exists j. apply lookup_take_Some. split; [exact Hp | lia].
    + rewrite F in C. now rewrite C.
  - apply snapshot_pages_mismatch.
  - apply suspend_prepare_image_returns.
Qed.

(** C6: when the counting pass finds [n] pages and fewer than
    [n + PAGES_FOR_IO] pages are free, or fewer than that many swap slots,
    suspend_prepare_image returns 1 without having taken a page from the
    allocator, set a nosave flag, or touched memory, the directory or the
    disk. *)
Theorem preparation_fails_cleanly s n :
  let s0 := set_pagedir_nosave 0 (snd (drain_local_pages s)) in
  lowmem_ok sys ->
  fst (count_and_copy_data_pages sys None s0) = Ret n ->
  nr_free_pages s < n + PAGES_FOR_IO \/ freeswap s < n + PAGES_FOR_IO ->
  exists s',
    suspend_prepare_image sys s = (Ret 1, s')
    /\ pagedir_nosave s' = 0
    /\ page_oracle s' = page_oracle s /\ freed s' = freed s
    /\ PageNosave s' = PageNosave s /\ mem s' = mem s /\ pagedir s' = pagedir s
    /\ swap_oracle s' = swap_oracle s /\ disk s' = disk s /\ io_log s' = io_log s.
Proof.
  intros s0 L C Hshort. subst s0.
  destruct (drain_local_pages_frame s) as (f & ro & D). rewrite D in C. cbn [snd] in C.
  unfold suspend_prepare_image.
  erewrite bind_ret_run by exact D. mstep.
  rewrite count_and_copy_None in C. cbn [fst] in C.
  erewrite bind_ret_run.
  2:{ rewrite count_and_copy_None. rewrite C. reflexivity. }
  mstep.
  assert (Hn : 0 <= n <= 2 ^ 31).
  { destruct (max_pfn sys =? num_physpages sys); [|discriminate].
    destruct (saved_frames sys _) as [l|] eqn:F; [|discriminate].
    injection C as <-. now apply saved_frames_count in F. }
  assert (E1 : uint n = n) by (unfold uint; apply Z.mod_small; lia).
  rewrite E1.
  assert (E2 : uint (n + PAGES_FOR_IO) = n + PAGES_FOR_IO)
    by (unfold uint, PAGES_FOR_IO; apply Z.mod_small; lia).
  rewrite E2.
  destruct (Z.ltb_spec (nr_free_pages s) (n + PAGES_FOR_IO)) as [Hf|Hf].
  - mstep. eexists. split; [reflexivity|]. ksimpl. repeat split.
  - mstep. destruct (Z.ltb_spec (freeswap s) (n + PAGES_FOR_IO)) as [Hs|Hs]; [|lia].
    eexists. split; [reflexivity|]. ksimpl. repeat split.
Qed.

(** ** Loops *)

Lemma for_up_wp {A R} (body : nat -> A -> M (A + R))
    (I : nat -> A -> kstate -> Prop) (Q : result (A + R) -> kstate -> Prop) count :
  forall i acc s,
    I i acc s ->
    (forall j a t, (i <= j < i + count)%nat -> I j a t ->
       match body j a t with
       | (Ret (inl a'), t') => I (S j) a' t'
       | (r, t') => Q r t'
       end) ->
    match for_up count i body acc s with
    | (Ret (inl a'), s') => I (i + count)%nat a' s'
    | (r, s') => Q r s'
    end.
Proof.
  induction count as [|c IH]; intros i acc s HI Hb; cbn [for_up].
  - unfold ret. now rewrite Nat.add_0_r.
  - unfold bind at 1. specialize (Hb i acc s ltac:(lia) HI) as Hstep.
    destruct (body i acc s) as [[[a'|v]|e] s1]; [|exact Hstep..].
    replace (i + S c)%nat with (S i + c)%nat by lia.
    apply IH; [exact Hstep|]. intros j a t Hj. apply Hb. lia.
Qed.

Lemma for_down_wp {A R} (body : nat -> A -> M (A + R))
    (I : nat -> A -> kstate -> Prop) (Q : result (A + R) -> kstate -> Prop) count :
  forall acc s,
    I count acc s ->
    (forall j a t, (j < count)%nat -> I (S j) a t ->
       match body j a t with
       | (Ret (inl a'), t') => I j a' t'
       | (r, t') => Q r t'
       end) ->
    match for_down count body acc s with
    | (Ret (inl a'), s') => I O a' s'
    | (r, s') => Q r s'
    end.
Proof.
  induction count as [|c IH]; intros acc s HI Hb; cbn [for_down].
  - exact HI.
  - unfold bind at 1. specialize (Hb c acc s ltac:(lia) HI) as Hstep.
    destruct (body c acc s) as [[[a'|v]|e] s1]; [|exact Hstep..].
    apply IH; [exact Hstep|]. intros j a t Hj. apply Hb. lia.
Qed.

(** ** Collisions *)

(** What does_collide_order answers: [true] with a colliding entry among
    the first nr_copy_pages, [false] when all of them are there and none
    collides. *)
Lemma does_collide_order_run addr order s :
  exists r,
    does_collide_order addr order s = (r, s)
    /\ match r with
       | Ret true =>
           exists i p, (i < Z.to_nat (nr_copy_pages s))%nat
                       /\ pagedir s !! i = Some p /\ collides addr order p = true
       | Ret false =>
           forall i, (i < Z.to_nat (nr_copy_pages s))%nat ->
             exists p, pagedir s !! i = Some p /\ collides addr order p = false
       | Fatal e => e = Oops /\ (length (pagedir s) < Z.to_nat (nr_copy_pages s))%nat
       end.
Proof.
  unfold does_collide_order. rewrite bind_gets.
  set (body := fun (i : nat) (_ : unit) => _).
  set (I := fun (j : nat) (_ : unit) t =>
              t = s /\ forall i, (i < j)%nat ->
                exists p, pagedir s !! i = Some p /\ collides addr order p = false).
  set (Q := fun (r : result (unit + bool)) t =>
              t = s /\ match r with
                       | Ret (inr true) =>
                           exists i p, (i < Z.to_nat (nr_copy_pages s))%nat
                             /\ pagedir s !! i = Some p /\ collides addr order p = true
                       | Fatal e =>
                           e = Oops /\ (length (pagedir s) < Z.to_nat (nr_copy_pages s))%nat
                       | _ => False
                       end).
  assert (HI : I O tt s) by (split; [reflexivity | intros i Hi; lia]).
  assert (Hb : forall j a t, (0 <= j < 0 + Z.to_nat (nr_copy_pages s))%nat -> I j a t ->
             match body j a t with
             | (Ret (inl a'), t') => I (S j) a' t'
             | (r, t') => Q r t'
             end).
  { intros j [] t Hj [-> Hprev]. subst body I Q. cbn beta. rewrite bind_gets.
    destruct (pagedir s !! j) as [p|] eqn:Hp.
    2:{ apply lookup_ge_None in Hp. repeat split. lia. }
    fold (collides addr order p). destruct (collides addr order p) eqn:C.
    + split; [reflexivity|]. exists j, p. repeat split; [lia | assumption..].
    + split; [reflexivity|]. intros i Hi. destruct (decide (i = j)) as [->|]; [eauto|].
      apply Hprev. lia. }
  pose proof (for_up_wp body I Q _ _ _ _ HI Hb) as W.
  unfold bind. destruct (for_up _ _ _ _ _) as [[[[]|b]|e] s1]; subst I Q; cbn beta in W.
  - destruct W as [-> W]. eexists. split; [reflexivity|]. exact W.
  - destruct W as [-> W]. destruct b; [|contradiction]. eexists. split; [reflexivity|]. exact W.
  - destruct W as [-> W]. eexists. split; [reflexivity|]. exact W.
Qed.

(** Without wrap-around the test is membership of the block. *)
Lemma collides_false_block addr order p :
  0 <= order -> block_in_space order addr ->
  collides addr order p = false ->
  ~ (addr <= orig_address p < addr + PAGE_SIZE * 2 ^ order).
Proof.
  intros Ho [H0 Hs] C. unfold collides in C. pose proof PAGE_SIZE_pos.
  assert (0 < 2 ^ order) by (apply Z.pow_pos_nonneg; lia).
  assert (E : ulong (addr + ulong (PAGE_SIZE * 2 ^ order)) = addr + PAGE_SIZE * 2 ^ order).
  { unfold ulong. rewrite (Z.mod_small (PAGE_SIZE * 2 ^ order)) by nia.
    apply Z.mod_small. nia. }
  rewrite E in C. apply andb_false_iff in C. lia.
Qed.

Lemma does_collide_order_state addr order s :
  snd (does_collide_order addr order s) = s.
Proof. destruct (does_collide_order_run addr order s) as (r & E & _). now rewrite E. Qed.

Lemma preserves_does_collide_order {X} (f : kstate -> X) addr order :
  preserves f (does_collide_order addr order).
Proof. intros s. now rewrite does_collide_order_state. Qed.

Lemma get_zeroed_page_cases s :
  (page_oracle s = [] /\ get_zeroed_page s = (Ret 0, s))
  \/ (exists rest, page_oracle s = 0 :: rest
                   /\ get_zeroed_page s = (Ret 0, set_page_oracle rest s))
  \/ (exists a rest, page_oracle s = a :: rest /\ a <> 0
                     /\ get_zeroed_page s
                        = (Ret a, set_mem (<[a := zero_page]> (mem s)) (set_page_oracle rest s))).
Proof.
  unfold get_zeroed_page, __get_free_pages, bind.
  destruct (page_oracle s) as [|a rest]; [left; split; reflexivity|].
  destruct (Z.eqb_spec a 0) as [->|Ha].
  - right. left. eauto.
  - right. right. exists a, rest. repeat split; assumption.
Qed.

(** The part of the state the search for a page leaves alone. *)
Definition beside_pages (s : kstate) :=
  (pagedir s, nr_copy_pages s, pagedir_nosave s, pagedir_save s, pagedir_order s,
   disk s, io_log s).

Lemma check_pagedir_page_frame fuel : preserves beside_pages (check_pagedir_page fuel).
Proof.
  induction fuel as [|fuel IH]; cbn [check_pagedir_page]; [apply preserves_fail|].
  unfold does_collide. frame; try apply preserves_does_collide_order. exact IH.
Qed.

(** The do-while of check_pagedir: it ends, with a page of the allocator
    that collides with no entry, or with -ENOMEM. *)
Lemma check_pagedir_page_run fuel : forall s,
  (length (page_oracle s) < fuel)%nat ->
  match check_pagedir_page fuel s with
  | (r, s') =>
      beside_pages s' = beside_pages s
      /\ match r with
         | Ret (inl addr) =>
             addr <> 0
             /\ (exists pre, page_oracle s = pre ++ addr :: page_oracle s')
             /\ forall i, (i < Z.to_nat (nr_copy_pages s))%nat ->
                  exists p, pagedir s !! i = Some p /\ collides addr 0 p = false
         | Ret (inr e) => e = - ENOMEM
         | Fatal e => e = Oops /\ (length (pagedir s) < Z.to_nat (nr_copy_pages s))%nat
         end
  end.
Proof.
  induction fuel as [|fuel IH]; intros s Hf; [lia|].
  pose proof (check_pagedir_page_frame (S fuel) s) as Fr.
  destruct (check_pagedir_page (S fuel) s) as [r s'] eqn:E. cbn [snd] in Fr.
  split; [exact Fr|]. clear Fr. cbn [check_pagedir_page] in E.
  destruct (get_zeroed_page_cases s) as [[Ho G]|[(rest & Ho & G)|(a & rest & Ho & Ha & G)]].
  - erewrite bind_ret_run in E by exact G. cbn [Z.eqb] in E. now injection E as <- <-.
  - erewrite bind_ret_run in E by exact G. cbn [Z.eqb] in E. now injection E as <- <-.
  - erewrite bind_ret_run in E by exact G.
    destruct (Z.eqb_spec a 0) as [|_]; [contradiction|].
    set (s1 := set_mem _ _) in E.
    destruct (does_collide_order_run a 0 s1) as (c & D & Hc).
    unfold does_collide in E. unfold bind in E. rewrite D in E.
    destruct c as [[|]|e].
    + specialize (IH s1). rewrite E in IH.
      destruct IH as [_ IH]; [subst s1; ksimpl; rewrite Ho in Hf; cbn in Hf; lia|].
      destruct r as [[addr|e]|e]; [|exact IH..].
      destruct IH as (Hn & (pre & Hpre) & Hfree). split; [exact Hn|]. split.
      * exists (a :: pre). subst s1. ksimpl. rewrite Ho, Hpre. reflexivity.
      * exact Hfree.
    + injection E as <- <-. split; [exact Ha|]. split.
      * exists []. subst s1. ksimpl. exact Ho.
      * exact Hc.
    + injection E as <- <-. exact Hc.
Qed.

Lemma collides_image addr order p q :
  pbe_image p = pbe_image q -> collides addr order p = collides addr order q.
Proof. unfold pbe_image, collides. intros [= -> _]. reflexivity. Qed.

Lemma image_lookup (l1 l2 : list pbe) i p :
  map pbe_image l1 = map pbe_image l2 -> l1 !! i = Some p ->
  exists q, l2 !! i = Some q /\ pbe_image q = pbe_image p.
Proof.
  intros E H. assert (H' : map pbe_image l1 !! i = Some (pbe_image p))
    by (rewrite list_lookup_fmap, H; reflexivity).
  rewrite E, list_lookup_fmap in H'.
  destruct (l2 !! i) as [q|] eqn:Hq; [|discriminate]. cbn in H'.
  exists q. split; [reflexivity | congruence].
Qed.

Lemma image_length (l1 l2 : list pbe) :
  map pbe_image l1 = map pbe_image l2 -> length l1 = length l2.
Proof. intros E. apply (f_equal length) in E. now rewrite !length_map in E. Qed.

Lemma image_set_address (l : list pbe) i p a :
  l !! i = Some p -> map pbe_image (<[i := set_address a p]> l) = map pbe_image l.
Proof.
  intros H. rewrite list_fmap_insert.
  apply list_insert_id. rewrite list_lookup_fmap, H. reflexivity.
Qed.

(** The part of the state check_pagedir leaves alone. *)
Definition beside_dir (s : kstate) :=
  (nr_copy_pages s, pagedir_nosave s, pagedir_save s, pagedir_order s, disk s, io_log s).

(** What holds of the first [j] entries once check_pagedir has given
    them their pages. *)
Definition pages_chosen (s t : kstate) (j : nat) : Prop :=
  beside_dir t = beside_dir s
  /\ map pbe_image (pagedir t) = map pbe_image (pagedir s)
  /\ (j <= length (pagedir t))%nat
  /\ exists used,
       page_oracle s = used ++ page_oracle t
       /\ Forall (fun a =>
            a <> 0 /\ a ∈ used
            /\ forall i, (i < Z.to_nat (nr_copy_pages s))%nat ->
                 exists q, pagedir s !! i = Some q /\ collides a 0 q = false)
            (map address (firstn j (pagedir t)))
       /\ (NoDup (page_oracle s) -> NoDup (map address (firstn j (pagedir t)))).

Lemma check_pagedir_step_run s j t :
  (j < Z.to_nat (nr_copy_pages s))%nat ->
  pages_chosen s t j ->
  match check_pagedir_step j tt t with
  | (Ret (inl _), t') => pages_chosen s t' (S j)
  | (r, t') =>
      beside_dir t' = beside_dir s
      /\ match r with
         | Ret (inr e) => e = - ENOMEM
         | Fatal e => e = Oops /\ (length (pagedir s) < Z.to_nat (nr_copy_pages s))%nat
         | _ => False
         end
  end.
Proof.
  intros Hj (Hb & Him & Hlen & used & Hused & Hall & Hnd).
  unfold check_pagedir_step. rewrite bind_gets.
  pose proof (check_pagedir_page_run (S (length (page_oracle t))) t ltac:(lia)) as P.
  unfold bind at 1.
  destruct (check_pagedir_page _ t) as [[[addr|e]|e] t1]; destruct P as [Fr P].
  - assert (Hpd : pagedir t1 = pagedir t) by (unfold beside_pages in Fr; congruence).
    assert (Hb1 : beside_dir t1 = beside_dir s)
      by (unfold beside_pages, beside_dir in *; congruence).
    assert (Hn : nr_copy_pages t = nr_copy_pages s) by (unfold beside_dir in Hb; congruence).
    rewrite bind_gets, Hpd.
    destruct (pagedir t !! j) as [p|] eqn:Hp.
    2:{ apply lookup_ge_None in Hp. rewrite <- (image_length _ _ Him).
        split; [exact Hb1|]. split; [reflexivity | lia]. }
    mstep. unfold continue, ret. rewrite Hpd.
    destruct P as (Ha & (pre & Hpre) & Hfree).
    assert (Htake : firstn (S j) (<[j := set_address addr p]> (pagedir t))
                    = firstn j (pagedir t) ++ [set_address addr p]).
    { apply lookup_lt_Some in Hp as Hlt.
      rewrite (take_S_r _ _ (set_address addr p)) by (now apply list_lookup_insert_eq).
      now rewrite take_insert_ge by lia. }
    split; [exact Hb1|]. ksimpl. split.
    { rewrite image_set_address by exact Hp. exact Him. }
    split.
    { rewrite length_insert. apply lookup_lt_Some in Hp. lia. }
    exists (used ++ pre ++ [addr]). split.
    { rewrite Hused, Hpre, <- !app_assoc. reflexivity. }
    rewrite Htake, map_app. cbn [map address set_address]. split.
    + apply Forall_app. split.
      * eapply Forall_impl; [exact Hall|]. cbn beta. intros a (H1 & H2 & H3).
        split; [exact H1|]. split; [|exact H3]. apply elem_of_app. now left.
      * constructor; [|constructor]. split; [exact Ha|]. split.
        { rewrite !elem_of_app. right. right. now apply list_elem_of_singleton. }
        intros i Hi. rewrite <- Hn in Hi. destruct (Hfree i Hi) as (q & Hq & Hc).
        destruct (image_lookup _ _ _ _ Him Hq) as (q' & Hq' & Ei).
        exists q'. split; [exact Hq'|]. now rewrite (collides_image _ _ _ _ Ei).
    + intros ND. apply NoDup_app. split; [now apply Hnd|]. split; [|apply NoDup_singleton].
      intros a Hin Ha1. apply list_elem_of_singleton in Ha1. subst a.
      rewrite Forall_forall in Hall. destruct (Hall _ Hin) as (_ & Hu & _).
      rewrite Hused, Hpre in ND. apply NoDup_app in ND as (_ & ND & _).
      apply (ND addr Hu). apply elem_of_app. right. now left.
  - split; [|exact P]. unfold beside_pages, beside_dir in *. congruence.
  - split; [unfold beside_pages, beside_dir in *; congruence|].
    destruct P as [-> P]. split; [reflexivity|].
    rewrite <- (image_length _ _ Him).
    assert (nr_copy_pages t = nr_copy_pages s) by (unfold beside_dir in Hb; congruence).
    lia.
Qed.

(** check_pagedir: on return of 0 every entry has a nonzero page taken
    from the allocator that collides with no entry of the directory. *)
Lemma check_pagedir_run s :
  match check_pagedir s with
  | (r, s') =>
      beside_dir s' = beside_dir s
      /\ match r with
         | Ret e => (e = 0 /\ pages_chosen s s' (Z.to_nat (nr_copy_pages s))) \/ e = - ENOMEM
         | Fatal e => e = Oops /\ (length (pagedir s) < Z.to_nat (nr_copy_pages s))%nat
         end
  end.
Proof.
  unfold check_pagedir. rewrite bind_gets.
  set (Q := fun (r : result (unit + Z)) t' =>
              beside_dir t' = beside_dir s
              /\ match r with
                 | Ret (inr e) => e = - ENOMEM
                 | Fatal e => e = Oops /\ (length (pagedir s) < Z.to_nat (nr_copy_pages s))%nat
                 | _ => False
                 end).
  assert (HI : pages_chosen s s O).
  { split; [reflexivity|]. split; [reflexivity|]. split; [lia|]. exists [].
    split; [reflexivity|]. cbn. split; constructor. }
  pose proof (for_up_wp check_pagedir_step (fun j _ t => pages_chosen s t j) Q
                (Z.to_nat (nr_copy_pages s)) O tt s HI) as W.
  unfold bind.
  destruct (for_up _ _ _ _ _) as [[[[]|e]|e] s1]; cbn [Nat.add] in W.
  - assert (P : pages_chosen s s1 (Z.to_nat (nr_copy_pages s))).
    { apply W. intros j [] t Hj Ht. apply check_pagedir_step_run; [lia | exact Ht]. }
    split; [apply P|]. left. split; [reflexivity | exact P].
  - destruct W as [Hb He].
    { intros j [] t Hj Ht. apply check_pagedir_step_run; [lia | exact Ht]. }
    split; [exact Hb|]. right. exact He.
  - destruct W as [Hb He].
    { intros j [] t Hj Ht. apply check_pagedir_step_run; [lia | exact Ht]. }
    split; [exact Hb|]. exact He.
Qed.

(** ** Relocation *)

Lemma concat_dir_pages (pd : list pbe) k :
  concat (map (dir_page pd) (seq 0 k)) = firstn (k * PBES_PER_PAGE) pd.
Proof.
  induction k as [|k IH]; [reflexivity|].
  rewrite seq_S, map_app, concat_app, IH. cbn [map concat Nat.add].
  rewrite app_nil_r. unfold dir_page. rewrite take_take_drop. f_equal. lia.
Qed.

Lemma relocate_pagedir_search_frame fuel : forall eaten,
  preserves beside_pages (relocate_pagedir_search fuel eaten).
Proof.
  induction fuel as [|fuel IH]; intros eaten; cbn [relocate_pagedir_search];
    [apply preserves_fail|].
  frame; try apply preserves_does_collide_order. apply IH.
Qed.

Lemma __get_free_pages_cases order s :
  (page_oracle s = [] /\ __get_free_pages order s = (Ret 0, s))
  \/ (exists a rest, page_oracle s = a :: rest
                     /\ __get_free_pages order s = (Ret a, set_page_oracle rest s)).
Proof.
  unfold __get_free_pages. destruct (page_oracle s) as [|a rest]; [left|right]; eauto.
Qed.

(** The first loop of relocate_pagedir: it ends with no block, or with
    a block of the allocator that collides with no entry. *)
Lemma relocate_pagedir_search_run fuel : forall eaten s,
  (length (page_oracle s) < fuel)%nat ->
  match relocate_pagedir_search fuel eaten s with
  | (r, s') =>
      beside_pages s' = beside_pages s
      /\ (exists used, page_oracle s = used ++ page_oracle s')
      /\ match r with
         | Ret (m, _) =>
             m = 0
             \/ (m ∈ page_oracle s
                 /\ forall i, (i < Z.to_nat (nr_copy_pages s))%nat ->
                      exists p, pagedir s !! i = Some p
                                /\ collides m (pagedir_order s) p = false)
         | Fatal e => e = Oops /\ (length (pagedir s) < Z.to_nat (nr_copy_pages s))%nat
         end
  end.
Proof.
  induction fuel as [|fuel IH]; intros eaten s Hf; [lia|].
  pose proof (relocate_pagedir_search_frame (S fuel) eaten s) as Fr.
  destruct (relocate_pagedir_search (S fuel) eaten s) as [r s'] eqn:E. cbn [snd] in Fr.
  split; [exact Fr|]. clear Fr. cbn [relocate_pagedir_search] in E.
  rewrite bind_gets in E.
  destruct (__get_free_pages_cases (pagedir_order s) s) as [[Ho G]|(a & rest & Ho & G)].
  - erewrite bind_ret_run in E by exact G. cbn [Z.eqb] in E. injection E as <- <-.
    split; [exists []; reflexivity | now left].
  - erewrite bind_ret_run in E by exact G.
    destruct (Z.eqb_spec a 0) as [->|Ha].
    + injection E as <- <-. split; [|now left]. exists [0]. ksimpl. exact Ho.
    + rewrite bind_modify in E. ksimpl. set (s1 := set_mem _ _) in E.
      destruct (does_collide_order_run a (pagedir_order s) s1) as (c & D & Hc).
      unfold bind in E at 1. rewrite D in E.
      destruct c as [[|]|e]; cbn [negb] in E.
      * rewrite bind_modify in E. set (s2 := set_mem _ s1) in E.
        specialize (IH (a :: eaten) s2). rewrite E in IH.
        destruct IH as (_ & (used & Hused) & IH);
          [subst s2 s1; ksimpl; rewrite Ho in Hf; cbn in Hf; lia|].
        split.
        { exists (a :: used). subst s2 s1. ksimpl. ksimpl. rewrite Ho. cbn. f_equal.
          exact Hused. }
        destruct r as [[m eaten']|e]; [|exact IH].
        destruct IH as [->|[Hin Hfree]]; [now left|]. right. split; [|exact Hfree].
        subst s2 s1. ksimpl. rewrite Ho. now right.
      * injection E as <- <-. split; [exists [a]; subst s1; ksimpl; exact Ho|].
        right. split; [rewrite Ho; now left | exact Hc].
      * injection E as <- <-. split; [exists [a]; subst s1; ksimpl; exact Ho|]. exact Hc.
Qed.

(** The part of the state the release loop and copy_pagedir leave alone. *)
Definition beside_freed (s : kstate) :=
  (pagedir s, nr_copy_pages s, pagedir_nosave s, pagedir_save s, pagedir_order s,
   disk s, io_log s, page_oracle s, mem s).

Lemma relocate_pagedir_release_frame eaten :
  preserves beside_freed (relocate_pagedir_release eaten).
Proof.
  induction eaten as [|c rest IH]; cbn [relocate_pagedir_release]; frame. exact IH.
Qed.

Lemma relocate_pagedir_release_ok eaten : forall s,
  exists s', relocate_pagedir_release eaten s = (Ret tt, s').
Proof.
  induction eaten as [|c rest IH]; intros s; cbn [relocate_pagedir_release];
    [eexists; reflexivity|].
  rewrite bind_gets. unfold free_pages.
  destruct (negb (hd 0 rest =? 0)); mstep; apply IH.
Qed.

(** The part of the state relocate_pagedir leaves alone. *)
Definition beside_relocation (s : kstate) :=
  (nr_copy_pages s, pagedir_save s, pagedir_order s, disk s, io_log s).

(** relocate_pagedir: on return of 0 the directory is at a block that
    collides with none of its entries, and holds the pages it held. *)
(** A directory that collides with no page to restore stays where it
    is. *)
Lemma relocate_pagedir_stays s :
  (forall i p, (i < Z.to_nat (nr_copy_pages s))%nat -> pagedir s !! i = Some p ->
     in_block (pagedir_nosave s) (pagedir_order s) (orig_address p) = false) ->
  (Z.to_nat (nr_copy_pages s) <= length (pagedir s))%nat ->
  relocate_pagedir s = (Ret 0, s).
Proof.
  intros Hc Hlen. unfold relocate_pagedir. rewrite !bind_gets.
  destruct (does_collide_order_run (pagedir_nosave s) (pagedir_order s) s) as (c & D & Hd).
  unfold bind at 1. rewrite D. destruct c as [[|]|e]; cbn [negb].
  - destruct Hd as (i & p & Hi & Hp & Hcol).
    change (collides (pagedir_nosave s) (pagedir_order s) p)
      with (in_block (pagedir_nosave s) (pagedir_order s) (orig_address p)) in Hcol.
    rewrite (Hc i p Hi Hp) in Hcol. discriminate.
  - reflexivity.
  - destruct Hd as [_ Hd]. lia.
Qed.

Lemma relocate_pagedir_run s :
  match relocate_pagedir s with
  | (r, s') =>
      beside_relocation s' = beside_relocation s
      /\ (exists used, page_oracle s = used ++ page_oracle s')
      /\ match r with
         | Ret e =>
             (e = 0
              /\ ((pagedir s' = pagedir s /\ pagedir_nosave s' = pagedir_nosave s)
                  \/ (pagedir s'
                      = firstn (Z.to_nat (2 ^ pagedir_order s) * PBES_PER_PAGE) (pagedir s)
                      /\ pagedir_nosave s' ∈ page_oracle s /\ pagedir_nosave s' <> 0))
              /\ forall i, (i < Z.to_nat (nr_copy_pages s))%nat ->
                   exists p, pagedir s !! i = Some p
                             /\ collides (pagedir_nosave s') (pagedir_order s) p = false)
             \/ e = - ENOMEM
         | Fatal e => e = Oops /\ (length (pagedir s) < Z.to_nat (nr_copy_pages s))%nat
         end
  end.
Proof.
  unfold relocate_pagedir. rewrite !bind_gets.
  destruct (does_collide_order_run (pagedir_nosave s) (pagedir_order s) s) as (c & D & Hc).
  unfold bind at 1. rewrite D.
  destruct c as [[|]|e]; cbn [negb].
  2:{ split; [reflexivity|]. split; [exists []; reflexivity|]. left.
      split; [reflexivity|]. split; [now left | exact Hc]. }
  2:{ split; [reflexivity|]. split; [exists []; reflexivity|]. exact Hc. }
  rewrite bind_gets.
  pose proof (relocate_pagedir_search_run (S (length (page_oracle s))) [] s ltac:(lia)) as S.
  unfold bind at 1.
  destruct (relocate_pagedir_search _ [] s) as [[[m eaten]|e] s1];
    destruct S as (Fr & Hused & S).
  2:{ split; [unfold beside_pages, beside_relocation in *; congruence|].
      split; [exact Hused | exact S]. }
  destruct (Z.eqb_spec m 0) as [->|Hm].
  { split; [unfold beside_pages, beside_relocation in *; congruence|].
    split; [exact Hused | now right]. }
  destruct S as [?|[Hin Hfree]]; [contradiction|].
  rewrite bind_modify. unfold copy_pagedir. rewrite bind_modify. ksimpl.
  set (s2 := set_pagedir _ _).
  pose proof (relocate_pagedir_release_frame eaten s2) as R.
  destruct (relocate_pagedir_release_ok eaten s2) as [s3 E3].
  unfold bind. rewrite E3 in R |- *. cbn [snd] in R.
  assert (Hs2 : beside_freed s2
                = (firstn (Z.to_nat (2 ^ pagedir_order s) * PBES_PER_PAGE) (pagedir s),
                   nr_copy_pages s, m, pagedir_save s, pagedir_order s, disk s, io_log s,
                   page_oracle s1, mem s1)).
  { subst s2. unfold beside_freed, beside_pages in *. ksimpl.
    rewrite concat_dir_pages. injection Fr as -> -> _ -> -> -> ->. reflexivity. }
  rewrite Hs2 in R. unfold beside_freed in R. injection R as R1 R2 R3 R4 R5 R6 R7 R8 R9.
  split; [unfold beside_relocation; congruence|].
  split; [rewrite R8; exact Hused|]. left. split; [reflexivity|].
  split; [right; split; [exact R1 | rewrite R3; split; [exact Hin | exact Hm]]|].
  rewrite R3. exact Hfree.
Qed.

(** C2: after relocate_pagedir and check_pagedir have both returned 0,
    the page at every entry's [address] contains no [orig_address] of the
    directory, and neither do the pages of the directory itself.  The
    blocks the allocator hands out, and the block the directory was read
    into, lie inside the address space. *)
Theorem collision_freedom s s1 s2 :
  relocate_pagedir s = (Ret 0, s1) ->
  check_pagedir s1 = (Ret 0, s2) ->
  0 <= pagedir_order s ->
  block_in_space (pagedir_order s) (pagedir_nosave s) ->
  Forall (fun a => a <> 0 -> block_in_space (pagedir_order s) a) (page_oracle s) ->
  forall i j p q,
    (i < Z.to_nat (nr_copy_pages s2))%nat -> (j < Z.to_nat (nr_copy_pages s2))%nat ->
    pagedir s2 !! i = Some p -> pagedir s2 !! j = Some q ->
    ~ (address p <= orig_address q < address p + PAGE_SIZE)
    /\ ~ (pagedir_nosave s2 <= orig_address q
          < pagedir_nosave s2 + PAGE_SIZE * 2 ^ pagedir_order s2).
Proof.
  intros Er Ec Ho Hdir Hpool i j p q Hi Hj Hp Hq.
  pose proof (relocate_pagedir_run s) as R. rewrite Er in R.
  destruct R as (Fr & (used & Hused) & [(_ & Hwhere & Hfree)|R]); [|discriminate].
  pose proof (check_pagedir_run s1) as C. rewrite Ec in C.
  destruct C as (Fc & [(_ & C)|C]); [|discriminate].
  destruct C as (_ & Him & Hlen & used1 & Hused1 & Hall & _).
  assert (Hn1 : nr_copy_pages s2 = nr_copy_pages s1) by (unfold beside_dir in Fc; congruence).
  assert (Hn : nr_copy_pages s1 = nr_copy_pages s)
    by (unfold beside_relocation in Fr; congruence).
  assert (Ho1 : pagedir_order s2 = pagedir_order s)
    by (unfold beside_dir, beside_relocation in *; congruence).
  assert (Hpn : pagedir_nosave s2 = pagedir_nosave s1)
    by (unfold beside_dir in Fc; congruence).
  rewrite Hn1 in Hi, Hj. pose proof PAGE_SIZE_pos as HP.
  assert (H2 : 1 <= 2 ^ pagedir_order s) by (pose proof (Z.pow_pos_nonneg 2 _ eq_refl Ho); lia).
  destruct (image_lookup _ _ _ _ Him Hq) as (q1 & Hq1 & Eq).
  split.
  - assert (Hin : address p ∈ map address (firstn (Z.to_nat (nr_copy_pages s1)) (pagedir s2))).
    { apply list_elem_of_fmap. exists p. split; [reflexivity|].
      apply list_elem_of_lookup. exists i. now apply lookup_take_Some. }
    rewrite Forall_forall in Hall. destruct (Hall _ Hin) as (Ha & Hu & Hf).
    destruct (Hf j Hj) as (q1' & Hq1' & Hc). rewrite Hq1 in Hq1'. injection Hq1' as <-.
    rewrite (collides_image _ _ _ _ Eq) in Hc.
    assert (Hs : block_in_space 0 (address p)).
    { rewrite Forall_forall in Hpool.
      destruct (Hpool (address p)) as [H0 Hs]; [|exact Ha|].
      - rewrite Hused, Hused1, !elem_of_app. right. now left.
      - split; [exact H0|]. change (2 ^ 0) with 1. nia. }
    apply collides_false_block in Hc; [|lia|exact Hs].
    change (2 ^ 0) with 1 in Hc. lia.
  - rewrite Hpn, Ho1. rewrite Hn in Hj. destruct (Hfree j Hj) as (p0 & Hp0 & Hc).
    assert (E0 : q1 = p0).
    { destruct Hwhere as [[E _]|[E _]]; rewrite E in Hq1.
      - congruence.
      - apply lookup_take_Some in Hq1 as [Hq1 _]. congruence. }
    subst p0. rewrite (collides_image _ _ _ _ Eq) in Hc.
    apply collides_false_block in Hc; [exact Hc | exact Ho |].
    destruct Hwhere as [[_ ->]|(_ & Hin & Hne)]; [exact Hdir|].
    rewrite Forall_forall in Hpool. now apply Hpool.
Qed.

(** ** The marker *)

(** The part of the state mark_swapfiles leaves alone. *)
Definition beside_marker (s : kstate) :=
  (PageNosave s, mem s, nr_free_pages s, swap_info s, swap_oracle s, freeswap s,
   nr_copy_pages s, pagedir_nosave s, pagedir_save s, pagedir_order s, swapfile_used s,
   root_swap s, pagedir s, resume_file s).

Lemma mark_swapfiles_frame prev mode :
  preserves beside_marker (mark_swapfiles prev mode).
Proof. unfold mark_swapfiles. frame. Qed.

(** mark_swapfiles does nothing (no suspend device), or stops before it
    writes, or reads the marker page and writes [marked] of it back. *)
Lemma mark_swapfiles_run prev mode s :
  match mark_swapfiles prev mode s with
  | (r, s') =>
      (r = Ret tt /\ s' = s /\ root_swap s = 65535)
      \/ ((exists e, r = Fatal e) /\ disk s' = disk s
          /\ exists new, io_log s' = io_log s ++ new /\ forall slot, writes_to slot new = [])
      \/ (r = Ret tt
          /\ exists dev blk old cur',
               marker_slot s = Some (dev, blk)
               /\ disk s !! (dev, blk) = Some old
               /\ marked prev mode old = Some cur'
               /\ io_log s' = io_log s ++ [IoRead dev blk; IoWrite dev blk cur']
               /\ disk s' = <[(dev, blk) := cur']> (disk s))
  end.
Proof.
  destruct (mark_swapfiles prev mode s) as [r s'] eqn:E.
  unfold mark_swapfiles in E. rewrite bind_gets in E.
  destruct (Z.eqb_spec (root_swap s) 65535) as [E0|_].
  { injection E as <- <-. left. repeat split. exact E0. }
  right. unfold alloc_page in E.
  assert (Hstop : forall new : list io_event, (forall slot, writes_to slot new = []) ->
            forall e t, disk t = disk s -> io_log t = io_log s ++ new ->
            (Fatal e, t) = (r, s') ->
            (exists e, r = Fatal e) /\ disk s' = disk s
            /\ exists new, io_log s' = io_log s ++ new /\ forall slot, writes_to slot new = []).
  { intros new Hnew e t Hd Hl [= <- <-]. eauto 6. }
  destruct (__get_free_pages_cases 0 s) as [[Ho G]|(a & rest & Ho & G)];
    erewrite bind_ret_run in E by exact G.
  { left. refine (Hstop [] ltac:(reflexivity) Panic s eq_refl _ E). now rewrite app_nil_r. }
  destruct (a =? 0).
  { left. refine (Hstop [] ltac:(reflexivity) Panic (set_page_oracle rest s) eq_refl _ E).
    ksimpl. now rewrite app_nil_r. }
  set (s1 := set_page_oracle rest s) in E.
  unfold rw_swap_page_sync_READ, bind at 1 in E.
  assert (Hslot : swap_slot s1 (swp_entry (root_swap s) 0) = marker_slot s) by reflexivity.
  rewrite Hslot in E.
  destruct (marker_slot s) as [[dev blk]|] eqn:Hm.
  2:{ left. refine (Hstop [] ltac:(reflexivity) Oops s1 eq_refl _ E).
      subst s1. ksimpl. now rewrite app_nil_r. }
  change (disk s1) with (disk s) in E.
  destruct (disk s !! (dev, blk)) as [old|] eqn:Hold.
  2:{ left. refine (Hstop [IoRead dev blk] ltac:(reflexivity) Oops
                      (set_io_log (io_log s1 ++ [IoRead dev blk]) s1) eq_refl eq_refl E). }
  destruct (swh_magic old) as [magic|] eqn:Hmagic.
  2:{ left. refine (Hstop [IoRead dev blk] ltac:(reflexivity) Oops
                      (set_io_log (io_log s1 ++ [IoRead dev blk]) s1) eq_refl eq_refl E). }
  assert (Hw : forall cur' : page,
    bind (rw_swap_page_sync_WRITE (swp_entry (root_swap s) 0) cur') (fun _ => free_pages a 0)
      (set_io_log (io_log s1 ++ [IoRead dev blk]) s1)
    = (Ret tt,
       set_freed (freed s ++ [(a, 0)])
         (set_io_log ((io_log s ++ [IoRead dev blk]) ++ [IoWrite dev blk cur'])
            (set_disk (<[(dev, blk) := cur']> (disk s))
               (set_io_log (io_log s ++ [IoRead dev blk]) s1))))).
  { intros cur'. unfold rw_swap_page_sync_WRITE, bind at 1.
    assert (Hs : swap_slot (set_io_log (io_log s1 ++ [IoRead dev blk]) s1)
                   (swp_entry (root_swap s) 0) = Some (dev, blk)) by exact Hslot.
    rewrite Hs. reflexivity. }
  assert (Hdone : forall cur' : page,
    marked prev mode old = Some cur' ->
    bind (rw_swap_page_sync_WRITE (swp_entry (root_swap s) 0) cur') (fun _ => free_pages a 0)
      (set_io_log (io_log s1 ++ [IoRead dev blk]) s1) = (r, s') ->
    r = Ret tt
    /\ exists dev0 blk0 old0 cur0,
         Some (dev, blk) = Some (dev0, blk0) /\ disk s !! (dev0, blk0) = Some old0
         /\ marked prev mode old0 = Some cur0
         /\ io_log s' = io_log s ++ [IoRead dev0 blk0; IoWrite dev0 blk0 cur0]
         /\ disk s' = <[(dev0, blk0) := cur0]> (disk s)).
  { intros cur' Hmk E'. rewrite Hw in E'. injection E' as <- <-. split; [reflexivity|].
    exists dev, blk, old, cur'. ksimpl. rewrite <- app_assoc. repeat split; assumption. }
  unfold MARK_SWAP_RESUME in E.
  destruct (mode =? 2) eqn:Hmode.
  - destruct (memcmp (bytes_of "S1") magic 2 =? 0) eqn:H1;
      [|destruct (memcmp (bytes_of "S2") magic 2 =? 0) eqn:H2];
      rewrite bind_ret in E; right; refine (Hdone _ _ E);
      unfold marked; rewrite Hmagic, Hmode, ?H1, ?H2; reflexivity.
  - destruct (memcmp (bytes_of "SWAP-SPACE") magic 10 =? 0) eqn:H1;
      [|destruct (memcmp (bytes_of "SWAPSPACE2") magic 10 =? 0) eqn:H2].
    1,2: rewrite bind_assoc, bind_ret, bind_ret in E; right; refine (Hdone _ _ E);
      unfold marked; rewrite Hmagic, Hmode, ?H1, ?H2; reflexivity.
    left. rewrite bind_assoc, bind_fail in E.
    refine (Hstop [IoRead dev blk] ltac:(reflexivity) Panic
              (set_io_log (io_log s1 ++ [IoRead dev blk]) s1) eq_refl eq_refl E).
Qed.

(** *** What [marked] does to the marker *)

Lemma le_roundtrip n : forall v,
  0 <= v < 256 ^ Z.of_nat n -> le_value (le_bytes n v) = v.
Proof.
  induction n as [|n IH]; intros v Hv.
  - cbn in *. lia.
  - cbn [le_bytes le_value]. rewrite Nat2Z.inj_succ, Z.pow_succ_r in Hv by lia.
    rewrite IH.
    + pose proof (Z.div_mod v 256 ltac:(lia)). lia.
    + split; [apply Z.div_pos; lia | apply Z.div_lt_upper_bound; lia].
Qed.

Lemma ulong_range : 2 ^ BITS_PER_LONG = 256 ^ Z.of_nat sizeof_long.
Proof.
  unfold BITS_PER_LONG. change 256 with (2 ^ 8). rewrite <- Z.pow_mul_r by lia. reflexivity.
Qed.

Lemma committed_prefix c (rest : list Z) :
  c = 49 \/ c = 50 ->
  memcmp (bytes_of "S1") (83 :: c :: rest) 2 = 0 \/ memcmp (bytes_of "S2") (83 :: c :: rest) 2 = 0.
Proof. magic. intros [-> | ->]; [left | right]; reflexivity. Qed.

Lemma marker_of_committed r m :
  memcmp (bytes_of "S1") m 2 = 0 \/ memcmp (bytes_of "S2") m 2 = 0 ->
  marker_of (PgSwap r m) = Some SuspendCommitted.
Proof.
  intros H. unfold marker_of. cbn [swh_magic]. rewrite (committed_not_plain _ H).
  destruct H as [-> | ->]; [reflexivity|]. now rewrite orb_true_r.
Qed.

Lemma memcmp_prefix (a : list Z) : forall b rest, length a = length b ->
  memcmp a (b ++ rest) (length a) = 0 <-> a = b.
Proof.
  induction a as [|x a IH]; intros [|y b] rest Hl; try discriminate; cbn [memcmp length].
  - tauto.
  - cbn [app hd tl]. destruct (Z.eqb_spec x y) as [->|Hxy].
    + rewrite IH by (cbn in Hl; lia). split; congruence.
    + split; [lia | congruence].
Qed.

(** In the suspend mode [marked] takes a plain-swap page to a committed
    one whose link is [prev]. *)
Lemma marked_suspend prev mode old cur' :
  mode <> 2 -> marked prev mode old = Some cur' ->
  marker_of old = Some NormalSwap
  /\ marker_of cur' = Some SuspendCommitted
  /\ (0 <= prev < 2 ^ BITS_PER_LONG -> link_next cur' = Some prev).
Proof.
  intros Hmode H. unfold marked in H.
  destruct old as [|r magic| |]; cbn [swh_magic] in H; try discriminate.
  destruct (Z.eqb_spec mode 2) as [|_]; [contradiction|].
  pose proof sizeof_long_le as HW.
  assert (E10 : (10 - sizeof_long = S (S (8 - sizeof_long)))%nat) by lia.
  assert (Hcase : exists c tail, (c = 49 \/ c = 50)
            /\ cur' = PgSwap r (83 :: c :: firstn (8 - sizeof_long) tail
                                 ++ le_bytes sizeof_long prev)
            /\ (8 <= length tail)%nat
            /\ (memcmp (bytes_of "SWAP-SPACE") magic 10 =? 0)
               || (memcmp (bytes_of "SWAPSPACE2") magic 10 =? 0) = true).
  { revert H. magic. intros H.
    destruct (memcmp [83; 87; 65; 80; 45; 83; 80; 65; 67; 69] magic 10 =? 0) eqn:H1.
    - injection H as <-. cbn [set_swh_magic set_link_next memcpy firstn app]. rewrite E10.
      cbn [firstn].
      exists 49, ([83; 85; 83; 80; 46; 46; 46; 46] ++ skipn 10 magic).
      split; [now left|]. split; [reflexivity|]. split; [rewrite length_app; cbn; lia|].
      reflexivity.
    - destruct (memcmp [83; 87; 65; 80; 83; 80; 65; 67; 69; 50] magic 10 =? 0) eqn:H2;
        [|discriminate].
      injection H as <-. cbn [set_swh_magic set_link_next memcpy firstn app]. rewrite E10.
      cbn [firstn].
      exists 50, ([83; 85; 83; 80; 46; 46; 46; 46] ++ skipn 10 magic).
      split; [now right|]. split; [reflexivity|]. split; [rewrite length_app; cbn; lia|].
      reflexivity. }
  destruct Hcase as (c & tail & Hc & -> & Htail & Hplain). split; [|split].
  - unfold marker_of. cbn [swh_magic]. now rewrite Hplain.
  - apply marker_of_committed. cbn [app]. now apply committed_prefix.
  - intros Hp. cbn [link_next]. rewrite E10. cbn [skipn app].
    rewrite drop_app_length' by (rewrite length_take; lia).
    f_equal. apply le_roundtrip. now rewrite <- ulong_range.
Qed.

(** In the resume mode it takes a committed page to a plain-swap one,
    and leaves any other page as it is. *)
Lemma marked_resume prev old cur' :
  marked prev 2 old = Some cur' ->
  cur' = old
  \/ (marker_of old = Some SuspendCommitted /\ marker_of cur' = Some NormalSwap).
Proof.
  unfold marked. destruct old as [|r magic| |]; cbn [swh_magic]; try discriminate.
  cbn [Z.eqb Pos.eqb].
  assert (Hplain : forall x, length x = 10%nat ->
            x = bytes_of "SWAP-SPACE" \/ x = bytes_of "SWAPSPACE2" ->
            marker_of (PgSwap r (memcpy magic x 10)) = Some NormalSwap).
  { intros x Hl Hx. unfold marker_of, memcpy. cbn [swh_magic].
    rewrite (take_ge x) by lia.
    assert (E : (memcmp (bytes_of "SWAP-SPACE") (x ++ skipn 10 magic) 10 =? 0)
                || (memcmp (bytes_of "SWAPSPACE2") (x ++ skipn 10 magic) 10 =? 0) = true).
    { destruct Hx as [-> | ->].
      - replace (memcmp _ _ 10) with 0; [reflexivity|]. symmetry.
        apply (memcmp_prefix (bytes_of "SWAP-SPACE")); reflexivity.
      - apply orb_true_iff. right.
        replace (memcmp _ _ 10) with 0; [reflexivity|]. symmetry.
        apply (memcmp_prefix (bytes_of "SWAPSPACE2")); reflexivity. }
    now rewrite E. }
  destruct (Z.eqb_spec (memcmp (bytes_of "S1") magic 2) 0) as [H1|H1].
  - intros [= <-]. right. split; [apply marker_of_committed; now left|].
    apply Hplain; [reflexivity | now left].
  - destruct (Z.eqb_spec (memcmp (bytes_of "S2") magic 2) 0) as [H2|H2].
    + intros [= <-]. right. split; [apply marker_of_committed; now right|].
      apply Hplain; [reflexivity | now right].
    + intros [= <-]. now left.
Qed.

(** ** The writer *)

Lemma skipn_cons_nth {A} (d : A) (l : list A) : forall j e rest,
  skipn j l = e :: rest -> nth j l d = e /\ skipn (S j) l = rest /\ (j < length l)%nat.
Proof.
  induction l as [|x l IH]; intros [|j] e rest H; cbn in *; try discriminate.
  - injection H as <- <-. repeat split. lia.
  - destruct (IH j e rest H) as (H1 & H2 & H3). repeat split; [assumption..|lia].
Qed.

Lemma suspend_slot_run s :
  (exists e rest, swap_oracle s = e :: rest /\ e <> 0
     /\ swapfile_used_at s (Z.to_nat (swp_type e)) = SWAPFILE_SUSPEND
     /\ suspend_slot s = (Ret e, set_swap_oracle rest s))
  \/ (exists t, suspend_slot s = (Fatal Panic, t)
        /\ io_log t = io_log s /\ disk t = disk s).
Proof.
  unfold suspend_slot.
  destruct (swap_oracle s) as [|e rest] eqn:Ho.
  { right. exists s. erewrite bind_ret_run by (unfold get_swap_page; rewrite Ho; reflexivity).
    cbn. auto. }
  erewrite bind_ret_run by (unfold get_swap_page; rewrite Ho; reflexivity).
  destruct (Z.eqb_spec e 0) as [E0|E0].
  { right. eexists. split; [reflexivity|]. ksimpl. auto. }
  mstep.
  destruct (Z.eqb_spec (swapfile_used_at (set_swap_oracle rest s) (Z.to_nat (swp_type e)))
              SWAPFILE_SUSPEND) as [E1|E1]; cbn [negb].
  - left. exists e, rest. repeat split; assumption.
  - right. eexists. split; [reflexivity|]. ksimpl. auto.
Qed.

Lemma data_pd_length s j : length (data_pd s j) = length (pagedir s).
Proof. induction j as [|j IH]; cbn [data_pd]; [reflexivity|]. now rewrite length_alter. Qed.

Lemma data_pd_later s j : forall i, (j <= i)%nat -> data_pd s j !! i = pagedir s !! i.
Proof.
  induction j as [|j IH]; intros i Hi; cbn [data_pd]; [reflexivity|].
  rewrite list_lookup_alter_ne by lia. apply IH. lia.
Qed.

Lemma kstate_eq (s t : kstate) :
  PageNosave s = PageNosave t -> mem s = mem t -> page_oracle s = page_oracle t ->
  freed s = freed t -> nr_free_pages s = nr_free_pages t -> free_region s = free_region t ->
  region_oracle s = region_oracle t -> swap_info s = swap_info t ->
  swap_oracle s = swap_oracle t -> freeswap s = freeswap t -> disk s = disk t ->
  io_log s = io_log t -> pagedir_order_check s = pagedir_order_check t ->
  nr_copy_pages_check s = nr_copy_pages_check t -> resume_file s = resume_file t ->
  resume_device s = resume_device t -> nr_copy_pages s = nr_copy_pages t ->
  pagedir_nosave s = pagedir_nosave t -> pagedir_save s = pagedir_save t ->
  pagedir_order s = pagedir_order t -> swapfile_used s = swapfile_used t ->
  root_swap s = root_swap t -> pagedir s = pagedir t -> s = t.
Proof. destruct s, t; cbn; intros; subst; reflexivity. Qed.

Ltac state_eq := apply kstate_eq; ksimpl; try reflexivity.

Lemma replay_app l1 : forall l2 d, replay (l1 ++ l2) d = replay l2 (replay l1 d).
Proof.
  induction l1 as [|ev l1 IH]; intros l2 d; [reflexivity|].
  destruct ev; cbn [app replay]; apply IH.
Qed.

(** One round of the first loop, from the state [j] rounds leave. *)
Lemma write_data_step_run s j :
  match write_data_step j tt (written_data s j) with
  | (Ret (inl _), t) =>
      t = written_data s (S j) /\ usable_slot s (entry_at s j)
      /\ (j < length (swap_oracle s))%nat /\ (j < length (pagedir s))%nat
  | (Ret (inr _), _) => False
  | (Fatal e, t) =>
      io_log t = io_log (written_data s j) /\ disk t = disk (written_data s j)
  end.
Proof.
  unfold write_data_step.
  destruct (suspend_slot_run (written_data s j)) as [(e & rest & Ho & E0 & E1 & R)|(t & R & L & D)].
  2:{ erewrite bind_fatal_run by exact R. auto. }
  erewrite bind_ret_run by exact R. mstep.
  unfold written_data in Ho. ksimpl.
  destruct (skipn_cons_nth 0 _ _ _ _ Ho) as (He & Hrest & Hlen).
  replace (pagedir (written_data s j)) with (data_pd s j) by reflexivity.
  rewrite data_pd_later by lia.
  destruct (pagedir s !! j) as [p|] eqn:Hp.
  2:{ unfold fail. ksimpl. auto. }
  unfold page_content. mstep.
  unfold rw_swap_page_sync_WRITE, bind at 1.
  match goal with
  | |- context [swap_slot ?t e] => replace (swap_slot t e) with (swap_slot s e) by reflexivity
  end.
  destruct (swap_slot s e) as [[dev blk]|] eqn:Hs.
  2:{ ksimpl. auto. }
  mstep. fold (entry_at s j) in He. subst e.
  unfold continue, ret.
  split; [|repeat split].
  - unfold written_data. state_eq.
    + symmetry. exact Hrest.
    + cbn [data_log]. rewrite replay_app. unfold slot_of, saved_page. rewrite Hs.
      erewrite nth_lookup_Some by exact Hp. reflexivity.
    + cbn [data_log]. rewrite <- app_assoc. unfold slot_of, saved_page. rewrite Hs.
      erewrite nth_lookup_Some by exact Hp. reflexivity.
  - exact E0.
  - exact E1.
  - rewrite Hs. eauto.
  - exact Hlen.
  - apply lookup_lt_Some in Hp. exact Hp.
Qed.

Lemma written_data_0 s : written_data s 0 = s.
Proof. unfold written_data. state_eq. cbn [data_log]. apply app_nil_r. Qed.

(** The first loop: it leaves [written_data s n], or stops in a round
    with what the rounds before it wrote. *)
Lemma write_data_loop s n :
  match for_up n 0 write_data_step tt s with
  | (Ret (inl _), t) =>
      t = written_data s n
      /\ (forall i, (i < n)%nat -> usable_slot s (entry_at s i))
      /\ (n <= length (swap_oracle s))%nat /\ (n <= length (pagedir s))%nat
  | (Ret (inr _), _) => False
  | (Fatal e, t) =>
      exists j, (forall i, (i < j)%nat -> usable_slot s (entry_at s i))
        /\ io_log t = io_log (written_data s j) /\ disk t = disk (written_data s j)
  end.
Proof.
  set (I := fun (j : nat) (_ : unit) t =>
    t = written_data s j
    /\ (forall i, (i < j)%nat -> usable_slot s (entry_at s i))
    /\ (j <= length (swap_oracle s))%nat /\ (j <= length (pagedir s))%nat).
  set (Q := fun (r : result (unit + Z)) t =>
    exists e, r = Fatal e
      /\ exists j, (forall i, (i < j)%nat -> usable_slot s (entry_at s i))
           /\ io_log t = io_log (written_data s j) /\ disk t = disk (written_data s j)).
  assert (HI : I 0%nat tt s).
  { repeat split; [symmetry; apply written_data_0 | intros; lia | lia..]. }
  assert (Hb : forall j a t, (0 <= j < 0 + n)%nat -> I j a t ->
    match write_data_step j a t with
    | (Ret (inl a'), t') => I (S j) a' t'
    | (r, t') => Q r t'
    end).
  { intros j [] t _ (-> & Hu & Ho & Hp).
    pose proof (write_data_step_run s j) as H.
    destruct (write_data_step j tt (written_data s j)) as [[[[]|v]|e] t']; [|tauto|].
    - destruct H as (-> & Hj & Ho' & Hp'). split; [reflexivity|]. split; [|lia].
      intros i Hi. destruct (decide (i = j)) as [->|]; [assumption | apply Hu; lia].
    - exists e. split; [reflexivity|]. exists j. tauto. }
  pose proof (for_up_wp write_data_step I Q n 0 tt s HI Hb) as H.
  destruct (for_up n 0 write_data_step tt s) as [[[[]|v]|e] t].
  - exact H.
  - destruct H as (e & [=] & _).
  - destruct H as (e' & [= <-] & H). exact H.
Qed.

Lemma dir_pd_length s j : length (dir_pd s j) = length (pagedir s).
Proof. induction j as [|j IH]; cbn [dir_pd]; [reflexivity|]. now rewrite length_alter. Qed.

Lemma written_dirs_pagedir s j : pagedir (written_dirs s j) = dir_pd s j.
Proof. reflexivity. Qed.

Lemma written_dirs_slot s j rest e :
  swap_slot (set_swap_oracle rest (written_dirs s j)) e = swap_slot s e.
Proof. reflexivity. Qed.

(** One round of the second loop. *)
Lemma write_pgdir_step_run s j :
  match write_pgdir_step j (dir_prev s j) (written_dirs s j) with
  | (Ret (inl prev), t) =>
      prev = dir_prev s (S j) /\ t = written_dirs s (S j) /\ usable_slot s (entry_at s j)
      /\ (j < length (swap_oracle s))%nat /\ (S j * PBES_PER_PAGE <= length (pagedir s))%nat
  | (Ret (inr _), _) => False
  | (Fatal e, t) =>
      io_log t = io_log (written_dirs s j) /\ disk t = disk (written_dirs s j)
  end.
Proof.
  unfold write_pgdir_step.
  destruct (suspend_slot_run (written_dirs s j)) as [(e & rest & Ho & E0 & E1 & R)|(t & R & L & D)].
  2:{ erewrite bind_fatal_run by exact R. auto. }
  erewrite bind_ret_run by exact R. mstep.
  unfold written_dirs in Ho. ksimpl.
  destruct (skipn_cons_nth 0 _ _ _ _ Ho) as (He & Hrest & Hlen).
  rewrite written_dirs_pagedir, dir_pd_length.
  destruct (Nat.leb_spec (S j * PBES_PER_PAGE) (length (pagedir s))) as [Hfit|Hfit]; cbn [negb].
  2:{ unfold fail. ksimpl. auto. }
  mstep.
  unfold rw_swap_page_sync_WRITE, bind at 1.
  rewrite written_dirs_pagedir.
  match goal with
  | |- context [swap_slot ?t e] => replace (swap_slot t e) with (swap_slot s e) by reflexivity
  end.
  destruct (swap_slot s e) as [[dev blk]|] eqn:Hs.
  2:{ ksimpl. auto. }
  mstep. fold (entry_at s j) in He. subst e.
  unfold ret.
  split; [reflexivity|]. split; [|repeat split].
  - unfold written_dirs. state_eq.
    + symmetry. exact Hrest.
    + cbn [dir_log]. rewrite replay_app. unfold slot_of. rewrite Hs. reflexivity.
    + cbn [dir_log]. rewrite <- app_assoc. unfold slot_of. rewrite Hs. reflexivity.
  - exact E0.
  - exact E1.
  - rewrite Hs. eauto.
  - exact Hlen.
  - exact Hfit.
Qed.

Lemma written_dirs_0 s : written_dirs s 0 = s.
Proof. unfold written_dirs. state_eq. cbn [dir_log]. apply app_nil_r. Qed.

(** The second loop. *)
Lemma write_pgdir_loop s n :
  match for_up n 0 write_pgdir_step 0 s with
  | (Ret (inl prev), t) =>
      prev = dir_prev s n /\ t = written_dirs s n
      /\ (forall i, (i < n)%nat -> usable_slot s (entry_at s i))
      /\ (n <= length (swap_oracle s))%nat /\ (n * PBES_PER_PAGE <= length (pagedir s))%nat
  | (Ret (inr _), _) => False
  | (Fatal e, t) =>
      exists j, (forall i, (i < j)%nat -> usable_slot s (entry_at s i))
        /\ io_log t = io_log (written_dirs s j) /\ disk t = disk (written_dirs s j)
  end.
Proof.
  set (I := fun (j : nat) (prev : Z) t =>
    prev = dir_prev s j /\ t = written_dirs s j
    /\ (forall i, (i < j)%nat -> usable_slot s (entry_at s i))
    /\ (j <= length (swap_oracle s))%nat /\ (j * PBES_PER_PAGE <= length (pagedir s))%nat).
  set (Q := fun (r : result (Z + Z)) t =>
    exists e, r = Fatal e
      /\ exists j, (forall i, (i < j)%nat -> usable_slot s (entry_at s i))
           /\ io_log t = io_log (written_dirs s j) /\ disk t = disk (written_dirs s j)).
  assert (HI : I 0%nat 0 s).
  { repeat split; [symmetry; apply written_dirs_0 | intros; lia | lia..]. }
  assert (Hb : forall j a t, (0 <= j < 0 + n)%nat -> I j a t ->
    match write_pgdir_step j a t with
    | (Ret (inl a'), t') => I (S j) a' t'
    | (r, t') => Q r t'
    end).
  { intros j a t _ (-> & -> & Hu & Ho & Hp).
    pose proof (write_pgdir_step_run s j) as H.
    destruct (write_pgdir_step j (dir_prev s j) (written_dirs s j)) as [[[prev|v]|e] t']; [|tauto|].
    - destruct H as (-> & -> & Hj & Ho' & Hp').
      split; [reflexivity|]. split; [reflexivity|]. split; [|lia].
      intros i Hi. destruct (decide (i = j)) as [->|]; [assumption | apply Hu; lia].
    - exists e. split; [reflexivity|]. exists j. tauto. }
  pose proof (for_up_wp write_pgdir_step I Q n 0 0 s HI Hb) as H.
  destruct (for_up n 0 write_pgdir_step 0 s) as [[[prev|v]|e] t].
  - exact H.
  - destruct H as (e & [=] & _).
  - destruct H as (e' & [= <-] & H). exact H.
Qed.

Lemma writes_to_app slot l1 : forall l2,
  writes_to slot (l1 ++ l2) = writes_to slot l1 ++ writes_to slot l2.
Proof.
  induction l1 as [|ev l1 IH]; intros l2; [reflexivity|].
  destruct ev; cbn [app writes_to]; try apply IH.
  destruct (decide _); [cbn [app]; f_equal|]; apply IH.
Qed.

Lemma replay_quiet new : forall d,
  (forall slot, writes_to slot new = []) -> replay new d = d.
Proof.
  induction new as [|ev new IH]; intros d H; [reflexivity|].
  destruct ev as [| |? ?|dev blk c]; cbn [replay]; try (apply IH; intros slot; apply (H slot)).
  specialize (H (dev, blk)). cbn [writes_to] in H.
  destruct (decide _); [discriminate | congruence].
Qed.

Lemma logged_refl s : logged s s [].
Proof. split; [now rewrite app_nil_r | reflexivity]. Qed.

Lemma logged_trans s s1 s2 l1 l2 :
  logged s s1 l1 -> logged s1 s2 l2 -> logged s s2 (l1 ++ l2).
Proof.
  intros [L1 D1] [L2 D2]. split.
  - now rewrite L2, L1, app_assoc.
  - now rewrite D2, D1, replay_app.
Qed.

Lemma entry_in_oracle s i : entry_at s i <> 0 -> entry_at s i ∈ swap_oracle s.
Proof.
  unfold entry_at. intros H.
  destruct (Nat.lt_ge_cases i (length (swap_oracle s))) as [Hi|Hi].
  - apply list_elem_of_In, nth_In, Hi.
  - now rewrite nth_overflow in H by exact Hi.
Qed.

Lemma usable_avoids s e slot :
  usable_slot s e -> e ∈ swap_oracle s ->
  Forall (fun e => swap_slot s e <> Some slot) (swap_oracle s) ->
  slot_of s e <> slot.
Proof.
  intros (_ & _ & [sl Hs]) Hin Hall. unfold slot_of. rewrite Hs. cbn.
  rewrite Forall_forall in Hall. specialize (Hall e Hin). congruence.
Qed.

Lemma writes_to_elsewhere slot sl c :
  sl <> slot -> writes_to slot [IoWrite_at sl c] = [].
Proof.
  intros H. destruct sl as [dev blk]. cbn. destruct (decide _); [contradiction | reflexivity].
Qed.

Lemma data_log_quiet s slot j :
  (forall i, (i < j)%nat -> usable_slot s (entry_at s i)) ->
  Forall (fun e => swap_slot s e <> Some slot) (swap_oracle s) ->
  writes_to slot (data_log s j) = [].
Proof.
  intros Hu Hall. induction j as [|j IH]; [reflexivity|].
  cbn [data_log]. rewrite writes_to_app, IH by (intros; apply Hu; lia).
  apply writes_to_elsewhere.
  pose proof (Hu j ltac:(lia)) as Hj.
  apply usable_avoids; [exact Hj | apply entry_in_oracle, Hj | exact Hall].
Qed.

Lemma dir_log_quiet s slot j :
  (forall i, (i < j)%nat -> usable_slot s (entry_at s i)) ->
  Forall (fun e => swap_slot s e <> Some slot) (swap_oracle s) ->
  writes_to slot (dir_log s j) = [].
Proof.
  intros Hu Hall. induction j as [|j IH]; [reflexivity|].
  cbn [dir_log]. rewrite writes_to_app, IH by (intros; apply Hu; lia).
  apply writes_to_elsewhere.
  pose proof (Hu j ltac:(lia)) as Hj.
  apply usable_avoids; [exact Hj | apply entry_in_oracle, Hj | exact Hall].
Qed.

Lemma entry_at_drop s t n i :
  swap_oracle t = drop n (swap_oracle s) -> entry_at t i = entry_at s (n + i).
Proof.
  unfold entry_at. intros ->. now rewrite !nth_lookup, lookup_drop.
Qed.

Lemma fill_suspend_header_run s :
  fill_suspend_header sys s
  = if pagedir_save s =? pagedir_nosave s then (Ret (image_header sys s), s) else (Fatal BUG, s).
Proof.
  unfold fill_suspend_header. mstep. unfold id.
  destruct (pagedir_save s =? pagedir_nosave s); cbn [negb]; mstep; reflexivity.
Qed.

(** get_zeroed_page touches the allocator and the page it hands out. *)
Definition beside_alloc (s : kstate) :=
  (PageNosave s, swap_info s, swap_oracle s, disk s, io_log s, nr_copy_pages s,
   pagedir_nosave s, pagedir_save s, pagedir_order s, swapfile_used s, root_swap s,
   pagedir s, resume_file s).

Lemma get_zeroed_page_alloc s :
  exists buffer s1,
    get_zeroed_page s = (Ret buffer, s1) /\ beside_alloc s1 = beside_alloc s
    /\ (buffer <> 0 ->
        exists rest, page_oracle s = buffer :: rest
          /\ s1 = set_mem (<[buffer := zero_page]> (mem s)) (set_page_oracle rest s)).
Proof.
  destruct (get_zeroed_page_cases s) as [[Ho G]|[(rest & Ho & G)|(a & rest & Ho & Ha & G)]].
  - exists 0, s. repeat split; [exact G | congruence].
  - exists 0, (set_page_oracle rest s). repeat split; [exact G | congruence].
  - exists a, (set_mem (<[a := zero_page]> (mem s)) (set_page_oracle rest s)).
    repeat split; [exact G | eauto].
Qed.

(** write_suspend_image: it returns 0 with the image and then the marker
    written, or it stops, and then what it wrote went to slots
    get_swap_page handed out. *)
Lemma write_suspend_image_run s :
  exists buffer s1,
    get_zeroed_page s = (Ret buffer, s1) /\
    match write_suspend_image sys s with
    | (Ret v, s') =>
        v = 0 /\ buffer <> 0 /\ pagedir_save s1 = pagedir_nosave s1
        /\ (forall i, (i < data_pages s1 + dir_pages s1 + 1)%nat ->
              usable_slot s1 (entry_at s1 i))
        /\ (data_pages s1 <= length (pagedir s1))%nat
        /\ (dir_pages s1 * PBES_PER_PAGE <= length (pagedir s1))%nat
        /\ exists s5,
             mark_swapfiles (header_slot s1) MARK_SWAP_SUSPEND (written_image sys s1)
             = (Ret tt, s5)
             /\ s' = set_freed (freed s5 ++ [(buffer, 0)]) s5
    | (Fatal e, s') =>
        exists new, logged s1 s' new
          /\ forall slot, Forall (fun e => swap_slot s1 e <> Some slot) (swap_oracle s1) ->
               writes_to slot new = []
    end.
Proof.
  destruct (get_zeroed_page_alloc s) as (buffer & s1 & G & B & _).
  exists buffer, s1. split; [exact G|].
  unfold write_suspend_image. cbv zeta. mstep.
  erewrite bind_ret_run by exact G. mstep.
  assert (Hn : nr_copy_pages s = nr_copy_pages s1) by (unfold beside_alloc in B; congruence).
  rewrite Hn. fold (data_pages s1). fold (dir_pages s1).
  pose proof (write_data_loop s1 (data_pages s1)) as H1.
  unfold bind at 1.
  destruct (for_up (data_pages s1) 0 write_data_step tt s1) as [[[[]|v]|e] s2]; [|contradiction|].
  2:{ destruct H1 as (j & Hu & L & D). exists (data_log s1 j).
      split; [split; [exact L | exact D]|].
      intros slot Hall. apply data_log_quiet; assumption. }
  destruct H1 as (-> & Hu1 & Ho1 & Hp1).
  set (s2 := written_data s1 (data_pages s1)).
  assert (L2 : logged s1 s2 (data_log s1 (data_pages s1))) by (split; reflexivity).
  assert (Hq2 : forall slot,
            Forall (fun e => swap_slot s1 e <> Some slot) (swap_oracle s1) ->
            Forall (fun e => swap_slot s2 e <> Some slot) (swap_oracle s2)).
  { intros slot Hall. apply (Forall_drop _ (data_pages s1)) in Hall. exact Hall. }
  pose proof (write_pgdir_loop s2 (dir_pages s1)) as H2.
  unfold bind at 1.
  destruct (for_up (dir_pages s1) 0 write_pgdir_step 0 s2) as [[[prev|v]|e] s3]; [|contradiction|].
  2:{ destruct H2 as (j & Hu & L & D).
      exists (data_log s1 (data_pages s1) ++ dir_log s2 j). split.
      - apply logged_trans with s2; [exact L2 | split; [exact L | exact D]].
      - intros slot Hall. rewrite writes_to_app, data_log_quiet by assumption.
        apply dir_log_quiet; auto. }
  destruct H2 as (-> & -> & Hu2 & Ho2 & Hp2).
  set (s3 := written_dirs s2 (dir_pages s1)).
  assert (L3 : logged s1 s3 (data_log s1 (data_pages s1) ++ dir_log s2 (dir_pages s1))).
  { apply logged_trans with s2; [exact L2 | split; reflexivity]. }
  assert (Hq3 : forall slot,
            Forall (fun e => swap_slot s1 e <> Some slot) (swap_oracle s1) ->
            writes_to slot (data_log s1 (data_pages s1) ++ dir_log s2 (dir_pages s1)) = []).
  { intros slot Hall. rewrite writes_to_app, data_log_quiet by assumption.
    apply dir_log_quiet; auto. }
  assert (Hstop : forall t,
            io_log t = io_log s3 -> disk t = disk s3 ->
            exists new, logged s1 t new
              /\ forall slot, Forall (fun e => swap_slot s1 e <> Some slot) (swap_oracle s1) ->
                   writes_to slot new = []).
  { intros t L D. eexists. split; [|exact Hq3].
    destruct L3 as [L3 D3]. split; congruence. }
  destruct (suspend_slot_run s3) as [(h & rest & Ho & E0 & E1 & R)|(t & R & L & D)].
  2:{ erewrite bind_fatal_run by exact R. apply Hstop; assumption. }
  erewrite bind_ret_run by exact R.
  destruct (Z.eqb_spec buffer 0) as [Hb|Hb].
  { unfold fail. apply Hstop; reflexivity. }
  unfold bind at 1. rewrite fill_suspend_header_run.
  replace (pagedir_save (set_swap_oracle rest s3)) with (pagedir_save s1) by reflexivity.
  replace (pagedir_nosave (set_swap_oracle rest s3)) with (pagedir_nosave s1) by reflexivity.
  destruct (Z.eqb_spec (pagedir_save s1) (pagedir_nosave s1)) as [Hpd|Hpd].
  2:{ apply Hstop; reflexivity. }
  unfold rw_swap_page_sync_WRITE, bind at 1.
  replace (swap_slot (set_swap_oracle rest s3) h) with (swap_slot s1 h) by reflexivity.
  destruct (swap_slot s1 h) as [[dev blk]|] eqn:Hs.
  2:{ apply Hstop; reflexivity. }
  assert (Hh : h = header_slot s1).
  { unfold header_slot, written_chain, entry_at. fold s2. fold s3. now rewrite Ho. }
  assert (Hh1 : h = entry_at s1 (data_pages s1 + dir_pages s1)).
  { rewrite Hh. unfold header_slot, written_chain. fold s2. fold s3.
    rewrite (entry_at_drop s2 s3 (dir_pages s1)) by reflexivity.
    rewrite (entry_at_drop s1 s2 (data_pages s1)) by reflexivity.
    f_equal. lia. }
  assert (Hus : forall i, (i < data_pages s1 + dir_pages s1 + 1)%nat ->
                  usable_slot s1 (entry_at s1 i)).
  { intros i Hi.
    destruct (Nat.lt_ge_cases i (data_pages s1)) as [H1|H1]; [apply Hu1, H1|].
    destruct (Nat.lt_ge_cases i (data_pages s1 + dir_pages s1)) as [H2|H2].
    - specialize (Hu2 (i - data_pages s1)%nat ltac:(lia)).
      rewrite (entry_at_drop s1 s2 (data_pages s1)) in Hu2 by reflexivity.
      replace (data_pages s1 + (i - data_pages s1))%nat with i in Hu2 by lia. exact Hu2.
    - replace i with (data_pages s1 + dir_pages s1)%nat by lia. rewrite <- Hh1.
      repeat split; [exact E0 | exact E1 | rewrite Hs; eauto]. }
  match goal with
  | |- (let (_, _) := _ ?t in _) =>
      replace t with (written_image sys s1)
  end.
  2:{ unfold written_image, written_chain. fold s2. fold s3. rewrite <- Hh.
      unfold slot_of. rewrite Hs. cbn [default]. state_eq. now rewrite Ho. }
  pose proof (mark_swapfiles_run h MARK_SWAP_SUSPEND (written_image sys s1)) as Hm.
  unfold bind at 1.
  destruct (mark_swapfiles h MARK_SWAP_SUSPEND (written_image sys s1)) as [[[]|e] s5] eqn:Em.
  - unfold free_page, free_pages. mstep. unfold ret.
    split; [reflexivity|]. split; [exact Hb|]. split; [exact Hpd|]. split; [exact Hus|].
    split; [exact Hp1|]. split; [rewrite <- (data_pd_length s1 (data_pages s1)); exact Hp2|].
    exists s5. rewrite <- Hh. split; [exact Em | reflexivity].
  - destruct Hm as [(? & _)|[(_ & D & new & L & Hq)|(? & _)]]; try discriminate.
    exists ((data_log s1 (data_pages s1) ++ dir_log s2 (dir_pages s1))
            ++ [IoWrite_at (slot_of s1 h) (header_page sys s1)] ++ new).
    split.
    + apply logged_trans with s3; [exact L3|]. split.
      * rewrite L. unfold written_image, written_chain. fold s2. fold s3. ksimpl.
        rewrite <- Hh. now rewrite <- app_assoc.
      * rewrite D, replay_app, (replay_quiet new) by exact Hq.
        unfold written_image, written_chain. fold s2. fold s3. ksimpl.
        rewrite <- Hh. destruct (slot_of s1 h). reflexivity.
    + intros slot Hall. rewrite writes_to_app, Hq3 by exact Hall.
      rewrite writes_to_app, Hq, app_nil_r. cbn [app]. apply writes_to_elsewhere.
      apply usable_avoids; [|rewrite Hh1; apply entry_in_oracle|exact Hall].
      * rewrite Hh1. apply Hus. lia.
      * rewrite <- Hh1. exact E0.
Qed.

(** ** The marker *)

Lemma count_loop_on_device fuel : forall pfn nr pagedir_p,
  preserves on_device (count_loop sys fuel pfn nr pagedir_p).
Proof.
  induction fuel as [|fuel IH]; intros pfn nr pagedir_p; cbn [count_loop].
  - destruct (negb _); [apply preserves_ret | apply preserves_fail].
  - destruct (negb _); [apply preserves_ret|].
    apply preserves_bind; [unfold examine_page; frame|].
    intros [next|]; [apply IH|].
    apply preserves_bind; [unfold take_page; frame | intros ?; apply IH].
Qed.

Lemma count_and_copy_on_device pagedir_p :
  preserves on_device (count_and_copy_data_pages sys pagedir_p).
Proof.
  unfold count_and_copy_data_pages.
  apply preserves_bind; [apply preserves_BUG_ON | intros _; apply count_loop_on_device].
Qed.

Lemma free_suspend_pagedir_on_device pd :
  preserves (fun s => (on_device s, root_swap s, swap_info s)) (free_suspend_pagedir sys pd).
Proof. unfold free_suspend_pagedir. frame. Qed.

Lemma create_suspend_pagedir_on_device nr :
  preserves on_device (create_suspend_pagedir sys nr).
Proof.
  unfold create_suspend_pagedir. frame.
Qed.

(** The snapshot writes nothing. *)
Lemma suspend_prepare_image_on_device :
  preserves on_device (suspend_prepare_image sys).
Proof.
  unfold suspend_prepare_image, snapshot_pages. cbv zeta.
  repeat first
    [ apply count_and_copy_on_device
    | apply create_suspend_pagedir_on_device
    | frame_step ].
Qed.

Lemma replay_other log : forall d slot,
  writes_to slot log = [] -> replay log d !! slot = d !! slot.
Proof.
  induction log as [|ev log IH]; intros d slot H; [reflexivity|].
  destruct ev as [| |? ?|dev blk c]; cbn [replay writes_to] in *; try (apply IH; exact H).
  destruct (decide ((dev, blk) = slot)) as [|Hne]; [discriminate|].
  rewrite IH by exact H. now rewrite lookup_insert_ne.
Qed.

Lemma written_image_logged s : logged s (written_image sys s) (image_log sys s).
Proof.
  unfold image_log, written_image, written_chain.
  set (s2 := written_data s (data_pages s)).
  assert (L2 : io_log s2 = io_log s ++ data_log s (data_pages s)) by reflexivity.
  assert (D2 : disk s2 = replay (data_log s (data_pages s)) (disk s)) by reflexivity.
  clearbody s2. unfold written_dirs. split; ksimpl.
  - rewrite L2. now rewrite <- !app_assoc.
  - rewrite !replay_app, D2. destruct (slot_of s (header_slot s)). reflexivity.
Qed.

Lemma image_log_quiet s slot :
  (forall i, (i < data_pages s + dir_pages s + 1)%nat -> usable_slot s (entry_at s i)) ->
  Forall (fun e => swap_slot s e <> Some slot) (swap_oracle s) ->
  writes_to slot (image_log sys s) = [].
Proof.
  intros Hu Hall. unfold image_log.
  set (s2 := written_data s (data_pages s)).
  assert (Hh : header_slot s = entry_at s (data_pages s + dir_pages s)).
  { unfold header_slot, written_chain. fold s2.
    rewrite (entry_at_drop s2 _ (dir_pages s)) by reflexivity.
    rewrite (entry_at_drop s s2 (data_pages s)) by reflexivity.
    f_equal. lia. }
  rewrite !writes_to_app, data_log_quiet, dir_log_quiet; cbn [app].
  - apply writes_to_elsewhere.
    pose proof (Hu (data_pages s + dir_pages s)%nat ltac:(lia)) as Hj.
    rewrite Hh. apply usable_avoids; [exact Hj | apply entry_in_oracle, Hj | exact Hall].
  - intros i Hi. rewrite (entry_at_drop s s2 (data_pages s)) by reflexivity.
    apply (Hu (data_pages s + i)%nat). lia.
  - apply (Forall_drop _ (data_pages s)) in Hall. exact Hall.
  - intros i Hi. apply Hu. lia.
  - exact Hall.
Qed.

Lemma written_image_marker_slot s : marker_slot (written_image sys s) = marker_slot s.
Proof. reflexivity. Qed.

Lemma marker_history_quiet slot s s' new :
  io_log s' = io_log s ++ new -> writes_to slot new = [] ->
  marker_history slot s s' = match disk s !! slot with Some old => [old] | None => [] end.
Proof.
  intros L Q. unfold marker_history. rewrite L, drop_app_length, Q. apply app_nil_r.
Qed.

Lemma marker_history_write slot s s' new old cur' :
  io_log s' = io_log s ++ new -> writes_to slot new = [cur'] ->
  disk s !! slot = Some old ->
  marker_history slot s s' = [old; cur'].
Proof.
  intros L Q D. unfold marker_history. now rewrite L, drop_app_length, Q, D.
Qed.

Lemma moves_by_short step (history : list page) :
  (length history <= 1)%nat -> moves_by step history.
Proof.
  intros H i a b _ Hb. apply lookup_lt_Some in Hb. lia.
Qed.

Lemma moves_by_pair step (a b : page) :
  (a = b \/ exists ma mb, marker_of a = Some ma /\ marker_of b = Some mb /\ step ma mb) ->
  moves_by step [a; b].
Proof.
  intros H [|i] x y Hx Hy.
  - cbn in Hx, Hy. injection Hx as <-. injection Hy as <-. exact H.
  - apply lookup_lt_Some in Hy. cbn in Hy. lia.
Qed.

(** The marker over a run of write_suspend_image: untouched, or moved
    once, from plain swap to a committed image. *)
Lemma write_suspend_image_marker s slot :
  marker_slot s = Some slot ->
  Forall (fun e => swap_slot s e <> Some slot) (swap_oracle s) ->
  let history := marker_history slot s (snd (write_suspend_image sys s)) in
  moves_by commit_step history /\ (length history <= 2)%nat.
Proof.
  intros Hslot Hall.
  destruct (write_suspend_image_run s) as (buffer & s1 & G & H).
  destruct (get_zeroed_page_alloc s) as (buffer' & s1' & G' & B & _).
  rewrite G in G'. injection G' as <- <-.
  assert (Bd : disk s1 = disk s) by (unfold beside_alloc in B; congruence).
  assert (Bl : io_log s1 = io_log s) by (unfold beside_alloc in B; congruence).
  assert (Bi : swap_info s1 = swap_info s) by (unfold beside_alloc in B; congruence).
  assert (Bo : swap_oracle s1 = swap_oracle s) by (unfold beside_alloc in B; congruence).
  assert (Br : root_swap s1 = root_swap s) by (unfold beside_alloc in B; congruence).
  assert (Hall1 : Forall (fun e => swap_slot s1 e <> Some slot) (swap_oracle s1)).
  { rewrite Bo. unfold swap_slot. rewrite Bi. exact Hall. }
  assert (Hquiet : forall t new, io_log t = io_log s1 ++ new -> writes_to slot new = [] ->
            let history := marker_history slot s t in
            moves_by commit_step history /\ (length history <= 2)%nat).
  { intros t new L Q. rewrite Bl in L. cbv zeta.
    rewrite (marker_history_quiet _ _ _ _ L Q).
    destruct (disk s !! slot); cbn [length]; (split; [apply moves_by_short; cbn; lia | lia]). }
  destruct (write_suspend_image sys s) as [[v|e] s'] eqn:E; cbn [snd].
  2:{ destruct H as (new & [L _] & Q). apply (Hquiet s' new L), Q, Hall1. }
  destruct H as (-> & Hb & Hpd & Hus & Hp1 & Hp2 & s5 & Em & Hs').
  assert (Ls' : io_log s' = io_log s5) by (rewrite Hs'; reflexivity).
  clear Hs'.
  pose proof (written_image_logged s1) as [L4 D4].
  pose proof (image_log_quiet s1 slot Hus Hall1) as Q4.
  pose proof (mark_swapfiles_run (header_slot s1) MARK_SWAP_SUSPEND (written_image sys s1)) as Hm.
  rewrite Em in Hm.
  destruct Hm as [(_ & Hs5 & _)|[((? & [=]) & _)|(_ & dev & blk & old & cur' & Hms & Hold & Hmk & L & D)]].
  { apply (Hquiet s' (image_log sys s1)); [|exact Q4]. now rewrite Ls', Hs5. }
  assert (Hsl : (dev, blk) = slot).
  { rewrite written_image_marker_slot in Hms. unfold marker_slot, swap_slot in Hms, Hslot.
    rewrite Br, Bi in Hms. congruence. }
  rewrite D4, Hsl, (replay_other _ _ _ Q4), Bd in Hold.
  cbv zeta. erewrite marker_history_write; [| | |exact Hold].
  - split; [|cbn; lia]. apply moves_by_pair. right.
    destruct (marked_suspend (header_slot s1) MARK_SWAP_SUSPEND old cur'
                ltac:(unfold MARK_SWAP_SUSPEND; lia) Hmk) as (Ha & Hc & _).
    exists NormalSwap, SuspendCommitted.
    split; [exact Ha|]. split; [exact Hc|]. split; reflexivity.
  - rewrite Ls', L, L4, Bl, <- app_assoc. reflexivity.
  - rewrite writes_to_app, Q4, <- Hsl. cbn. destruct (decide _); [reflexivity | contradiction].
Qed.

(** The marker over swsusp_free: untouched, rewritten as it was, or
    moved from a committed image back to plain swap. *)
Lemma swsusp_free_marker s slot :
  marker_slot s = Some slot ->
  let history := marker_history slot s (snd (swsusp_free sys s)) in
  moves_by revert_step history /\ (length history <= 2)%nat.
Proof.
  intros Hslot.
  assert (Hquiet : forall t new, io_log t = io_log s ++ new -> writes_to slot new = [] ->
            let history := marker_history slot s t in
            moves_by revert_step history /\ (length history <= 2)%nat).
  { intros t new L Q. cbv zeta. rewrite (marker_history_quiet _ _ _ _ L Q).
    destruct (disk s !! slot); cbn [length]; (split; [apply moves_by_short; cbn; lia | lia]). }
  destruct (swsusp_free sys s) as [r s'] eqn:E. cbn [snd].
  unfold swsusp_free in E. rewrite bind_gets in E. unfold bind at 1 in E.
  destruct (free_suspend_pagedir sys (pagedir_save s) s) as [[[]|e] t] eqn:F;
    apply (preserves_run _ _ _ _ _ (free_suspend_pagedir_on_device _)) in F;
    unfold on_device in F; injection F as Fd Fl Fr Fi.
  2:{ injection E as <- <-. apply (Hquiet t []); [now rewrite app_nil_r | reflexivity]. }
  pose proof (mark_swapfiles_run 0 MARK_SWAP_RESUME t) as Hm.
  unfold bind at 1 in E.
  destruct (mark_swapfiles 0 MARK_SWAP_RESUME t) as [r5 s5].
  destruct Hm as [(-> & -> & _)|[((e & ->) & D & new & L & Q)|(-> & dev & blk & old & cur' & Hms & Hold & Hmk & L & D)]];
    injection E as <- <-.
  - apply (Hquiet t []); [now rewrite app_nil_r | reflexivity].
  - apply (Hquiet s5 new); [congruence | apply Q].
  - assert (Hsl : (dev, blk) = slot).
    { unfold marker_slot, swap_slot in Hms, Hslot. rewrite Fr, Fi in Hms. congruence. }
    rewrite Hsl, Fd in Hold. rewrite Fl in L.
    cbv zeta. erewrite marker_history_write; [|exact L| |exact Hold].
    + split; [|cbn; lia]. apply moves_by_pair.
      destruct (marked_resume _ _ _ Hmk) as [->|[Ha Hc]]; [left; reflexivity|].
      right. exists SuspendCommitted, NormalSwap.
      split; [exact Ha|]. split; [exact Hc|]. split; reflexivity.
    + rewrite <- Hsl. cbn. destruct (decide _); [reflexivity | contradiction].
Qed.

(** C8, as the code has it: the snapshot leaves the device alone; over
    write_suspend_image the marker page is written at most once, and that
    write takes it from plain swap to a committed image; over swsusp_free it
    is written at most once, back as it was or from a committed image to
    plain swap.  There is no state in between. *)
Theorem marker_moves_directly s slot :
  marker_slot s = Some slot ->
  Forall (fun e => swap_slot s e <> Some slot) (swap_oracle s) ->
  on_device (snd (suspend_prepare_image sys s)) = on_device s
  /\ (let history := marker_history slot s (snd (write_suspend_image sys s)) in
      moves_by commit_step history /\ (length history <= 2)%nat)
  /\ (let history := marker_history slot s (snd (swsusp_free sys s)) in
      moves_by revert_step history /\ (length history <= 2)%nat).
Proof.
  intros Hslot Hall. split; [apply suspend_prepare_image_on_device|].
  split; [apply write_suspend_image_marker; assumption | apply swsusp_free_marker, Hslot].
Qed.

(** ** The chain of directory pages *)

Lemma read_pagedir_step_run bdev i nx blk pg b :
  position nx <> 0 -> blk = link_block nx ->
  disk b !! (bdev, blk) = Some (PgDir pg) -> length pg = PBES_PER_PAGE ->
  (S i * PBES_PER_PAGE <= length (pagedir b))%nat ->
  read_pagedir_step sys bdev i (position nx) b
  = (Ret (inl (position (default 0 (link_next (PgDir pg))))),
     set_pagedir (firstn (i * PBES_PER_PAGE) (pagedir b) ++ pg
                    ++ skipn (S i * PBES_PER_PAGE) (pagedir b))
       (set_io_log (io_log b ++ [IoRead bdev blk]) b)).
Proof.
  intros Hpos -> Hd Hlen Hfit. unfold read_pagedir_step.
  destruct (Z.eqb_spec (position nx) 0) as [|_]; [contradiction|]. mstep.
  erewrite bind_ret_run by (apply bdev_read_page_run, to_long_page_multiple).
  unfold position at 1 2. rewrite to_long_page_block. fold (link_block nx).
  ksimpl. rewrite Hd. mstep.
  destruct (Nat.leb_spec (S i * PBES_PER_PAGE) (length (pagedir b))) as [_|]; [|lia].
  cbn [negb]. mstep. unfold PREPARENEXT, next_of, pbes_of.
  rewrite resize_all_alt by (symmetry; exact Hlen).
  pose proof PBES_PER_PAGE_pos as HP.
  destruct pg as [|p0 pg] using rev_ind; [cbn in Hlen; lia|].
  cbn [link_next]. rewrite last_snoc. cbn [fmap option_fmap option_map default]. mstep.
  reflexivity.
Qed.

(** The loop reading the directory, on a chain of as many pages as it
    expects: it reads them in the order of the chain, fills the directory
    from its last page down, and ends on the empty link. *)
Lemma read_pagedir_loop bdev : forall pages nx b,
  chain (disk b) bdev nx pages ->
  (length pages * PBES_PER_PAGE <= length (pagedir b))%nat ->
  for_down (length pages) (read_pagedir_step sys bdev) (position nx) b
  = (Ret (inl 0),
     set_pagedir (concat (map snd (rev pages))
                    ++ skipn (length pages * PBES_PER_PAGE) (pagedir b))
       (set_io_log (io_log b ++ map (fun bp => IoRead bdev (fst bp)) pages) b)).
Proof.
  induction pages as [|[blk pg] rest IH]; intros nx b Hc Hfit.
  - cbn in Hc. cbn [for_down length]. rewrite Hc. unfold ret. f_equal.
    state_eq. cbn [map]. now rewrite app_nil_r.
  - destruct Hc as (Hpos & Hblk & Hd & Hlen & Hrest). cbn [length] in *.
    cbn [for_down].
    erewrite bind_ret_run
      by (apply (read_pagedir_step_run _ _ _ _ _ _ Hpos Hblk Hd Hlen); lia).
    cbv beta iota. set (b1 := set_pagedir _ _).
    assert (Hl1 : length (pagedir b1) = length (pagedir b)).
    { subst b1. ksimpl. rewrite !length_app, length_take, length_drop, Hlen. lia. }
    rewrite IH; [|exact Hrest|rewrite Hl1; lia].
    f_equal. subst b1. state_eq.
    + rewrite <- app_assoc. reflexivity.
    + cbn [rev]. rewrite map_app, concat_app. cbn [map concat snd]. rewrite app_nil_r.
      rewrite <- app_assoc. f_equal.
      rewrite drop_app_length'; [reflexivity|]. rewrite length_take. lia.
Qed.


(** ** The image on the device *)

Lemma link_block_offset e :
  0 < swp_offset e -> swp_offset e * PAGE_SIZE < 2 ^ BITS_PER_LONG ->
  link_block e = swp_offset e /\ position e <> 0.
Proof.
  intros H0 H1. pose proof PAGE_SIZE_pos as HP.
  assert (Hu : ulong (swp_offset e * PAGE_SIZE) = swp_offset e * PAGE_SIZE).
  { unfold ulong. apply Z.mod_small. nia. }
  unfold link_block, position. rewrite Hu. split; [|nia].
  apply Z.div_mul. lia.
Qed.

Lemma entry_lookup s i :
  (i < length (swap_oracle s))%nat -> swap_oracle s !! i = Some (entry_at s i).
Proof.
  intros Hi. unfold entry_at.
  destruct (nth_lookup_or_length (swap_oracle s) i 0) as [H|H]; [exact H | lia].
Qed.

Lemma image_slot_at s bdev m i :
  image_slots s bdev m -> (i < m)%nat ->
  let e := entry_at s i in
  swap_slot s e = Some (bdev, swp_offset e) /\ slot_of s e = (bdev, swp_offset e)
  /\ 0 < swp_offset e /\ link_block e = swp_offset e /\ position e <> 0
  /\ 0 <= e < 2 ^ BITS_PER_LONG.
Proof.
  intros (Hall & _ & Hm) Hi e.
  assert (He : firstn m (swap_oracle s) !! i = Some e).
  { rewrite lookup_take_lt by exact Hi. apply entry_lookup. lia. }
  rewrite Forall_forall in Hall.
  destruct (Hall e (list_elem_of_lookup_2 _ _ _ He)) as (Hs & H0 & H1 & Hr).
  destruct (link_block_offset e H0 H1) as [Hb Hp].
  unfold slot_of. rewrite Hs. repeat split; try assumption; lia.
Qed.

Lemma image_slots_distinct s bdev m i j :
  image_slots s bdev m -> (i < m)%nat -> (j < m)%nat -> i <> j ->
  swp_offset (entry_at s i) <> swp_offset (entry_at s j).
Proof.
  intros (_ & Hnd & Hm) Hi Hj Hne Heq.
  assert (He : forall i, (i < m)%nat ->
            map swp_offset (firstn m (swap_oracle s)) !! i = Some (swp_offset (entry_at s i))).
  { intros t Ht. rewrite list_lookup_fmap, lookup_take_lt by exact Ht.
    rewrite entry_lookup by lia. reflexivity. }
  apply Hne. eapply NoDup_lookup; [exact Hnd | apply He, Hi|]. rewrite Heq. apply He, Hj.
Qed.

Lemma replay_write sl c d : replay [IoWrite_at sl c] d = <[sl := c]> d.
Proof. destruct sl. reflexivity. Qed.

Lemma data_log_avoids s slot j :
  (forall i, (i < j)%nat -> slot_of s (entry_at s i) <> slot) ->
  writes_to slot (data_log s j) = [].
Proof.
  intros H. induction j as [|j IH]; [reflexivity|].
  cbn [data_log]. rewrite writes_to_app, IH by (intros; apply H; lia).
  apply writes_to_elsewhere, H. lia.
Qed.

Lemma dir_log_avoids s slot j :
  (forall i, (i < j)%nat -> slot_of s (entry_at s i) <> slot) ->
  writes_to slot (dir_log s j) = [].
Proof.
  intros H. induction j as [|j IH]; [reflexivity|].
  cbn [dir_log]. rewrite writes_to_app, IH by (intros; apply H; lia).
  apply writes_to_elsewhere, H. lia.
Qed.

(** After the first loop every slot it used holds its page. *)
Lemma data_log_lookup s d j :
  (forall i i', (i < j)%nat -> (i' < j)%nat -> i <> i' ->
     slot_of s (entry_at s i) <> slot_of s (entry_at s i')) ->
  forall i, (i < j)%nat ->
    replay (data_log s j) d !! slot_of s (entry_at s i) = Some (saved_page s i).
Proof.
  induction j as [|j IH]; intros Hd i Hi; [lia|].
  cbn [data_log]. rewrite replay_app, replay_write.
  destruct (decide (i = j)) as [->|Hne].
  - apply lookup_insert_eq.
  - rewrite lookup_insert_ne by (apply Hd; lia).
    apply IH; [|lia]. intros; apply Hd; lia.
Qed.

Lemma dir_log_lookup s d j :
  (forall i i', (i < j)%nat -> (i' < j)%nat -> i <> i' ->
     slot_of s (entry_at s i) <> slot_of s (entry_at s i')) ->
  forall i, (i < j)%nat ->
    replay (dir_log s j) d !! slot_of s (entry_at s i)
    = Some (PgDir (dir_page (dir_pd s (S i)) i)).
Proof.
  induction j as [|j IH]; intros Hd i Hi; [lia|].
  cbn [dir_log]. rewrite replay_app, replay_write.
  destruct (decide (i = j)) as [->|Hne].
  - apply lookup_insert_eq.
  - rewrite lookup_insert_ne by (apply Hd; lia).
    apply IH; [|lia]. intros; apply Hd; lia.
Qed.

(** ** The pages of the directory as the writer links them *)

Lemma dir_page_alter_other {A} (f : A -> A) (pd : list A) i m :
  (m < i * PBES_PER_PAGE \/ S i * PBES_PER_PAGE <= m)%nat ->
  firstn PBES_PER_PAGE (skipn (i * PBES_PER_PAGE) (alter f m pd))
  = firstn PBES_PER_PAGE (skipn (i * PBES_PER_PAGE) pd).
Proof.
  intros [H|H].
  - now rewrite drop_alter_lt by exact H.
  - rewrite drop_alter_ge by lia. apply take_alter_ge. lia.
Qed.

Lemma dir_page_stable s i : forall j, (i < j)%nat ->
  dir_page (dir_pd s j) i = dir_page (dir_pd s (S i)) i.
Proof.
  induction j as [|j IH]; intros Hj; [lia|].
  destruct (decide (i = j)) as [->|Hne]; [reflexivity|].
  rewrite <- IH by lia. cbn [dir_pd]. unfold dir_page.
  apply dir_page_alter_other. right.
  pose proof PBES_PER_PAGE_pos. nia.
Qed.

Lemma dir_page_length (pd : list pbe) i :
  (S i * PBES_PER_PAGE <= length pd)%nat -> length (dir_page pd i) = PBES_PER_PAGE.
Proof.
  intros H. unfold dir_page. rewrite length_take, length_drop. lia.
Qed.

Lemma dir_page_last (pd : list pbe) i :
  (S i * PBES_PER_PAGE <= length pd)%nat ->
  last (dir_page pd i) = pd !! pred (S i * PBES_PER_PAGE).
Proof.
  intros H. pose proof PBES_PER_PAGE_pos as HP.
  rewrite last_lookup, dir_page_length by exact H.
  unfold dir_page. rewrite lookup_take_lt, lookup_drop by lia. f_equal. lia.
Qed.

(** Page [i] as written ends in the link to the slot written before it. *)
Lemma dir_page_link s i :
  (S i * PBES_PER_PAGE <= length (pagedir s))%nat ->
  link_next (PgDir (dir_page (dir_pd s (S i)) i)) = Some (dir_prev s i).
Proof.
  intros H. cbn [link_next]. rewrite dir_page_last by (now rewrite dir_pd_length).
  cbn [dir_pd]. rewrite list_lookup_alter_eq.
  destruct (lookup_lt_is_Some_2 (dir_pd s i) (pred (S i * PBES_PER_PAGE))) as [p Hp].
  { rewrite dir_pd_length. pose proof PBES_PER_PAGE_pos. lia. }
  rewrite Hp. reflexivity.
Qed.

Lemma header_slot_entry s :
  header_slot s = entry_at s (data_pages s + dir_pages s).
Proof.
  unfold header_slot, written_chain.
  rewrite (entry_at_drop (written_data s (data_pages s)) _ (dir_pages s)) by reflexivity.
  rewrite (entry_at_drop s _ (data_pages s)) by reflexivity.
  f_equal. lia.
Qed.

(** What the device holds once the header is written. *)
Lemma written_image_disk s bdev :
  image_slots s bdev (data_pages s + dir_pages s + 1) ->
  let d := disk (written_image sys s) in
  (forall i, (i < data_pages s)%nat ->
     d !! (bdev, swp_offset (entry_at s i)) = Some (saved_page s i))
  /\ (forall i, (i < dir_pages s)%nat ->
        d !! (bdev, swp_offset (entry_at s (data_pages s + i)))
        = Some (PgDir (dir_page (dir_pd (written_data s (data_pages s)) (dir_pages s)) i)))
  /\ d !! (bdev, swp_offset (header_slot s)) = Some (header_page sys s)
  /\ d !! (bdev, 0) = disk s !! (bdev, 0).
Proof.
  intros Hsl d.
  set (n := data_pages s) in *. set (k := dir_pages s) in *.
  set (s2 := written_data s n).
  assert (Hslot : forall i, (i < n + k + 1)%nat ->
            slot_of s (entry_at s i) = (bdev, swp_offset (entry_at s i))).
  { intros i Hi. apply (image_slot_at s bdev _ i Hsl Hi). }
  assert (Hne : forall i j, (i < n + k + 1)%nat -> (j < n + k + 1)%nat -> i <> j ->
            slot_of s (entry_at s i) <> slot_of s (entry_at s j)).
  { intros i j Hi Hj Hij. rewrite !Hslot by assumption.
    pose proof (image_slots_distinct s bdev _ i j Hsl Hi Hj Hij). congruence. }
  assert (Hpos : forall i, (i < n + k + 1)%nat -> slot_of s (entry_at s i) <> (bdev, 0)).
  { intros i Hi. rewrite Hslot by assumption.
    destruct (image_slot_at s bdev _ i Hsl Hi) as (_ & _ & H0 & _). intros [= E]. lia. }
  assert (E2 : forall i, entry_at s2 i = entry_at s (n + i)).
  { intros i. apply entry_at_drop. reflexivity. }
  assert (Hd : d = <[slot_of s (header_slot s) := header_page sys s]>
                     (replay (dir_log s2 k) (replay (data_log s n) (disk s)))) by reflexivity.
  assert (Hh : header_slot s = entry_at s (n + k)) by apply header_slot_entry.
  clearbody d. subst d. rewrite Hh.
  split; [|split; [|split]].
  - intros i Hi. rewrite <- Hslot by lia.
    rewrite lookup_insert_ne by (apply Hne; lia).
    rewrite replay_other.
    + apply data_log_lookup; [|exact Hi]. intros; apply Hne; lia.
    + apply dir_log_avoids. intros j Hj. rewrite E2.
      change (slot_of s2) with (slot_of s). apply Hne; lia.
  - intros i Hi. rewrite <- Hslot by lia.
    rewrite lookup_insert_ne by (apply Hne; lia).
    rewrite <- E2. change (slot_of s) with (slot_of s2).
    rewrite dir_log_lookup; [now rewrite (dir_page_stable s2 i k Hi)| |exact Hi].
    intros a b Ha Hb Hab. rewrite !E2. change (slot_of s2) with (slot_of s). apply Hne; lia.
  - rewrite <- Hslot by lia. apply lookup_insert_eq.
  - rewrite lookup_insert_ne by (apply Hpos; lia).
    rewrite !replay_other; [reflexivity| |].
    + apply data_log_avoids. intros; apply Hpos; lia.
    + apply dir_log_avoids. intros j Hj. rewrite E2.
      change (slot_of s2) with (slot_of s). apply Hpos; lia.
Qed.

Lemma written_image_fields s :
  pagedir (written_image sys s) = dir_pd (written_data s (data_pages s)) (dir_pages s)
  /\ mem (written_image sys s) = mem s
  /\ nr_copy_pages (written_image sys s) = nr_copy_pages s
  /\ root_swap (written_image sys s) = root_swap s
  /\ io_log (written_image sys s) = io_log s ++ image_log sys s.
Proof.
  repeat split; try reflexivity. apply (written_image_logged s).
Qed.

(** A run of write_suspend_image that returns: the image, then the
    marker, committed and pointing at the header. *)
Lemma write_suspend_image_returns s v s' bdev :
  write_suspend_image sys s = (Ret v, s') ->
  marker_slot s = Some (bdev, 0) -> root_swap s <> 65535 ->
  exists buffer s1 old cur',
    get_zeroed_page s = (Ret buffer, s1) /\ beside_alloc s1 = beside_alloc s
    /\ v = 0 /\ buffer <> 0
    /\ (exists rest, page_oracle s = buffer :: rest
          /\ mem s1 = <[buffer := zero_page]> (mem s))
    /\ (data_pages s1 <= length (pagedir s1))%nat
    /\ (dir_pages s1 * PBES_PER_PAGE <= length (pagedir s1))%nat
    /\ disk (written_image sys s1) !! (bdev, 0) = Some old
    /\ marked (header_slot s1) MARK_SWAP_SUSPEND old = Some cur'
    /\ disk s' = <[(bdev, 0) := cur']> (disk (written_image sys s1))
    /\ pagedir s' = pagedir (written_image sys s1)
    /\ nr_copy_pages s' = nr_copy_pages s.
Proof.
  intros E Hslot Hroot.
  destruct (write_suspend_image_run s) as (buffer & s1 & G & H).
  destruct (get_zeroed_page_alloc s) as (buffer' & s1' & G' & B & Hbuf).
  rewrite G in G'. injection G' as <- <-.
  rewrite E in H. destruct H as (-> & Hb & Hpd & Hus & Hp1 & Hp2 & s5 & Em & Hs').
  exists buffer, s1.
  assert (Bi : swap_info s1 = swap_info s) by (unfold beside_alloc in B; congruence).
  assert (Br : root_swap s1 = root_swap s) by (unfold beside_alloc in B; congruence).
  assert (Bn : nr_copy_pages s1 = nr_copy_pages s) by (unfold beside_alloc in B; congruence).
  pose proof (mark_swapfiles_run (header_slot s1) MARK_SWAP_SUSPEND (written_image sys s1)) as Hm.
  pose proof (preserves_run _ _ _ _ _ (mark_swapfiles_frame _ _) Em) as Fm.
  rewrite Em in Hm.
  destruct (written_image_fields s1) as (Wp & Wm & Wn & Wr & _).
  destruct Hm as [(_ & _ & Hr)|[((? & [=]) & _)|(_ & dev & blk & old & cur' & Hms & Hold & Hmk & L & D)]].
  { rewrite Wr, Br in Hr. contradiction. }
  assert (Hsl : (dev, blk) = (bdev, 0)).
  { rewrite written_image_marker_slot in Hms. unfold marker_slot, swap_slot in Hms, Hslot.
    rewrite Br, Bi in Hms. congruence. }
  injection Hsl as -> ->.
  exists old, cur'.
  assert (Fp : pagedir s5 = pagedir (written_image sys s1))
    by (unfold beside_marker in Fm; congruence).
  assert (Fn : nr_copy_pages s5 = nr_copy_pages (written_image sys s1))
    by (unfold beside_marker in Fm; congruence).
  split; [exact G|]. split; [exact B|]. split; [reflexivity|]. split; [exact Hb|].
  split.
  { destruct (Hbuf Hb) as (rest & Ho & ->). exists rest. split; [exact Ho | reflexivity]. }
  split; [exact Hp1|]. split; [exact Hp2|]. split; [exact Hold|]. split; [exact Hmk|].
  rewrite Hs'. ksimpl. split; [exact D|]. split; [exact Fp|]. now rewrite Fn, Wn.
Qed.

Lemma position_0 : position 0 = 0.
Proof. unfold position, ulong. rewrite swp_offset_null. reflexivity. Qed.

(** The pages of the directory on the device form a chain from [prev]
    of the second loop. *)
Lemma pages_written_chain d s bdev k :
  (k * PBES_PER_PAGE <= length (pagedir s))%nat ->
  (forall i, (i < k)%nat ->
     d !! (bdev, swp_offset (entry_at s i)) = Some (PgDir (dir_page (dir_pd s k) i))
     /\ link_block (entry_at s i) = swp_offset (entry_at s i)
     /\ position (entry_at s i) <> 0) ->
  forall j, (j <= k)%nat ->
    chain d bdev (dir_prev s j)
      (map (fun i => (swp_offset (entry_at s i), dir_page (dir_pd s k) i)) (rev (seq 0 j))).
Proof.
  intros Hfit H. induction j as [|j IH]; intros Hj.
  - apply position_0.
  - rewrite seq_S, rev_app_distr. cbn [rev app map Nat.add dir_prev].
    destruct (H j ltac:(lia)) as (Hd & Hb & Hp).
    pose proof PBES_PER_PAGE_pos as HP.
    assert (Hfit' : (S j * PBES_PER_PAGE <= length (pagedir s))%nat) by nia.
    split; [exact Hp|]. split; [now rewrite Hb|]. split; [exact Hd|].
    split; [apply dir_page_length; rewrite dir_pd_length; exact Hfit'|].
    rewrite (dir_page_stable s j k) by lia.
    rewrite dir_page_link by exact Hfit'. apply IH. lia.
Qed.

Lemma image_slots_alloc s s1 bdev m :
  beside_alloc s1 = beside_alloc s -> image_slots s bdev m -> image_slots s1 bdev m.
Proof.
  intros B. unfold beside_alloc in B.
  assert (Bi : swap_info s1 = swap_info s) by congruence.
  assert (Bo : swap_oracle s1 = swap_oracle s) by congruence.
  unfold image_slots, swap_slot. now rewrite Bi, Bo.
Qed.

Lemma marker_of_committed_inv pg :
  marker_of pg = Some SuspendCommitted ->
  exists r m, pg = PgSwap r m
    /\ (memcmp (bytes_of "SWAP-SPACE") m 10 =? 0) || (memcmp (bytes_of "SWAPSPACE2") m 10 =? 0)
       = false
    /\ (memcmp (bytes_of "S1") m 2 =? 0) || (memcmp (bytes_of "S2") m 2 =? 0) = true.
Proof.
  unfold marker_of. destruct pg as [|r m| |]; cbn [swh_magic]; try discriminate.
  intros H. exists r, m. split; [reflexivity|].
  destruct (_ || _); [discriminate|]. split; [reflexivity|].
  destruct (_ || _); [reflexivity | discriminate].
Qed.

(** What the device holds after write_suspend_image has returned. *)
Lemma image_on_device s s' v bdev :
  write_suspend_image sys s = (Ret v, s') ->
  marker_slot s = Some (bdev, 0) -> root_swap s <> 65535 ->
  image_slots s bdev (data_pages s + dir_pages s + 1) ->
  exists buffer s1 cur',
    get_zeroed_page s = (Ret buffer, s1) /\ beside_alloc s1 = beside_alloc s
    /\ (exists rest, page_oracle s = buffer :: rest
          /\ mem s1 = <[buffer := zero_page]> (mem s))
    /\ (data_pages s <= length (pagedir s))%nat
    /\ (dir_pages s * PBES_PER_PAGE <= length (pagedir s))%nat
    /\ pagedir s' = dir_pd (written_data s1 (data_pages s)) (dir_pages s)
    /\ nr_copy_pages s' = nr_copy_pages s
    /\ disk s' !! (bdev, 0) = Some cur'
    /\ marker_of cur' = Some SuspendCommitted
    /\ link_next cur' = Some (entry_at s (data_pages s + dir_pages s))
    /\ disk s' !! (bdev, swp_offset (entry_at s (data_pages s + dir_pages s)))
       = Some (PgHeader (image_header sys s)
                 (dir_prev (written_data s1 (data_pages s)) (dir_pages s)))
    /\ (forall i, (i < dir_pages s)%nat ->
          disk s' !! (bdev, swp_offset (entry_at s (data_pages s + i)))
          = Some (PgDir (dir_page (pagedir s') i)))
    /\ (forall i, (i < data_pages s)%nat ->
          disk s' !! (bdev, swp_offset (entry_at s i)) = Some (saved_page s1 i)).
Proof.
  intros E Hslot Hroot Hsl.
  destruct (write_suspend_image_returns _ _ _ _ E Hslot Hroot)
    as (buffer & s1 & old & cur' & G & B & -> & Hb & Hbuf & Hp1 & Hp2 & Hold & Hmk & D & Fp & Fn).
  exists buffer, s1, cur'.
  pose proof (image_slots_alloc _ _ _ _ B Hsl) as Hsl1.
  assert (Bn : nr_copy_pages s1 = nr_copy_pages s) by (unfold beside_alloc in B; congruence).
  assert (Bo : swap_oracle s1 = swap_oracle s) by (unfold beside_alloc in B; congruence).
  assert (Bp : pagedir s1 = pagedir s) by (unfold beside_alloc in B; congruence).
  assert (Bpn : pagedir_nosave s1 = pagedir_nosave s) by (unfold beside_alloc in B; congruence).
  assert (En : data_pages s1 = data_pages s) by (unfold data_pages; now rewrite Bn).
  assert (Ek : dir_pages s1 = dir_pages s) by (unfold dir_pages; now rewrite Bn).
  assert (Ee : forall i, entry_at s1 i = entry_at s i) by (intros; unfold entry_at; now rewrite Bo).
  assert (Eh : image_header sys s1 = image_header sys s)
    by (unfold image_header; now rewrite Bn, Bpn).
  rewrite <- En, <- Ek in Hsl1.
  destruct (written_image_disk s1 bdev Hsl1) as (Wd & Wp & Wh & Wm).
  destruct (written_image_fields s1) as (Fpd & _).
  rewrite header_slot_entry in Wh, Hmk.
  rewrite En, Ek in *. setoid_rewrite Ee in Wd. setoid_rewrite Ee in Wp.
  rewrite Ee in Wh, Hmk.
  set (h := entry_at s (data_pages s + dir_pages s)) in *.
  assert (Hh : 0 < swp_offset h /\ 0 <= h < 2 ^ BITS_PER_LONG).
  { destruct (image_slot_at s bdev _ (data_pages s + dir_pages s) Hsl ltac:(lia))
      as (_ & _ & H0 & _ & _ & Hr). split; assumption. }
  destruct (marked_suspend h MARK_SWAP_SUSPEND old cur'
              ltac:(unfold MARK_SWAP_SUSPEND; lia) Hmk) as (_ & Hc & Hl).
  split; [exact G|]. split; [exact B|]. split; [exact Hbuf|].
  split; [now rewrite <- Bp|]. split; [now rewrite <- Bp|].
  split; [now rewrite Fp, Fpd|]. split; [exact Fn|].
  rewrite D. split; [apply lookup_insert_eq|]. split; [exact Hc|].
  split; [apply Hl, Hh|].
  split.
  { rewrite lookup_insert_ne by (intros [= H0]; lia). rewrite Wh.
    unfold header_page. now rewrite En, Ek, Eh. }
  split.
  - intros i Hi.
    destruct (image_slot_at s bdev _ (data_pages s + i) Hsl ltac:(lia)) as (_ & _ & H0 & _).
    rewrite lookup_insert_ne by (intros [= H1]; lia).
    rewrite Wp by exact Hi. now rewrite Fp, Fpd.
  - intros i Hi.
    destruct (image_slot_at s bdev _ i Hsl ltac:(lia)) as (_ & _ & H0 & _).
    rewrite lookup_insert_ne by (intros [= H1]; lia).
    apply Wd, Hi.
Qed.

Lemma sanity_check_image_header s : sanity_check sys (image_header sys s) = 0.
Proof.
  apply sanity_check_ok. intros []; cbn [field_matches image_header version_code
    sh_num_physpages machine version num_cpus page_size]; try reflexivity;
    apply cstring_strncpy_buf.
Qed.

(** read_suspend_image on a committed marker whose header passes
    sanity_check: two reads, then the part that loads the image. *)
Lemma read_suspend_image_header bdev b r m sh lk :
  disk b !! (bdev, 0) = Some (PgSwap r m) ->
  marker_of (PgSwap r m) = Some SuspendCommitted ->
  let h := le_value (skipn (10 - sizeof_long) m) in
  disk b !! (bdev, link_block h) = Some (PgHeader sh lk) ->
  sanity_check sys sh = 0 ->
  read_suspend_image sys bdev b
  = read_suspend_image_body sys bdev sh (position lk)
      (set_io_log (io_log b ++ [IoRead bdev 0; IoRead bdev (link_block h)]) b).
Proof.
  intros Hm Hc h Hh Hs.
  destruct (marker_of_committed_inv _ Hc) as (r' & m' & [= <- <-] & Hplain & Hmagic).
  unfold read_suspend_image.
  erewrite bind_ret_run by apply bdev_read_page_0.
  rewrite Hm. cbv zeta. unfold magic_of. cbn [swh_magic]. rewrite Hplain.
  unfold PREPARENEXT, next_of. cbn [link_next]. mstep. rewrite Hmagic. cbn [negb].
  erewrite bind_ret_run by (apply bdev_read_page_run, to_long_page_multiple).
  rewrite to_long_page_block.
  ksimpl. fold (link_block (le_value (drop (10 - sizeof_long) m))). fold h.
  rewrite Hh. unfold header_of. cbn [sh_view link_next]. rewrite Hs. cbn [Z.eqb negb]. mstep.
  rewrite <- app_assoc. reflexivity.
Qed.

Lemma fresh_directory_length order :
  length (fresh_directory sys order) = (Z.to_nat (2 ^ order) * PBES_PER_PAGE)%nat.
Proof. unfold fresh_directory. now rewrite length_map, length_seq. Qed.





(** ** Reading the image back *)

Lemma mem_read_insert s a pg a' :
  mem_read (set_mem (<[a := pg]> (mem s)) s) a'
  = if decide (a = a') then pg else mem_read s a'.
Proof.
  unfold mem_read. ksimpl. destruct (decide (a = a')) as [->|Hne].
  - now rewrite lookup_insert_eq.
  - now rewrite lookup_insert_ne.
Qed.

Lemma addresses_apart (pd : list pbe) n i j p q :
  NoDup (map address (firstn n pd)) ->
  (i < n)%nat -> (j < n)%nat -> pd !! i = Some p -> pd !! j = Some q -> i <> j ->
  address p <> address q.
Proof.
  intros Hnd Hi Hj Hp Hq Hne E. apply Hne.
  eapply NoDup_lookup; [exact Hnd| |].
  - rewrite list_lookup_fmap, lookup_take_lt, Hp by exact Hi. reflexivity.
  - rewrite list_lookup_fmap, lookup_take_lt, Hq by exact Hj. cbn. now rewrite E.
Qed.

(** The loop reading the data pages: entry [i] gets, at its [address],
    the page its [swap_address] names. *)
Lemma read_data_loop bdev t n (content : nat -> page) :
  (n <= length (pagedir t))%nat ->
  (forall i p, (i < n)%nat -> pagedir t !! i = Some p ->
     disk t !! (bdev, link_block (swap_address p)) = Some (content i)) ->
  NoDup (map address (firstn n (pagedir t))) ->
  (forall i p, (i < n)%nat -> pagedir t !! i = Some p -> kernel_page sys (address p) = true) ->
  exists t',
    for_up n 0 (read_data_step sys bdev) tt t = (Ret (inl tt), t')
    /\ pagedir t' = pagedir t /\ nr_copy_pages t' = nr_copy_pages t
    /\ forall i p, (i < n)%nat -> pagedir t !! i = Some p ->
         mem_read t' (address p) = content i.
Proof.
  intros Hlen Hdisk Hnd Hk.
  set (I := fun (j : nat) (_ : unit) t' =>
    pagedir t' = pagedir t /\ nr_copy_pages t' = nr_copy_pages t /\ disk t' = disk t
    /\ forall i p, (i < j)%nat -> pagedir t !! i = Some p ->
         mem_read t' (address p) = content i).
  set (Q := fun (_ : result (unit + Z)) (_ : kstate) => False).
  assert (HI : I 0%nat tt t).
  { repeat split. intros; lia. }
  assert (Hb : forall j a t', (0 <= j < 0 + n)%nat -> I j a t' ->
    match read_data_step sys bdev j a t' with
    | (Ret (inl a'), t'') => I (S j) a' t''
    | (r, t'') => Q r t''
    end).
  { intros j [] t' Hj (Hp & Hn & Hd & Hm). unfold read_data_step. mstep. rewrite Hp.
    destruct (lookup_lt_is_Some_2 (pagedir t) j ltac:(lia)) as [p Hpj]. rewrite Hpj.
    erewrite bind_ret_run by (apply bdev_read_page_run, to_long_page_multiple).
    rewrite to_long_page_block. ksimpl. fold (link_block (swap_address p)).
    rewrite Hd, (Hdisk j p ltac:(lia) Hpj), (Hk j p ltac:(lia) Hpj). mstep.
    unfold continue, ret.
    split; [exact Hp|]. split; [exact Hn|]. split; [exact Hd|].
    intros i q Hi Hq. unfold mem_read. ksimpl.
    destruct (decide (i = j)) as [->|Hne].
    - rewrite Hpj in Hq. injection Hq as <-. now rewrite lookup_insert_eq.
    - rewrite lookup_insert_ne.
      + apply (Hm i q); [lia | exact Hq].
      + exact (addresses_apart _ n j i p q Hnd ltac:(lia) ltac:(lia) Hpj Hq
                 ltac:(congruence)). }
  pose proof (for_up_wp (read_data_step sys bdev) I Q n 0 tt t HI Hb) as H.
  destruct (for_up n 0 (read_data_step sys bdev) tt t) as [[[[]|v]|e] t']; try contradiction.
  exists t'. destruct H as (Hp & Hn & _ & Hm). repeat split; assumption.
Qed.

Lemma read_data_loop_pagedir_nosave bdev n :
  preserves pagedir_nosave (for_up n 0 (read_data_step sys bdev) tt).
Proof. unfold read_data_step, bdev_read_page. frame. Qed.

(** Copying back: when no buffer is a destination and the destinations
    are distinct, every [orig_address] ends with the content of its
    buffer. *)
Lemma copy_pages_back_run t :
  let n := Z.to_nat (nr_copy_pages t) in
  (n <= length (pagedir t))%nat ->
  (forall i j p q, (i < n)%nat -> (j < n)%nat ->
     pagedir t !! i = Some p -> pagedir t !! j = Some q -> address p <> orig_address q) ->
  NoDup (map orig_address (firstn n (pagedir t))) ->
  (forall i p, (i < n)%nat -> pagedir t !! i = Some p ->
     kernel_page sys (orig_address p) && kernel_page sys (address p) = true) ->
  exists t',
    copy_pages_back sys t = (Ret tt, t')
    /\ pagedir t' = pagedir t
    /\ forall i p, (i < n)%nat -> pagedir t !! i = Some p ->
         mem_read t' (orig_address p) = mem_read t (address p).
Proof.
  intros n Hlen Hapart Hnd Hk.
  set (body := fun (i : nat) (_ : unit) =>
         p <- gets (fun s => pagedir s !! i) ;;
         match p with
         | None => fail Oops
         | Some p => copy_page sys (orig_address p) (address p) ;;; continue (R := unit)
         end).
  set (I := fun (j : nat) (_ : unit) t' =>
    pagedir t' = pagedir t
    /\ (forall i p, (i < j)%nat -> pagedir t !! i = Some p ->
          mem_read t' (orig_address p) = mem_read t (address p))
    /\ (forall i p, (i < n)%nat -> pagedir t !! i = Some p ->
          mem_read t' (address p) = mem_read t (address p))).
  set (Q := fun (_ : result (unit + unit)) (_ : kstate) => False).
  assert (HI : I 0%nat tt t).
  { split; [reflexivity|]. split; [intros; lia | reflexivity]. }
  assert (Hb : forall j a t', (0 <= j < 0 + n)%nat -> I j a t' ->
    match body j a t' with
    | (Ret (inl a'), t'') => I (S j) a' t''
    | (r, t'') => Q r t''
    end).
  { intros j [] t' Hj (Hp & Hdone & Hbuf). unfold body, copy_page. mstep. rewrite Hp.
    destruct (lookup_lt_is_Some_2 (pagedir t) j ltac:(lia)) as [p Hpj]. rewrite Hpj.
    rewrite (Hk j p ltac:(lia) Hpj). mstep. unfold continue, ret.
    split; [exact Hp|]. split.
    - intros i q Hi Hq. unfold mem_read at 1. ksimpl.
      destruct (decide (i = j)) as [->|Hne].
      + rewrite Hpj in Hq. injection Hq as <-. rewrite lookup_insert_eq. cbn [default].
        apply (Hbuf j p); [lia | exact Hpj].
      + rewrite lookup_insert_ne; [apply (Hdone i q); [lia | exact Hq]|].
        intros E. apply Hne. symmetry.
        eapply NoDup_lookup; [exact Hnd| |].
        * rewrite list_lookup_fmap, lookup_take_lt, Hpj by lia. reflexivity.
        * rewrite list_lookup_fmap, lookup_take_lt, Hq by lia. cbn. now rewrite E.
    - intros i q Hi Hq. unfold mem_read at 1. ksimpl.
      rewrite lookup_insert_ne; [apply (Hbuf i q); assumption|].
      intros E. exact (Hapart i j q p Hi ltac:(lia) Hq Hpj (eq_sym E)). }
  pose proof (for_up_wp body I Q n 0 tt t HI Hb) as H.
  unfold copy_pages_back. rewrite bind_gets. fold n. fold body. unfold bind at 1.
  destruct (for_up n 0 body tt t) as [[[[]|v]|e] t']; try contradiction.
  exists t'. destruct H as (Hp & Hdone & _). repeat split; assumption.
Qed.

(** ** The copies the snapshot takes *)

Lemma fill_addresses l : forall i s s',
  fill sys i l s = Some s' ->
  map address (pagedir s') = map address (pagedir s).
Proof.
  induction l as [|x l IH]; intros i s s' F; cbn [fill] in F.
  - now injection F as <-.
  - destruct (pagedir s !! i) as [p|] eqn:Hp; [|discriminate].
    destruct (kernel_page sys (address p) && kernel_page sys (ADDRESS x)); [|discriminate].
    rewrite (IH _ _ _ F). unfold take_state. ksimpl.
    rewrite list_fmap_insert. apply list_insert_id.
    rewrite list_lookup_fmap, Hp. reflexivity.
Qed.

(** The copying pass leaves in the buffer of entry [i + j] what frame
    [l !! j] held, when the buffers are distinct pages that are not among
    the frames it copies. *)
Lemma fill_mem l : forall i s s',
  fill sys i l s = Some s' ->
  NoDup (map address (firstn (length l) (skipn i (pagedir s)))) ->
  (forall j p x, (j < length l)%nat -> pagedir s !! (i + j)%nat = Some p -> x ∈ l ->
     address p <> ADDRESS x) ->
  (forall a, (forall j p, (j < length l)%nat -> pagedir s !! (i + j)%nat = Some p ->
                address p <> a) ->
     mem_read s' a = mem_read s a)
  /\ (forall j x p, l !! j = Some x -> pagedir s !! (i + j)%nat = Some p ->
        mem_read s' (address p) = mem_read s (ADDRESS x)).
Proof.
  induction l as [|x l IH]; intros i s s' F Hnd Hap; cbn [fill] in F.
  - injection F as <-. split; [reflexivity|]. intros j x p H. discriminate.
  - destruct (pagedir s !! i) as [p|] eqn:Hp; [|discriminate].
    destruct (kernel_page sys (address p) && kernel_page sys (ADDRESS x)); [|discriminate].
    set (s1 := take_state x i p s) in *.
    assert (Hpd : forall j, (0 < j)%nat -> pagedir s1 !! (i + j)%nat = pagedir s !! (i + j)%nat).
    { intros j Hj. unfold s1, take_state. ksimpl. apply list_lookup_insert_ne. lia. }
    assert (Hm1 : forall a, mem_read s1 a
                   = if decide (address p = a) then mem_read s (ADDRESS x) else mem_read s a).
    { intros a. unfold s1, take_state, mem_read. ksimpl. cbn [set_orig_address address orig_address].
      destruct (decide (address p = a)) as [->|Hne].
      - now rewrite lookup_insert_eq.
      - now rewrite lookup_insert_ne. }
    cbn [length] in Hnd, Hap.
    assert (Hd : drop i (pagedir s) = p :: drop (S i) (pagedir s)) by now apply drop_S.
    rewrite Hd in Hnd. cbn [firstn map] in Hnd. apply NoDup_cons in Hnd as [Hnot Hnd].
    assert (Hd1 : drop (S i) (pagedir s1) = drop (S i) (pagedir s)).
    { unfold s1, take_state. ksimpl. apply drop_insert_lt. lia. }
    destruct (IH (S i) s1 s' F) as [Hout Hin].
    { now rewrite Hd1. }
    { intros j q y Hj Hq Hy. replace (S i + j)%nat with (i + S j)%nat in Hq by lia.
      rewrite Hpd in Hq by lia. apply (Hap (S j) q y); [lia | exact Hq | now right]. }
    assert (Hother : forall j q, (j < length l)%nat -> pagedir s1 !! (S i + j)%nat = Some q ->
              address q <> address p).
    { intros j q Hj Hq E. apply Hnot. rewrite <- E.
      apply list_elem_of_fmap. exists q. split; [reflexivity|].
      apply list_elem_of_lookup. exists j.
      rewrite lookup_take_lt, <- Hd1, lookup_drop by exact Hj. exact Hq. }
    split.
    + intros a Ha. rewrite Hout.
      * rewrite Hm1. destruct (decide (address p = a)) as [E|_]; [|reflexivity].
        exfalso. apply (Ha O p); [cbn; lia | now rewrite Nat.add_0_r | exact E].
      * intros j q Hj Hq. replace (S i + j)%nat with (i + S j)%nat in Hq by lia.
        rewrite Hpd in Hq by lia. apply (Ha (S j) q); [cbn; lia | exact Hq].
    + intros [|j] y q Hy Hq.
      * cbn in Hy. injection Hy as <-. rewrite Nat.add_0_r, Hp in Hq. injection Hq as <-.
        rewrite Hout by exact Hother.
        rewrite Hm1. destruct (decide _); [reflexivity | contradiction].
      * cbn in Hy. replace (i + S j)%nat with (S i + j)%nat in Hq by lia.
        assert (Hq1 : pagedir s1 !! (S i + j)%nat = Some q).
        { replace (S i + j)%nat with (i + S j)%nat in * by lia. rewrite Hpd by lia. exact Hq. }
        rewrite (Hin j y q Hy Hq1). rewrite Hm1.
        destruct (decide (address p = ADDRESS y)) as [E|_]; [|reflexivity].
        exfalso. apply (Hap O p y); [lia | now rewrite Nat.add_0_r | | exact E].
        right. apply list_elem_of_lookup. now exists j.
Qed.

Lemma pd_pages_nat n :
  0 <= n ->
  (Z.to_nat n <= Z.to_nat (SUSPEND_PD_PAGES n) * PBES_PER_PAGE)%nat
  /\ (Z.to_nat (SUSPEND_PD_PAGES n)
      <= Z.to_nat (2 ^ get_bitmask_order (SUSPEND_PD_PAGES n)))%nat.
Proof.
  intros Hn. pose proof (pd_pages_room n Hn) as H1.
  pose proof (order_room (SUSPEND_PD_PAGES n)) as [_ H2].
  pose proof PBES_PER_PAGE_pos as HP. split; [nia | lia].
Qed.

Lemma block_in_space_0 order a :
  0 <= order -> block_in_space order a -> block_in_space 0 a.
Proof.
  intros Ho [H0 H1]. split; [exact H0|]. pose proof PAGE_SIZE_pos.
  assert (1 <= 2 ^ order) by (pose proof (Z.pow_pos_nonneg 2 order eq_refl Ho); lia).
  change (2 ^ 0) with 1. nia.
Qed.

Lemma chain_dir_length d bdev : forall pages next,
  chain d bdev next pages ->
  length (concat (map snd (rev pages))) = (length pages * PBES_PER_PAGE)%nat.
Proof.
  induction pages as [|[blk pg] rest IH]; intros next H; [reflexivity|].
  destruct H as (_ & _ & _ & Hlen & Hrest).
  cbn [rev length]. rewrite map_app, concat_app, length_app, (IH _ Hrest).
  cbn [map concat snd]. rewrite app_nil_r, Hlen. lia.
Qed.

(** The part of read_suspend_image that loads the image, on a device
    that holds a chain of as many directory pages as the header asks for
    and the data pages the directory names. *)
Lemma read_suspend_image_body_run bdev sh lk b pages (content : nat -> page) :
  let n := Z.to_nat (num_pbes sh) in
  let order := get_bitmask_order (SUSPEND_PD_PAGES (num_pbes sh)) in
  let dir := concat (map snd (rev pages)) in
  0 <= num_pbes sh ->
  chain (disk b) bdev lk pages ->
  length pages = Z.to_nat (SUSPEND_PD_PAGES (num_pbes sh)) ->
  allocator_ok b order ->
  Forall (fun a => a <> 0 -> kernel_page sys a = true) (page_oracle b) ->
  (forall i, (i < n)%nat ->
     exists p, dir !! i = Some p
               /\ disk b !! (bdev, link_block (swap_address p)) = Some (content i)) ->
  exists r b',
    read_suspend_image_body sys bdev sh (position lk) b = (Ret r, b')
    /\ (r = 0 \/ r = - ENOMEM)
    /\ (r = 0 ->
        nr_copy_pages b' = num_pbes sh
        /\ (n <= length (pagedir b'))%nat
        /\ map pbe_image (firstn n (pagedir b')) = map pbe_image (firstn n dir)
        /\ (forall i j p q, (i < n)%nat -> (j < n)%nat ->
              pagedir b' !! i = Some p -> pagedir b' !! j = Some q ->
              address p <> orig_address q)
        /\ (forall i p, (i < n)%nat -> pagedir b' !! i = Some p ->
              mem_read b' (address p) = content i)
        /\ (forall i p, (i < n)%nat -> pagedir b' !! i = Some p ->
              address p <> 0 /\ address p ∈ page_oracle b)
        /\ ((forall i p, (i < n)%nat -> dir !! i = Some p ->
               in_block (hd 0 (page_oracle b)) order (orig_address p) = false) ->
            pagedir_nosave b' = hd 0 (page_oracle b))).
Proof.
  intros n order dir Hn Hchain Hk [Hnd Hpool] Hkern Hdata.
  destruct (pd_pages_nat _ Hn) as [Hroom Hord]. fold n in Hroom. fold order in Hord.
  pose proof (order_room (SUSPEND_PD_PAGES (num_pbes sh))) as [Ho _]. fold order in Ho.
  unfold read_suspend_image_body. mstep. fold order.
  destruct (__get_free_pages_cases order
              (set_pagedir_order order
                 (set_nr_copy_pages (num_pbes sh) (set_pagedir_save (suspend_pagedir sh) b))))
    as [[Hemp G]|(a & rest & Hor & G)]; erewrite bind_ret_run by exact G; mstep.
  { exists (- ENOMEM). eexists. split; [reflexivity|]. split; [now right|].
    unfold ENOMEM. intros [=]. }
  ksimpl.
  destruct (Z.eqb_spec a 0) as [->|Ha].
  { exists (- ENOMEM). eexists. split; [reflexivity|]. split; [now right|].
    unfold ENOMEM. intros [=]. }
  mstep. clear G.
  match goal with |- context [bind _ _ ?t] => set (b5 := t) end.
  assert (D5 : disk b5 = disk b) by (vm_compute; reflexivity).
  assert (P5 : pagedir b5 = fresh_directory sys order) by (vm_compute; reflexivity).
  assert (N5 : nr_copy_pages b5 = num_pbes sh) by (vm_compute; reflexivity).
  assert (O5 : pagedir_order b5 = order) by (vm_compute; reflexivity).
  assert (A5 : page_oracle b5 = rest) by (vm_compute; reflexivity).
  assert (V5 : pagedir_nosave b5 = a) by (vm_compute; reflexivity).
  clearbody b5.
  rewrite <- Hk.
  erewrite bind_ret_run.
  2:{ apply read_pagedir_loop; [rewrite D5; exact Hchain|].
      rewrite P5, fresh_directory_length, Hk. nia. }
  cbv beta iota. rewrite Z.eqb_refl. cbn [negb]. mstep.
  unfold read_suspend_image_data. fold dir.
  match goal with |- context [bind _ _ ?t] => set (b6 := t) end.
  assert (D6 : disk b6 = disk b) by (rewrite <- D5; vm_compute; reflexivity).
  assert (P6 : pagedir b6 = dir ++ skipn (length pages * PBES_PER_PAGE) (pagedir b5))
    by (vm_compute; reflexivity).
  assert (N6 : nr_copy_pages b6 = num_pbes sh) by (rewrite <- N5; vm_compute; reflexivity).
  assert (O6 : pagedir_order b6 = order) by (rewrite <- O5; vm_compute; reflexivity).
  assert (A6 : page_oracle b6 = rest) by (rewrite <- A5; vm_compute; reflexivity).
  assert (V6 : pagedir_nosave b6 = a) by (rewrite <- V5; vm_compute; reflexivity).
  clearbody b6.
  pose proof (chain_dir_length _ _ _ _ Hchain) as Ldir. fold dir in Ldir. rewrite Hk in Ldir.
  assert (L6 : length (pagedir b6) = (Z.to_nat (2 ^ order) * PBES_PER_PAGE)%nat).
  { rewrite P6, length_app, length_drop, P5, fresh_directory_length, Ldir, Hk. nia. }
  assert (T6 : firstn n (pagedir b6) = firstn n dir).
  { rewrite P6. apply take_app_le. lia. }
  assert (Hnn : Z.to_nat (nr_copy_pages b6) = n) by now rewrite N6.
  assert (Hstay : (forall i p, (i < n)%nat -> dir !! i = Some p ->
                     in_block a order (orig_address p) = false) ->
                  relocate_pagedir b6 = (Ret 0, b6)).
  { intros Hc. apply relocate_pagedir_stays; [|rewrite Hnn, L6; nia].
    rewrite Hnn, V6, O6. intros i p Hi Hp. apply (Hc i p Hi).
    rewrite <- Hp. symmetry. rewrite <- (lookup_take_lt (pagedir b6) n i Hi), T6.
    now apply lookup_take_lt. }
  pose proof (relocate_pagedir_run b6) as R. unfold bind at 1.
  destruct (relocate_pagedir b6) as [[e|f] b7] eqn:Erel;
    destruct R as (Fr & (used & Hused) & R).
  2:{ destruct R as [_ R]. rewrite Hnn in R. nia. }
  destruct R as [(-> & Hwhere & _)| ->].
  2:{ exists (- ENOMEM). eexists. split; [reflexivity|]. split; [now right|].
      unfold ENOMEM. intros [=]. }
  cbn [Z.eqb negb].
  assert (D7 : disk b7 = disk b) by (unfold beside_relocation in Fr; congruence).
  assert (N7 : nr_copy_pages b7 = num_pbes sh) by (unfold beside_relocation in Fr; congruence).
  assert (T7 : firstn n (pagedir b7) = firstn n dir).
  { destruct Hwhere as [[-> _]|[-> _]]; [exact T6|].
    rewrite O6, take_take, Nat.min_l by nia. exact T6. }
  assert (L7 : (n <= length (pagedir b7))%nat).
  { destruct Hwhere as [[-> _]|[-> _]]; [nia|]. rewrite O6, length_take. nia. }
  pose proof (check_pagedir_run b7) as C. unfold bind at 1.
  destruct (check_pagedir b7) as [[e|f] b8]; destruct C as (Fc & C).
  2:{ destruct C as [_ C]. rewrite N7 in C. fold n in C. lia. }
  destruct C as [(-> & C)| ->].
  2:{ exists (- ENOMEM). eexists. split; [reflexivity|]. split; [now right|].
      unfold ENOMEM. intros [=]. }
  cbn [Z.eqb negb]. rewrite N7 in C. fold n in C.
  destruct C as (_ & Him & L8 & used1 & Hused1 & Hall & Hnd8).
  assert (D8 : disk b8 = disk b) by (unfold beside_dir in Fc; congruence).
  assert (N8 : nr_copy_pages b8 = num_pbes sh) by (unfold beside_dir in Fc; congruence).
  assert (T8 : map pbe_image (firstn n (pagedir b8)) = map pbe_image (firstn n dir)).
  { rewrite <- T7, <- !firstn_map, Him. reflexivity. }
  assert (Hin8 : forall i p, (i < n)%nat -> pagedir b8 !! i = Some p ->
            exists q, dir !! i = Some q /\ pbe_image q = pbe_image p).
  { intros i p Hi Hp. apply (image_lookup (firstn n (pagedir b8)) (firstn n dir) i p) in T8.
    - destruct T8 as (q & Hq & E). apply lookup_take_Some in Hq as [Hq _]. eauto.
    - now rewrite lookup_take_lt. }
  assert (Hnd7 : NoDup (page_oracle b7)).
  { rewrite Hor in Hnd. apply NoDup_cons in Hnd as [_ Hnd].
    rewrite <- A6, Hused in Hnd. now apply NoDup_app in Hnd as (_ & _ & Hnd). }
  assert (Hpool8 : forall i p, (i < n)%nat -> pagedir b8 !! i = Some p ->
            address p <> 0 /\ address p ∈ page_oracle b).
  { intros i p Hi Hp.
    assert (Hain : address p ∈ map address (firstn n (pagedir b8))).
    { apply list_elem_of_fmap. exists p. split; [reflexivity|].
      apply list_elem_of_lookup. exists i. now rewrite lookup_take_lt. }
    rewrite Forall_forall in Hall. destruct (Hall _ Hain) as (Hne & Hu & _).
    split; [exact Hne|].
    rewrite Hor, <- A6, Hused, Hused1.
    rewrite elem_of_cons, !elem_of_app. right. right. now left. }
  destruct (read_data_loop bdev b8 n content L8) as (b9 & E9 & P9 & N9 & M9).
  { intros i p Hi Hp. destruct (Hin8 i p Hi Hp) as (q & Hq & E).
    destruct (Hdata i Hi) as (q' & Hq' & Hd). rewrite Hq in Hq'. injection Hq' as <-.
    rewrite D8. unfold pbe_image in E. injection E as _ E. now rewrite <- E. }
  { apply Hnd8, Hnd7. }
  { intros i p Hi Hp. destruct (Hpool8 i p Hi Hp) as [Hne Hin].
    rewrite Forall_forall in Hkern. now apply Hkern. }
  erewrite bind_ret_run by exact E9. cbv beta iota.
  exists 0, b9. split; [reflexivity|]. split; [now left|]. intros _.
  split; [congruence|]. split; [now rewrite P9|]. split; [now rewrite P9|].
  split; [|split; [|split]].
  3:{ intros i p Hi Hp. rewrite P9 in Hp. exact (Hpool8 i p Hi Hp). }
  3:{ intros Hc. rewrite Hor. cbn [hd].
      rewrite Hor in Hc. cbn [hd] in Hc.
      pose proof (Hstay Hc) as E67. injection E67 as E67.
      pose proof (preserves_run _ _ _ _ _ (read_data_loop_pagedir_nosave bdev n) E9) as V9.
      rewrite V9. unfold beside_dir in Fc. congruence. }
  - intros i j p q Hi Hj Hp Hq. rewrite P9 in Hp, Hq.
    assert (Hain : address p ∈ map address (firstn n (pagedir b8))).
    { apply list_elem_of_fmap. exists p. split; [reflexivity|].
      apply list_elem_of_lookup. exists i. now rewrite lookup_take_lt. }
    rewrite Forall_forall in Hall. destruct (Hall _ Hain) as (Hne & Hu & Hfree).
    rewrite N7 in Hfree. destruct (Hfree j Hj) as (q1 & Hq1 & Hc).
    destruct (image_lookup _ _ _ _ Him Hq) as (q2 & Hq2 & E). rewrite Hq1 in Hq2.
    injection Hq2 as <-. rewrite (collides_image _ _ _ _ E) in Hc.
    assert (Hs : block_in_space 0 (address p)).
    { apply (block_in_space_0 order _ Ho). rewrite Forall_forall in Hpool.
      apply Hpool; [|exact Hne]. rewrite Hor, <- A6, Hused, Hused1.
      rewrite elem_of_cons, !elem_of_app. right. right. now left. }
    apply collides_false_block in Hc; [|lia|exact Hs].
    change (2 ^ 0) with 1 in Hc. pose proof PAGE_SIZE_pos. lia.
  - intros i p Hi Hp. rewrite P9 in Hp. now apply (M9 i p).
Qed.

(** ** The round trip *)

Lemma data_pd_lookup s n i :
  (i < n)%nat -> data_pd s n !! i = set_swap_address (entry_at s i) <$> pagedir s !! i.
Proof.
  induction n as [|n IH]; intros Hi; [lia|]. cbn [data_pd].
  destruct (decide (i = n)) as [->|Hne].
  - rewrite list_lookup_alter_eq, data_pd_later by lia. reflexivity.
  - rewrite list_lookup_alter_ne by lia. apply IH. lia.
Qed.

Lemma dir_pd_fields s j i p :
  dir_pd s j !! i = Some p ->
  exists q, pagedir s !! i = Some q /\ pbe_image p = pbe_image q /\ address p = address q.
Proof.
  revert p. induction j as [|j IH]; intros p H; cbn [dir_pd] in H; [eauto|].
  destruct (decide (pred (S j * PBES_PER_PAGE) = i)) as [<-|Hne].
  - rewrite list_lookup_alter_eq in H.
    destruct (dir_pd s j !! _) as [p0|]; [|discriminate]. injection H as <-.
    destruct (IH _ eq_refl) as (q & Hq & E1 & E2). exists q. repeat split; assumption.
  - rewrite list_lookup_alter_ne in H by exact Hne. apply IH, H.
Qed.

(** What the copying pass leaves for the writer. *)
Lemma snapshot_buffers s0 s l :
  saved_frames sys s0 = Ret l ->
  count_and_copy_data_pages sys (Some O) s0 = (Ret (nr_copy_pages s0), s) ->
  buffers_apart s0 l ->
  nr_copy_pages s = Z.of_nat (length l)
  /\ forall i x, l !! i = Some x ->
       exists p, pagedir s !! i = Some p /\ orig_address p = ADDRESS x
                 /\ page_address (virt_to_page (address p)) = address p
                 /\ (address p ∉ page_oracle s)
                 /\ mem_read s (address p) = mem_read s0 (ADDRESS x).
Proof.
  intros Hl C [Hnd Hbuf].
  destruct (count_and_copy_Some_inv _ _ _ C) as (l' & Hl' & F & Hn).
  rewrite Hl in Hl'. injection Hl' as <-.
  destruct (fill_frame _ _ _ _ F) as (_ & Ho & _ & _ & _ & _ & _ & _ & _ & _ & _ & Hnr & _).
  destruct (fill_pagedir _ _ _ _ F) as (Hlen & _ & Hpd).
  assert (Hin : forall j p, (j < length l)%nat -> pagedir s0 !! j = Some p ->
            address p ∈ map address (firstn (length l) (pagedir s0))).
  { intros j p Hj Hp. apply list_elem_of_fmap. exists p. split; [reflexivity|].
    apply list_elem_of_lookup. exists j. now rewrite lookup_take_lt. }
  rewrite Forall_forall in Hbuf.
  destruct (fill_mem l O s0 s F) as [_ Hmem].
  { exact Hnd. }
  { intros j p x Hj Hp Hx E. destruct (Hbuf _ (Hin j p Hj Hp)) as (_ & Hno & _).
    apply Hno. rewrite E. apply list_elem_of_fmap. eauto. }
  split; [congruence|].
  intros i x Hx. destruct (Hpd i x Hx) as (p & Hp & Hp').
  pose proof (lookup_lt_Some _ _ _ Hx) as Hi.
  destruct (Hbuf _ (Hin i p Hi Hp)) as (Hal & _ & Hfree).
  exists (set_orig_address (ADDRESS x) p). split; [exact Hp'|]. split; [reflexivity|].
  cbn [set_orig_address address]. split; [exact Hal|]. split; [now rewrite Ho|].
  apply (Hmem i x p Hx Hp).
Qed.

(** What the reader finds for entry [i] on the device a returning
    write_suspend_image leaves. *)
Lemma image_entries s s' v bdev :
  write_suspend_image sys s = (Ret v, s') ->
  marker_slot s = Some (bdev, 0) -> root_swap s <> 65535 ->
  image_slots s bdev (data_pages s + dir_pages s + 1) ->
  0 <= nr_copy_pages s ->
  exists buffer rest,
    page_oracle s = buffer :: rest
    /\ forall i q, (i < data_pages s)%nat -> pagedir s !! i = Some q ->
         exists p, firstn (dir_pages s * PBES_PER_PAGE) (pagedir s') !! i = Some p
                   /\ orig_address p = orig_address q
                   /\ disk s' !! (bdev, link_block (swap_address p))
                      = Some (if decide (page_address (virt_to_page (address q)) = buffer)
                              then zero_page
                              else mem_read s (page_address (virt_to_page (address q)))).
Proof.
  intros E Hslot Hroot Hsl Hn.
  destruct (image_on_device _ _ _ _ E Hslot Hroot Hsl)
    as (buffer & s1 & cur' & G & B & (rest & Hor & Hmem1) & Hp1 & Hp2 & Fp & _ & _ & _ & _ & _
        & _ & Dd).
  exists buffer, rest. split; [exact Hor|]. intros i q Hi Hq.
  assert (Bo : swap_oracle s1 = swap_oracle s) by (unfold beside_alloc in B; congruence).
  assert (Bp : pagedir s1 = pagedir s) by (unfold beside_alloc in B; congruence).
  destruct (pd_pages_nat _ Hn) as [Hroom _]. fold (data_pages s) (dir_pages s) in Hroom.
  set (s2 := written_data s1 (data_pages s)) in *.
  assert (Hs2 : pagedir s2 !! i = Some (set_swap_address (entry_at s i) q)).
  { unfold s2. replace (pagedir (written_data s1 (data_pages s))) with (data_pd s1 (data_pages s))
      by reflexivity.
    rewrite data_pd_lookup, Bp, Hq by exact Hi. unfold entry_at. now rewrite Bo. }
  destruct (lookup_lt_is_Some_2 (pagedir s') i) as [p Hp].
  { rewrite Fp, dir_pd_length. apply lookup_lt_Some in Hs2. exact Hs2. }
  exists p. split; [rewrite lookup_take_lt by lia; exact Hp|].
  rewrite Fp in Hp. destruct (dir_pd_fields _ _ _ _ Hp) as (q' & Hq' & Eim & _).
  rewrite Hs2 in Hq'. injection Hq' as <-.
  unfold pbe_image in Eim. cbn [set_swap_address orig_address swap_address] in Eim.
  injection Eim as Eo Es. split; [exact Eo|]. rewrite Es.
  destruct (image_slot_at s bdev _ i Hsl ltac:(lia)) as (_ & _ & _ & Hb & _).
  rewrite Hb, (Dd i Hi). f_equal. unfold saved_page.
  rewrite Bp. erewrite nth_lookup_Some by exact Hq.
  unfold mem_read. rewrite Hmem1.
  destruct (decide _) as [->|Hne].
  - now rewrite lookup_insert_eq.
  - rewrite lookup_insert_ne by congruence. reflexivity.
Qed.

(** The marker, the header and the chain a returning write_suspend_image
    leaves, as read_suspend_image looks for them. *)
Lemma image_chain s s' v bdev :
  write_suspend_image sys s = (Ret v, s') ->
  marker_slot s = Some (bdev, 0) -> root_swap s <> 65535 ->
  image_slots s bdev (data_pages s + dir_pages s + 1) ->
  exists r m lk,
    disk s' !! (bdev, 0) = Some (PgSwap r m)
    /\ marker_of (PgSwap r m) = Some SuspendCommitted
    /\ disk s' !! (bdev, link_block (le_value (skipn (10 - sizeof_long) m)))
       = Some (PgHeader (image_header sys s) lk)
    /\ chain (disk s') bdev lk
         (map (fun i => (swp_offset (entry_at s (data_pages s + i)), dir_page (pagedir s') i))
              (rev (seq 0 (dir_pages s)))).
Proof.
  intros E Hslot Hroot Hsl.
  destruct (image_on_device _ _ _ _ E Hslot Hroot Hsl)
    as (buffer & s1 & cur' & G & B & _ & Hp1 & Hp2 & Fp & Fn & Dm & Hc & Hl & Dh & Dp & _).
  set (n := data_pages s) in *. set (k := dir_pages s) in *.
  set (s2 := written_data s1 n) in *.
  assert (Bo : swap_oracle s1 = swap_oracle s) by (unfold beside_alloc in B; congruence).
  assert (Bp : pagedir s1 = pagedir s) by (unfold beside_alloc in B; congruence).
  assert (E2 : forall i, entry_at s2 i = entry_at s (n + i)).
  { intros i. rewrite (entry_at_drop s1 s2 n) by reflexivity.
    unfold entry_at. now rewrite Bo. }
  assert (Hlen2 : length (pagedir s2) = length (pagedir s)).
  { unfold s2. replace (pagedir (written_data s1 n)) with (data_pd s1 n) by reflexivity.
    now rewrite data_pd_length, Bp. }
  destruct (marker_of_committed_inv _ Hc) as (r & m & -> & _).
  cbn [link_next] in Hl. injection Hl as Hh.
  destruct (image_slot_at s bdev _ (n + k) Hsl ltac:(lia)) as (_ & _ & _ & Hbh & _).
  exists r, m, (dir_prev s2 k).
  split; [exact Dm|]. split; [exact Hc|]. split; [now rewrite Hh, Hbh|].
  rewrite Fp.
  erewrite map_ext; [apply (pages_written_chain (disk s') s2 bdev k); [lia| |lia]|].
  - intros i Hi. rewrite E2, <- Fp.
    destruct (image_slot_at s bdev _ (n + i) Hsl ltac:(lia)) as (_ & _ & _ & Hb & Hpos & _).
    split; [apply Dp, Hi|]. split; assumption.
  - intros i. cbv beta. now rewrite E2.
Qed.

(** Reading a written snapshot: what read_suspend_image leaves when it
    returns 0 on the device write_suspend_image wrote to. *)
Lemma saved_image_loads s0 s s' b bdev l :
  lowmem_ok sys ->
  saved_frames sys s0 = Ret l ->
  count_and_copy_data_pages sys (Some O) s0 = (Ret (nr_copy_pages s0), s) ->
  buffers_apart s0 l ->
  write_suspend_image sys s = (Ret 0, s') ->
  marker_slot s = Some (bdev, 0) -> root_swap s <> 65535 ->
  image_slots s bdev (data_pages s + dir_pages s + 1) ->
  disk b = disk s' ->
  allocator_ok b (get_bitmask_order (SUSPEND_PD_PAGES (nr_copy_pages s))) ->
  Forall (fun a => a <> 0 -> kernel_page sys a = true) (page_oracle b) ->
  exists r b',
    read_suspend_image sys bdev b = (Ret r, b')
    /\ (r = 0 \/ r = - ENOMEM)
    /\ (r = 0 ->
        nr_copy_pages b' = Z.of_nat (length l)
        /\ (length l <= length (pagedir b'))%nat
        /\ (forall i j p q, (i < length l)%nat -> (j < length l)%nat ->
              pagedir b' !! i = Some p -> pagedir b' !! j = Some q ->
              address p <> orig_address q)
        /\ NoDup (map orig_address (firstn (length l) (pagedir b')))
        /\ (forall i x, l !! i = Some x ->
             exists p, pagedir b' !! i = Some p /\ orig_address p = ADDRESS x
                       /\ mem_read b' (address p) = mem_read s0 (ADDRESS x))
        /\ (forall i p, (i < length l)%nat -> pagedir b' !! i = Some p ->
              address p <> 0 /\ address p ∈ page_oracle b)
        /\ (Forall (fun x => in_block (hd 0 (page_oracle b))
                               (get_bitmask_order (SUSPEND_PD_PAGES (nr_copy_pages s)))
                               (ADDRESS x) = false) l ->
            pagedir_nosave b' = hd 0 (page_oracle b))).
Proof.
  intros L Hl C Hbuf E Hslot Hroot Hsl Hdisk Halloc Hkern.
  destruct (snapshot_buffers _ _ _ Hl C Hbuf) as (Hn & Hsnap).
  assert (Hn0 : 0 <= nr_copy_pages s) by lia.
  assert (Hdp : data_pages s = length l) by (unfold data_pages; rewrite Hn; apply Nat2Z.id).
  destruct (image_chain _ _ _ _ E Hslot Hroot Hsl) as (r & m & lk & Dm & Hc & Dh & Hchain).
  destruct (image_entries _ _ _ _ E Hslot Hroot Hsl Hn0) as (buffer & rest & Hor & Hent).
  set (pages := map (fun i => (swp_offset (entry_at s (data_pages s + i)),
                               dir_page (pagedir s') i)) (rev (seq 0 (dir_pages s)))) in *.
  set (dir := concat (map snd (rev pages))).
  assert (Hdir : dir = firstn (dir_pages s * PBES_PER_PAGE) (pagedir s')).
  { unfold dir, pages. rewrite <- map_rev, rev_involutive, map_map. cbn [snd].
    apply concat_dir_pages. }
  assert (F : forall i x, l !! i = Some x ->
            exists pd, dir !! i = Some pd /\ orig_address pd = ADDRESS x
              /\ disk s' !! (bdev, link_block (swap_address pd))
                 = Some (mem_read s0 (ADDRESS x))).
  { intros i x Hx. destruct (Hsnap i x Hx) as (p0 & Hp0 & Ho & Hal & Hfree & Hm).
    pose proof (lookup_lt_Some _ _ _ Hx) as Hi. rewrite <- Hdp in Hi.
    destruct (Hent i p0 Hi Hp0) as (p & Hp & Hop & Hd).
    exists p. rewrite Hdir. split; [exact Hp|]. split; [congruence|].
    rewrite Hd, Hal. destruct (decide (address p0 = buffer)) as [Eb|_]; [|now rewrite Hm].
    exfalso. apply Hfree. rewrite Hor, Eb. now left. }
  rewrite (read_suspend_image_header bdev b r m (image_header sys s) lk);
    [|now rewrite Hdisk|exact Hc|now rewrite Hdisk|apply sanity_check_image_header].
  set (b1 := set_io_log _ b).
  set (content := fun i => match l !! i with
                           | Some x => mem_read s0 (ADDRESS x)
                           | None => zero_page
                           end).
  destruct (read_suspend_image_body_run bdev (image_header sys s) lk b1 pages content)
    as (rr & b' & Eb & Hr & Hgood).
  { exact Hn0. }
  { replace (disk b1) with (disk b) by reflexivity. now rewrite Hdisk. }
  { unfold pages. now rewrite length_map, length_rev, length_seq. }
  { exact Halloc. }
  { exact Hkern. }
  { intros i Hi. change (Z.to_nat (num_pbes (image_header sys s))) with (data_pages s) in Hi.
    rewrite Hdp in Hi. destruct (lookup_lt_is_Some_2 l i Hi) as [x Hx].
    destruct (F i x Hx) as (pd & Hpd & _ & Hd). exists pd. split; [exact Hpd|].
    replace (disk b1) with (disk b) by reflexivity. unfold content. now rewrite Hdisk, Hx. }
  exists rr, b'. split; [exact Eb|]. split; [exact Hr|]. intros H0.
  destruct (Hgood H0) as (N' & L' & Himg & Hapart & Hmemr & Hpool & Hstay).
  change (Z.to_nat (num_pbes (image_header sys s))) with (data_pages s) in *.
  change (num_pbes (image_header sys s)) with (nr_copy_pages s) in N'.
  rewrite Hdp in *. fold dir in Himg.
  assert (K : forall i x p, l !! i = Some x -> pagedir b' !! i = Some p ->
            orig_address p = ADDRESS x).
  { intros i x p Hx Hp. pose proof (lookup_lt_Some _ _ _ Hx) as Hi.
    destruct (image_lookup (firstn (length l) (pagedir b')) (firstn (length l) dir) i p Himg)
      as (q & Hq & Eim); [now rewrite lookup_take_lt|].
    apply lookup_take_Some in Hq as [Hq _].
    destruct (F i x Hx) as (pd & Hpd & Ho & _). rewrite Hq in Hpd. injection Hpd as <-.
    unfold pbe_image in Eim. congruence. }
  assert (Hnd : NoDup (map orig_address (firstn (length l) (pagedir b')))).
  { replace (map orig_address (firstn (length l) (pagedir b'))) with (map ADDRESS l).
    - apply frames_spec in Hl as (Hrange & Hndl & _).
      apply NoDup_fmap_2_strong; [|exact Hndl].
      intros x y Hx Hy. apply ADDRESS_inj; [exact L|apply Hrange, Hx|apply Hrange, Hy].
    - apply list_eq. intros i. rewrite !list_lookup_fmap.
      destruct (l !! i) as [x|] eqn:Hx.
      + pose proof (lookup_lt_Some _ _ _ Hx) as Hi.
        destruct (lookup_lt_is_Some_2 (pagedir b') i ltac:(lia)) as [p Hp].
        rewrite lookup_take_lt, Hp by exact Hi. cbn. f_equal. symmetry. now apply (K i x p).
      + apply lookup_ge_None in Hx. now rewrite lookup_take_ge by exact Hx. }
  split; [now rewrite N', Hn|]. split; [exact L'|]. split; [exact Hapart|].
  split; [exact Hnd|]. split; [|split; [exact Hpool|]].
  - intros i x Hx.
    pose proof (lookup_lt_Some _ _ _ Hx) as Hi.
    destruct (lookup_lt_is_Some_2 (pagedir b') i ltac:(lia)) as [p Hp].
    pose proof (K i x p Hx Hp) as Ho.
    exists p. split; [exact Hp|]. split; [exact Ho|].
    rewrite (Hmemr i p Hi Hp). unfold content. now rewrite Hx.
  - intros Hclear. apply Hstay. intros i p Hi Hp.
    destruct (lookup_lt_is_Some_2 l i Hi) as [x Hx].
    destruct (F i x Hx) as (pd & Hpd & Ho & _). fold dir in Hp.
    rewrite Hp in Hpd. injection Hpd as <-. rewrite Ho.
    rewrite Forall_forall in Hclear. apply Hclear.
    apply list_elem_of_lookup. now exists i.
Qed.

(** X1: the round trip, for a directory that is read into a block it
    can stay in.  A snapshot is taken into buffers that are apart from the
    frames, and write_suspend_image returns, having been handed swap
    slots on [bdev] that are distinct blocks past block 0 whose byte
    position fits an unsigned long ([image_slots]).  A kernel booted on
    the device reads the image with an allocator that hands out distinct
    pages of the linear mapping, the first of them a block that holds none
    of the frames to restore, so that relocate_pagedir has nothing to
    move.  Then read_suspend_image returns 0 or -ENOMEM, and when it
    returns 0, every entry of the directory names the frame it was taken
    from, and once the buffers are copied back (a step of the assembly
    part, taken here from the specification) every such frame holds what
    it held when the snapshot was taken. *)
Theorem round_trip s0 s s' b bdev l :
  lowmem_ok sys ->
  saved_frames sys s0 = Ret l ->
  count_and_copy_data_pages sys (Some O) s0 = (Ret (nr_copy_pages s0), s) ->
  buffers_apart s0 l ->
  write_suspend_image sys s = (Ret 0, s') ->
  marker_slot s = Some (bdev, 0) -> root_swap s <> 65535 ->
  image_slots s bdev (data_pages s + dir_pages s + 1) ->
  disk b = disk s' ->
  allocator_ok b (get_bitmask_order (SUSPEND_PD_PAGES (nr_copy_pages s))) ->
  Forall (fun a => a <> 0 -> kernel_page sys a = true) (page_oracle b) ->
  Forall (fun x => in_block (hd 0 (page_oracle b))
                     (get_bitmask_order (SUSPEND_PD_PAGES (nr_copy_pages s)))
                     (ADDRESS x) = false) l ->
  exists r b',
    read_suspend_image sys bdev b = (Ret r, b')
    /\ (r = 0 \/ r = - ENOMEM)
    /\ (r = 0 ->
        nr_copy_pages b' = Z.of_nat (length l)
        /\ pagedir_nosave b' = hd 0 (page_oracle b)
        /\ exists b'',
             copy_pages_back sys b' = (Ret tt, b'')
             /\ forall i x, l !! i = Some x ->
                  (exists p, pagedir b' !! i = Some p /\ orig_address p = ADDRESS x)
                  /\ mem_read b'' (ADDRESS x) = mem_read s0 (ADDRESS x)).
Proof.
  intros L Hl C Hbuf E Hslot Hroot Hsl Hdisk Halloc Hkern Hclear.
  destruct (saved_image_loads _ _ _ _ _ _ L Hl C Hbuf E Hslot Hroot Hsl Hdisk Halloc Hkern)
    as (r & b' & Er & Hr & Hgood).
  exists r, b'. split; [exact Er|]. split; [exact Hr|]. intros H0.
  destruct (Hgood H0) as (N' & L' & Hapart & Hnd & Hall & Hpool & Hstay).
  split; [exact N'|]. split; [exact (Hstay Hclear)|].
  destruct (copy_pages_back_run b') as (b'' & Ec & _ & Hback).
  { rewrite N', Nat2Z.id. exact L'. }
  { rewrite N', Nat2Z.id. exact Hapart. }
  { rewrite N', Nat2Z.id. exact Hnd. }
  { rewrite N', Nat2Z.id. intros i p Hi Hp.
    destruct (lookup_lt_is_Some_2 l i Hi) as [x Hx].
    destruct (Hall i x Hx) as (p' & Hp' & Ho & _). rewrite Hp in Hp'. injection Hp' as <-.
    apply andb_true_intro. split.
    - rewrite Ho. apply kernel_page_ADDRESS; [exact L|].
      apply frames_spec in Hl as (Hrange & _ & _). apply Hrange.
      apply list_elem_of_lookup. now exists i.
    - destruct (Hpool i p Hi Hp) as [Hne Hin].
      rewrite Forall_forall in Hkern. now apply Hkern. }
  rewrite N', Nat2Z.id in Hback.
  exists b''. split; [exact Ec|]. intros i x Hx.
  pose proof (lookup_lt_Some _ _ _ Hx) as Hi.
  destruct (Hall i x Hx) as (p & Hp & Ho & Hm).
  split; [exists p; split; assumption|].
  rewrite <- Ho, (Hback i p Hi Hp), Hm. now rewrite Ho.
Qed.

(** X9: what read_suspend_image leaves in memory, for a directory that
    is read into a block it can stay in.  A snapshot is taken into buffers
    that are apart from the frames, and write_suspend_image returns,
    having been handed swap slots on [bdev] that are distinct blocks past
    block 0 whose byte position fits an unsigned long ([image_slots]).  A
    kernel booted on the device reads the image with an allocator that
    hands out distinct pages of the linear mapping, the first of them a
    block that holds none of the frames to restore, so that
    relocate_pagedir has nothing to move.  When read_suspend_image
    returns 0, the directory is in that block, entry i names frame i of
    the snapshot, its buffer holds what that frame held when the snapshot
    was taken, and the buffer is none of the frames that are to be
    restored. *)
Theorem image_read_back s0 s s' b bdev l :
  lowmem_ok sys ->
  saved_frames sys s0 = Ret l ->
  count_and_copy_data_pages sys (Some O) s0 = (Ret (nr_copy_pages s0), s) ->
  buffers_apart s0 l ->
  write_suspend_image sys s = (Ret 0, s') ->
  marker_slot s = Some (bdev, 0) -> root_swap s <> 65535 ->
  image_slots s bdev (data_pages s + dir_pages s + 1) ->
  disk b = disk s' ->
  allocator_ok b (get_bitmask_order (SUSPEND_PD_PAGES (nr_copy_pages s))) ->
  Forall (fun a => a <> 0 -> kernel_page sys a = true) (page_oracle b) ->
  Forall (fun x => in_block (hd 0 (page_oracle b))
                     (get_bitmask_order (SUSPEND_PD_PAGES (nr_copy_pages s)))
                     (ADDRESS x) = false) l ->
  exists r b',
    read_suspend_image sys bdev b = (Ret r, b')
    /\ (r = 0 ->
        nr_copy_pages b' = Z.of_nat (length l)
        /\ pagedir_nosave b' = hd 0 (page_oracle b)
        /\ forall i x, l !! i = Some x ->
             exists p, pagedir b' !! i = Some p
                       /\ orig_address p = ADDRESS x
                       /\ mem_read b' (address p) = mem_read s0 (ADDRESS x)
                       /\ (address p ∉ map ADDRESS l)).
Proof.
  intros L Hl C Hbuf E Hslot Hroot Hsl Hdisk Halloc Hkern Hclear.
  destruct (saved_image_loads _ _ _ _ _ _ L Hl C Hbuf E Hslot Hroot Hsl Hdisk Halloc Hkern)
    as (r & b' & Er & _ & Hgood).
  exists r, b'. split; [exact Er|]. intros H0.
  destruct (Hgood H0) as (N' & L' & Hapart & _ & Hall & _ & Hstay).
  split; [exact N'|]. split; [exact (Hstay Hclear)|]. intros i x Hx.
  pose proof (lookup_lt_Some _ _ _ Hx) as Hi.
  destruct (Hall i x Hx) as (p & Hp & Ho & Hm).
  exists p. split; [exact Hp|]. split; [exact Ho|]. split; [exact Hm|].
  intros Hin. apply list_elem_of_fmap in Hin as (y & Ey & Hy).
  apply list_elem_of_lookup in Hy as [j Hj].
  pose proof (lookup_lt_Some _ _ _ Hj) as Hjl.
  destruct (Hall j y Hj) as (q & Hq & Hoq & _).
  apply (Hapart i j p q Hi Hjl Hp Hq). congruence.
Qed.

(** * Further properties of the code *)

(** X2: the header fill_suspend_header makes on a system passes that
    system's sanity_check, and carries the directory's address and the page
    count of the state; fill_suspend_header stops at its BUG_ON exactly when
    pagedir_save and pagedir_nosave differ. *)
Theorem header_passes_own_check s :
  match fill_suspend_header sys s with
  | (Ret sh, s') =>
      s' = s /\ pagedir_save s = pagedir_nosave s /\ sanity_check sys sh = 0
      /\ num_pbes sh = nr_copy_pages s /\ suspend_pagedir sh = pagedir_nosave s
  | (Fatal e, s') => s' = s /\ e = BUG /\ pagedir_save s <> pagedir_nosave s
  end.
Proof.
  rewrite fill_suspend_header_run.
  destruct (Z.eqb_spec (pagedir_save s) (pagedir_nosave s)) as [E|E].
  - repeat split; [exact E | apply sanity_check_image_header].
  - repeat split. exact E.
Qed.

Lemma le_bytes_length n : forall v, length (le_bytes n v) = n.
Proof. induction n as [|n IH]; intros v; cbn [le_bytes length]; [reflexivity | now rewrite IH]. Qed.

Lemma memcmp_exact (a b : list Z) :
  length a = length b -> memcmp a b (length a) = 0 -> a = b.
Proof.
  intros Hl H. apply (memcmp_prefix a b [] Hl). now rewrite app_nil_r.
Qed.

(** The page mark_swapfiles writes in the suspend mode over a plain-swap
    page with a magic of 10 bytes is taken back to that page in the resume
    mode. *)
Lemma marked_round_trip prev r m mid :
  length m = 10%nat ->
  marked prev MARK_SWAP_SUSPEND (PgSwap r m) = Some mid ->
  marked 0 MARK_SWAP_RESUME mid = Some (PgSwap r m).
Proof.
  intros Hl H. unfold marked in H. cbn [swh_magic MARK_SWAP_SUSPEND Z.eqb] in H.
  pose proof sizeof_long_le as HW.
  assert (E10 : (10 - sizeof_long = S (S (8 - sizeof_long)))%nat) by lia.
  assert (Hback : forall c plain tailb,
            (c = 49 /\ plain = bytes_of "SWAP-SPACE") \/ (c = 50 /\ plain = bytes_of "SWAPSPACE2") ->
            length tailb = 8%nat -> m = plain ->
            marked 0 MARK_SWAP_RESUME
              (set_link_next prev (PgSwap r (83 :: c :: tailb))) = Some (PgSwap r m)).
  { intros c plain tailb Hc Ht ->. unfold marked.
    cbn [set_link_next swh_magic MARK_SWAP_RESUME Z.eqb Pos.eqb]. rewrite E10. cbn [firstn app].
    set (rest := firstn (8 - sizeof_long) tailb ++ le_bytes sizeof_long prev).
    assert (Hrest : length rest = 8%nat).
    { unfold rest. rewrite length_app, length_take, le_bytes_length. lia. }
    assert (Hmc : forall x, length x = 10%nat -> memcpy (83 :: c :: rest) x 10 = x).
    { intros x Hx. unfold memcpy. rewrite take_ge by lia.
      rewrite drop_ge by (cbn [length]; lia). apply app_nil_r. }
    revert Hmc. magic. intros Hmc.
    destruct Hc as [[-> ->]|[-> ->]].
    - replace (memcmp [83; 49] (83 :: 49 :: rest) 2) with 0 by reflexivity.
      cbn [Z.eqb set_swh_magic]. rewrite Hmc by reflexivity. revert Hl. magic. reflexivity.
    - replace (memcmp [83; 49] (83 :: 50 :: rest) 2) with (-1) by reflexivity.
      replace (memcmp [83; 50] (83 :: 50 :: rest) 2) with 0 by reflexivity.
      cbn [Z.eqb set_swh_magic]. rewrite Hmc by reflexivity. revert Hl. magic. reflexivity. }
  revert H Hback Hl. magic. intros H Hback Hl.
  destruct (Z.eqb_spec (memcmp [83; 87; 65; 80; 45; 83; 80; 65; 67; 69] m 10) 0) as [H1|H1].
  - injection H as <-. cbn [set_swh_magic memcpy firstn app].
    rewrite (drop_ge m 10) by lia.
    apply (Hback 49 _ _ (or_introl (conj eq_refl eq_refl))); [reflexivity|].
    symmetry. apply memcmp_exact; [now rewrite Hl | exact H1].
  - destruct (Z.eqb_spec (memcmp [83; 87; 65; 80; 83; 80; 65; 67; 69; 50] m 10) 0) as [H2|H2];
      [|discriminate].
    injection H as <-. cbn [set_swh_magic memcpy firstn app].
    rewrite (drop_ge m 10) by lia.
    apply (Hback 50 _ _ (or_intror (conj eq_refl eq_refl))); [reflexivity|].
    symmetry. apply memcmp_exact; [now rewrite Hl | exact H2].
Qed.

(** X3: marking the suspend device and unmarking it again leaves the
    device as it was.  When mark_swapfiles has returned in the suspend mode
    on a marker page with a magic of 10 bytes, the page on the device is a
    committed one, and when mark_swapfiles then returns in the resume mode,
    every block of the device holds what it held before the first call. *)
Theorem marker_round_trip prev s s1 s2 slot r m :
  root_swap s <> 65535 ->
  marker_slot s = Some slot ->
  disk s !! slot = Some (PgSwap r m) -> length m = 10%nat ->
  mark_swapfiles prev MARK_SWAP_SUSPEND s = (Ret tt, s1) ->
  mark_swapfiles 0 MARK_SWAP_RESUME s1 = (Ret tt, s2) ->
  (exists mid, disk s1 !! slot = Some mid /\ marker_of mid = Some SuspendCommitted)
  /\ disk s2 = disk s.
Proof.
  intros Hroot Hslot Hd Hl E1 E2.
  pose proof (mark_swapfiles_run prev MARK_SWAP_SUSPEND s) as R1. rewrite E1 in R1.
  pose proof (preserves_run _ _ _ _ _ (mark_swapfiles_frame _ _) E1) as F1.
  destruct R1 as [(_ & _ & ?)|[((? & [=]) & _)|(_ & dev & blk & old & mid & Hs & Ho & Hmk & _ & D1)]];
    [contradiction|].
  rewrite Hslot in Hs. injection Hs as ->. rewrite Hd in Ho. injection Ho as <-.
  assert (Hslot1 : marker_slot s1 = Some (dev, blk)).
  { unfold marker_slot, swap_slot in *. unfold beside_marker in F1.
    replace (root_swap s1) with (root_swap s) by congruence.
    replace (swap_info s1) with (swap_info s) by congruence. exact Hslot. }
  assert (Hr1 : root_swap s1 <> 65535) by (unfold beside_marker in F1; congruence).
  pose proof (mark_swapfiles_run 0 MARK_SWAP_RESUME s1) as R2. rewrite E2 in R2.
  destruct R2 as [(_ & _ & ?)|[((? & [=]) & _)|(_ & dev' & blk' & old' & cur' & Hs & Ho & Hmk' & _ & D2)]];
    [contradiction|].
  rewrite Hslot1 in Hs. injection Hs as <- <-.
  rewrite D1, lookup_insert_eq in Ho. injection Ho as <-.
  split.
  - exists mid. rewrite D1, lookup_insert_eq. split; [reflexivity|].
    apply (marked_suspend prev MARK_SWAP_SUSPEND (PgSwap r m) mid); [|exact Hmk].
    unfold MARK_SWAP_SUSPEND. lia.
  - rewrite (marked_round_trip _ _ _ _ Hl Hmk) in Hmk'. injection Hmk' as <-.
    rewrite D2, D1, insert_insert_eq. apply insert_id, Hd.
Qed.

(** X4: what does_collide_order computes.  With the nr_copy_pages entries
    in the directory it answers whether one of them has its orig_address in
    the block of 2^order pages at [addr], and leaves the state alone. *)
Theorem does_collide_order_decides addr order s :
  (Z.to_nat (nr_copy_pages s) <= length (pagedir s))%nat ->
  does_collide_order addr order s
  = (Ret (existsb (collides addr order) (firstn (Z.to_nat (nr_copy_pages s)) (pagedir s))), s).
Proof.
  intros Hlen. destruct (does_collide_order_run addr order s) as (r & -> & H).
  f_equal. destruct r as [[|]|e].
  - destruct H as (i & p & Hi & Hp & Hc). f_equal. symmetry.
    apply existsb_exists. exists p. split; [|exact Hc].
    apply list_elem_of_In, list_elem_of_lookup. exists i. now rewrite lookup_take_lt.
  - f_equal. symmetry. apply not_true_is_false. intros Hex.
    apply existsb_exists in Hex as (p & Hin & Hc).
    apply list_elem_of_In, list_elem_of_lookup in Hin as (i & Hi).
    apply lookup_take_Some in Hi as [Hp Hi].
    destruct (H i Hi) as (q & Hq & Hf). congruence.
  - destruct H as [_ H]. lia.
Qed.

(** ** Giving the snapshot's memory back *)

Definition beside_flags (s : kstate) :=
  (mem s, page_oracle s, pagedir s, disk s, io_log s, nr_copy_pages s, pagedir_nosave s,
   pagedir_save s, pagedir_order s, swap_info s, swap_oracle s, swapfile_used s, root_swap s).

Lemma free_suspend_pagedir_frame this :
  preserves beside_flags (free_suspend_pagedir sys this).
Proof. unfold free_suspend_pagedir. frame. Qed.

Lemma filter_seq_snoc (P : Z -> bool) j :
  List.filter P (map Z.of_nat (seq 0 (S j)))
  = List.filter P (map Z.of_nat (seq 0 j)) ++ (if P (Z.of_nat j) then [Z.of_nat j] else []).
Proof.
  rewrite seq_S, map_app, List.filter_app. cbn [map List.filter Nat.add].
  destruct (P (Z.of_nat j)); reflexivity.
Qed.

(** X5: free_suspend_pagedir always returns.  It clears the nosave flag
    of every frame below num_physpages and of no other, frees with
    free_page the flagged frames that lie outside the directory, in
    ascending order, and last frees the directory as one block. *)
Theorem free_suspend_pagedir_clears this s :
  let count := Z.to_nat (num_physpages sys) in
  exists s',
    free_suspend_pagedir sys this s = (Ret tt, s')
    /\ (forall pfn, pfn ∈ PageNosave s'
                    <-> pfn ∈ PageNosave s /\ ~ (0 <= pfn < Z.of_nat count))
    /\ freed s'
       = freed s
         ++ map (fun pfn => (ADDRESS pfn, 0))
              (List.filter (flagged_outside s this) (map Z.of_nat (seq 0 count)))
         ++ [(this, pagedir_order s)]
    /\ beside_flags s' = beside_flags s.
Proof.
  intros count. subst count.
  pose proof (free_suspend_pagedir_frame this s) as Fr.
  unfold free_suspend_pagedir in *. rewrite bind_gets in *. cbv zeta in *.
  set (count := Z.to_nat (num_physpages sys)) in *.
  set (thisend := ulong (this + ulong (PAGE_SIZE * 2 ^ pagedir_order s))) in *.
  set (body := free_suspend_pagedir_step this thisend) in *.
  set (I := fun (j : nat) (_ : unit) t =>
    (forall pfn, pfn ∈ PageNosave t <-> pfn ∈ PageNosave s /\ ~ (0 <= pfn < Z.of_nat j))
    /\ freed t = freed s ++ map (fun pfn => (ADDRESS pfn, 0))
                              (List.filter (flagged_outside s this) (map Z.of_nat (seq 0 j)))).
  set (Q := fun (_ : result (unit + unit)) (_ : kstate) => False).
  assert (HI : I 0%nat tt s).
  { split; [intros pfn; split; [intros H; split; [exact H | lia] | tauto]|].
    cbn. now rewrite app_nil_r. }
  assert (Hb : forall j a t, (0 <= j < 0 + count)%nat -> I j a t ->
    match body j a t with
    | (Ret (inl a'), t') => I (S j) a' t'
    | (r, t') => Q r t'
    end).
  { intros j [] t _ (Hfl & Hfr). unfold body, free_suspend_pagedir_step.
    unfold TestClearPageNosave, bind at 1.
    assert (Hj : Z.of_nat j ∈ PageNosave t <-> Z.of_nat j ∈ PageNosave s).
    { rewrite Hfl. split; [tauto | intros H; split; [exact H | lia]]. }
    pose proof (filter_seq_snoc (flagged_outside s this) j) as Hsnoc.
    unfold flagged_outside at 3 in Hsnoc. fold thisend in Hsnoc.
    destruct (decide (Z.of_nat j ∈ PageNosave t)) as [Hin|Hout]; cbn [negb].
    - rewrite (bool_decide_eq_true_2 _ (proj1 Hj Hin)) in Hsnoc. cbn [andb] in Hsnoc.
      assert (Hfl' : forall pfn, pfn ∈ PageNosave t ∖ {[Z.of_nat j]}
                       <-> pfn ∈ PageNosave s /\ ~ (0 <= pfn < Z.of_nat (S j))).
      { intros pfn. rewrite elem_of_difference, elem_of_singleton, Hfl. split.
        - intros [[H1 H2] H3]. split; [exact H1 | lia].
        - intros [H1 H2]. split; [split; [exact H1 | lia] | lia]. }
      destruct ((this <=? ADDRESS (Z.of_nat j)) && (ADDRESS (Z.of_nat j) <? thisend));
        cbn [negb] in *; unfold free_page, free_pages, continue, ret; mstep;
        (split; [exact Hfl'|]); rewrite Hsnoc.
      + now rewrite app_nil_r.
      + now rewrite Hfr, map_app, app_assoc.
    - rewrite bool_decide_eq_false_2 in Hsnoc by tauto. cbn [andb] in Hsnoc.
      unfold continue, ret.
      split; [|now rewrite Hsnoc, app_nil_r].
      intros pfn. rewrite Hfl. split; [|intros [H1 H2]; split; [exact H1 | lia]].
      intros [H1 H2]. split; [exact H1|]. intros H3. apply H2.
      destruct (decide (pfn = Z.of_nat j)) as [->|]; [tauto | lia]. }
  pose proof (for_up_wp body I Q count 0 tt s HI Hb) as H.
  unfold bind at 1 in Fr. unfold bind at 1.
  destruct (for_up count 0 body tt s) as [[[[]|v]|e] t]; try contradiction.
  destruct H as [Hfl Hfr]. unfold free_pages, modify in *. cbn [snd] in Fr.
  eexists. split; [reflexivity|]. ksimpl.
  split; [exact Hfl|]. split; [now rewrite Hfr, <- app_assoc | exact Fr].
Qed.

(** ** Locking the swap devices *)

Definition beside_swap_info (s : kstate) :=
  (PageNosave s, mem s, page_oracle s, freed s, pagedir s, disk s, io_log s, nr_copy_pages s,
   pagedir_nosave s, pagedir_save s, pagedir_order s, swap_oracle s, swapfile_used s,
   root_swap s).

Lemma lock_swapdevices_frame : preserves beside_swap_info lock_swapdevices.
Proof. unfold lock_swapdevices. frame. Qed.

Lemma swap_info_at_insert s i j v :
  swap_info_at (set_swap_info (<[i := v]> (swap_info s)) s) j
  = if decide (i = j) then v else swap_info_at s j.
Proof.
  unfold swap_info_at. ksimpl. destruct (decide (i = j)) as [->|Hne].
  - now rewrite lookup_insert_eq.
  - now rewrite lookup_insert_ne.
Qed.

Lemma lock_swapdevices_run s :
  exists s',
    lock_swapdevices s = (Ret tt, s')
    /\ beside_swap_info s' = beside_swap_info s
    /\ forall i, swap_info_at s' i
                 = if (i <? MAX_SWAPFILES)%nat then locked s i else swap_info_at s i.
Proof.
  pose proof (lock_swapdevices_frame s) as Fr. unfold lock_swapdevices in *.
  set (I := fun (j : nat) (_ : unit) t =>
    swapfile_used t = swapfile_used s
    /\ forall i, swap_info_at t i = if (i <? j)%nat then locked s i else swap_info_at s i).
  set (Q := fun (_ : result (unit + unit)) (_ : kstate) => False).
  assert (HI : I 0%nat tt s) by (split; reflexivity).
  assert (Hb : forall j a t, (0 <= j < 0 + MAX_SWAPFILES)%nat -> I j a t ->
    match lock_swapdevices_step j a t with
    | (Ret (inl a'), t') => I (S j) a' t'
    | (r, t') => Q r t'
    end).
  { intros j [] t _ (Hu & Hi). unfold lock_swapdevices_step. rewrite bind_gets. unfold id.
    assert (Huj : swapfile_used_at t j = swapfile_used_at s j)
      by (unfold swapfile_used_at; now rewrite Hu).
    assert (Hij : swap_info_at t j = swap_info_at s j).
    { rewrite Hi. destruct (Nat.ltb_spec j j); [lia | reflexivity]. }
    assert (Hstep : forall i, (if (i <? S j)%nat then locked s i else swap_info_at s i)
              = if decide (j = i) then locked s j
                else if (i <? j)%nat then locked s i else swap_info_at s i).
    { intros i. destruct (decide (j = i)) as [->|Hne].
      - destruct (Nat.ltb_spec i (S i)); [reflexivity | lia].
      - destruct (Nat.ltb_spec i (S j)), (Nat.ltb_spec i j); try reflexivity; lia. }
    rewrite Huj. unfold locked in Hstep at 2.
    destruct (swapfile_used_at s j =? SWAPFILE_IGNORED); mstep; unfold continue, ret.
    - split; [exact Hu|]. intros i. rewrite swap_info_at_insert, Hstep, Hij.
      destruct (decide (j = i)); [reflexivity | apply Hi].
    - split; [exact Hu|]. intros i. rewrite Hstep.
      destruct (decide (j = i)) as [<-|]; [exact Hij | apply Hi]. }
  pose proof (for_up_wp lock_swapdevices_step I Q MAX_SWAPFILES 0 tt s HI Hb) as H.
  unfold bind at 1 in Fr. unfold bind at 1.
  destruct (for_up MAX_SWAPFILES 0 lock_swapdevices_step tt s) as [[[[]|v]|e] t];
    try contradiction.
  exists t. split; [reflexivity|]. split; [exact Fr|]. apply H.
Qed.

Lemma lxor_255_twice f : Z.lxor (Z.lxor f 255) 255 = f.
Proof. now rewrite Z.lxor_assoc, Z.lxor_nilpotent, Z.lxor_0_r. Qed.

(** X6: lock_swapdevices always returns and touches nothing but the
    flags of the devices marked SWAPFILE_IGNORED, which it xors with 0xFF;
    a second call gives every device of the table its flags back. *)
Theorem lock_swapdevices_unlocks s :
  exists s1 s2,
    lock_swapdevices s = (Ret tt, s1)
    /\ lock_swapdevices s1 = (Ret tt, s2)
    /\ (forall i, swap_info_at s1 i
                  = if (i <? MAX_SWAPFILES)%nat then locked s i else swap_info_at s i)
    /\ (forall i, swap_info_at s2 i = swap_info_at s i)
    /\ beside_swap_info s1 = beside_swap_info s
    /\ beside_swap_info s2 = beside_swap_info s.
Proof.
  destruct (lock_swapdevices_run s) as (s1 & E1 & F1 & H1).
  destruct (lock_swapdevices_run s1) as (s2 & E2 & F2 & H2).
  exists s1, s2. split; [exact E1|]. split; [exact E2|]. split; [exact H1|].
  split; [|split; [exact F1 | congruence]].
  intros i. rewrite H2. destruct (Nat.ltb_spec i MAX_SWAPFILES) as [Hi|Hi].
  - unfold locked.
    assert (Hu : swapfile_used_at s1 i = swapfile_used_at s i).
    { unfold swapfile_used_at, beside_swap_info in *. congruence. }
    rewrite Hu, H1. apply Nat.ltb_lt in Hi. rewrite Hi. unfold locked.
    destruct (swapfile_used_at s i =? SWAPFILE_IGNORED); [|reflexivity].
    cbn [flags swap_device]. rewrite lxor_255_twice. now destruct (swap_info_at s i).
  - rewrite H1. apply Nat.ltb_ge in Hi. now rewrite Hi.
Qed.

Lemma write_suspend_image_swap_info :
  preserves (fun s => (swap_info s, swapfile_used s)) (write_suspend_image sys).
Proof. unfold write_suspend_image. frame. Qed.

(** X7: suspend_save_image returns 0 or does not return.  When it
    returns, every swap device has the flags it had; when
    write_suspend_image stops on the way, the devices marked
    SWAPFILE_IGNORED are left with their flags xored with 0xFF. *)
Theorem suspend_save_image_unlocks s :
  match suspend_save_image sys s with
  | (Ret e, s') => e = 0 /\ forall i, swap_info_at s' i = swap_info_at s i
  | (Fatal _, s') =>
      forall i, swap_info_at s' i
                = if (i <? MAX_SWAPFILES)%nat then locked s i else swap_info_at s i
  end.
Proof.
  unfold suspend_save_image.
  destruct (lock_swapdevices_run s) as (s1 & E1 & F1 & H1).
  erewrite bind_ret_run by exact E1.
  pose proof (write_suspend_image_swap_info s1) as Fw.
  destruct (write_suspend_image_run s1) as (buffer & s1' & _ & Hw).
  unfold bind at 1.
  destruct (write_suspend_image sys s1) as [[e|f] t]; cbn [snd] in Fw;
    injection Fw as Fi Fu.
  2:{ intros i. unfold swap_info_at. rewrite Fi. apply H1. }
  destruct Hw as (-> & _).
  destruct (lock_swapdevices_run t) as (t' & E2 & _ & H2).
  erewrite bind_ret_run by exact E2. unfold ret. split; [reflexivity|].
  intros i. rewrite H2.
  assert (Hi : swap_info_at t i = swap_info_at s1 i) by (unfold swap_info_at; now rewrite Fi).
  assert (Hu : swapfile_used_at t i = swapfile_used_at s i).
  { unfold swapfile_used_at, beside_swap_info in *. rewrite Fu. congruence. }
  destruct (Nat.ltb_spec i MAX_SWAPFILES) as [Hlt|Hge].
  - unfold locked. rewrite Hu, Hi, H1. apply Nat.ltb_lt in Hlt. rewrite Hlt. unfold locked.
    destruct (swapfile_used_at s i =? SWAPFILE_IGNORED); [|reflexivity].
    cbn [flags swap_device]. rewrite lxor_255_twice. now destruct (swap_info_at s i).
  - rewrite Hi, H1. apply Nat.ltb_ge in Hge. now rewrite Hge.
Qed.

(** ** Choosing the suspend device *)

Definition beside_swapfile_used (s : kstate) :=
  (PageNosave s, mem s, page_oracle s, freed s, pagedir s, disk s, io_log s, nr_copy_pages s,
   pagedir_nosave s, pagedir_save s, pagedir_order s, swap_oracle s, swap_info s,
   resume_file s).

Lemma read_swapfiles_frame : preserves beside_swapfile_used read_swapfiles.
Proof. unfold read_swapfiles. frame. Qed.

Lemma find_snoc {A} (P : A -> bool) l x :
  find P (l ++ [x]) = match find P l with
                      | Some y => Some y
                      | None => if P x then Some x else None
                      end.
Proof.
  induction l as [|y l IH]; cbn [app find]; [reflexivity|].
  destruct (P y); [reflexivity | exact IH].
Qed.

Lemma first_active_bound s j i : first_active s j = Some i -> (i < j)%nat.
Proof.
  unfold first_active. intros H. apply find_some in H as [H _].
  apply in_seq in H. lia.
Qed.

Lemma swapfile_used_at_insert s i j v :
  default 0 (<[i := v]> (swapfile_used s) !! j)
  = if decide (i = j) then v else swapfile_used_at s j.
Proof.
  unfold swapfile_used_at. destruct (decide (i = j)) as [->|Hne].
  - now rewrite lookup_insert_eq.
  - now rewrite lookup_insert_ne.
Qed.

(** X8: read_swapfiles always returns and writes only [swapfile_used]
    and [root_swap].  Devices with flags 0 are marked SWAPFILE_UNUSED.  With
    a resume= string every active device is marked SWAPFILE_SUSPEND, whatever
    its device number, and [root_swap] is the last of them; without one the
    first active device is marked SWAPFILE_SUSPEND and becomes [root_swap],
    and the other active ones are marked SWAPFILE_IGNORED.  With no active
    device [root_swap] is 0xFFFF. *)
Theorem read_swapfiles_marks s :
  Z.of_nat MAX_SWAPFILES <= 65535 ->
  exists s',
    read_swapfiles s = (Ret tt, s')
    /\ beside_swapfile_used s' = beside_swapfile_used s
    /\ root_swap s' = chosen_root s MAX_SWAPFILES
    /\ forall i, swapfile_used_at s' i
                 = if (i <? MAX_SWAPFILES)%nat then chosen_use s i else swapfile_used_at s i.
Proof.
  intros Hmax. pose proof (read_swapfiles_frame s) as Fr.
  unfold read_swapfiles in *. rewrite bind_gets, bind_modify in *.
  set (len := strlen (resume_file s)) in *.
  set (s0 := set_root_swap 65535 s) in *.
  set (I := fun (j : nat) (_ : unit) t =>
    swap_info t = swap_info s
    /\ root_swap t = chosen_root s j
    /\ forall i, swapfile_used_at t i
                 = if (i <? j)%nat then chosen_use s i else swapfile_used_at s i).
  set (Q := fun (_ : result (unit + unit)) (_ : kstate) => False).
  assert (HI : I 0%nat tt s0).
  { split; [reflexivity|]. split; [|reflexivity].
    unfold chosen_root, first_active, last_active. cbn. now destruct (_ =? _)%nat. }
  assert (Hb : forall j a t, (0 <= j < 0 + MAX_SWAPFILES)%nat -> I j a t ->
    match read_swapfiles_step len j a t with
    | (Ret (inl a'), t') => I (S j) a' t'
    | (r, t') => Q r t'
    end).
  { intros j [] t Hj (Hi & Hr & Hu). unfold read_swapfiles_step. rewrite bind_gets. unfold id.
    assert (Hfl : flags (swap_info_at t j) = flags (swap_info_at s j))
      by (unfold swap_info_at; now rewrite Hi).
    assert (Hset : forall v t',
              swap_info t' = swap_info s ->
              swapfile_used t' = <[j := v]> (swapfile_used t) ->
              v = chosen_use s j ->
              forall i, swapfile_used_at t' i
                        = if (i <? S j)%nat then chosen_use s i else swapfile_used_at s i).
    { intros v t' _ Hu' -> i. unfold swapfile_used_at at 1. rewrite Hu', swapfile_used_at_insert.
      destruct (decide (j = i)) as [->|Hne].
      - destruct (Nat.ltb_spec i (S i)); [reflexivity | lia].
      - rewrite Hu. destruct (Nat.ltb_spec i (S j)), (Nat.ltb_spec i j); try reflexivity; lia. }
    assert (Hfirst : first_active s (S j)
                     = match first_active s j with
                       | Some y => Some y
                       | None => if active s j then Some j else None
                       end).
    { unfold first_active. now rewrite seq_S, find_snoc. }
    assert (Hlast : last_active s (S j)
                    = if active s j then Some j else last_active s j).
    { unfold last_active. rewrite seq_S, rev_app_distr. reflexivity. }
    assert (Hroot : chosen_root s (S j)
                    = if active s j
                      then if (len =? 0)%nat
                           then match first_active s j with
                                | Some y => Z.of_nat y
                                | None => Z.of_nat j
                                end
                           else Z.of_nat j
                      else chosen_root s j).
    { unfold chosen_root. fold len. rewrite Hfirst, Hlast.
      destruct (active s j), (len =? 0)%nat, (first_active s j); reflexivity. }
    assert (Huse : chosen_use s j
                   = if negb (active s j) then SWAPFILE_UNUSED
                     else if (len =? 0)%nat
                          then match first_active s j with
                               | None => SWAPFILE_SUSPEND
                               | Some _ => SWAPFILE_IGNORED
                               end
                          else SWAPFILE_SUSPEND) by reflexivity.
    assert (Hr0 : root_swap t = if (len =? 0)%nat
                                then match first_active s j with
                                     | Some y => Z.of_nat y
                                     | None => 65535
                                     end
                                else root_swap t).
    { destruct (len =? 0)%nat eqn:Hlen; [|reflexivity].
      rewrite Hr. unfold chosen_root. fold len. now rewrite Hlen. }
    rewrite Hfl. unfold active in Hroot, Huse.
    destruct (flags (swap_info_at s j) =? 0) eqn:Hact; cbn [negb] in *.
    - mstep. unfold continue, ret. split; [exact Hi|]. split; [now rewrite Hroot|].
      apply (Hset SWAPFILE_UNUSED); [exact Hi | reflexivity | now rewrite Huse].
    - destruct (len =? 0)%nat eqn:Hlen.
      + rewrite Hr0.
        destruct (first_active s j) as [y|] eqn:Hy.
        * pose proof (first_active_bound _ _ _ Hy) as Hyj.
          destruct (Z.eqb_spec (Z.of_nat y) 65535) as [E|_]; [lia|].
          mstep. unfold continue, ret. split; [exact Hi|]. split; [now rewrite Hroot|].
          apply (Hset SWAPFILE_IGNORED); [exact Hi | reflexivity | now rewrite Huse].
        * cbn [Z.eqb Pos.eqb]. mstep. unfold continue, ret. split; [exact Hi|].
          split; [now rewrite Hroot|].
          apply (Hset SWAPFILE_SUSPEND); [exact Hi | reflexivity | now rewrite Huse].
      + mstep. unfold continue, ret. split; [exact Hi|]. split; [now rewrite Hroot|].
        apply (Hset SWAPFILE_SUSPEND); [exact Hi | reflexivity | now rewrite Huse]. }
  pose proof (for_up_wp (read_swapfiles_step len) I Q MAX_SWAPFILES 0 tt s0 HI Hb) as H.
  unfold bind at 1 in Fr. unfold bind at 1.
  destruct (for_up MAX_SWAPFILES 0 (read_swapfiles_step len) tt s0) as [[[[]|v]|e] t];
    try contradiction.
  exists t. split; [reflexivity|]. split; [exact Fr|]. destruct H as (_ & Hr & Hu).
  split; assumption.
Qed.

(** ** swsusp_suspend *)

(** What the snapshot leaves alone beside the device: the swap devices
    and the slots they will hand out. *)
Definition beside_snapshot (s : kstate) :=
  (disk s, io_log s, swap_info s, swap_oracle s).

Lemma count_loop_beside_snapshot fuel : forall pfn nr pagedir_p,
  preserves beside_snapshot (count_loop sys fuel pfn nr pagedir_p).
Proof.
  induction fuel as [|fuel IH]; intros pfn nr pagedir_p; cbn [count_loop].
  - destruct (negb _); [apply preserves_ret | apply preserves_fail].
  - destruct (negb _); [apply preserves_ret|].
    apply preserves_bind; [unfold examine_page; frame|].
    intros [next|]; [apply IH|].
    apply preserves_bind; [unfold take_page; frame | intros ?; apply IH].
Qed.

Lemma suspend_prepare_image_beside_snapshot :
  preserves beside_snapshot (suspend_prepare_image sys).
Proof.
  unfold suspend_prepare_image, snapshot_pages, count_and_copy_data_pages. cbv zeta.
  repeat first
    [ apply count_loop_beside_snapshot
    | frame_step ].
Qed.

(** X10: a suspend that fails has touched no device.  swsusp_suspend
    returns 0 or 1, and when it returns 1 it is suspend_prepare_image that
    refused: the devices hold what they held, no I/O was issued, no swap
    slot and no page was taken, the swap devices are not locked, no frame
    is left flagged and there is no directory. *)
Theorem swsusp_suspend_fails_early s e s' :
  swsusp_suspend sys s = (Ret e, s') ->
  (e = 0 \/ e = 1)
  /\ (e <> 0 ->
      disk s' = disk s /\ io_log s' = io_log s
      /\ swap_info s' = swap_info s /\ swap_oracle s' = swap_oracle s
      /\ page_oracle s' = page_oracle s /\ PageNosave s' = PageNosave s
      /\ pagedir_nosave s' = 0).
Proof.
  intros E. unfold swsusp_suspend in E.
  apply bind_Ret_inv in E as ([] & s1 & E1 & E).
  apply bind_Ret_inv in E as (r & s2 & E2 & E).
  pose proof (preserves_run _ _ _ _ _ read_swapfiles_frame E1) as F1.
  pose proof (preserves_run _ _ _ _ _ suspend_prepare_image_beside_snapshot E2) as F2.
  unfold beside_swapfile_used in F1. unfold beside_snapshot in F2.
  destruct (suspend_prepare_image_returns _ _ _ E2)
    as [(-> & Hpo & Hns & Hpd)|(-> & _)].
  - cbn in E. injection E as <- <-. split; [now right|]. intros _.
    repeat split; congruence.
  - cbn [Z.eqb] in E. unfold suspend_save_image in E.
    apply bind_Ret_inv in E as ([] & s3 & E3 & E).
    apply bind_Ret_inv in E as (v & s4 & E4 & E).
    destruct (write_suspend_image_run s3) as (buffer & t & _ & H).
    rewrite E4 in H. destruct H as (-> & _).
    apply bind_Ret_inv in E as ([] & s5 & E5 & E). injection E as <- _.
    split; [now left|]. intros H. now contradiction H.
Qed.

(** ** What a computation can return *)

Definition returns {A} (P : A -> Prop) (m : M A) : Prop :=
  forall s a s', m s = (Ret a, s') -> P a.

(** For a loop body: every early exit satisfies [P]. *)
Definition exits {A R} (P : R -> Prop) (r : A + R) : Prop :=
  match r with
  | inl _ => True
  | inr e => P e
  end.

Lemma returns_bind_with {A B} (Q : A -> Prop) (P : B -> Prop) (m : M A) (k : A -> M B) :
  returns Q m -> (forall a, Q a -> returns P (k a)) -> returns P (bind m k).
Proof.
  intros Hm Hk s b s' E. apply bind_Ret_inv in E as (a & s1 & E1 & E2).
  exact (Hk a (Hm _ _ _ E1) _ _ _ E2).
Qed.

Lemma returns_bind {A B} (P : B -> Prop) (m : M A) (k : A -> M B) :
  (forall a, returns P (k a)) -> returns P (bind m k).
Proof.
  intros Hk. apply (returns_bind_with (fun _ => True)); [easy|]. intros a _. apply Hk.
Qed.

Lemma returns_ret {A} (P : A -> Prop) a : P a -> returns P (ret a).
Proof. intros H s b s' [= <- _]. exact H. Qed.

Lemma returns_fail {A} (P : A -> Prop) e : returns P (fail e).
Proof. intros s b s' [=]. Qed.

Lemma returns_for_up {A R} (P : R -> Prop) (body : nat -> A -> M (A + R)) count :
  (forall i a, returns (exits P) (body i a)) ->
  forall i acc, returns (exits P) (for_up count i body acc).
Proof.
  intros Hb. induction count as [|c IH]; intros i acc; cbn [for_up].
  - now apply returns_ret.
  - apply (returns_bind_with (exits P)); [apply Hb|].
    intros [a|e] He; [apply IH | now apply returns_ret].
Qed.

Lemma returns_for_down {A R} (P : R -> Prop) (body : nat -> A -> M (A + R)) count :
  (forall i a, returns (exits P) (body i a)) ->
  forall acc, returns (exits P) (for_down count body acc).
Proof.
  intros Hb. induction count as [|c IH]; intros acc; cbn [for_down].
  - now apply returns_ret.
  - apply (returns_bind_with (exits P)); [apply Hb|].
    intros [a|e] He; [apply IH | now apply returns_ret].
Qed.

Ltac returns_step :=
  lazymatch goal with
  | |- returns _ (bind (for_up _ _ _ _) _) =>
      eapply returns_bind_with; [apply returns_for_up; intros ? ?|intros [?|?] ?]
  | |- returns _ (bind (for_down _ _ _) _) =>
      eapply returns_bind_with; [apply returns_for_down; intros ? ?|intros [?|?] ?]
  | |- returns _ (bind _ _) => apply returns_bind; intros ?
  | |- returns _ (ret _) => apply returns_ret
  | |- returns _ continue => apply returns_ret
  | |- returns _ (fail _) => apply returns_fail
  | |- returns _ (if ?b then _ else _) => destruct b
  | |- returns _ (match ?x with _ => _ end) => destruct x
  | |- returns _ (let _ := _ in _) => cbv zeta
  end.

(** ** read_suspend_image: what it returns and what it leaves *)

Lemma read_pagedir_step_exits bdev i next :
  returns (exits (fun e => e = - EIO)) (read_pagedir_step sys bdev i next).
Proof. unfold read_pagedir_step, PREPARENEXT. repeat returns_step; cbn; auto. Qed.

Lemma read_data_step_exits bdev i a :
  returns (exits (fun e => e = - EIO)) (read_data_step sys bdev i a).
Proof. unfold read_data_step. repeat returns_step; cbn; auto. Qed.

Lemma read_suspend_image_body_returns bdev sh next :
  returns (fun r => r = 0 \/ r = - EIO \/ r = - ENOMEM)
    (read_suspend_image_body sys bdev sh next).
Proof.
  unfold read_suspend_image_body, read_suspend_image_data. cbv zeta.
  repeat first
    [ apply read_pagedir_step_exits
    | apply read_data_step_exits
    | returns_step ];
    cbn [exits] in *; auto.
Qed.

(** What reading an image leaves alone: the devices and the swap
    bookkeeping. *)
Definition beside_reading (s : kstate) :=
  (disk s, swap_info s, swap_oracle s, swapfile_used s, root_swap s, PageNosave s,
   resume_file s, resume_device s).

Lemma check_pagedir_page_beside_reading fuel :
  preserves beside_reading (check_pagedir_page fuel).
Proof.
  induction fuel as [|fuel IH]; cbn [check_pagedir_page]; [apply preserves_fail|].
  unfold does_collide. frame; try apply preserves_does_collide_order. exact IH.
Qed.

Lemma relocate_pagedir_search_beside_reading fuel : forall eaten,
  preserves beside_reading (relocate_pagedir_search fuel eaten).
Proof.
  induction fuel as [|fuel IH]; intros eaten; cbn [relocate_pagedir_search];
    [apply preserves_fail|].
  frame; try apply preserves_does_collide_order. apply IH.
Qed.

Lemma relocate_pagedir_release_beside_reading eaten :
  preserves beside_reading (relocate_pagedir_release eaten).
Proof.
  induction eaten as [|c rest IH]; cbn [relocate_pagedir_release]; frame. exact IH.
Qed.

Lemma read_suspend_image_beside_reading bdev :
  preserves beside_reading (read_suspend_image sys bdev).
Proof.
  unfold read_suspend_image, read_suspend_image_body, read_suspend_image_data,
    relocate_pagedir, check_pagedir,
    check_pagedir_step, read_pagedir_step, read_data_step, PREPARENEXT, bdev_read_page,
    copy_pagedir.
  cbv zeta.
  repeat first
    [ apply preserves_does_collide_order
    | apply check_pagedir_page_beside_reading
    | apply relocate_pagedir_search_beside_reading
    | apply relocate_pagedir_release_beside_reading
    | frame_step ].
Qed.

(** X11: what read_suspend_image returns and what it leaves.  It
    returns 0, -EIO, -EINVAL, -EFAULT, -EPERM or -ENOMEM.  Whatever
    it does, also when it stops on a BUG, the devices hold what they held
    and the swap bookkeeping is as it was: the signature is changed in the
    buffer only.  When it returns -EINVAL, -EFAULT or -EPERM it has read
    block 0 and at most one more block, and has changed nothing else: no
    page was taken and no variable of the image was set. *)
Theorem read_suspend_image_rejects_cleanly bdev b :
  match read_suspend_image sys bdev b with
  | (res, b') =>
      beside_reading b' = beside_reading b
      /\ forall r, res = Ret r ->
           (r = 0 \/ r = - EIO \/ r = - EINVAL \/ r = - EFAULT \/ r = - EPERM \/ r = - ENOMEM)
           /\ (r = - EINVAL \/ r = - EFAULT \/ r = - EPERM ->
               exists blocks,
                 (length blocks <= 1)%nat
                 /\ b' = set_io_log (io_log b ++ map (IoRead bdev) (0 :: blocks)) b)
  end.
Proof.
  pose proof (read_suspend_image_beside_reading bdev b) as Fr.
  destruct (read_suspend_image sys bdev b) as [res b'] eqn:E. cbn [snd] in Fr.
  split; [exact Fr|]. intros r ->. clear Fr.
  unfold read_suspend_image in E.
  erewrite bind_ret_run in E by apply bdev_read_page_0.
  set (b1 := set_io_log (io_log b ++ [IoRead bdev 0]) b) in *.
  assert (Eb1 : b1 = set_io_log (io_log b ++ map (IoRead bdev) [0]) b) by reflexivity.
  replace (disk b1) with (disk b) in E by reflexivity.
  destruct (disk b !! (bdev, 0)) as [cur|]; [|injection E as <- <-; split;
      [auto 7 | intros [H|[H|H]]; vm_compute in H; discriminate H]].
  cbv zeta in E.
  destruct (_ || _).
  { injection E as <- <-. split; [auto 7|]. intros _. exists []. split; [cbn; lia | exact Eb1]. }
  unfold PREPARENEXT in E at 1. rewrite bind_ret in E.
  destruct (negb _).
  { injection E as <- <-. split; [auto 7|]. intros _. exists []. split; [cbn; lia | exact Eb1]. }
  erewrite bind_ret_run in E by (apply bdev_read_page_run, to_long_page_multiple).
  set (blk := _ / PAGE_SIZE) in E.
  set (b2 := set_io_log _ b1) in E.
  assert (Eb2 : b2 = set_io_log (io_log b ++ map (IoRead bdev) [0; blk]) b).
  { subst b2 b1. ksimpl. rewrite <- app_assoc. reflexivity. }
  replace (disk b1) with (disk b) in E by reflexivity.
  destruct (disk b !! (bdev, blk)) as [cur2|]; [|injection E as <- <-; split;
      [auto 7 | intros [H|[H|H]]; vm_compute in H; discriminate H]].
  destruct (negb _).
  { injection E as <- <-. split; [auto 7|]. intros _. exists [blk]. split; [cbn; lia | exact Eb2]. }
  unfold PREPARENEXT in E. rewrite bind_ret in E.
  pose proof (read_suspend_image_body_returns _ _ _ _ _ _ E) as H.
  split; [destruct H as [-> | [-> | ->]]; auto 7|].
  intros K. exfalso.
  destruct H as [-> | [-> | ->]], K as [K|[K|K]]; vm_compute in K; discriminate K.
Qed.

(** ** Computations that always return *)

Definition safe {A} (m : M A) : Prop := forall s, exists a s', m s = (Ret a, s').

Lemma safe_bind {A B} (m : M A) (k : A -> M B) :
  safe m -> (forall a, safe (k a)) -> safe (bind m k).
Proof.
  intros Hm Hk s. destruct (Hm s) as (a & s1 & E). unfold bind. rewrite E. apply Hk.
Qed.

Lemma safe_ret {A} (a : A) : safe (ret a).
Proof. intros s. now exists a, s. Qed.

Lemma safe_for_up {A R} (body : nat -> A -> M (A + R)) count :
  (forall i a, safe (body i a)) -> forall i acc, safe (for_up count i body acc).
Proof.
  intros Hb. induction count as [|c IH]; intros i acc; cbn [for_up]; [apply safe_ret|].
  apply safe_bind; [apply Hb|]. intros [a|r]; [apply IH | apply safe_ret].
Qed.

Lemma free_suspend_pagedir_safe this : safe (free_suspend_pagedir sys this).
Proof.
  unfold free_suspend_pagedir. apply safe_bind; [intros s; now eexists _, _|]. intros order.
  cbv zeta. apply safe_bind; [|intros _ s; now eexists _, _].
  apply safe_for_up. intros i []. unfold free_suspend_pagedir_step.
  apply safe_bind.
  - intros s. unfold TestClearPageNosave. destruct (decide _); now eexists _, _.
  - intros was. destruct (negb was); [apply safe_ret|].
    destruct (_ && _); [apply safe_ret|].
    apply safe_bind; [intros s; now eexists _, _ | intros _; apply safe_ret].
Qed.

(** ** swsusp_free *)

Lemma marked_resume_committed prev old cur' :
  marker_of old = Some SuspendCommitted ->
  marked prev 2 old = Some cur' ->
  marker_of cur' = Some NormalSwap.
Proof.
  intros Hc Hm. destruct (marked_resume _ _ _ Hm) as [-> | [_ H]]; [|exact H]. exfalso.
  apply marker_of_committed_inv in Hc as (r & m & -> & Hnp & Hs).
  unfold marked in Hm. cbn [swh_magic Z.eqb Pos.eqb] in Hm.
  assert (K : forall x, length x = 10%nat ->
            x = bytes_of "SWAP-SPACE" \/ x = bytes_of "SWAPSPACE2" ->
            memcpy m x 10 = m -> False).
  { intros x Hl Hx Hcp. rewrite <- Hcp in Hnp. unfold memcpy in Hnp.
    rewrite (take_ge x) in Hnp by lia.
    destruct Hx as [-> | ->].
    - replace (memcmp (bytes_of "SWAP-SPACE") _ 10) with 0 in Hnp; [discriminate|].
      symmetry. apply (memcmp_prefix (bytes_of "SWAP-SPACE")); reflexivity.
    - replace (memcmp (bytes_of "SWAPSPACE2") _ 10) with 0 in Hnp;
        [rewrite orb_true_r in Hnp; discriminate|].
      symmetry. apply (memcmp_prefix (bytes_of "SWAPSPACE2")); reflexivity. }
  destruct (memcmp (bytes_of "S1") m 2 =? 0).
  - injection Hm as Hm. apply (K (bytes_of "SWAP-SPACE")); [reflexivity | now left | exact Hm].
  - cbn [orb] in Hs. rewrite Hs in Hm. injection Hm as Hm.
    apply (K (bytes_of "SWAPSPACE2")); [reflexivity | now right | exact Hm].
Qed.

Lemma read_normal_swap bdev s pg :
  disk s !! (bdev, 0) = Some pg ->
  marker_of pg = Some NormalSwap ->
  read_suspend_image sys bdev s
  = (Ret (- EINVAL), set_io_log (io_log s ++ [IoRead bdev 0]) s).
Proof.
  intros Hd Hm. unfold read_suspend_image.
  erewrite bind_ret_run by apply bdev_read_page_0.
  rewrite Hd. cbv zeta. unfold magic_of. unfold marker_of in Hm.
  destruct (swh_magic pg) as [magic|]; [|discriminate].
  destruct (_ || _); [reflexivity|].
  destruct (_ || _); discriminate.
Qed.

(** mark_swapfiles in the resume mode returns whenever it gets a page
    and finds a swap header in the marker slot. *)
Lemma mark_swapfiles_resume_returns prev s a rest slot old :
  root_swap s <> 65535 ->
  page_oracle s = a :: rest -> a <> 0 ->
  marker_slot s = Some slot ->
  disk s !! slot = Some old -> is_Some (swh_magic old) ->
  exists s', mark_swapfiles prev MARK_SWAP_RESUME s = (Ret tt, s').
Proof.
  intros Hroot Ho Ha Hslot Hold [magic Hmagic]. destruct slot as [dev blk].
  unfold mark_swapfiles. rewrite bind_gets.
  destruct (Z.eqb_spec (root_swap s) 65535) as [|_]; [contradiction|].
  unfold alloc_page.
  assert (G : __get_free_pages 0 s = (Ret a, set_page_oracle rest s))
    by (unfold __get_free_pages; now rewrite Ho).
  erewrite bind_ret_run by exact G.
  destruct (Z.eqb_spec a 0) as [|_]; [contradiction|].
  set (s1 := set_page_oracle rest s).
  assert (Hs1 : swap_slot s1 (swp_entry (root_swap s) 0) = Some (dev, blk)) by exact Hslot.
  unfold rw_swap_page_sync_READ, bind at 1. rewrite Hs1.
  change (disk s1) with (disk s). rewrite Hold, Hmagic.
  assert (Hw : forall cur' : page, exists s',
    bind (rw_swap_page_sync_WRITE (swp_entry (root_swap s) 0) cur') (fun _ => free_pages a 0)
      (set_io_log (io_log s1 ++ [IoRead dev blk]) s1) = (Ret tt, s')).
  { intros cur'. unfold rw_swap_page_sync_WRITE, bind at 1.
    assert (Hs : swap_slot (set_io_log (io_log s1 ++ [IoRead dev blk]) s1)
                   (swp_entry (root_swap s) 0) = Some (dev, blk)) by exact Hslot.
    rewrite Hs. eexists. reflexivity. }
  unfold MARK_SWAP_RESUME. cbn [Z.eqb Pos.eqb].
  destruct (memcmp (bytes_of "S1") magic 2 =? 0);
    [|destruct (memcmp (bytes_of "S2") magic 2 =? 0)];
    rewrite bind_ret; apply Hw.
Qed.

(** X12: swsusp_free gives the device back to swap.  With a committed
    marker page on the suspend device and a page for mark_swapfiles to
    work in, swsusp_free returns 0, the only block it changes is the
    marker page, which is a plain swap header afterwards, and a kernel
    booting on the device finds no image: read_suspend_image returns
    -EINVAL. *)
Theorem swsusp_free_reverts s a rest dev pg :
  root_swap s <> 65535 ->
  marker_slot s = Some (dev, 0) ->
  disk s !! (dev, 0) = Some pg -> marker_of pg = Some SuspendCommitted ->
  page_oracle s = a :: rest -> a <> 0 ->
  exists s' pg',
    swsusp_free sys s = (Ret 0, s')
    /\ disk s' = <[(dev, 0) := pg']> (disk s)
    /\ marker_of pg' = Some NormalSwap
    /\ forall b, disk b = disk s' ->
         fst (read_suspend_image sys dev b) = Ret (- EINVAL).
Proof.
  intros Hroot Hslot Hd Hc Ho Ha.
  unfold swsusp_free. rewrite bind_gets.
  destruct (free_suspend_pagedir_safe (pagedir_save s) s) as ([] & t & F).
  erewrite bind_ret_run by exact F.
  pose proof (preserves_run _ _ _ _ _ (free_suspend_pagedir_on_device _) F) as F1.
  pose proof (preserves_run _ _ _ _ _ (free_suspend_pagedir_frame _) F) as F2.
  unfold on_device in F1. unfold beside_flags in F2.
  injection F1 as Fd Fl Fr Fi.
  assert (Fo : page_oracle t = page_oracle s) by congruence.
  assert (Hslot' : marker_slot t = Some (dev, 0)).
  { unfold marker_slot, swap_slot in *. now rewrite Fr, Fi. }
  destruct (marker_of_committed_inv _ Hc) as (r & m & Epg & _).
  destruct (mark_swapfiles_resume_returns 0 t a rest (dev, 0) pg) as (s' & E);
    [congruence | congruence | exact Ha | exact Hslot' | congruence
     | subst pg; now exists m |].
  pose proof (mark_swapfiles_run 0 MARK_SWAP_RESUME t) as R. rewrite E in R.
  destruct R as [(_ & _ & ?)|[((? & [=]) & _)|(_ & dev' & blk & old & cur' & Hs & Hold & Hmk & _ & D)]];
    [congruence|].
  rewrite Hslot' in Hs. injection Hs as <- <-.
  rewrite Fd, Hd in Hold. injection Hold as <-.
  pose proof (marked_resume_committed _ _ _ Hc Hmk) as Hn.
  erewrite bind_ret_run by exact E.
  exists s', cur'. split; [reflexivity|]. split; [now rewrite D, Fd|].
  split; [exact Hn|]. intros b Hb.
  rewrite (read_normal_swap dev b cur'); [reflexivity | | exact Hn].
  now rewrite Hb, D, lookup_insert_eq.
Qed.

(** ** swsusp_read *)

(** The I/O log grows by reads of [bdev] only. *)
Definition only_reads {A} (bdev : Z) (m : M A) : Prop :=
  forall s, exists blocks, io_log (snd (m s)) = io_log s ++ map (IoRead bdev) blocks.

Lemma only_reads_quiet {A} bdev (m : M A) : preserves io_log m -> only_reads bdev m.
Proof. intros H s. exists []. cbn. now rewrite app_nil_r, H. Qed.

Lemma only_reads_bind {A B} bdev (m : M A) (k : A -> M B) :
  only_reads bdev m -> (forall a, only_reads bdev (k a)) -> only_reads bdev (bind m k).
Proof.
  intros Hm Hk s. unfold bind. destruct (Hm s) as [l1 H1].
  destruct (m s) as [[a|e] s1]; cbn [snd] in *; [|now exists l1].
  destruct (Hk a s1) as [l2 H2]. exists (l1 ++ l2).
  now rewrite H2, H1, map_app, app_assoc.
Qed.

Lemma only_reads_for_up {A R} bdev (body : nat -> A -> M (A + R)) count :
  (forall i a, only_reads bdev (body i a)) ->
  forall i acc, only_reads bdev (for_up count i body acc).
Proof.
  intros Hb. induction count as [|c IH]; intros i acc; cbn [for_up].
  - apply only_reads_quiet, preserves_ret.
  - apply only_reads_bind; [apply Hb|].
    intros [a|r]; [apply IH | apply only_reads_quiet, preserves_ret].
Qed.

Lemma only_reads_for_down {A R} bdev (body : nat -> A -> M (A + R)) count :
  (forall i a, only_reads bdev (body i a)) ->
  forall acc, only_reads bdev (for_down count body acc).
Proof.
  intros Hb. induction count as [|c IH]; intros acc; cbn [for_down].
  - apply only_reads_quiet, preserves_ret.
  - apply only_reads_bind; [apply Hb|].
    intros [a|r]; [apply IH | apply only_reads_quiet, preserves_ret].
Qed.

Lemma bdev_read_page_only_reads bdev pos : only_reads bdev (bdev_read_page bdev pos).
Proof.
  intros s. unfold bdev_read_page. destruct (negb _).
  - exists []. cbn. now rewrite app_nil_r.
  - exists [ulong pos / PAGE_SIZE]. reflexivity.
Qed.

Lemma relocate_pagedir_io_log : preserves io_log relocate_pagedir.
Proof.
  intros s. pose proof (relocate_pagedir_run s) as H.
  destruct (relocate_pagedir s) as [r s']. destruct H as [H _].
  unfold beside_relocation in H. cbn [snd]. congruence.
Qed.

Lemma check_pagedir_io_log : preserves io_log check_pagedir.
Proof.
  intros s. pose proof (check_pagedir_run s) as H.
  destruct (check_pagedir s) as [r s']. destruct H as [H _].
  unfold beside_dir in H. cbn [snd]. congruence.
Qed.

Ltac only_reads_step :=
  lazymatch goal with
  | |- only_reads _ (bind _ _) => apply only_reads_bind; [|intros ?]
  | |- only_reads _ (for_up _ _ _ _) => apply only_reads_for_up; intros ? ?
  | |- only_reads _ (for_down _ _ _) => apply only_reads_for_down; intros ? ?
  | |- only_reads _ (bdev_read_page _ _) => apply bdev_read_page_only_reads
  | |- only_reads _ relocate_pagedir => apply only_reads_quiet, relocate_pagedir_io_log
  | |- only_reads _ check_pagedir => apply only_reads_quiet, check_pagedir_io_log
  | |- only_reads _ (if ?b then _ else _) => destruct b
  | |- only_reads _ (match ?x with _ => _ end) => destruct x
  | |- only_reads _ (let _ := _ in _) => cbv zeta
  | |- only_reads _ _ => apply only_reads_quiet; solve [frame]
  end.

Lemma read_suspend_image_only_reads bdev : only_reads bdev (read_suspend_image sys bdev).
Proof.
  unfold read_suspend_image, read_suspend_image_body, read_suspend_image_data,
    read_pagedir_step, read_data_step.
  repeat only_reads_step.
Qed.

(** X13: swsusp_read releases what it takes.  With a resume= string,
    a returning swsusp_read has set resume_device from it and has not
    written to a device.  Either it got no page, and then it returns
    -ENOMEM without opening the device; or the page it got is the last
    thing it frees, and then: when open_by_devnum fails its error is
    returned and no I/O is issued, and when it succeeds the log gains the
    opening of the device, reads of that device only, and its release. *)
Theorem swsusp_read_releases s r s' :
  strlen (resume_file s) <> O ->
  swsusp_read sys s = (Ret r, s') ->
  let dev := name_to_dev_t sys (resume_file s) in
  resume_device s' = dev
  /\ disk s' = disk s
  /\ ((r = - ENOMEM /\ io_log s' = io_log s /\ freed s' = freed s)
      \/ exists cur,
           cur <> 0 /\ head (page_oracle s) = Some cur
           /\ last (freed s') = Some (cur, 0)
           /\ if open_by_devnum sys dev =? 0
              then exists blocks,
                     io_log s' = io_log s ++ IoOpen dev :: map (IoRead dev) blocks ++ [IoPut dev]
              else r = open_by_devnum sys dev /\ io_log s' = io_log s).
Proof.
  intros Hf E dev. unfold swsusp_read in E. rewrite bind_gets in E.
  destruct (Nat.eqb_spec (strlen (resume_file s)) 0) as [|_]; [contradiction|].
  rewrite bind_modify in E. fold dev in E.
  destruct (get_zeroed_page_cases (set_resume_device dev s)) as [[Ho G]|[(rest & Ho & G)|(a & rest & Ho & Ha & G)]];
    erewrite bind_ret_run in E by exact G.
  - injection E as <- <-. split; [reflexivity|]. split; [reflexivity|]. left. now repeat split.
  - injection E as <- <-. split; [reflexivity|]. split; [reflexivity|]. left. now repeat split.
  - destruct (Z.eqb_spec a 0) as [|_]; [contradiction|]. cbn [negb] in E.
    rewrite bind_gets in E. ksimpl.
    set (s1 := set_mem _ _) in E.
    assert (Hlast : forall l : list (Z * Z), last (l ++ [(a, 0)]) = Some (a, 0))
      by (intros l; apply last_snoc).
    destruct (Z.eqb_spec (open_by_devnum sys dev) 0) as [Hopen|Hopen].
    + rewrite bind_assoc, bind_modify in E.
      set (s2 := set_io_log _ s1) in E.
      rewrite bind_assoc in E.
      apply bind_Ret_inv in E as (e & s3 & E3 & E).
      pose proof (preserves_run _ _ _ _ _ (read_suspend_image_beside_reading dev) E3) as F.
      destruct (read_suspend_image_only_reads dev s2) as [blocks Hb].
      rewrite E3 in Hb. cbn [snd] in Hb.
      unfold free_page, free_pages in E. mstep_in E. injection E as <- <-. ksimpl.
      unfold beside_reading in F. injection F as Fd _ _ _ _ _ _ Fr.
      split; [exact Fr|]. split; [exact Fd|]. right. exists a.
      split; [exact Ha|]. split; [ksimpl; now rewrite Ho|]. split; [apply Hlast|].
      exists blocks. rewrite Hb. subst s2. ksimpl. rewrite <- !app_assoc. reflexivity.
    + rewrite bind_ret in E. unfold free_page, free_pages in E. mstep_in E.
      injection E as <- <-. ksimpl.
      split; [reflexivity|]. split; [reflexivity|]. right. exists a.
      split; [exact Ha|]. split; [ksimpl; now rewrite Ho|]. split; [apply Hlast|].
      split; reflexivity.
Qed.

(** ** What the snapshot holds *)

Lemma frames_ascending fuel : forall pfn nosave fr l,
  frames sys fuel pfn nosave fr = Ret l ->
  forall i j x y, (i < j)%nat -> l !! i = Some x -> l !! j = Some y -> x < y.
Proof.
  induction fuel as [|fuel IH]; intros pfn nosave fr l; cbn [frames];
    destruct (Z.ltb_spec pfn (max_pfn sys)) as [Hlt|Hge]; cbn [negb]; intros H;
    try (injection H as <-; intros i j x y _ Hx; discriminate Hx);
    try discriminate.
  destruct (verdict_of sys nosave fr pfn) as [[next|]|e] eqn:V; [| |discriminate].
  - exact (IH _ _ _ _ H).
  - destruct (frames sys fuel (pfn + 1) nosave fr) as [l'|] eqn:F; [|discriminate].
    injection H as <-. intros i j x y Hij Hx Hy.
    destruct j as [|j]; [lia|]. cbn in Hy.
    destruct i as [|i].
    + injection Hx as <-. apply frames_spec in F as (Hb & _).
      destruct (Hb y); [eapply list_elem_of_lookup_2; exact Hy | lia].
    + cbn in Hx. apply (IH _ _ _ _ F i j); [lia | exact Hx | exact Hy].
Qed.

Lemma verdict_take nosave fr x :
  verdict_of sys nosave fr x = Ret Take ->
  (x ∉ nosave)
  /\ if PageReserved sys x
     then ~ (nosave_begin sys <= ADDRESS x < nosave_end sys)
     else fr x = O.
Proof.
  unfold verdict_of. destruct (PageReserved sys x); cbn [negb].
  - destruct (bool_decide_reflect (x ∈ nosave)) as [|Hn]; [discriminate|].
    destruct (Z.leb_spec (nosave_begin sys) (ADDRESS x)), (Z.ltb_spec (ADDRESS x) (nosave_end sys));
      cbn [andb]; intros K; try discriminate; (split; [exact Hn | lia]).
  - destruct (decide (x ∈ nosave)) as [|Hn]; [discriminate|].
    destruct (Nat.eqb_spec (fr x) 0) as [E|]; cbn [negb]; [|discriminate].
    intros _. now split.
Qed.

(** X14: what the copying pass puts into the directory.  When
    count_and_copy_data_pages with a directory returns n, it has changed
    the first n entries only, and only their orig_address; entry i names
    a frame below max_pfn that is not flagged nosave, that is outside the
    nosave section when it is reserved and not the head of a free region
    when it is not; and the frames are in ascending order. *)
Theorem snapshot_leaves_out_nosave s n s' :
  count_and_copy_data_pages sys (Some O) s = (Ret n, s') ->
  0 <= n <= Z.max 0 (max_pfn sys)
  /\ length (pagedir s') = length (pagedir s)
  /\ (forall i, (Z.to_nat n <= i)%nat -> pagedir s' !! i = pagedir s !! i)
  /\ exists l,
       length l = Z.to_nat n
       /\ (forall i x, l !! i = Some x ->
             (exists p, pagedir s !! i = Some p
                        /\ pagedir s' !! i = Some (set_orig_address (ADDRESS x) p))
             /\ 0 <= x < max_pfn sys
             /\ (x ∉ PageNosave s)
             /\ if PageReserved sys x
                then ~ (nosave_begin sys <= ADDRESS x < nosave_end sys)
                else free_region s x = O)
       /\ forall i j x y, (i < j)%nat -> l !! i = Some x -> l !! j = Some y -> x < y.
Proof.
  intros H. apply count_and_copy_Some_inv in H as (l & F & Hfill & ->).
  rewrite Nat2Z.id.
  destruct (fill_pagedir _ _ _ _ Hfill) as (Hlen & Hout & Hin).
  pose proof (frames_ascending _ _ _ _ _ F) as Hasc.
  apply frames_spec in F as (Hb & _ & Hl).
  split; [lia|]. split; [exact Hlen|].
  split; [intros i Hi; apply Hout; right; cbn; lia|].
  exists l. split; [reflexivity|]. split; [|exact Hasc].
  intros i x Hx. split; [exact (Hin i x Hx)|].
  destruct (Hb x) as [Hr Hv]; [eapply list_elem_of_lookup_2; exact Hx|].
  split; [lia|]. exact (verdict_take _ _ _ Hv).
Qed.

(** ** create_suspend_pagedir *)

Lemma flag_loop vp n : forall i s,
  exists s',
    for_up (R := unit) n i (fun i _ => SetPageNosave (vp + Z.of_nat i) ;;; continue) tt s
    = (Ret (inl tt), s')
    /\ (forall x, x ∈ PageNosave s'
                  <-> x ∈ PageNosave s \/ exists k, (i <= k < i + n)%nat /\ x = vp + Z.of_nat k)
    /\ s' = set_PageNosave (PageNosave s') s.
Proof.
  induction n as [|n IH]; intros i s; cbn [for_up].
  - exists s. split; [reflexivity|]. split; [|now destruct s].
    intros x. split; [now left | intros [H|(k & Hk & _)]; [exact H | lia]].
  - unfold SetPageNosave, continue. mstep.
    destruct (IH (S i) (set_PageNosave ({[vp + Z.of_nat i]} ∪ PageNosave s) s))
      as (s' & E & Hin & Hs').
    exists s'. split; [exact E|]. split.
    + intros x. rewrite Hin. ksimpl. rewrite elem_of_union, elem_of_singleton. split.
      * intros [[->|H]|(k & Hk & ->)]; [right; exists i; split; [lia | reflexivity]
                                         | now left | right; exists k; split; [lia | reflexivity]].
      * intros [H|(k & Hk & ->)]; [left; now right|].
        destruct (decide (k = i)) as [->|Hne]; [left; now left|].
        right. exists k. split; [lia | reflexivity].
    + rewrite Hs' at 1. reflexivity.
Qed.

(** create_suspend_pagedir, on a return that is not NULL: the pages
    it took, the entries it filled and the frames it flagged. *)
Lemma create_suspend_pagedir_run nr s pd s' :
  create_suspend_pagedir sys nr s = (Ret pd, s') -> pd <> 0 ->
  let order := get_bitmask_order (SUSPEND_PD_PAGES nr) in
  pagedir_order s' = order
  /\ length (pagedir s') = (Z.to_nat (2 ^ order) * PBES_PER_PAGE)%nat
  /\ (forall x, x ∈ PageNosave s -> x ∈ PageNosave s')
  /\ (forall k, (k < Z.to_nat (2 ^ order))%nat -> virt_to_page pd + Z.of_nat k ∈ PageNosave s')
  /\ exists bufs,
       length bufs = Z.to_nat nr
       /\ page_oracle s = pd :: bufs ++ page_oracle s'
       /\ forall i a, bufs !! i = Some a ->
            a <> 0
            /\ (exists p, pagedir s' !! i = Some p /\ address p = a /\ orig_address p = 0)
            /\ virt_to_page a ∈ PageNosave s'
            /\ mem_read s' a = zero_page.
Proof.
  intros E Hpd order. unfold create_suspend_pagedir in E. cbv zeta in E. fold order in E.
  rewrite bind_modify in E.
  destruct (__get_free_pages_cases order (set_pagedir_order order s))
    as [[Ho G]|(a & rest & Ho & G)]; erewrite bind_ret_run in E by exact G.
  { injection E as <- _. contradiction. }
  destruct (Z.eqb_spec a 0) as [->|Ha]. { injection E as <- _. contradiction. }
  rewrite bind_modify in E. ksimpl.
  set (s1 := set_pagedir _ _) in E.
  destruct (flag_loop (virt_to_page a) (Z.to_nat (2 ^ order)) 0 s1) as (s2 & F & Hfl & Hs2).
  erewrite bind_ret_run in E by exact F.
  set (Inv := fun (j : nat) (_ : unit) t =>
    pagedir_order t = order
    /\ length (pagedir t) = (Z.to_nat (2 ^ order) * PBES_PER_PAGE)%nat
    /\ (forall x, x ∈ PageNosave s2 -> x ∈ PageNosave t)
    /\ exists bufs,
         length bufs = j
         /\ rest = bufs ++ page_oracle t
         /\ forall i b, bufs !! i = Some b ->
              b <> 0
              /\ (exists p, pagedir t !! i = Some p /\ address p = b /\ orig_address p = 0)
              /\ virt_to_page b ∈ PageNosave t
              /\ mem_read t b = zero_page).
  set (Q := fun (r : result (unit + Z)) (_ : kstate) =>
    match r with Ret (inr v) => v = 0 | _ => True end).
  assert (HI : Inv 0%nat tt s2).
  { rewrite Hs2. subst s1. unfold Inv. ksimpl.
    split; [reflexivity|]. split; [apply fresh_directory_length|]. split; [tauto|].
    exists []. split; [reflexivity|]. split; [reflexivity|]. intros i b Hb. discriminate Hb. }
  assert (Hb : forall j u t, (0 <= j < 0 + Z.to_nat nr)%nat -> Inv j u t ->
    match create_suspend_pagedir_step sys a j u t with
    | (Ret (inl u'), t') => Inv (S j) u' t'
    | (r, t') => Q r t'
    end).
  { intros j [] t _ (Hord & Hlen & Hsub & bufs & Hbl & Hrest & Hent).
    unfold create_suspend_pagedir_step.
    assert (Hfail : forall t1 : kstate,
              match (free_suspend_pagedir sys a ;;; ret (inr 0)) t1
                    return Prop with
              | (Ret (inl u'), t') => Inv (S j) u' t'
              | (r, t') => Q r t'
              end).
    { intros t1. destruct (free_suspend_pagedir_safe a t1) as ([] & t2 & F2).
      erewrite bind_ret_run by exact F2. reflexivity. }
    destruct (get_zeroed_page_cases t) as [[Ho' G']|[(rest' & Ho' & G')|(b & rest' & Ho' & Hb0 & G')]];
      erewrite bind_ret_run by exact G'; rewrite bind_gets; ksimpl;
      (destruct (pagedir t !! j) as [p|] eqn:Hp; [|exact I]); rewrite bind_modify;
      [apply Hfail | apply Hfail |].
    destruct (Z.eqb_spec b 0) as [|_]; [contradiction|].
    unfold SetPageNosave, continue, ret. mstep. unfold Inv. ksimpl.
    pose proof (lookup_lt_Some _ _ _ Hp) as Hj.
    split; [exact Hord|].
    split; [now rewrite length_alter, length_insert|].
    split; [intros x Hx; apply elem_of_union; right; apply Hsub, Hx|].
    exists (bufs ++ [b]). split; [rewrite length_app; cbn; lia|].
    split; [now rewrite <- app_assoc, Hrest, Ho'|].
    intros i c Hc. apply lookup_app_Some in Hc as [Hc|[Hi Hc]].
    - destruct (Hent i c Hc) as (Hc0 & (q & Hq & Hqa & Hqo) & Hcf & Hcm).
      pose proof (lookup_lt_Some _ _ _ Hc) as Hil.
      split; [exact Hc0|]. split; [|split].
      + exists q. rewrite list_lookup_alter_ne, list_lookup_insert_ne by lia. now split.
      + apply elem_of_union. now right.
      + unfold mem_read in *. ksimpl. destruct (decide (b = c)) as [->|Hne];
          [now rewrite lookup_insert_eq | now rewrite lookup_insert_ne].
    - apply list_lookup_singleton_Some in Hc as [Hi0 <-].
      assert (i = j) as -> by lia.
      split; [exact Hb0|]. split; [|split].
      + eexists. rewrite list_lookup_alter_eq, list_lookup_insert_eq by exact Hj.
        cbn. split; [reflexivity|]. split; reflexivity.
      + apply elem_of_union. left. now apply elem_of_singleton.
      + unfold mem_read. ksimpl. now rewrite lookup_insert_eq. }
  pose proof (for_up_wp (create_suspend_pagedir_step sys a) Inv Q (Z.to_nat nr) 0 tt s2 HI Hb) as H.
  unfold bind at 1 in E.
  destruct (for_up (Z.to_nat nr) 0 (create_suspend_pagedir_step sys a) tt s2)
    as [[[[]|v]|e] t]; [| |discriminate].
  2:{ cbn in H. subst v. injection E as <- _. contradiction. }
  injection E as <- <-. destruct H as (Hord & Hlen & Hsub & bufs & Hbl & Hrest & Hent).
  split; [exact Hord|]. split; [exact Hlen|].
  split; [intros x Hx; apply Hsub, Hfl; left; exact Hx|].
  split; [intros k Hk; apply Hsub, Hfl; right; exists k; split; [lia | reflexivity]|].
  exists bufs. split; [exact Hbl|]. split; [|exact Hent].
  ksimpl. rewrite Ho, Hrest. reflexivity.
Qed.

(** X15: what create_suspend_pagedir leaves when it returns a
    directory.  The block of the directory and one page per entry were
    taken from the allocator, in that order; entry i has page i as its
    buffer, zeroed and not 0, and an orig_address of 0; the frames of the
    directory and of every buffer are flagged nosave, in addition to those
    that were; and a return of NULL is the only other outcome. *)
Theorem create_suspend_pagedir_flags nr s pd s' :
  create_suspend_pagedir sys nr s = (Ret pd, s') -> pd <> 0 ->
  let order := get_bitmask_order (SUSPEND_PD_PAGES nr) in
  pagedir_order s' = order
  /\ length (pagedir s') = (Z.to_nat (2 ^ order) * PBES_PER_PAGE)%nat
  /\ (forall x, x ∈ PageNosave s -> x ∈ PageNosave s')
  /\ (forall k, (k < Z.to_nat (2 ^ order))%nat -> virt_to_page pd + Z.of_nat k ∈ PageNosave s')
  /\ exists bufs,
       length bufs = Z.to_nat nr
       /\ page_oracle s = pd :: bufs ++ page_oracle s'
       /\ forall i a, bufs !! i = Some a ->
            a <> 0
            /\ (exists p, pagedir s' !! i = Some p /\ address p = a /\ orig_address p = 0)
            /\ virt_to_page a ∈ PageNosave s'
            /\ mem_read s' a = zero_page.
Proof. exact (create_suspend_pagedir_run nr s pd s'). Qed.

(** ** The snapshot is taken into buffers of its own *)

(** X16: suspend_prepare_image copies into buffers that are apart
    from what it copies.  With an allocator that hands out distinct,
    page-aligned pages, a return of 0 means that the copying pass ran on a
    directory whose buffers are distinct pages, none of them a frame that
    is saved and none still with the allocator; the pass returned the
    nr_copy_pages counted before. *)
Theorem prepared_buffers_apart s s' :
  lowmem_ok sys -> max_pfn sys < 2 ^ 31 ->
  NoDup (page_oracle s) ->
  Forall (fun a => a <> 0 -> page_address (virt_to_page a) = a) (page_oracle s) ->
  suspend_prepare_image sys s = (Ret 0, s') ->
  exists mid l,
    count_and_copy_data_pages sys (Some O) mid = (Ret (nr_copy_pages mid), s')
    /\ saved_frames sys mid = Ret l
    /\ buffers_apart mid l.
Proof.
  intros L Hmax Hnd Hal H. unfold suspend_prepare_image in H.
  destruct (drain_local_pages_frame s) as (f & ro & D).
  erewrite bind_ret_run in H by exact D. mstep_in H.
  apply bind_Ret_inv in H as (n & s1 & C & H).
  rewrite count_and_copy_None in C. injection C as C <-. mstep_in H.
  destruct (_ <? _) in H; [mstep_in H; discriminate|].
  mstep_in H. destruct (_ <? _) in H; [discriminate|].
  apply bind_Ret_inv in H as (pd & s2 & Cr & H). mstep_in H.
  destruct (Z.eqb_spec pd 0) as [|Hpd]; [discriminate|]. mstep_in H.
  match type of H with
  | bind drain_local_pages _ ?t = _ =>
      destruct (drain_local_pages_frame t) as (f' & ro' & D')
  end.
  erewrite bind_ret_run in H by exact D'.
  set (mid := set_region_oracle ro' _) in H.
  unfold snapshot_pages in H. apply bind_Ret_inv in H as (n2 & s3 & C2 & H).
  destruct (Z.eqb_spec (uint n) (uint n2)) as [E|]; [|discriminate].
  injection H as <-.
  destruct (count_and_copy_Some_inv _ _ _ C2) as (l & Fl & _ & ->).
  destruct (max_pfn sys =? num_physpages sys); [|discriminate].
  destruct (saved_frames sys _) as [l0|] eqn:F0 in C; [|discriminate]. injection C as <-.
  pose proof (proj1 (frames_spec _ _ _ _ _ Fl)) as Hb.
  assert (Hl : Z.of_nat (length l) < 2 ^ 31)
    by (apply frames_spec in Fl as (_ & _ & ?); lia).
  assert (Hl0 : Z.of_nat (length l0) < 2 ^ 31)
    by (apply frames_spec in F0 as (_ & _ & ?); lia).
  assert (En : length l0 = length l).
  { unfold uint in E. rewrite !Z.mod_small in E by lia. lia. }
  assert (Enr : to_int (uint (Z.of_nat (length l0))) = Z.of_nat (length l)).
  { unfold uint, to_int. rewrite (Z.mod_small (Z.of_nat _)) by lia.
    rewrite Z.mod_small by lia. lia. }
  rewrite Enr in Cr.
  destruct (create_suspend_pagedir_run _ _ _ _ Cr Hpd)
    as (_ & _ & _ & _ & bufs & Hbl & Hor & Hent).
  rewrite Nat2Z.id in Hbl. ksimpl.
  exists mid, l. split.
  { replace (nr_copy_pages mid) with (Z.of_nat (length l)); [exact C2|].
    pose proof (preserves_run _ _ _ _ _ (create_suspend_pagedir_nr_copy_pages _) Cr) as K.
    subst mid. ksimpl. rewrite K. unfold uint. rewrite Z.mod_small by lia. lia. }
  split; [exact Fl|].
  assert (Hbufs : map address (firstn (length l) (pagedir mid)) = bufs).
  { apply list_eq. intros i. rewrite list_lookup_fmap.
    destruct (bufs !! i) as [b|] eqn:Hbi.
    - pose proof (lookup_lt_Some _ _ _ Hbi) as Hi.
      destruct (Hent i b Hbi) as (_ & (p & Hp & Hpa & _) & _).
      rewrite lookup_take_lt by lia.
      replace (pagedir mid) with (pagedir s2) by reflexivity. now rewrite Hp, <- Hpa.
    - apply lookup_ge_None in Hbi. now rewrite lookup_take_ge by lia. }
  assert (Hnd' : NoDup (pd :: bufs ++ page_oracle s2)) by (rewrite <- Hor; exact Hnd).
  apply NoDup_cons in Hnd' as [_ Hnd']. apply NoDup_app in Hnd' as (Hndb & Hsep & _).
  unfold buffers_apart. cbv zeta. rewrite Hbufs. split; [exact Hndb|].
  apply Forall_forall. intros b Hin.
  destruct (proj1 (list_elem_of_lookup _ _) Hin) as [i Hbi].
  destruct (Hent i b Hbi) as (Hb0 & _ & Hflag & _).
  split; [|split].
  - rewrite Forall_forall in Hal. apply Hal; [|exact Hb0].
    ksimpl. rewrite Hor. right. apply elem_of_app. now left.
  - intros Hx. apply list_elem_of_fmap in Hx as (x & -> & Hx).
    destruct (Hb x Hx) as [Hr Hv]. apply verdict_take in Hv as [Hns _].
    apply Hns. rewrite virt_to_page_ADDRESS in Hflag by (exact L || lia). exact Hflag.
  - replace (page_oracle mid) with (page_oracle s2) by reflexivity. now apply Hsep.
Qed.

(** ** relocate_pagedir and the blocks it takes *)

Lemma relocate_pagedir_search_blocks fuel : forall eaten s m eaten' s',
  relocate_pagedir_search fuel eaten s = (Ret (m, eaten'), s') ->
  freed s' = freed s /\ pagedir_order s' = pagedir_order s
  /\ exists rejected,
       eaten' = rev rejected ++ eaten
       /\ Forall (fun a => a <> 0) rejected
       /\ (m <> 0 -> page_oracle s = rejected ++ m :: page_oracle s').
Proof.
  induction fuel as [|fuel IH]; intros eaten s m eaten' s' E; [discriminate|].
  cbn [relocate_pagedir_search] in E. rewrite bind_gets in E.
  destruct (__get_free_pages_cases (pagedir_order s) s) as [[Ho G]|(a & rest & Ho & G)];
    erewrite bind_ret_run in E by exact G.
  - injection E as <- <- <-. split; [reflexivity|]. split; [reflexivity|].
    exists []. split; [reflexivity|]. split; [constructor | contradiction].
  - destruct (Z.eqb_spec a 0) as [->|Ha].
    + injection E as <- <- <-. split; [reflexivity|]. split; [reflexivity|].
      exists []. split; [reflexivity|]. split; [constructor | contradiction].
    + rewrite bind_modify in E. ksimpl.
      apply bind_Ret_inv in E as (c & s1 & D & E).
      pose proof (does_collide_order_state a (pagedir_order s)
                    (set_mem (<[a := zero_page]> (mem s)) (set_page_oracle rest s))) as Hs1.
      rewrite D in Hs1. cbn [snd] in Hs1. subst s1.
      destruct c; cbn [negb] in E.
      * rewrite bind_modify in E. apply IH in E as (Hf & Hord & rej & -> & Hrej & Hor).
        ksimpl. split; [exact Hf|]. split; [exact Hord|].
        exists (a :: rej). cbn [rev]. rewrite <- app_assoc. split; [reflexivity|].
        split; [now constructor|]. intros Hm. rewrite Ho, (Hor Hm). reflexivity.
      * injection E as <- <- <-. ksimpl. split; [reflexivity|]. split; [reflexivity|].
        exists []. split; [reflexivity|]. split; [constructor|]. intros _. exact Ho.
Qed.

Lemma relocate_pagedir_release_frees eaten : forall s,
  Forall (fun a => a <> 0) eaten ->
  exists s',
    relocate_pagedir_release eaten s = (Ret tt, s')
    /\ freed s' = freed s ++ map (fun a => (a, pagedir_order s)) (tl eaten)
    /\ page_oracle s' = page_oracle s /\ pagedir_nosave s' = pagedir_nosave s.
Proof.
  induction eaten as [|c rest IH]; intros s Hne; cbn [relocate_pagedir_release].
  - exists s. cbn. now rewrite app_nil_r.
  - apply Forall_cons in Hne as [_ Hne]. rewrite bind_gets.
    destruct rest as [|f rest'].
    + cbn [hd Z.eqb negb]. rewrite bind_ret. cbn [relocate_pagedir_release].
      exists s. cbn. now rewrite app_nil_r.
    + cbn [hd tl]. pose proof Hne as Hne'. apply Forall_cons in Hne' as [Hf _].
      destruct (Z.eqb_spec f 0) as [|_]; [contradiction|]. cbn [negb].
      unfold free_pages. rewrite bind_modify.
      destruct (IH (set_freed (freed s ++ [(f, pagedir_order s)]) s) Hne)
        as (s' & E & Hfr & Hpo & Hpn).
      exists s'. split; [exact E|]. ksimpl. cbn [tl map] in *.
      rewrite Hfr, <- app_assoc. now repeat split.
Qed.

(** X17: the blocks relocate_pagedir takes and gives back.  When it
    returns 0 it has either found the directory clear of every
    orig_address and done nothing at all, or taken from the allocator the
    blocks it rejected and then the block that is the directory now; of
    the rejected blocks it frees all but the last one rejected, with the
    order of the directory, and it frees neither that one nor the block
    the directory was read into. *)
Theorem relocate_pagedir_blocks s s' :
  relocate_pagedir s = (Ret 0, s') ->
  s' = s
  \/ exists rejected,
       page_oracle s = rejected ++ pagedir_nosave s' :: page_oracle s'
       /\ Forall (fun a => a <> 0) rejected
       /\ pagedir_nosave s' <> 0
       /\ freed s'
          = freed s ++ map (fun a => (a, pagedir_order s)) (tl (rev rejected)).
Proof.
  intros E. unfold relocate_pagedir in E. rewrite !bind_gets in E.
  apply bind_Ret_inv in E as (c & s1 & D & E).
  pose proof (does_collide_order_state (pagedir_nosave s) (pagedir_order s) s) as Hs1.
  rewrite D in Hs1. cbn [snd] in Hs1. subst s1.
  destruct c; cbn [negb] in E; [|injection E as <-; now left].
  rewrite bind_gets in E.
  apply bind_Ret_inv in E as ([m eaten] & s2 & S & E).
  apply relocate_pagedir_search_blocks in S as (Hf & Hord & rej & -> & Hrej & Hor).
  destruct (Z.eqb_spec m 0) as [|Hm]; [discriminate|].
  rewrite app_nil_r in E. unfold copy_pagedir in E. rewrite !bind_modify in E.
  destruct (relocate_pagedir_release_frees (rev rej)
              (set_pagedir
                 (concat (map (dir_page (pagedir (set_pagedir_nosave m s2)))
                            (seq 0 (Z.to_nat (2 ^ pagedir_order (set_pagedir_nosave m s2))))))
                 (set_pagedir_nosave m s2)))
    as (s3 & R & Hfr & Hpo & Hpn).
  { apply Forall_rev, Hrej. }
  erewrite bind_ret_run in E by exact R. injection E as <-.
  right. exists rej. ksimpl. rewrite Hpn, Hpo, Hfr, Hf, Hord.
  split; [exact (Hor Hm)|]. split; [exact Hrej|]. split; [exact Hm | reflexivity].
Qed.

(** ** A write that does not finish *)

(** X18: an image that is not written to the end is not committed.
    write_suspend_image returns only when get_swap_page had a slot for
    every data page, every directory page and the header; and when it
    stops instead (the panic on a missing or foreign slot, an oops), a
    block that no slot of get_swap_page names, the marker page among
    them, holds what it held before. *)
Theorem unfinished_write_commits_nothing s slot :
  Forall (fun e => swap_slot s e <> Some slot) (swap_oracle s) ->
  match write_suspend_image sys s with
  | (Ret _, _) => (data_pages s + dir_pages s + 1 <= length (swap_oracle s))%nat
  | (Fatal _, s') => disk s' !! slot = disk s !! slot
  end.
Proof.
  intros Hslot.
  destruct (get_zeroed_page_alloc s) as (buffer & s1 & G & Fa & _).
  destruct (write_suspend_image_run s) as (buffer' & s1' & G' & H).
  rewrite G in G'. injection G' as <- <-.
  unfold beside_alloc in Fa.
  assert (Ho : swap_oracle s1 = swap_oracle s) by congruence.
  assert (Hi : swap_info s1 = swap_info s) by congruence.
  assert (Hn : nr_copy_pages s1 = nr_copy_pages s) by congruence.
  assert (Hd : disk s1 = disk s) by congruence.
  destruct (write_suspend_image sys s) as [[v|e] s'].
  - destruct H as (_ & _ & _ & Hus & _).
    unfold data_pages, dir_pages in *. rewrite Hn in Hus.
    destruct (Nat.le_gt_cases
                (Z.to_nat (nr_copy_pages s) + Z.to_nat (SUSPEND_PD_PAGES (nr_copy_pages s)) + 1)
                (length (swap_oracle s))) as [Hle|Hgt]; [exact Hle|].
    destruct (Hus (length (swap_oracle s)) Hgt) as [Hne _]. exfalso. apply Hne.
    unfold entry_at. rewrite Ho. now apply nth_overflow.
  - destruct H as (new & [_ Hdisk] & Hq).
    rewrite Hdisk, replay_other, Hd; [reflexivity|].
    apply Hq. unfold swap_slot in *. now rewrite Ho, Hi.
Qed.

(** ** The resume= option *)

Lemma strncpy_buf_length n : forall src, length (strncpy_buf src n) = n.
Proof.
  induction n as [|n IH]; intros src; [reflexivity|]. cbn [strncpy_buf].
  destruct (hd 0 src =? 0); [apply repeat_length | cbn; now rewrite IH].
Qed.

Lemma cstring_app n : forall a b, length a = n -> cstring n (a ++ b) = cstring n a.
Proof.
  induction n as [|n IH]; intros a b Hl; [reflexivity|].
  destruct a as [|c a]; [discriminate|]. cbn [cstring app hd tl].
  destruct (c =? 0); [reflexivity|]. f_equal. apply IH. cbn in Hl. lia.
Qed.

(** strncpy pads: the bytes it stores are the string, cut at [n]
    characters, and NULs up to [n]. *)
Lemma strncpy_buf_padded n : forall src,
  strncpy_buf src n = cstring n src ++ repeat 0 (n - length (cstring n src)).
Proof.
  induction n as [|n IH]; intros src; [reflexivity|]. cbn [strncpy_buf cstring].
  destruct (hd 0 src =? 0).
  - reflexivity.
  - cbn [app length]. rewrite Nat.sub_succ. f_equal. apply IH.
Qed.

(** X19: what resume_setup stores.  It returns 1.  An empty value
    changes nothing, so it does not undo an earlier resume= or a
    compiled-in name; any other value replaces the first 255 bytes of
    resume_file by the value, cut at 255 characters, followed by NULs up
    to byte 255, leaves the bytes after them alone, and makes the name
    non-empty whatever it was, also after noresume. *)
Theorem resume_setup_stores str s :
  exists s',
    resume_setup str s = (Ret 1, s')
    /\ if (strlen str =? 0)%nat then s' = s
       else s' = set_resume_file (resume_file s') s
            /\ firstn 255 (resume_file s')
               = cstring 255 str ++ repeat 0 (255 - length (cstring 255 str))
            /\ cstring 255 (resume_file s') = cstring 255 str
            /\ skipn 255 (resume_file s') = skipn 255 (resume_file s)
            /\ strlen (resume_file s') <> O
            /\ forall any, strlen (resume_file (snd (resume_setup str
                                                     (snd (noresume_setup any s))))) <> O.
Proof.
  unfold resume_setup, noresume_setup.
  assert (Hne : forall dst, strlen str <> O -> strlen (strncpy dst str 255) <> O).
  { intros dst H. unfold strncpy. destruct str as [|c r]; [contradiction|].
    change 255%nat with (S 254). cbn [strncpy_buf hd tl]. cbn [strlen] in H.
    destruct (c =? 0) eqn:Ec; [contradiction|]. cbn [app strlen]. rewrite Ec. discriminate. }
  destruct (Nat.eqb_spec (strlen str) 0) as [E|E]; cbn [negb]; mstep.
  - exists s. split; reflexivity.
  - eexists. split; [reflexivity|]. ksimpl. split; [reflexivity|].
    unfold strncpy. split; [|split; [|split; [|split]]].
    + rewrite take_app_length' by (symmetry; apply strncpy_buf_length).
      apply strncpy_buf_padded.
    + rewrite cstring_app by apply strncpy_buf_length. apply cstring_strncpy_buf.
    + rewrite drop_app_length' by (symmetry; apply strncpy_buf_length). reflexivity.
    + apply (Hne _ E).
    + intros any. cbn [snd]. ksimpl. apply (Hne _ E).
Qed.

(** ** swsusp_resume *)

(** The variables swsusp_resume compares. *)
Definition checked_variables (s : kstate) :=
  (nr_copy_pages_check s, pagedir_order_check s, nr_copy_pages s, pagedir_order s).

Lemma count_loop_checked_variables fuel : forall pfn nr pagedir_p,
  preserves checked_variables (count_loop sys fuel pfn nr pagedir_p).
Proof.
  induction fuel as [|fuel IH]; intros pfn nr pagedir_p; cbn [count_loop].
  - destruct (negb _); [apply preserves_ret | apply preserves_fail].
  - destruct (negb _); [apply preserves_ret|].
    apply preserves_bind; [unfold examine_page; frame|].
    intros [next|]; [apply IH|].
    apply preserves_bind; [unfold take_page, copy_page; frame | intros ?; apply IH].
Qed.

Lemma relocate_pagedir_sizes :
  preserves (fun s => (nr_copy_pages s, pagedir_order s)) relocate_pagedir.
Proof.
  intros s. pose proof (relocate_pagedir_run s) as H.
  destruct (relocate_pagedir s) as [r s']. destruct H as [H _].
  unfold beside_relocation in H. cbn [snd]. congruence.
Qed.

Lemma check_pagedir_sizes :
  preserves (fun s => (nr_copy_pages s, pagedir_order s)) check_pagedir.
Proof.
  intros s. pose proof (check_pagedir_run s) as H.
  destruct (check_pagedir s) as [r s']. destruct H as [H _].
  unfold beside_dir in H. cbn [snd]. congruence.
Qed.

(** read_suspend_image_body leaves in nr_copy_pages and pagedir_order
    what the header gives. *)
Lemma read_suspend_image_body_sizes bdev sh next b :
  let b' := snd (read_suspend_image_body sys bdev sh next b) in
  nr_copy_pages b' = num_pbes sh
  /\ pagedir_order b' = get_bitmask_order (SUSPEND_PD_PAGES (num_pbes sh)).
Proof.
  unfold read_suspend_image_body. cbv zeta. mstep.
  match goal with
  | |- nr_copy_pages (snd (?m ?t)) = _ /\ _ =>
      assert (Fr : preserves (fun s => (nr_copy_pages s, pagedir_order s)) m)
  end.
  { unfold read_pagedir_step, read_data_step, PREPARENEXT, bdev_read_page.
    repeat first
      [ apply relocate_pagedir_sizes
      | apply check_pagedir_sizes
      | frame_step ]. }
  match goal with
  | |- nr_copy_pages (snd (?m ?t)) = _ /\ _ => specialize (Fr t)
  end.
  cbv beta in Fr. injection Fr as -> ->. now split.
Qed.

(** What suspend_prepare_image records for swsusp_resume. *)
Lemma prepared_sizes s s1 :
  lowmem_ok sys -> max_pfn sys < 2 ^ 31 ->
  suspend_prepare_image sys s = (Ret 0, s1) ->
  0 <= nr_copy_pages s1 < 2 ^ 31
  /\ nr_copy_pages_check s1 = nr_copy_pages s1
  /\ pagedir_order s1 = get_bitmask_order (SUSPEND_PD_PAGES (nr_copy_pages s1))
  /\ pagedir_order_check s1 = pagedir_order s1.
Proof.
  intros L Hmax H. unfold suspend_prepare_image in H.
  destruct (drain_local_pages_frame s) as (f & ro & D).
  erewrite bind_ret_run in H by exact D. mstep_in H.
  apply bind_Ret_inv in H as (n & t1 & C & H).
  rewrite count_and_copy_None in C. injection C as C <-. mstep_in H.
  destruct (_ <? _) in H; [mstep_in H; discriminate|].
  mstep_in H. destruct (_ <? _) in H; [discriminate|].
  apply bind_Ret_inv in H as (pd & t2 & Cr & H). mstep_in H.
  destruct (Z.eqb_spec pd 0) as [|Hpd]; [discriminate|]. mstep_in H.
  match type of H with
  | bind drain_local_pages _ ?t = _ =>
      destruct (drain_local_pages_frame t) as (f' & ro' & D')
  end.
  erewrite bind_ret_run in H by exact D'.
  unfold snapshot_pages, count_and_copy_data_pages in H.
  apply bind_Ret_inv in H as (n2 & t3 & C2 & H).
  destruct (Z.eqb_spec (uint n) (uint n2)) as [E|]; [|discriminate].
  injection H as <-.
  apply bind_Ret_inv in C2 as ([] & t & B & C2).
  destruct (negb _) in B; [discriminate|]. injection B as <-.
  apply (preserves_run _ _ _ _ _ (count_loop_checked_variables _ _ _ _)) in C2.
  unfold checked_variables in C2. ksimpl. injection C2 as -> -> -> ->.
  destruct (max_pfn sys =? num_physpages sys); [|discriminate].
  destruct (saved_frames sys _) as [l0|] eqn:F0 in C; [|discriminate]. injection C as <-.
  assert (Hl0 : Z.of_nat (length l0) < 2 ^ 31)
    by (apply frames_spec in F0 as (_ & _ & ?); lia).
  assert (Eu : uint (Z.of_nat (length l0)) = Z.of_nat (length l0))
    by (unfold uint; apply Z.mod_small; lia).
  assert (Ei : to_int (Z.of_nat (length l0)) = Z.of_nat (length l0)).
  { unfold to_int. rewrite Z.mod_small by lia. lia. }
  rewrite Eu, Ei in Cr.
  pose proof (preserves_run _ _ _ _ _ (create_suspend_pagedir_nr_copy_pages _) Cr) as K.
  destruct (create_suspend_pagedir_run _ _ _ _ Cr Hpd) as (Hord & _).
  ksimpl. rewrite Hord, K, Ei. split; [lia|]. now repeat split.
Qed.

(** X20: the checks of swsusp_resume pass after a suspend and a
    resume.  suspend_prepare_image and write_suspend_image return 0,
    the writer having been handed swap slots on [bdev] that are distinct
    blocks past block 0 whose byte position fits an unsigned long
    ([image_slots]), on a machine whose frames lie in the linear mapping
    and number less than 2^31; read_suspend_image returns 0 on the
    device.  Then what suspend_prepare_image recorded in
    nr_copy_pages_check and pagedir_order_check, which travel in the
    image, is what read_suspend_image puts into nr_copy_pages and
    pagedir_order from the header write_suspend_image wrote; so
    swsusp_resume returns 0 in any state that has the former from the
    saved kernel and the latter from the kernel that read the image. *)
Theorem swsusp_resume_checks_pass s s1 s2 b b' bdev :
  lowmem_ok sys -> max_pfn sys < 2 ^ 31 ->
  suspend_prepare_image sys s = (Ret 0, s1) ->
  write_suspend_image sys s1 = (Ret 0, s2) ->
  marker_slot s1 = Some (bdev, 0) -> root_swap s1 <> 65535 ->
  image_slots s1 bdev (data_pages s1 + dir_pages s1 + 1) ->
  disk b = disk s2 ->
  read_suspend_image sys bdev b = (Ret 0, b') ->
  uint (nr_copy_pages_check s1) = nr_copy_pages b'
  /\ pagedir_order_check s1 = pagedir_order b'
  /\ forall t,
       nr_copy_pages_check t = nr_copy_pages_check s1 ->
       pagedir_order_check t = pagedir_order_check s1 ->
       nr_copy_pages t = nr_copy_pages b' -> pagedir_order t = pagedir_order b' ->
       swsusp_resume t = (Ret 0, t).
Proof.
  intros L Hmax P W Hslot Hroot Hsl Hdisk R.
  destruct (prepared_sizes _ _ L Hmax P) as (Hn & Hc & Ho & Hoc).
  destruct (image_chain _ _ _ _ W Hslot Hroot Hsl) as (r & m & lk & Dm & Hcm & Dh & _).
  rewrite (read_suspend_image_header bdev b r m (image_header sys s1) lk) in R;
    [|now rewrite Hdisk|exact Hcm|now rewrite Hdisk|apply sanity_check_image_header].
  pose proof (read_suspend_image_body_sizes bdev (image_header sys s1) (position lk)
                (set_io_log (io_log b ++ [IoRead bdev 0;
                   IoRead bdev (link_block (le_value (skipn (10 - sizeof_long) m)))]) b))
    as S.
  rewrite R in S. cbv zeta in S. cbn [snd] in S.
  change (num_pbes (image_header sys s1)) with (nr_copy_pages s1) in S.
  destruct S as [Sn So].
  assert (E1 : uint (nr_copy_pages_check s1) = nr_copy_pages b').
  { rewrite Sn, Hc. unfold uint. apply Z.mod_small. lia. }
  assert (E2 : pagedir_order_check s1 = pagedir_order b') by congruence.
  split; [exact E1|]. split; [exact E2|].
  intros t T1 T2 T3 T4. unfold swsusp_resume. rewrite bind_gets. unfold id.
  rewrite T1, T2, T3, T4, E1, E2, !Z.eqb_refl. reflexivity.
Qed.

(** ** The order of the writes *)

Lemma data_log_events s j :
  length (data_log s j) = j
  /\ forall i, (i < j)%nat ->
       data_log s j !! i = Some (IoWrite_at (slot_of s (entry_at s i)) (saved_page s i)).
Proof.
  induction j as [|j [IHl IH]]; [split; [reflexivity | lia]|]. cbn [data_log]. split.
  - rewrite length_app, IHl. cbn. lia.
  - intros i Hi. destruct (decide (i = j)) as [->|Hne].
    + rewrite lookup_app_r by (rewrite IHl; lia). rewrite IHl, Nat.sub_diag. reflexivity.
    + rewrite lookup_app_l by (rewrite IHl; lia). apply IH. lia.
Qed.

Lemma dir_log_events s j :
  length (dir_log s j) = j
  /\ forall i, (i < j)%nat ->
       exists pg, dir_log s j !! i = Some (IoWrite_at (slot_of s (entry_at s i)) pg).
Proof.
  induction j as [|j [IHl IH]]; [split; [reflexivity | lia]|]. cbn [dir_log]. split.
  - rewrite length_app, IHl. cbn. lia.
  - intros i Hi. destruct (decide (i = j)) as [->|Hne].
    + eexists. rewrite lookup_app_r by (rewrite IHl; lia). rewrite IHl, Nat.sub_diag. reflexivity.
    + destruct (IH i) as [pg Hpg]; [lia|]. exists pg. now rewrite lookup_app_l by (rewrite IHl; lia).
Qed.

(** X21: write_suspend_image commits last.  When it returns and a
    suspend device had been found (root_swap is not 0xFFFF), the log has
    gained one write for each data page, each directory page and the
    header, in that order, write j going to the slot named by the j-th
    entry get_swap_page handed out, an entry that is not 0 and lies on the
    suspend device; only then come the read of the marker page, the
    first page of swap_info[root_swap], and the single write that makes it
    a committed one. *)
Theorem write_suspend_image_commits_last s s' :
  write_suspend_image sys s = (Ret 0, s') ->
  root_swap s <> 65535 ->
  exists writes dev blk committed,
    io_log s' = io_log s ++ writes ++ [IoRead dev blk; IoWrite dev blk committed]
    /\ length writes = (data_pages s + dir_pages s + 1)%nat
    /\ (forall j, (j < data_pages s + dir_pages s + 1)%nat ->
          usable_slot s (entry_at s j)
          /\ exists pg, writes !! j = Some (IoWrite_at (slot_of s (entry_at s j)) pg))
    /\ marker_slot s = Some (dev, blk)
    /\ marker_of committed = Some SuspendCommitted.
Proof.
  intros E Hroot.
  destruct (write_suspend_image_run s) as (buffer & s1 & G & H).
  destruct (get_zeroed_page_alloc s) as (buffer' & s1' & G' & B & _).
  rewrite G in G'. injection G' as <- <-.
  rewrite E in H. destruct H as (_ & _ & _ & Hus & _ & _ & s5 & Em & Hs').
  unfold beside_alloc in B.
  assert (Bi : swap_info s1 = swap_info s) by congruence.
  assert (Br : root_swap s1 = root_swap s) by congruence.
  assert (Bn : nr_copy_pages s1 = nr_copy_pages s) by congruence.
  assert (Bo : swap_oracle s1 = swap_oracle s) by congruence.
  assert (Bl : io_log s1 = io_log s) by congruence.
  assert (Bu : swapfile_used s1 = swapfile_used s) by congruence.
  assert (Be : forall j, entry_at s1 j = entry_at s j) by (intros j; unfold entry_at; now rewrite Bo).
  assert (Bs : forall e, slot_of s1 e = slot_of s e)
    by (intros e; unfold slot_of, swap_slot; now rewrite Bi).
  assert (Bd : data_pages s1 = data_pages s) by (unfold data_pages; now rewrite Bn).
  assert (Bk : dir_pages s1 = dir_pages s) by (unfold dir_pages; now rewrite Bn).
  rewrite <- Bd, <- Bk.
  pose proof (mark_swapfiles_run (header_slot s1) MARK_SWAP_SUSPEND (written_image sys s1)) as Hm.
  rewrite Em in Hm.
  destruct (written_image_fields s1) as (_ & _ & _ & Wr & Wl).
  destruct Hm as [(_ & _ & Hr)|[((? & [=]) & _)|(_ & dev & blk & old & cur' & Hms & _ & Hmk & L & _)]].
  { rewrite Wr, Br in Hr. contradiction. }
  assert (Hslot : marker_slot s = Some (dev, blk)).
  { rewrite written_image_marker_slot in Hms. unfold marker_slot, swap_slot in Hms |- *.
    rewrite Br, Bi in Hms. exact Hms. }
  destruct (marked_suspend (header_slot s1) MARK_SWAP_SUSPEND old cur'
              ltac:(unfold MARK_SWAP_SUSPEND; lia) Hmk) as (_ & Hcm & _).
  set (n := data_pages s1) in *. set (k := dir_pages s1) in *.
  destruct (data_log_events s1 n) as [Ldl Ld].
  destruct (dir_log_events (written_data s1 n) k) as [Lkl Lk].
  exists (image_log sys s1), dev, blk, cur'.
  split; [rewrite Hs'; ksimpl; rewrite L, Wl, Bl, <- app_assoc; reflexivity|].
  unfold image_log. fold n k.
  split; [rewrite !length_app, Ldl, Lkl; cbn; lia|].
  split; [|split; [exact Hslot | exact Hcm]].
  intros j Hj. split.
  { destruct (Hus j Hj) as (H0 & H1 & H2). rewrite Be in H0, H1, H2.
    unfold usable_slot, swapfile_used_at, swap_slot in *.
    rewrite Bu in H1. rewrite Bi in H2. repeat split; assumption. }
  destruct (Nat.lt_ge_cases j n) as [Hjn|Hjn].
  - eexists. rewrite lookup_app_l by (rewrite Ldl; lia). rewrite (Ld j Hjn), Be, Bs. reflexivity.
  - rewrite lookup_app_r by (rewrite Ldl; lia). rewrite Ldl.
    destruct (Nat.lt_ge_cases (j - n) k) as [Hjk|Hjk].
    + destruct (Lk (j - n)%nat Hjk) as [pg Hpg]. exists pg.
      rewrite lookup_app_l by (rewrite Lkl; lia). rewrite Hpg. f_equal.
      rewrite (entry_at_drop s1 (written_data s1 n) n) by reflexivity.
      replace (n + (j - n))%nat with j by lia. rewrite Be.
      change (slot_of (written_data s1 n) (entry_at s j)) with (slot_of s1 (entry_at s j)).
      now rewrite Bs.
    + eexists. rewrite lookup_app_r by (rewrite Lkl; lia). rewrite Lkl.
      replace (j - n - k)%nat with O by lia. cbn [lookup list_lookup].
      rewrite header_slot_entry. fold n k. replace (n + k)%nat with j by lia.
      rewrite Be, Bs. reflexivity.
Qed.

End proofs.

(** * The statements at concrete inputs *)

Section examples_checked.

Local Existing Instance i386.

Lemma i386_ok : platform_ok i386.
Proof.
  split.
  - cbn. lia.
  - unfold BITS_PER_LONG. cbn. lia.
  - cbn. lia.
  - cbn. lia.
  - intros n Hn. cbn.
    pose proof (Z.mul_div_le (n * 16) 4096 ltac:(lia)).
    pose proof (Z.mod_pos_bound (n * 16) 4096 ltac:(lia)).
    pose proof (Z.div_mod (n * 16) 4096 ltac:(lia)). lia.
  - intros k. cbn. unfold fls. destruct (Z.leb_spec k 0).
    + split; [lia|]. change (2 ^ 0) with 1. lia.
    + pose proof (Z.log2_nonneg k). split; [lia|].
      pose proof (Z.log2_spec k ltac:(lia)). replace (Z.log2 k + 1) with (Z.succ (Z.log2 k)) by lia.
      lia.
  - reflexivity.
  - intros t Ht. cbn in *. assert (H : t ∈ seqZ 0 32) by (apply elem_of_seqZ; lia).
    clear Ht. revert t H. apply Forall_forall.
    set (l := seqZ 0 32). vm_compute in l. subst l.
    repeat (constructor; [vm_compute; reflexivity|]). constructor.
  - intros t Ht. cbn in *. assert (H : t ∈ seqZ 0 32) by (apply elem_of_seqZ; lia).
    clear Ht. revert t H. apply Forall_forall.
    set (l := seqZ 0 32). vm_compute in l. subst l.
    repeat (constructor; [vm_compute; reflexivity|]). constructor.
Qed.

Local Existing Instance i386_ok.

Lemma swsusp_read_without_resume_file_witness :
  strlen (resume_file ex_no_resume) = O
  /\ swsusp_read ex_sys ex_no_resume = (Ret (- ENOENT), ex_no_resume).
Proof.
  split; [reflexivity|].
  apply (proj1 (swsusp_read_without_resume_file ex_sys ex_no_resume)). reflexivity.
Defined.

Lemma plain_swap_returns_EINVAL_witness :
  fst (read_suspend_image ex_sys hda2 ex_cold_boot) = Ret (- EINVAL).
Proof.
  destruct (plain_swap_returns_EINVAL ex_sys ex_cold_boot (ADDRESS 20) [] []
              (bytes_of "SWAPSPACE2")) as [E _].
  - vm_compute. discriminate.
  - reflexivity.
  - vm_compute. discriminate.
  - reflexivity.
  - reflexivity.
  - right. reflexivity.
  - change (name_to_dev_t ex_sys (resume_file ex_cold_boot)) with hda2 in E.
    rewrite E. reflexivity.
Defined.

(** C7 as the claim words it fails: on a device that holds plain swap
    the value swsusp_read returns is an error by its own test. *)
Lemma plain_swap_is_an_error :
  ~ (exists r s', swsusp_read ex_sys ex_cold_boot = (Ret r, s') /\ ~ is_error r).
Proof.
  intros (r & s' & E & H). apply H.
  assert (R : fst (swsusp_read ex_sys ex_cold_boot) = Ret (- EINVAL))
    by (vm_compute; reflexivity).
  rewrite E in R. cbn [fst] in R. injection R as ->. unfold is_error, EINVAL. lia.
Qed.

Lemma sanity_check_validates_witness :
  sanity_check ex_sys ex_own_header = 0
  /\ sanity_check ex_sys ex_foreign_header = - EPERM
  /\ fst (read_suspend_image ex_sys hda2 (ex_booting ex_foreign_disk [])) = Ret (- EPERM).
Proof.
  destruct (sanity_check_validates ex_sys) as [Hacc Hrej].
  split.
  - apply Hacc. intros f. destruct f; vm_compute; reflexivity.
  - destruct (Hrej ex_foreign_header F_version_code) as [E R].
    + vm_compute. discriminate.
    + intros g Hg. destruct g; try (vm_compute; reflexivity). contradiction.
    + split; [exact E|].
      rewrite (R hda2 (ex_booting ex_foreign_disk []) [] (bytes_of "S2SUSP" ++ [5; 0; 0; 0]) 4).
      * reflexivity.
      * reflexivity.
      * right. reflexivity.
      * reflexivity.
Defined.

Lemma ex_lowmem_ok : lowmem_ok ex_sys.
Proof. repeat split; vm_compute; first [reflexivity | discriminate]. Qed.

Lemma two_pass_consistency_witness :
  fst (count_and_copy_data_pages ex_sys (Some O) ex_allocated) = Ret 3
  /\ fst (snapshot_pages ex_sys 2 ex_allocated) = Fatal BUG.
Proof.
  destruct (two_pass_consistency ex_sys) as (Hsame & Hbug & _). split.
  - apply (Hsame ex_allocated).
    + exact ex_lowmem_ok.
    + reflexivity.
    + reflexivity.
    + vm_compute. reflexivity.
    + vm_compute. lia.
    + set (l := firstn (Z.to_nat 3) (pagedir ex_allocated)). vm_compute in l. subst l.
      repeat (constructor; [vm_compute; reflexivity|]). constructor.
  - rewrite (Hbug 2 ex_allocated 3 ex_snapshot).
    + reflexivity.
    + vm_compute. reflexivity.
    + vm_compute. discriminate.
Defined.

Lemma preparation_fails_cleanly_witness :
  fst (suspend_prepare_image ex_sys ex_short_of_memory) = Ret 1
  /\ fst (suspend_prepare_image ex_sys ex_short_of_swap) = Ret 1.
Proof.
  split.
  - destruct (preparation_fails_cleanly ex_sys ex_short_of_memory 3) as (s' & E & _).
    + exact ex_lowmem_ok.
    + vm_compute. reflexivity.
    + left. vm_compute. reflexivity.
    + rewrite E. reflexivity.
  - destruct (preparation_fails_cleanly ex_sys ex_short_of_swap 3) as (s' & E & _).
    + exact ex_lowmem_ok.
    + vm_compute. reflexivity.
    + right. vm_compute. reflexivity.
    + rewrite E. reflexivity.
Defined.

Lemma orig_addresses_distinct_witness :
  exists p q,
    pagedir ex_snapshot !! 0%nat = Some p /\ pagedir ex_snapshot !! 2%nat = Some q
    /\ orig_address p <> orig_address q.
Proof.
  eexists _, _. split; [vm_compute; reflexivity|]. split; [vm_compute; reflexivity|].
  apply (orig_addresses_distinct ex_sys ex_allocated 3 ex_snapshot ex_lowmem_ok)
    with (i := 0%nat) (j := 2%nat).
  - vm_compute. reflexivity.
  - vm_compute. lia.
  - vm_compute. lia.
  - lia.
  - vm_compute. reflexivity.
  - vm_compute. reflexivity.
Defined.

Lemma collision_freedom_witness :
  exists p q,
    pagedir ex_checked !! 0%nat = Some p /\ pagedir ex_checked !! 2%nat = Some q
    /\ ~ (address p <= orig_address q < address p + PAGE_SIZE)
    /\ ~ (pagedir_nosave ex_checked <= orig_address q
          < pagedir_nosave ex_checked + PAGE_SIZE * 2 ^ pagedir_order ex_checked).
Proof.
  eexists _, _. split; [vm_compute; reflexivity|]. split; [vm_compute; reflexivity|].
  apply (collision_freedom ex_loaded ex_relocated ex_checked) with (i := 0%nat) (j := 2%nat).
  - vm_compute. reflexivity.
  - vm_compute. reflexivity.
  - vm_compute. discriminate.
  - split; vm_compute; [discriminate | reflexivity].
  - repeat constructor; vm_compute; first [discriminate | reflexivity].
  - vm_compute. lia.
  - vm_compute. lia.
  - vm_compute. reflexivity.
  - vm_compute. reflexivity.
Defined.

Lemma marker_moves_directly_witness :
  marker_slot ex_prepared = Some (hda2, 0)
  /\ on_device ex_prepared = on_device ex_started
  /\ marker_history (hda2, 0) ex_prepared ex_written
     = [plain_swap_page; PgSwap [] (bytes_of "S2SUSP" ++ [5; 0; 0; 0])]
  /\ moves_by commit_step (marker_history (hda2, 0) ex_prepared ex_written).
Proof.
  assert (H1 : marker_slot ex_prepared = Some (hda2, 0)) by (vm_compute; reflexivity).
  assert (H2 : Forall (fun e => swap_slot ex_prepared e <> Some (hda2, 0))
                 (swap_oracle ex_prepared)).
  { set (l := swap_oracle ex_prepared). vm_compute in l. subst l.
    repeat (constructor; [vm_compute; discriminate|]). constructor. }
  destruct (marker_moves_directly ex_sys ex_prepared (hda2, 0) H1 H2) as (_ & [Hw _] & _).
  destruct (marker_moves_directly ex_sys ex_started (hda2, 0)) as (Hp & _).
  { vm_compute; reflexivity. }
  { set (l := swap_oracle ex_started). vm_compute in l. subst l.
    repeat (constructor; [vm_compute; discriminate|]). constructor. }
  split; [exact H1|]. split; [exact Hp|]. split; [vm_compute; reflexivity | exact Hw].
Defined.

(** C8 as the specification words it fails on the example: over the
    whole save, from the start of the snapshot to the end of
    write_suspend_image, the marker page goes from SWAPSPACE2 to S2SUSP in
    one write, and no page in between stands for a pending snapshot. *)
Lemma marker_skips_pending :
  marker_history (hda2, 0) ex_started ex_written
  = [plain_swap_page; PgSwap [] (bytes_of "S2SUSP" ++ [5; 0; 0; 0])]
  /\ marker_of plain_swap_page = Some NormalSwap
  /\ marker_of (PgSwap [] (bytes_of "S2SUSP" ++ [5; 0; 0; 0])) = Some SuspendCommitted
  /\ ~ moves_by specified_step (marker_history (hda2, 0) ex_started ex_written).
Proof.
  assert (E : marker_history (hda2, 0) ex_started ex_written
              = [plain_swap_page; PgSwap [] (bytes_of "S2SUSP" ++ [5; 0; 0; 0])])
    by (vm_compute; reflexivity).
  split; [exact E|]. split; [vm_compute; reflexivity|]. split; [vm_compute; reflexivity|].
  rewrite E. intros H.
  destruct (H O _ _ eq_refl eq_refl) as [Heq|(ma & mb & Ha & Hb & Hstep)].
  - discriminate Heq.
  - vm_compute in Ha, Hb. injection Ha as <-. injection Hb as <-.
    destruct Hstep as [[? ?]|[[? ?]|[? ?]]]; discriminate.
Qed.

Lemma ex_image_slots : image_slots ex_prepared hda2 5.
Proof.
  split; [|split].
  - set (l := firstn 5 (swap_oracle ex_prepared)). vm_compute in l. subst l.
    repeat (constructor;
            [repeat split; vm_compute; first [reflexivity | intros; discriminate]|]).
    constructor.
  - apply (bool_decide_unpack (NoDup _)). vm_compute. exact I.
  - vm_compute. lia.
Qed.


Lemma ex_buffers_apart : buffers_apart ex_allocated [0; 2; 3].
Proof.
  split.
  - apply (bool_decide_unpack (NoDup _)). vm_compute. exact I.
  - set (l := map address (firstn 3 (pagedir ex_allocated))). vm_compute in l. subst l.
    repeat (constructor;
            [split; [vm_compute; reflexivity|];
             split; apply (bool_decide_unpack (_ ∉ _)); vm_compute; exact I|]).
    constructor.
Qed.

Lemma ex_allocator_ok : allocator_ok ex_resuming 1.
Proof.
  split.
  - apply (bool_decide_unpack (NoDup _)). vm_compute. exact I.
  - set (l := page_oracle ex_resuming). vm_compute in l. subst l.
    repeat (constructor; [intros _; split; vm_compute; first [reflexivity | intros; discriminate]|]).
    constructor.
Qed.

Lemma ex_block_clear :
  Forall (fun x => in_block (hd 0 (page_oracle ex_resuming))
                     (get_bitmask_order (SUSPEND_PD_PAGES (nr_copy_pages ex_snapshot)))
                     (ADDRESS x) = false) [0; 2; 3].
Proof. repeat (constructor; [vm_compute; reflexivity|]). constructor. Qed.

Lemma ex_kernel_pages :
  Forall (fun a => a <> 0 -> kernel_page ex_sys a = true) (page_oracle ex_resuming).
Proof.
  set (l := page_oracle ex_resuming). vm_compute in l. subst l.
  repeat (constructor; [intros _; vm_compute; reflexivity|]). constructor.
Qed.

Lemma round_trip_witness :
  exists b' b'',
    read_suspend_image ex_sys hda2 ex_resuming = (Ret 0, b')
    /\ pagedir_nosave b' = ADDRESS 20
    /\ copy_pages_back ex_sys b' = (Ret tt, b'')
    /\ mem_read b'' (ADDRESS 0) = ex_frame0
    /\ mem_read b'' (ADDRESS 2) = ex_frame2
    /\ mem_read b'' (ADDRESS 3) = ex_frame3.
Proof.
  assert (Hl : saved_frames ex_sys ex_allocated = Ret [0; 2; 3]) by (vm_compute; reflexivity).
  assert (C : count_and_copy_data_pages ex_sys (Some O) ex_allocated
              = (Ret (nr_copy_pages ex_allocated), ex_snapshot)) by (vm_compute; reflexivity).
  assert (E : write_suspend_image ex_sys ex_snapshot
              = (Ret 0, snd (write_suspend_image ex_sys ex_snapshot)))
    by (vm_compute; reflexivity).
  assert (H1 : marker_slot ex_snapshot = Some (hda2, 0)) by (vm_compute; reflexivity).
  assert (H2 : root_swap ex_snapshot <> 65535) by (vm_compute; discriminate).
  assert (H3 : image_slots ex_snapshot hda2 (data_pages ex_snapshot + dir_pages ex_snapshot + 1)).
  { assert (Em : (data_pages ex_snapshot + dir_pages ex_snapshot + 1 = 5)%nat)
      by (vm_compute; reflexivity).
    rewrite Em. split; [|split].
    - set (l := firstn 5 (swap_oracle ex_snapshot)). vm_compute in l. subst l.
      repeat (constructor;
              [repeat split; vm_compute; first [reflexivity | intros; discriminate]|]).
      constructor.
    - apply (bool_decide_unpack (NoDup _)). vm_compute. exact I.
    - vm_compute. lia. }
  assert (Hd : disk ex_resuming = disk (snd (write_suspend_image ex_sys ex_snapshot)))
    by (vm_compute; reflexivity).
  assert (Ho : get_bitmask_order (SUSPEND_PD_PAGES (nr_copy_pages ex_snapshot)) = 1)
    by (vm_compute; reflexivity).
  pose proof ex_allocator_ok as Ha. rewrite <- Ho in Ha.
  destruct (round_trip ex_sys ex_allocated ex_snapshot _ ex_resuming hda2 [0; 2; 3]
              ex_lowmem_ok Hl C ex_buffers_apart E H1 H2 H3 Hd Ha ex_kernel_pages
              ex_block_clear)
    as (r & b' & Er & _ & Hgood).
  assert (Hr : fst (read_suspend_image ex_sys hda2 ex_resuming) = Ret 0)
    by (vm_compute; reflexivity).
  rewrite Er in Hr. cbn [fst] in Hr. injection Hr as ->.
  destruct (Hgood eq_refl) as (_ & Hpd & b'' & Ec & Hall).
  exists b', b''. split; [exact Er|]. split; [exact Hpd|]. split; [exact Ec|].
  split; [|split].
  - rewrite (proj2 (Hall 0%nat 0 eq_refl)). vm_compute. reflexivity.
  - rewrite (proj2 (Hall 1%nat 2 eq_refl)). vm_compute. reflexivity.
  - rewrite (proj2 (Hall 2%nat 3 eq_refl)). vm_compute. reflexivity.
Defined.

Lemma marker_round_trip_witness :
  (exists mid, disk (snd (mark_swapfiles 5 MARK_SWAP_SUSPEND ex_prepared)) !! (hda2, 0)
               = Some mid
               /\ marker_of mid = Some SuspendCommitted)
  /\ disk (snd (mark_swapfiles 0 MARK_SWAP_RESUME
                  (snd (mark_swapfiles 5 MARK_SWAP_SUSPEND ex_prepared))))
     = disk ex_prepared.
Proof.
  apply (marker_round_trip 5 ex_prepared _ _ (hda2, 0) [] (bytes_of "SWAPSPACE2")).
  - vm_compute. discriminate.
  - vm_compute. reflexivity.
  - vm_compute. reflexivity.
  - reflexivity.
  - vm_compute. reflexivity.
  - vm_compute. reflexivity.
Defined.

Lemma does_collide_order_decides_witness :
  does_collide_order (ADDRESS 2) 1 ex_loaded = (Ret true, ex_loaded)
  /\ does_collide_order (ADDRESS 40) 1 ex_loaded = (Ret false, ex_loaded).
Proof.
  assert (H : (Z.to_nat (nr_copy_pages ex_loaded) <= length (pagedir ex_loaded))%nat)
    by (vm_compute; lia).
  split.
  - rewrite (does_collide_order_decides (ADDRESS 2) 1 ex_loaded H).
    f_equal.
  - rewrite (does_collide_order_decides (ADDRESS 40) 1 ex_loaded H).
    f_equal.
Defined.

Lemma read_swapfiles_marks_witness :
  exists s',
    read_swapfiles ex_running = (Ret tt, s')
    /\ root_swap s' = 0
    /\ swapfile_used_at s' 0 = SWAPFILE_SUSPEND
    /\ swapfile_used_at s' 1 = SWAPFILE_UNUSED.
Proof.
  destruct (read_swapfiles_marks ex_running) as (s' & E & _ & Hr & Hu).
  - vm_compute. discriminate.
  - exists s'. split; [exact E|]. split; [rewrite Hr; vm_compute; reflexivity|].
    split; rewrite Hu; vm_compute; reflexivity.
Defined.

Lemma image_read_back_witness :
  exists b' p,
    read_suspend_image ex_sys hda2 ex_resuming = (Ret 0, b')
    /\ pagedir_nosave b' = ADDRESS 20
    /\ pagedir b' !! 1%nat = Some p
    /\ orig_address p = ADDRESS 2
    /\ mem_read b' (address p) = ex_frame2
    /\ (address p ∉ map ADDRESS [0; 2; 3]).
Proof.
  assert (Hl : saved_frames ex_sys ex_allocated = Ret [0; 2; 3]) by (vm_compute; reflexivity).
  assert (C : count_and_copy_data_pages ex_sys (Some O) ex_allocated
              = (Ret (nr_copy_pages ex_allocated), ex_snapshot)) by (vm_compute; reflexivity).
  assert (E : write_suspend_image ex_sys ex_snapshot
              = (Ret 0, snd (write_suspend_image ex_sys ex_snapshot)))
    by (vm_compute; reflexivity).
  assert (H1 : marker_slot ex_snapshot = Some (hda2, 0)) by (vm_compute; reflexivity).
  assert (H2 : root_swap ex_snapshot <> 65535) by (vm_compute; discriminate).
  assert (H3 : image_slots ex_snapshot hda2 (data_pages ex_snapshot + dir_pages ex_snapshot + 1)).
  { assert (Em : (data_pages ex_snapshot + dir_pages ex_snapshot + 1 = 5)%nat)
      by (vm_compute; reflexivity).
    rewrite Em. split; [|split].
    - set (l := firstn 5 (swap_oracle ex_snapshot)). vm_compute in l. subst l.
      repeat (constructor;
              [repeat split; vm_compute; first [reflexivity | intros; discriminate]|]).
      constructor.
    - apply (bool_decide_unpack (NoDup _)). vm_compute. exact I.
    - vm_compute. lia. }
  assert (Hd : disk ex_resuming = disk (snd (write_suspend_image ex_sys ex_snapshot)))
    by (vm_compute; reflexivity).
  assert (Ho : get_bitmask_order (SUSPEND_PD_PAGES (nr_copy_pages ex_snapshot)) = 1)
    by (vm_compute; reflexivity).
  pose proof ex_allocator_ok as Ha. rewrite <- Ho in Ha.
  destruct (image_read_back ex_sys ex_allocated ex_snapshot _ ex_resuming hda2 [0; 2; 3]
              ex_lowmem_ok Hl C ex_buffers_apart E H1 H2 H3 Hd Ha ex_kernel_pages
              ex_block_clear)
    as (r & b' & Er & Hgood).
  assert (Hr : fst (read_suspend_image ex_sys hda2 ex_resuming) = Ret 0)
    by (vm_compute; reflexivity).
  rewrite Er in Hr. cbn [fst] in Hr. injection Hr as ->.
  destruct (Hgood eq_refl) as (_ & Hpd & Hall).
  destruct (Hall 1%nat 2 eq_refl) as (p & Hp & Hop & Hm & Hout).
  exists b', p. split; [exact Er|]. split; [exact Hpd|]. split; [exact Hp|].
  split; [exact Hop|].
  split; [|exact Hout]. rewrite Hm. vm_compute. reflexivity.
Defined.

Lemma swsusp_suspend_fails_early_witness :
  fst (swsusp_suspend ex_sys ex_short_of_memory) = Ret 1
  /\ disk (snd (swsusp_suspend ex_sys ex_short_of_memory)) = disk ex_short_of_memory
  /\ io_log (snd (swsusp_suspend ex_sys ex_short_of_memory)) = io_log ex_short_of_memory.
Proof.
  assert (E : swsusp_suspend ex_sys ex_short_of_memory
              = (Ret 1, snd (swsusp_suspend ex_sys ex_short_of_memory)))
    by (vm_compute; reflexivity).
  destruct (swsusp_suspend_fails_early ex_sys _ _ _ E) as (_ & H).
  destruct H as (Hd & Hl & _); [discriminate|].
  split; [now rewrite E|]. split; [exact Hd | exact Hl].
Defined.

Lemma read_suspend_image_rejects_cleanly_witness :
  fst (read_suspend_image ex_sys hda2 (ex_booting ex_foreign_disk [])) = Ret (- EPERM)
  /\ exists blocks,
       (length blocks <= 1)%nat
       /\ snd (read_suspend_image ex_sys hda2 (ex_booting ex_foreign_disk []))
          = set_io_log (io_log (ex_booting ex_foreign_disk [])
                        ++ map (IoRead hda2) (0 :: blocks))
              (ex_booting ex_foreign_disk []).
Proof.
  pose proof (read_suspend_image_rejects_cleanly ex_sys hda2 (ex_booting ex_foreign_disk []))
    as H.
  assert (E : fst (read_suspend_image ex_sys hda2 (ex_booting ex_foreign_disk []))
              = Ret (- EPERM)) by (vm_compute; reflexivity).
  destruct (read_suspend_image ex_sys hda2 (ex_booting ex_foreign_disk [])) as [res b'].
  cbn [fst snd] in *. destruct H as [_ H]. destruct (H _ E) as [_ K].
  split; [exact E|]. apply K. right. right. reflexivity.
Defined.

Lemma swsusp_free_reverts_witness :
  exists s',
    swsusp_free ex_sys (set_page_oracle [ADDRESS 50] ex_written) = (Ret 0, s')
    /\ (exists pg, disk s' !! (hda2, 0) = Some pg /\ marker_of pg = Some NormalSwap)
    /\ fst (read_suspend_image ex_sys hda2 (ex_booting (disk s') [])) = Ret (- EINVAL).
Proof.
  assert (Hd : disk (set_page_oracle [ADDRESS 50] ex_written) !! (hda2, 0)
               = Some (PgSwap [] (bytes_of "S2SUSP" ++ [5; 0; 0; 0])))
    by (vm_compute; reflexivity).
  destruct (swsusp_free_reverts ex_sys (set_page_oracle [ADDRESS 50] ex_written)
              (ADDRESS 50) [] hda2 _
              ltac:(vm_compute; discriminate) ltac:(vm_compute; reflexivity) Hd
              ltac:(vm_compute; reflexivity) eq_refl ltac:(vm_compute; discriminate))
    as (s' & pg' & E & D & Hn & Hr).
  exists s'. split; [exact E|]. split.
  - exists pg'. split; [|exact Hn]. now rewrite D, lookup_insert_eq.
  - apply Hr. reflexivity.
Defined.

Lemma swsusp_read_releases_witness :
  exists blocks,
    io_log (snd (swsusp_read ex_sys ex_resuming))
    = io_log ex_resuming ++ IoOpen hda2 :: map (IoRead hda2) blocks ++ [IoPut hda2].
Proof.
  assert (E : swsusp_read ex_sys ex_resuming
              = (Ret 0, snd (swsusp_read ex_sys ex_resuming))) by (vm_compute; reflexivity).
  destruct (swsusp_read_releases ex_sys ex_resuming 0 _ ltac:(vm_compute; discriminate) E)
    as (_ & _ & [(H & _)|(cur & _ & _ & _ & H)]).
  - vm_compute in H. discriminate H.
  - exact H.
Defined.

Lemma snapshot_leaves_out_nosave_witness :
  length (pagedir ex_snapshot) = length (pagedir ex_allocated)
  /\ forall i, (3 <= i)%nat -> pagedir ex_snapshot !! i = pagedir ex_allocated !! i.
Proof.
  assert (C : count_and_copy_data_pages ex_sys (Some O) ex_allocated = (Ret 3, ex_snapshot))
    by (vm_compute; reflexivity).
  destruct (snapshot_leaves_out_nosave ex_sys ex_allocated 3 ex_snapshot C)
    as (_ & Hlen & Hout & _).
  split; [exact Hlen | exact Hout].
Defined.

Lemma create_suspend_pagedir_flags_witness :
  exists pd bufs,
    fst (create_suspend_pagedir ex_sys 3 ex_counted) = Ret pd
    /\ length bufs = 3%nat
    /\ page_oracle ex_counted
       = pd :: bufs ++ page_oracle (snd (create_suspend_pagedir ex_sys 3 ex_counted)).
Proof.
  assert (Hr : exists pd, fst (create_suspend_pagedir ex_sys 3 ex_counted) = Ret pd /\ pd <> 0).
  { vm_compute. eexists. split; [reflexivity | discriminate]. }
  destruct Hr as (pd & Hr & Hpd).
  destruct (create_suspend_pagedir ex_sys 3 ex_counted) as [r s'] eqn:E.
  cbn [fst snd] in *. subst r.
  destruct (create_suspend_pagedir_flags ex_sys 3 ex_counted pd s' E Hpd)
    as (_ & _ & _ & _ & bufs & Hl & Ho & _).
  exists pd, bufs. split; [reflexivity|]. split; [exact Hl | exact Ho].
Defined.

Lemma prepared_buffers_apart_witness :
  exists mid l,
    count_and_copy_data_pages ex_sys (Some O) mid = (Ret (nr_copy_pages mid), ex_prepared)
    /\ saved_frames ex_sys mid = Ret l
    /\ buffers_apart mid l.
Proof.
  apply (prepared_buffers_apart ex_sys ex_started ex_prepared ex_lowmem_ok).
  - vm_compute. reflexivity.
  - apply (bool_decide_unpack (NoDup _)). vm_compute. exact I.
  - set (l := page_oracle ex_started). vm_compute in l. subst l.
    repeat (constructor; [intros _; vm_compute; reflexivity|]). constructor.
  - vm_compute. reflexivity.
Defined.

Lemma relocate_pagedir_blocks_witness :
  exists rejected,
    page_oracle ex_loaded = rejected ++ pagedir_nosave ex_relocated :: page_oracle ex_relocated
    /\ freed ex_relocated
       = freed ex_loaded ++ map (fun a => (a, pagedir_order ex_loaded)) (tl (rev rejected)).
Proof.
  assert (E : relocate_pagedir ex_loaded = (Ret 0, ex_relocated)) by (vm_compute; reflexivity).
  assert (Hmoved : pagedir_nosave ex_relocated <> pagedir_nosave ex_loaded)
    by (vm_compute; discriminate).
  destruct (relocate_pagedir_blocks ex_loaded ex_relocated E)
    as [Heq|(rejected & Ho & _ & _ & Hf)].
  - rewrite Heq in Hmoved. contradiction.
  - exists rejected. split; [exact Ho | exact Hf].
Defined.

Lemma unfinished_write_commits_nothing_witness :
  exists s',
    write_suspend_image ex_sys (set_swap_oracle (firstn 2 (swap_oracle ex_prepared)) ex_prepared)
    = (Fatal Panic, s')
    /\ disk s' !! (hda2, 0) = Some plain_swap_page.
Proof.
  pose proof (unfinished_write_commits_nothing ex_sys
                (set_swap_oracle (firstn 2 (swap_oracle ex_prepared)) ex_prepared) (hda2, 0))
    as H.
  assert (E : fst (write_suspend_image ex_sys
                     (set_swap_oracle (firstn 2 (swap_oracle ex_prepared)) ex_prepared))
              = Fatal Panic) by (vm_compute; reflexivity).
  destruct (write_suspend_image ex_sys
              (set_swap_oracle (firstn 2 (swap_oracle ex_prepared)) ex_prepared))
    as [r s'].
  cbn [fst] in E. subst r. exists s'. split; [reflexivity|].
  rewrite H; [vm_compute; reflexivity|].
  set (l := swap_oracle _). vm_compute in l. subst l.
  repeat (constructor; [vm_compute; discriminate|]). constructor.
Defined.

Lemma swsusp_resume_checks_pass_witness :
  swsusp_resume
    (set_nr_copy_pages (nr_copy_pages (snd (read_suspend_image ex_sys hda2 ex_resuming)))
       (set_pagedir_order (pagedir_order (snd (read_suspend_image ex_sys hda2 ex_resuming)))
          ex_written))
  = (Ret 0,
     set_nr_copy_pages (nr_copy_pages (snd (read_suspend_image ex_sys hda2 ex_resuming)))
       (set_pagedir_order (pagedir_order (snd (read_suspend_image ex_sys hda2 ex_resuming)))
          ex_written)).
Proof.
  assert (P : suspend_prepare_image ex_sys ex_started = (Ret 0, ex_prepared))
    by (vm_compute; reflexivity).
  assert (W : write_suspend_image ex_sys ex_prepared = (Ret 0, ex_written))
    by (vm_compute; reflexivity).
  assert (H1 : marker_slot ex_prepared = Some (hda2, 0)) by (vm_compute; reflexivity).
  assert (H2 : root_swap ex_prepared <> 65535) by (vm_compute; discriminate).
  assert (H3 : image_slots ex_prepared hda2 (data_pages ex_prepared + dir_pages ex_prepared + 1)).
  { assert (Em : (data_pages ex_prepared + dir_pages ex_prepared + 1 = 5)%nat)
      by (vm_compute; reflexivity).
    rewrite Em. exact ex_image_slots. }
  assert (Hmax : max_pfn ex_sys < 2 ^ 31) by (vm_compute; reflexivity).
  assert (Hd : disk ex_resuming = disk ex_written) by reflexivity.
  assert (R : fst (read_suspend_image ex_sys hda2 ex_resuming) = Ret 0)
    by (vm_compute; reflexivity).
  destruct (read_suspend_image ex_sys hda2 ex_resuming) as [r b'] eqn:E.
  cbn [fst snd] in *. subst r.
  destruct (swsusp_resume_checks_pass ex_sys ex_started ex_prepared ex_written ex_resuming b'
              hda2 ex_lowmem_ok Hmax P W H1 H2 H3 Hd E) as (_ & _ & Hpass).
  apply Hpass.
  - vm_compute. reflexivity.
  - vm_compute. reflexivity.
  - reflexivity.
  - reflexivity.
Defined.

Lemma write_suspend_image_commits_last_witness :
  exists writes committed,
    io_log ex_written
    = io_log ex_prepared ++ writes ++ [IoRead hda2 0; IoWrite hda2 0 committed]
    /\ length writes = 5%nat
    /\ marker_of committed = Some SuspendCommitted.
Proof.
  assert (W : write_suspend_image ex_sys ex_prepared = (Ret 0, ex_written))
    by (vm_compute; reflexivity).
  assert (H1 : marker_slot ex_prepared = Some (hda2, 0)) by (vm_compute; reflexivity).
  assert (H2 : root_swap ex_prepared <> 65535) by (vm_compute; discriminate).
  assert (Em : (data_pages ex_prepared + dir_pages ex_prepared + 1 = 5)%nat)
    by (vm_compute; reflexivity).
  destruct (write_suspend_image_commits_last ex_sys ex_prepared ex_written W H2)
    as (writes & dev & blk & committed & Hl & Hn & _ & Hs & Hc).
  rewrite H1 in Hs. injection Hs as <- <-.
  exists writes, committed. split; [exact Hl|]. split; [now rewrite Hn, Em | exact Hc].
Defined.

End examples_checked.
